(** * Dragon 32 emulator: VDG (MC6847), WD2797 disk controller and tape trap

    A shallow embedding of three peripherals of the emulator,
    [vdg.c], [disk.c] and [tape.c], and the properties of their
    specification that can be settled on them; then of what lies
    around them: the file seek of [fat32.c], the checksums of [sd.c]
    and the directory listing of [loader.c].

    Conventions of the embedding.
    - C integers are [Z]; a conversion to [uint8_t] is [u8], to
      [uint32_t] is [u32]; bit operations are [Z.land], [Z.lor],
      [Z.shiftr], [Z.lnot].
    - C arrays are lists, read with [!!] and updated with [<[i:=x]>].
    - File-scope and function-scope [static] variables of one module
      are gathered in one record, passed explicitly.
    - [rpi_halt()] never returns ([assert(0)] or an endless loop): a
      function that can reach it returns an [option], [None] being the
      halt.
    - Calls that leave the module (interrupt lines, LEDs, image file,
      tape file) are recorded in the state as an event trace.
    - [dbg_printf] output is not modelled. *)

From Stdlib Require Import ZArith Lia Bool.
From stdpp Require Import base list.

Open Scope Z_scope.

(** ** Helpers shared by the three modules *)

Definition u8 (x : Z) : Z := x mod 256.
Definition u16 (x : Z) : Z := x mod 65536.
Definition u32 (x : Z) : Z := x mod 4294967296.

(** C truth value of [x & mask]. *)
Definition bits_set (x mask : Z) : bool := negb (Z.land x mask =? 0).

(** Array read; the index is in range wherever the source reads. *)
Definition rd (l : list Z) (i : Z) : Z := default 0 (l !! Z.to_nat i).

(** A [for] loop of [n] iterations from [i] upwards whose body appends
    bytes to an output; the concatenation is the sequence of stores
    through a pointer that is incremented after each store. *)
Fixpoint for_emit (n : nat) (i : Z) (body : Z -> list Z) : list Z :=
  match n with
  | O => []
  | S n' => body i ++ for_emit n' (i + 1) body
  end.

(** The same loop when the body also updates local variables [s]. *)
Fixpoint loop_emit {S : Type} (n : nat) (i : Z)
    (body : Z -> S -> S * list Z) (s : S) : S * list Z :=
  match n with
  | O => (s, [])
  | S n' =>
      let '(s1, o1) := body i s in
      let '(s2, o2) := loop_emit n' (i + 1) body s1 in
      (s2, o1 ++ o2)
  end.

(** ** vdg.c *)

Module Vdg.

Definition SCREEN_WIDTH_PIX : Z := 256.
Definition SCREEN_HEIGHT_PIX : Z := 192.
Definition SCREEN_WIDTH_CHAR : Z := 32.
Definition SCREEN_HEIGHT_CHAR : Z := 16.

Definition FB_BLACK : Z := 0.
Definition FB_BLUE : Z := 1.
Definition FB_GREEN : Z := 2.
Definition FB_CYAN : Z := 3.
Definition FB_RED : Z := 4.
Definition FB_MAGENTA : Z := 5.
Definition FB_BROWN : Z := 6.
Definition FB_GRAY : Z := 7.
Definition FB_DARK_GRAY : Z := 8.
Definition FB_LIGHT_BLUE : Z := 9.
Definition FB_LIGHT_GREEN : Z := 10.
Definition FB_LIGHT_CYAN : Z := 11.
Definition FB_LIGHT_RED : Z := 12.
Definition FB_LIGHT_MAGENTA : Z := 13.
Definition FB_YELLOW : Z := 14.
Definition FB_WHITE : Z := 15.

Definition CHAR_SEMI_GRAPHICS : Z := 0x80.
Definition CHAR_INVERSE : Z := 0x40.
Definition SEMI_GRAPH4_MASK : Z := 0x0f.
Definition SEMI_GRAPH6_MASK : Z := 0x3f.
Definition SEMIG8_SEG_HEIGHT : Z := 4.
Definition SEMIG12_SEG_HEIGHT : Z := 6.
Definition SEMIG24_SEG_HEIGHT : Z := 12.
Definition PIA_COLOR_SET : Z := 0x01.
Definition DEF_COLOR_CSS_0 : Z := 0.
Definition DEF_COLOR_CSS_1 : Z := 4.

(** Modelled from the spec: [FONT_WIDTH] is a macro of [dragon/font.h],
    a header that is not among the sources; the specification gives the
    character cell as 8 pixels wide. *)
Definition FONT_WIDTH : Z := 8.

(** Modelled from the spec: [FONT_HEIGHT] is a macro of [dragon/font.h]
    as well; the specification gives the character cell as 12 scan
    lines high. *)
Definition FONT_HEIGHT : Z := 12.

Inductive video_mode_t : Type :=
  | ALPHA_INTERNAL | ALPHA_EXTERNAL
  | SEMI_GRAPHICS_4 | SEMI_GRAPHICS_6 | SEMI_GRAPHICS_8
  | SEMI_GRAPHICS_12 | SEMI_GRAPHICS_24
  | GRAPHICS_1C | GRAPHICS_1R | GRAPHICS_2C | GRAPHICS_2R
  | GRAPHICS_3C | GRAPHICS_3R | GRAPHICS_6C | GRAPHICS_6R
  | DMA | UNDEFINED.

Definition video_mode_eqb (a b : video_mode_t) : bool :=
  match a, b with
  | ALPHA_INTERNAL, ALPHA_INTERNAL | ALPHA_EXTERNAL, ALPHA_EXTERNAL
  | SEMI_GRAPHICS_4, SEMI_GRAPHICS_4 | SEMI_GRAPHICS_6, SEMI_GRAPHICS_6
  | SEMI_GRAPHICS_8, SEMI_GRAPHICS_8 | SEMI_GRAPHICS_12, SEMI_GRAPHICS_12
  | SEMI_GRAPHICS_24, SEMI_GRAPHICS_24
  | GRAPHICS_1C, GRAPHICS_1C | GRAPHICS_1R, GRAPHICS_1R
  | GRAPHICS_2C, GRAPHICS_2C | GRAPHICS_2R, GRAPHICS_2R
  | GRAPHICS_3C, GRAPHICS_3C | GRAPHICS_3R, GRAPHICS_3R
  | GRAPHICS_6C, GRAPHICS_6C | GRAPHICS_6R, GRAPHICS_6R
  | DMA, DMA | UNDEFINED, UNDEFINED => true
  | _, _ => false
  end.

(** The enumerator's integer value, the row index of [resolution]. *)
Definition mode_index (m : video_mode_t) : nat :=
  match m with
  | ALPHA_INTERNAL => 0 | ALPHA_EXTERNAL => 1
  | SEMI_GRAPHICS_4 => 2 | SEMI_GRAPHICS_6 => 3 | SEMI_GRAPHICS_8 => 4
  | SEMI_GRAPHICS_12 => 5 | SEMI_GRAPHICS_24 => 6
  | GRAPHICS_1C => 7 | GRAPHICS_1R => 8 | GRAPHICS_2C => 9
  | GRAPHICS_2R => 10 | GRAPHICS_3C => 11 | GRAPHICS_3R => 12
  | GRAPHICS_6C => 13 | GRAPHICS_6R => 14
  | DMA => 15 | UNDEFINED => 16
  end%nat.

Definition RES_PIXEL_REP : nat := 0.
Definition RES_ROW_REP : nat := 1.
Definition RES_MEM : nat := 2.

Definition resolution : list (list Z) :=
  [ [1; 1;  512]; [1; 1;  512]; [1; 1;  512]; [1; 1;  512];
    [1; 1; 2048]; [1; 1; 3072]; [1; 1; 6144];
    [4; 3; 1024]; [2; 3; 1024]; [2; 3; 2048]; [2; 2; 1536];
    [2; 2; 3072]; [2; 1; 3072]; [2; 1; 6144]; [1; 1; 6144];
    [1; 1; 6144] ].

Definition resolution_at (m : video_mode_t) (k : nat) : Z :=
  default 0 (resolution !! mode_index m ≫= fun r => r !! k).

(** [colors[]]; two entries depend on the build ([RPI_BARE_METAL]). *)
Definition colors (bare_metal : bool) : list Z :=
  [ (if bare_metal then FB_LIGHT_GREEN else FB_GREEN);
    FB_YELLOW;
    FB_LIGHT_BLUE;
    (if bare_metal then FB_LIGHT_RED else FB_RED);
    FB_WHITE;
    FB_CYAN;
    FB_LIGHT_MAGENTA;
    FB_BROWN ].

(** [vdg_get_mode()]. *)
Definition vdg_get_mode (sam_video_mode pia_video_mode : Z)
    : option video_mode_t :=
  let mode := UNDEFINED in
  if sam_video_mode =? 7 then Some DMA
  else if bits_set pia_video_mode 0x10 then
    Some match Z.land pia_video_mode 0x0e with
         | 0x00 => GRAPHICS_1C
         | 0x02 => GRAPHICS_1R
         | 0x04 => GRAPHICS_2C
         | 0x06 => GRAPHICS_2R
         | 0x08 => GRAPHICS_3C
         | 0x0a => GRAPHICS_3R
         | 0x0c => GRAPHICS_6C
         | 0x0e => GRAPHICS_6R
         | _ => mode
         end
  else if Z.land pia_video_mode 0x10 =? 0 then
    if (sam_video_mode =? 0) && (Z.land pia_video_mode 0x02 =? 0)
    then Some ALPHA_INTERNAL
    else if (sam_video_mode =? 0) && bits_set pia_video_mode 0x02
    then Some SEMI_GRAPHICS_6
    else if (sam_video_mode =? 2) && (Z.land pia_video_mode 0x02 =? 0)
    then Some SEMI_GRAPHICS_8
    else if (sam_video_mode =? 4) && (Z.land pia_video_mode 0x02 =? 0)
    then Some SEMI_GRAPHICS_12
    else if (sam_video_mode =? 4) && (Z.land pia_video_mode 0x02 =? 0)
    then Some SEMI_GRAPHICS_24
    else Some mode
  else None.

(** The mode matrix of the specification, row by row: the modes a row
    allows for the pair, [None] where no row covers the pair. *)
Definition spec_mode_table (sam pia : Z) : option (list video_mode_t) :=
  if sam =? 7 then Some [DMA]
  else if bits_set pia 0x10 then
    if (1 <=? sam) && (sam <=? 6) then
      Some [ match Z.land pia 0x0e with
             | 0x00 => GRAPHICS_1C | 0x02 => GRAPHICS_1R
             | 0x04 => GRAPHICS_2C | 0x06 => GRAPHICS_2R
             | 0x08 => GRAPHICS_3C | 0x0a => GRAPHICS_3R
             | 0x0c => GRAPHICS_6C | _ => GRAPHICS_6R
             end ]
    else None
  else if sam =? 0 then
    if bits_set pia 0x02
    then Some [ALPHA_EXTERNAL; SEMI_GRAPHICS_6]
    else Some [ALPHA_INTERNAL; SEMI_GRAPHICS_4]
  else if sam =? 2 then Some [SEMI_GRAPHICS_8]
  else if sam =? 4 then Some [SEMI_GRAPHICS_12; SEMI_GRAPHICS_24]
  else None.

Definition mode_allowed (m : video_mode_t) (row : list video_mode_t) : bool :=
  existsb (video_mode_eqb m) row.

(** The module's globals. [fb] is the memory [fbp] points to. *)
Record vdg_t : Type := mk_vdg {
  video_ram_offset : Z;
  sam_video_mode : Z;
  pia_video_mode : Z;
  current_mode : video_mode_t;
  prev_mode : video_mode_t;
  pixel_row : list Z;
  fb : list Z
}.

(** The stores [*screen_buffer++ = x] of one rendering, [w] in order,
    land on [fbp[0]], [fbp[1]], ... *)
Definition fb_store (w fb : list Z) : list Z := w ++ drop (length w) fb.

(** [pixel_row[buffer_index++] = pixel]. *)
Definition row_store (pixel : Z) (st : list Z * Z) : list Z * Z :=
  (<[Z.to_nat (snd st) := pixel]> (fst st), snd st + 1).

Section Render.

(** The build option, the tables of [dragon/font.h] and
    [dragon/semigraph.h] (headers that are not among the sources) and
    the bus as the renderer reads it during one frame. *)
Variable RPI_BARE_METAL : bool.
Variable font_img5x7 : Z -> Z -> Z.
Variable semi_graph_4 : Z -> Z -> Z.
Variable semi_graph_6 : Z -> Z -> Z.
Variable mem_read : Z -> Z.

Definition colors_at (i : Z) : Z := rd (colors RPI_BARE_METAL) i.

(** The innermost loop of the character renderers: [n] pixels of
    [bit_pattern], from mask [pix_pos] rightwards. *)
Fixpoint render_pixels (n : nat) (bit_pattern pix_pos fg_color bg_color : Z)
    : list Z :=
  match n with
  | O => []
  | S n' =>
      (if bits_set bit_pattern pix_pos then fg_color else bg_color)
      :: render_pixels n' bit_pattern (u8 (Z.shiftr pix_pos 1))
           fg_color bg_color
  end.

(** Colours and bit pattern of a cell of the alphanumeric and
    semigraphics-4 renderers: [(fg_color, bg_color, bit_pattern)]. *)
Definition alpha_semi4_cell (color_set c font_row : Z) : Z * Z * Z :=
  let bg_color := FB_BLACK in
  if bits_set (u8 c) CHAR_SEMI_GRAPHICS then
    let fg_color := colors_at (Z.shiftr (Z.land (u8 c) 0x70) 4) in
    let char_index := Z.land (u8 c) SEMI_GRAPH4_MASK in
    (fg_color, bg_color, u8 (semi_graph_4 char_index font_row))
  else
    let fg_color := color_set in
    let '(fg_color, bg_color) :=
      if bits_set (u8 c) CHAR_INVERSE
      then (bg_color, fg_color) else (fg_color, bg_color) in
    let char_index :=
      Z.land (u8 c) (Z.lnot (Z.lor CHAR_SEMI_GRAPHICS CHAR_INVERSE)) in
    (fg_color, bg_color, u8 (font_img5x7 char_index font_row)).

Definition default_color (pia : Z) : Z :=
  if bits_set pia PIA_COLOR_SET
  then colors_at DEF_COLOR_CSS_1 else colors_at DEF_COLOR_CSS_0.

(** [vdg_render_alpha_semi4()]: the bytes stored in the frame buffer. *)
Definition vdg_render_alpha_semi4 (pia vdg_mem_base : Z) : list Z :=
  let color_set := default_color pia in
  for_emit (Z.to_nat SCREEN_HEIGHT_CHAR) 0 (fun row =>
    let row_address := row * SCREEN_WIDTH_CHAR + vdg_mem_base in
    for_emit (Z.to_nat FONT_HEIGHT) 0 (fun font_row =>
      for_emit (Z.to_nat SCREEN_WIDTH_CHAR) 0 (fun col =>
        let c := mem_read (col + row_address) in
        let '(fg_color, bg_color, bit_pattern) :=
          alpha_semi4_cell color_set c font_row in
        render_pixels (Z.to_nat FONT_WIDTH) bit_pattern 0x80
          fg_color bg_color))).

(** [vdg_render_semi6()]. *)
Definition vdg_render_semi6 (pia vdg_mem_base : Z) : list Z :=
  let color_set := 4 * Z.land pia PIA_COLOR_SET in
  for_emit (Z.to_nat SCREEN_HEIGHT_CHAR) 0 (fun row =>
    let row_address := row * SCREEN_WIDTH_CHAR + vdg_mem_base in
    for_emit (Z.to_nat FONT_HEIGHT) 0 (fun font_row =>
      for_emit (Z.to_nat SCREEN_WIDTH_CHAR) 0 (fun col =>
        let c := mem_read (col + row_address) in
        let bg_color := FB_BLACK in
        let fg_color :=
          colors_at (Z.shiftr (Z.land c 0xc0) 6 + color_set) in
        let char_index := Z.land (u8 c) SEMI_GRAPH6_MASK in
        let bit_pattern := u8 (semi_graph_6 char_index font_row) in
        render_pixels (Z.to_nat FONT_WIDTH) bit_pattern 0x80
          fg_color bg_color))).

(** [vdg_render_semi_ext()]; the local [font_row] runs through the three
    outer loops. A mode other than SG8, SG12, SG24 returns at once. *)
Definition vdg_render_semi_ext (mode : video_mode_t) (pia vdg_mem_base : Z)
    : list Z :=
  let color_set := default_color pia in
  let geometry :=
    match mode with
    | SEMI_GRAPHICS_8 =>
        Some (SEMIG8_SEG_HEIGHT, FONT_HEIGHT / SEMIG8_SEG_HEIGHT)
    | SEMI_GRAPHICS_12 =>
        Some (SEMIG12_SEG_HEIGHT, FONT_HEIGHT / SEMIG12_SEG_HEIGHT)
    | SEMI_GRAPHICS_24 =>
        Some (SEMIG24_SEG_HEIGHT, FONT_HEIGHT / SEMIG24_SEG_HEIGHT)
    | _ => None
    end in
  match geometry with
  | None => []
  | Some (segments, seg_scan_lines) =>
      snd (loop_emit (Z.to_nat SCREEN_HEIGHT_CHAR) 0 (fun row font_row =>
        loop_emit (Z.to_nat segments) 0 (fun seg_row font_row =>
          let row_address :=
            (row * segments + seg_row) * SCREEN_WIDTH_CHAR + vdg_mem_base in
          loop_emit (Z.to_nat seg_scan_lines) 0 (fun scan_line font_row =>
            let line :=
              for_emit (Z.to_nat SCREEN_WIDTH_CHAR) 0 (fun col =>
                let c := mem_read (col + row_address) in
                let '(fg_color, bg_color, bit_pattern) :=
                  alpha_semi4_cell color_set c font_row in
                render_pixels (Z.to_nat FONT_WIDTH) bit_pattern 0x80
                  fg_color bg_color) in
            let font_row := font_row + 1 in
            let font_row :=
              if font_row =? FONT_HEIGHT then 0 else font_row in
            (font_row, line)) font_row) font_row) 0)
  end.

(** The [element] loop of [vdg_render_resl_graph()], [n] iterations from
    [element] downwards, on [(pixel_row, buffer_index)]. *)
Fixpoint resl_elements (n : nat) (element : Z) (mode : video_mode_t)
    (pixels_byte fg_color : Z) (st : list Z * Z) : list Z * Z :=
  match n with
  | O => st
  | S n' =>
      let pixel :=
        if bits_set (Z.shiftr pixels_byte element) 0x01
        then fg_color else FB_BLACK in
      let st := row_store pixel st in
      let st :=
        if video_mode_eqb mode GRAPHICS_6R then st else row_store pixel st in
      resl_elements n' (element - 1) mode pixels_byte fg_color st
  end.

(** The tail of the byte loop of both graphics renderers: a full
    [pixel_row] is copied [row_rep] times to the frame buffer. *)
Definition flush_row (row_rep : Z) (st : list Z * Z) : (list Z * Z) * list Z :=
  let '(pixel_row, buffer_index) := st in
  if SCREEN_WIDTH_PIX <=? buffer_index then
    ((pixel_row, 0),
     for_emit (Z.to_nat row_rep) 0 (fun i =>
       for_emit (Z.to_nat SCREEN_WIDTH_PIX) 0 (fun j => [rd pixel_row j])))
  else (st, []).

(** [vdg_render_resl_graph()]: the final [pixel_row] and the bytes
    stored in the frame buffer. *)
Definition vdg_render_resl_graph (mode : video_mode_t)
    (pia vdg_mem_base : Z) (pixel_row : list Z) : list Z * list Z :=
  let video_mem := resolution_at mode RES_MEM in
  let row_rep := resolution_at mode RES_ROW_REP in
  let fg_color := default_color pia in
  let '(st, out) :=
    loop_emit (Z.to_nat video_mem) 0 (fun vdg_mem_offset st =>
      let pixels_byte := u8 (mem_read (vdg_mem_offset + vdg_mem_base)) in
      let st := resl_elements 8 7 mode pixels_byte fg_color st in
      flush_row row_rep st) (pixel_row, 0) in
  (fst st, out).

(** The [element] loop of [vdg_render_color_graph()], [n] iterations
    from [element] downwards in steps of two. *)
Fixpoint color_elements (n : nat) (element : Z) (mode : video_mode_t)
    (pixels_byte color_set : Z) (st : list Z * Z) : list Z * Z :=
  match n with
  | O => st
  | S n' =>
      let color := Z.land (Z.shiftr pixels_byte element) 0x03 + color_set in
      let pixel := colors_at color in
      let st := row_store pixel (row_store pixel st) in
      let st :=
        if video_mode_eqb mode GRAPHICS_1C
        then row_store pixel (row_store pixel st) else st in
      color_elements n' (element - 2) mode pixels_byte color_set st
  end.

(** [vdg_render_color_graph()]. *)
Definition vdg_render_color_graph (mode : video_mode_t)
    (pia vdg_mem_base : Z) (pixel_row : list Z) : list Z * list Z :=
  let video_mem := resolution_at mode RES_MEM in
  let row_rep := resolution_at mode RES_ROW_REP in
  let color_set := 4 * Z.land pia PIA_COLOR_SET in
  let '(st, out) :=
    loop_emit (Z.to_nat video_mem) 0 (fun vdg_mem_offset st =>
      let pixels_byte := u8 (mem_read (vdg_mem_offset + vdg_mem_base)) in
      let st := color_elements 4 6 mode pixels_byte color_set st in
      flush_row row_rep st) (pixel_row, 0) in
  (fst st, out).

(** The renderer [vdg_render()] dispatches to: the final [pixel_row]
    and the bytes stored, or [None] where it halts. *)
Definition render_mode (mode : video_mode_t) (pia vdg_mem_base : Z)
    (pixel_row : list Z) : option (list Z * list Z) :=
  match mode with
  | ALPHA_INTERNAL | SEMI_GRAPHICS_4 =>
      Some (pixel_row, vdg_render_alpha_semi4 pia vdg_mem_base)
  | SEMI_GRAPHICS_6 | ALPHA_EXTERNAL =>
      Some (pixel_row, vdg_render_semi6 pia vdg_mem_base)
  | GRAPHICS_1C | GRAPHICS_2C | GRAPHICS_3C | GRAPHICS_6C =>
      Some (vdg_render_color_graph mode pia vdg_mem_base pixel_row)
  | GRAPHICS_1R | GRAPHICS_2R | GRAPHICS_3R | GRAPHICS_6R =>
      Some (vdg_render_resl_graph mode pia vdg_mem_base pixel_row)
  | SEMI_GRAPHICS_8 | SEMI_GRAPHICS_12 | SEMI_GRAPHICS_24 =>
      Some (pixel_row, vdg_render_semi_ext mode pia vdg_mem_base)
  | DMA => None
  | UNDEFINED => None
  end.

(** [vdg_render()]. *)
Definition vdg_render (v : vdg_t) : option vdg_t :=
  mode ← vdg_get_mode (sam_video_mode v) (pia_video_mode v);
  let prev := if video_mode_eqb mode (prev_mode v) then prev_mode v else mode in
  let vdg_mem_base := Z.shiftl (video_ram_offset v) 9 in
  '(row, w) ← render_mode mode (pia_video_mode v) vdg_mem_base (pixel_row v);
  Some {| video_ram_offset := video_ram_offset v;
          sam_video_mode := sam_video_mode v;
          pia_video_mode := pia_video_mode v;
          current_mode := mode;
          prev_mode := prev;
          pixel_row := row;
          fb := fb_store w (fb v) |}.

(** The bytes one call of [vdg_render()] stores in the frame buffer. *)
Definition vdg_render_writes (v : vdg_t) : option (list Z) :=
  mode ← vdg_get_mode (sam_video_mode v) (pia_video_mode v);
  snd <$> render_mode mode (pia_video_mode v)
            (Z.shiftl (video_ram_offset v) 9) (pixel_row v).

End Render.

(** The pixels one byte of video memory puts into [pixel_row] in the
    graphics renderers. *)
Definition pixels_per_byte (m : video_mode_t) : Z :=
  match m with
  | GRAPHICS_1C | GRAPHICS_1R | GRAPHICS_2R | GRAPHICS_3R => 16
  | _ => 8
  end.

(** The byte loop of the graphics renderers reduced to its counters:
    [buffer_index] at the end and the number of bytes stored in the
    frame buffer, for [n] bytes of [px] pixels each. *)
Fixpoint count_loop (n : nat) (px row_rep buffer_index : Z) : Z * Z :=
  match n with
  | O => (buffer_index, 0)
  | S n' =>
      let buffer_index := buffer_index + px in
      if SCREEN_WIDTH_PIX <=? buffer_index then
        let '(b, k) := count_loop n' px row_rep 0 in
        (b, Z.max 0 row_rep * SCREEN_WIDTH_PIX + k)
      else count_loop n' px row_rep buffer_index
  end.

(** Two states of [(pixel_row, buffer_index)] that agree on the index
    and on the part of the row already filled. *)
Definition row_rel (st1 st2 : list Z * Z) : Prop :=
  snd st1 = snd st2 /\ 0 <= snd st1 /\
  length (fst st1) = Z.to_nat SCREEN_WIDTH_PIX /\
  length (fst st2) = Z.to_nat SCREEN_WIDTH_PIX /\
  take (Z.to_nat (snd st1)) (fst st1) = take (Z.to_nat (snd st1)) (fst st2).

(** The modes [vdg_render()] has a renderer for. *)
Definition renderable (m : video_mode_t) : bool :=
  match m with DMA | UNDEFINED => false | _ => true end.

(** The two families of graphics modes, by renderer. *)
Definition resolution_graphics (m : video_mode_t) : bool :=
  match m with
  | GRAPHICS_1R | GRAPHICS_2R | GRAPHICS_3R | GRAPHICS_6R => true
  | _ => false
  end.

Definition color_graphics (m : video_mode_t) : bool :=
  match m with
  | GRAPHICS_1C | GRAPHICS_2C | GRAPHICS_3C | GRAPHICS_6C => true
  | _ => false
  end.

(** The columns of [resolution] as counts: how many frame pixels a
    pixel of the mode is wide and high. *)
Definition pixel_rep (m : video_mode_t) : nat :=
  Z.to_nat (resolution_at m RES_PIXEL_REP).

Definition row_rep (m : video_mode_t) : nat :=
  Z.to_nat (resolution_at m RES_ROW_REP).

(** The bytes of video memory that make one row of pixels when a byte
    holds [elements] pixels, and the rows the video memory of the mode
    holds. *)
Definition bytes_per_row (elements : nat) (m : video_mode_t) : nat :=
  (256 / (elements * pixel_rep m))%nat.

Definition memory_rows (elements : nat) (m : video_mode_t) : nat :=
  (Z.to_nat (resolution_at m RES_MEM) / bytes_per_row elements m)%nat.

End Vdg.

(** ** disk.c *)

Module Disk.

Definition WDCmdRestore : Z := 0x00.
Definition WDCmdSeek : Z := 0x10.
Definition WDCmdReadSec : Z := 0x88.
Definition WDCmdWriteSec : Z := 0xa8.
Definition WDCmdReadAddr : Z := 0xc0.
Definition WDCmdForceInt : Z := 0xd0.
Definition WDCmdWriteTrack : Z := 0xf4.
Definition WDCmdStepMask : Z := 0xfc.

Definition WDNotReady : Z := 0x80.
Definition WDWriteProt : Z := 0x40.
Definition WDHeadLoaded : Z := 0x20.
Definition WDRNF : Z := 0x10.
Definition WDCRC : Z := 0x08.
Definition WDTrack0 : Z := 0x04.
Definition WDDRQ : Z := 0x02.
Definition WDBusy : Z := 0x01.

Definition NMIE : Z := 0x20.
Definition WPCE : Z := 0x10.
Definition SDensE : Z := 0x08.
Definition MotorOn : Z := 0x04.
Definition DriveMask : Z := 0x03.

Definition TRACK_PER_DISK : Z := 40.
Definition SEC_PER_TRACK : Z := 18.
Definition SECTOR_SIZE : Z := 256.
Definition BYTES_PER_TRACK : Z := SEC_PER_TRACK * SECTOR_SIZE.
Definition ID_FIELD_SIZE : Z := 6.
Definition FILE_VDK_HEADER : Z := 12.
Definition DISK_INT_INTERVAL : Z := 1000.
Definition INIT_SEC_FILL : Z := 0xe5.
Definition INIT_BYTE_SKIP : Z := 111.
(** [sizeof(disk_init_sector_id)] and [sizeof(disk_vdk_header_t)]. *)
Definition SIZEOF_INIT_SECTOR_ID : Z := 4.
Definition SIZEOF_VDK_HEADER : Z := 12.

Inductive disk_state_t : Type :=
  | DISK_UNDEFINED | DISK_IDLE | DISK_READ | DISK_WRITE
  | DISK_READ_ID | DISK_WRITE_TRK.

Inductive mem_operation_t : Type := MEM_READ | MEM_WRITE.

Inductive loader_file_type_t : Type :=
  | FILE_NONE | FILE_ROM | FILE_CAS | FILE_VDK | FILE_OTHER.

(** What leaves the module: the NMI line of the CPU, the cartridge FIRQ
    of PIA1, the motor LED and the calls on the mounted image file. *)
Inductive event : Type :=
  | EvNMI | EvFIRQ | EvLedOn | EvLedOff
  | EvSeek (position : Z) | EvRead (bytes : Z) | EvWrite (data : list Z).

(** The module's globals ([disk_registers] flattened, [time_mark] of
    [disk_io_interrupt()], [vdk_header] as the 12 bytes of the struct)
    and its surroundings: the image file the loader has mounted, as the
    byte stream [img_data] with the position [img_pos], and the trace
    of events. *)
Record disk_t : Type := mk_disk {
  disk_cmd : Z;
  disk_status : Z;
  disk_track : Z;
  disk_sector : Z;
  disk_data : Z;
  motor_on : Z;
  disk_drive_num : Z;
  disk_double_density : Z;
  nmi_inhibit : Z;
  state : disk_state_t;
  vdk_header : list Z;
  buffer : list Z;
  buffer_index : Z;
  time_mark : Z;
  img_type : loader_file_type_t;
  img_data : list Z;
  img_pos : Z;
  trace : list event
}.

Definition set_disk_cmd (x : Z) (d : disk_t) : disk_t :=
  {| disk_cmd := x; disk_status := disk_status d; disk_track := disk_track d;
     disk_sector := disk_sector d; disk_data := disk_data d;
     motor_on := motor_on d; disk_drive_num := disk_drive_num d;
     disk_double_density := disk_double_density d;
     nmi_inhibit := nmi_inhibit d; state := state d;
     vdk_header := vdk_header d; buffer := buffer d;
     buffer_index := buffer_index d; time_mark := time_mark d;
     img_type := img_type d; img_data := img_data d; img_pos := img_pos d;
     trace := trace d |}.

Definition set_disk_status (x : Z) (d : disk_t) : disk_t :=
  {| disk_cmd := disk_cmd d; disk_status := x; disk_track := disk_track d;
     disk_sector := disk_sector d; disk_data := disk_data d;
     motor_on := motor_on d; disk_drive_num := disk_drive_num d;
     disk_double_density := disk_double_density d;
     nmi_inhibit := nmi_inhibit d; state := state d;
     vdk_header := vdk_header d; buffer := buffer d;
     buffer_index := buffer_index d; time_mark := time_mark d;
     img_type := img_type d; img_data := img_data d; img_pos := img_pos d;
     trace := trace d |}.

Definition set_disk_track (x : Z) (d : disk_t) : disk_t :=
  {| disk_cmd := disk_cmd d; disk_status := disk_status d; disk_track := x;
     disk_sector := disk_sector d; disk_data := disk_data d;
     motor_on := motor_on d; disk_drive_num := disk_drive_num d;
     disk_double_density := disk_double_density d;
     nmi_inhibit := nmi_inhibit d; state := state d;
     vdk_header := vdk_header d; buffer := buffer d;
     buffer_index := buffer_index d; time_mark := time_mark d;
     img_type := img_type d; img_data := img_data d; img_pos := img_pos d;
     trace := trace d |}.

Definition set_disk_sector (x : Z) (d : disk_t) : disk_t :=
  {| disk_cmd := disk_cmd d; disk_status := disk_status d;
     disk_track := disk_track d; disk_sector := x; disk_data := disk_data d;
     motor_on := motor_on d; disk_drive_num := disk_drive_num d;
     disk_double_density := disk_double_density d;
     nmi_inhibit := nmi_inhibit d; state := state d;
     vdk_header := vdk_header d; buffer := buffer d;
     buffer_index := buffer_index d; time_mark := time_mark d;
     img_type := img_type d; img_data := img_data d; img_pos := img_pos d;
     trace := trace d |}.

Definition set_disk_data (x : Z) (d : disk_t) : disk_t :=
  {| disk_cmd := disk_cmd d; disk_status := disk_status d;
     disk_track := disk_track d; disk_sector := disk_sector d;
     disk_data := x; motor_on := motor_on d;
     disk_drive_num := disk_drive_num d;
     disk_double_density := disk_double_density d;
     nmi_inhibit := nmi_inhibit d; state := state d;
     vdk_header := vdk_header d; buffer := buffer d;
     buffer_index := buffer_index d; time_mark := time_mark d;
     img_type := img_type d; img_data := img_data d; img_pos := img_pos d;
     trace := trace d |}.

Definition set_motor_on (x : Z) (d : disk_t) : disk_t :=
  {| disk_cmd := disk_cmd d; disk_status := disk_status d;
     disk_track := disk_track d; disk_sector := disk_sector d;
     disk_data := disk_data d; motor_on := x;
     disk_drive_num := disk_drive_num d;
     disk_double_density := disk_double_density d;
     nmi_inhibit := nmi_inhibit d; state := state d;
     vdk_header := vdk_header d; buffer := buffer d;
     buffer_index := buffer_index d; time_mark := time_mark d;
     img_type := img_type d; img_data := img_data d; img_pos := img_pos d;
     trace := trace d |}.

Definition set_disk_double_density (x : Z) (d : disk_t) : disk_t :=
  {| disk_cmd := disk_cmd d; disk_status := disk_status d;
     disk_track := disk_track d; disk_sector := disk_sector d;
     disk_data := disk_data d; motor_on := motor_on d;
     disk_drive_num := disk_drive_num d; disk_double_density := x;
     nmi_inhibit := nmi_inhibit d; state := state d;
     vdk_header := vdk_header d; buffer := buffer d;
     buffer_index := buffer_index d; time_mark := time_mark d;
     img_type := img_type d; img_data := img_data d; img_pos := img_pos d;
     trace := trace d |}.

Definition set_nmi_inhibit (x : Z) (d : disk_t) : disk_t :=
  {| disk_cmd := disk_cmd d; disk_status := disk_status d;
     disk_track := disk_track d; disk_sector := disk_sector d;
     disk_data := disk_data d; motor_on := motor_on d;
     disk_drive_num := disk_drive_num d;
     disk_double_density := disk_double_density d; nmi_inhibit := x;
     state := state d; vdk_header := vdk_header d; buffer := buffer d;
     buffer_index := buffer_index d; time_mark := time_mark d;
     img_type := img_type d; img_data := img_data d; img_pos := img_pos d;
     trace := trace d |}.

Definition set_state (x : disk_state_t) (d : disk_t) : disk_t :=
  {| disk_cmd := disk_cmd d; disk_status := disk_status d;
     disk_track := disk_track d; disk_sector := disk_sector d;
     disk_data := disk_data d; motor_on := motor_on d;
     disk_drive_num := disk_drive_num d;
     disk_double_density := disk_double_density d;
     nmi_inhibit := nmi_inhibit d; state := x; vdk_header := vdk_header d;
     buffer := buffer d; buffer_index := buffer_index d;
     time_mark := time_mark d; img_type := img_type d;
     img_data := img_data d; img_pos := img_pos d; trace := trace d |}.

Definition set_vdk_header (x : list Z) (d : disk_t) : disk_t :=
  {| disk_cmd := disk_cmd d; disk_status := disk_status d;
     disk_track := disk_track d; disk_sector := disk_sector d;
     disk_data := disk_data d; motor_on := motor_on d;
     disk_drive_num := disk_drive_num d;
     disk_double_density := disk_double_density d;
     nmi_inhibit := nmi_inhibit d; state := state d; vdk_header := x;
     buffer := buffer d; buffer_index := buffer_index d;
     time_mark := time_mark d; img_type := img_type d;
     img_data := img_data d; img_pos := img_pos d; trace := trace d |}.

Definition set_buffer (x : list Z) (d : disk_t) : disk_t :=
  {| disk_cmd := disk_cmd d; disk_status := disk_status d;
     disk_track := disk_track d; disk_sector := disk_sector d;
     disk_data := disk_data d; motor_on := motor_on d;
     disk_drive_num := disk_drive_num d;
     disk_double_density := disk_double_density d;
     nmi_inhibit := nmi_inhibit d; state := state d;
     vdk_header := vdk_header d; buffer := x; buffer_index := buffer_index d;
     time_mark := time_mark d; img_type := img_type d;
     img_data := img_data d; img_pos := img_pos d; trace := trace d |}.

Definition set_buffer_index (x : Z) (d : disk_t) : disk_t :=
  {| disk_cmd := disk_cmd d; disk_status := disk_status d;
     disk_track := disk_track d; disk_sector := disk_sector d;
     disk_data := disk_data d; motor_on := motor_on d;
     disk_drive_num := disk_drive_num d;
     disk_double_density := disk_double_density d;
     nmi_inhibit := nmi_inhibit d; state := state d;
     vdk_header := vdk_header d; buffer := buffer d; buffer_index := x;
     time_mark := time_mark d; img_type := img_type d;
     img_data := img_data d; img_pos := img_pos d; trace := trace d |}.

Definition set_time_mark (x : Z) (d : disk_t) : disk_t :=
  {| disk_cmd := disk_cmd d; disk_status := disk_status d;
     disk_track := disk_track d; disk_sector := disk_sector d;
     disk_data := disk_data d; motor_on := motor_on d;
     disk_drive_num := disk_drive_num d;
     disk_double_density := disk_double_density d;
     nmi_inhibit := nmi_inhibit d; state := state d;
     vdk_header := vdk_header d; buffer := buffer d;
     buffer_index := buffer_index d; time_mark := x; img_type := img_type d;
     img_data := img_data d; img_pos := img_pos d; trace := trace d |}.

Definition set_img_type (x : loader_file_type_t) (d : disk_t) : disk_t :=
  {| disk_cmd := disk_cmd d; disk_status := disk_status d;
     disk_track := disk_track d; disk_sector := disk_sector d;
     disk_data := disk_data d; motor_on := motor_on d;
     disk_drive_num := disk_drive_num d;
     disk_double_density := disk_double_density d;
     nmi_inhibit := nmi_inhibit d; state := state d;
     vdk_header := vdk_header d; buffer := buffer d;
     buffer_index := buffer_index d; time_mark := time_mark d; img_type := x;
     img_data := img_data d; img_pos := img_pos d; trace := trace d |}.

Definition set_img_data (x : list Z) (d : disk_t) : disk_t :=
  {| disk_cmd := disk_cmd d; disk_status := disk_status d;
     disk_track := disk_track d; disk_sector := disk_sector d;
     disk_data := disk_data d; motor_on := motor_on d;
     disk_drive_num := disk_drive_num d;
     disk_double_density := disk_double_density d;
     nmi_inhibit := nmi_inhibit d; state := state d;
     vdk_header := vdk_header d; buffer := buffer d;
     buffer_index := buffer_index d; time_mark := time_mark d;
     img_type := img_type d; img_data := x; img_pos := img_pos d;
     trace := trace d |}.

Definition set_img_pos (x : Z) (d : disk_t) : disk_t :=
  {| disk_cmd := disk_cmd d; disk_status := disk_status d;
     disk_track := disk_track d; disk_sector := disk_sector d;
     disk_data := disk_data d; motor_on := motor_on d;
     disk_drive_num := disk_drive_num d;
     disk_double_density := disk_double_density d;
     nmi_inhibit := nmi_inhibit d; state := state d;
     vdk_header := vdk_header d; buffer := buffer d;
     buffer_index := buffer_index d; time_mark := time_mark d;
     img_type := img_type d; img_data := img_data d; img_pos := x;
     trace := trace d |}.

Definition set_trace (x : list event) (d : disk_t) : disk_t :=
  {| disk_cmd := disk_cmd d; disk_status := disk_status d;
     disk_track := disk_track d; disk_sector := disk_sector d;
     disk_data := disk_data d; motor_on := motor_on d;
     disk_drive_num := disk_drive_num d;
     disk_double_density := disk_double_density d;
     nmi_inhibit := nmi_inhibit d; state := state d;
     vdk_header := vdk_header d; buffer := buffer d;
     buffer_index := buffer_index d; time_mark := time_mark d;
     img_type := img_type d; img_data := img_data d; img_pos := img_pos d;
     trace := x |}.

Definition is_idle (s : disk_state_t) : bool :=
  match s with DISK_IDLE => true | _ => false end.

Definition mounted (d : disk_t) : bool :=
  match img_type d with FILE_NONE => false | _ => true end.

Definition is_vdk (d : disk_t) : bool :=
  match img_type d with FILE_VDK => true | _ => false end.

Definition emit (e : event) (d : disk_t) : disk_t :=
  set_trace (trace d ++ [e]) d.

(** [vdk_header.header_size]: the [uint16_t] at offset 2, low byte
    first. *)
Definition header_size (h : list Z) : Z := rd h 2 + 256 * rd h 3.
Definition header_tracks (h : list Z) : Z := rd h 8.
Definition header_sides (h : list Z) : Z := rd h 9.

(** *** The image file

    [loader_disk_fseek], [loader_disk_fread] and [loader_disk_fwrite]
    hand over to the FAT32 driver. The driver is taken by its contract
    on an open file, a byte stream with a position: a seek beyond the
    end of the file is refused and leaves the position alone; a read
    copies bytes up to the end of the file and advances the position; a
    write overwrites or extends the stream at the position. Media
    errors are not modelled. With no image mounted the file is not open
    and every call fails without effect. *)

Definition loader_disk_fseek (position : Z) (d : disk_t) : disk_t :=
  let d := emit (EvSeek position) d in
  if mounted d && (position <=? Z.of_nat (length (img_data d)))
  then set_img_pos position d else d.

(** The bytes read are returned for the caller to lay over its buffer. *)
Definition loader_disk_fread (bytes : Z) (d : disk_t) : list Z * disk_t :=
  let d := emit (EvRead bytes) d in
  if mounted d then
    let got := take (Z.to_nat bytes) (drop (Z.to_nat (img_pos d)) (img_data d)) in
    (got, set_img_pos (img_pos d + Z.of_nat (length got)) d)
  else ([], d).

Definition loader_disk_fwrite (data : list Z) (d : disk_t) : disk_t :=
  let d := emit (EvWrite data) d in
  if mounted d && negb (Z.of_nat (length (img_data d)) =? 0) then
    let p := Z.to_nat (img_pos d) in
    set_img_pos (img_pos d + Z.of_nat (length data))
      (set_img_data
         (take p (img_data d) ++ data ++ drop (p + length data) (img_data d)) d)
  else d.

(** Bytes read into the front of an array. *)
Definition overlay (got old : list Z) : list Z := got ++ drop (length got) old.

(** *** The controller *)

(** [disk_intrq()]. *)
Definition disk_intrq (d : disk_t) : disk_t :=
  if nmi_inhibit d =? 0 then emit EvNMI d else d.

(** [disk_to_image_offset()]. *)
Definition disk_to_image_offset (track sector : Z) : Z :=
  let track := u16 track in
  let sector := u16 sector in
  u32 (SECTOR_SIZE * (SEC_PER_TRACK * track + (sector - 1))).

(** The block the read-sector, write-sector and write-track commands
    share: [seek_address] from the track and sector registers, plus the
    header size read from the image when it is a VDK image. *)
Definition command_seek_address (d : disk_t) : Z * disk_t :=
  let seek_address := disk_to_image_offset (disk_track d) (disk_sector d) in
  if is_vdk d then
    let d := loader_disk_fseek 0 d in
    let '(got, d) := loader_disk_fread SIZEOF_VDK_HEADER d in
    let d := set_vdk_header (overlay got (vdk_header d)) d in
    (u32 (seek_address + header_size (vdk_header d)), d)
  else (seek_address, d).

(** [disk_init()], the other globals being zero-initialised. *)
Definition disk_init (ty : loader_file_type_t) (image : list Z) : disk_t :=
  {| disk_cmd := WDCmdRestore; disk_status := WDTrack0; disk_track := 0;
     disk_sector := 1; disk_data := 0; motor_on := 0; disk_drive_num := 0;
     disk_double_density := 0; nmi_inhibit := 1; state := DISK_IDLE;
     vdk_header := replicate (Z.to_nat SIZEOF_VDK_HEADER) 0;
     buffer := replicate (Z.to_nat BYTES_PER_TRACK) 0;
     buffer_index := 0; time_mark := 0;
     img_type := ty; img_data := image; img_pos := 0; trace := [] |}.

(** [disk_io_interrupt()]; [t1], [t2], [t3] are what the three calls of
    [rpi_system_timer()] return, in the order of the source. *)
Definition disk_io_interrupt (t1 t2 t3 : Z) (d : disk_t) : option disk_t :=
  let d :=
    if negb (is_idle (state d)) && (time_mark d =? 0)
    then set_time_mark t1 d else d in
  let duration :=
    if is_idle (state d) then 250 * DISK_INT_INTERVAL else DISK_INT_INTERVAL in
  if negb (time_mark d =? 0) && (duration <=? u32 (t2 - time_mark d)) then
    match state d with
    | DISK_READ | DISK_WRITE | DISK_READ_ID | DISK_WRITE_TRK =>
        let d := set_time_mark t3 d in
        let d := set_disk_status (Z.lor (disk_status d) WDDRQ) d in
        Some (emit EvFIRQ d)
    | DISK_IDLE => Some (disk_intrq (set_time_mark 0 d))
    | DISK_UNDEFINED => None
    end
  else Some d.

(** [io_handler_wd2797_cmd_stat()]: the state and the byte returned. *)
Definition io_handler_wd2797_cmd_stat (data : Z) (op : mem_operation_t)
    (d : disk_t) : option (disk_t * Z) :=
  let response := 0 in
  match op with
  | MEM_WRITE =>
      let d := set_disk_cmd data d in
      if data =? WDCmdForceInt then
        Some (set_disk_status 0 (set_state DISK_IDLE d), response)
      else if negb (bits_set (disk_status d) WDBusy) then
        if Z.land data WDCmdStepMask =? WDCmdRestore then
          let d := set_state DISK_IDLE d in
          let d := set_disk_track 0 d in
          let d := set_disk_status WDTrack0 d in
          Some (disk_intrq d, response)
        else if Z.land data WDCmdStepMask =? WDCmdSeek then
          let d := set_state DISK_IDLE d in
          let d := set_disk_track (disk_data d) d in
          let d :=
            if disk_track d =? 0 then set_disk_status WDTrack0 d
            else set_disk_status 0 d in
          Some (disk_intrq d, response)
        else if data =? WDCmdReadSec then
          if mounted d then
            let d := set_state DISK_READ d in
            let '(seek_address, d) := command_seek_address d in
            let d := loader_disk_fseek seek_address d in
            let '(got, d) := loader_disk_fread SECTOR_SIZE d in
            let d := set_buffer (overlay got (buffer d)) d in
            let d := set_disk_status WDBusy d in
            Some (set_buffer_index 0 d, response)
          else Some (d, response)
        else if data =? WDCmdWriteSec then
          if mounted d then
            let d := set_state DISK_WRITE d in
            let '(seek_address, d) := command_seek_address d in
            let d := loader_disk_fseek seek_address d in
            let d := set_disk_status WDBusy d in
            Some (set_buffer_index 0 d, response)
          else Some (d, response)
        else if data =? WDCmdReadAddr then
          let d := set_state DISK_READ_ID d in
          let b := buffer d in
          let b := <[0%nat := disk_track d]> b in
          let b := <[1%nat := 1]> b in
          let b := <[2%nat := disk_sector d]> b in
          let b := <[3%nat := SECTOR_SIZE - 1]> b in
          let b := <[4%nat := 0xbe]> b in
          let b := <[5%nat := 0xef]> b in
          let d := set_buffer b d in
          let d := set_disk_status WDBusy d in
          Some (set_buffer_index 0 d, response)
        else if data =? WDCmdWriteTrack then
          if mounted d then
            let d := set_state DISK_WRITE_TRK d in
            let '(_, d) := command_seek_address d in
            let d := set_disk_status WDBusy d in
            Some (set_buffer_index 0 d, response)
          else Some (d, response)
        else None
      else Some (d, response)
  | MEM_READ => Some (d, disk_status d)
  end.

(** [io_handler_wd2797_track()]. The guard is the source's
    [disk_status && WDBusy], a logical conjunction. *)
Definition io_handler_wd2797_track (data : Z) (op : mem_operation_t)
    (d : disk_t) : disk_t * Z :=
  let response := 0 in
  if negb (negb (disk_status d =? 0) && negb (WDBusy =? 0))
     && match op with MEM_WRITE => true | MEM_READ => false end
  then (set_disk_track data d, response)
  else (d, disk_track d).

(** [io_handler_wd2797_sector()]. *)
Definition io_handler_wd2797_sector (data : Z) (op : mem_operation_t)
    (d : disk_t) : disk_t * Z :=
  let response := 0 in
  if negb (negb (disk_status d =? 0) && negb (WDBusy =? 0))
     && match op with MEM_WRITE => true | MEM_READ => false end
  then (set_disk_sector data d, response)
  else (d, disk_sector d).

(** [disk_status &= ~mask]. *)
Definition clear_status (mask : Z) (d : disk_t) : disk_t :=
  set_disk_status (u8 (Z.land (disk_status d) (Z.lnot mask))) d.

(** [io_handler_wd2797_data()]. *)
Definition io_handler_wd2797_data (data : Z) (op : mem_operation_t)
    (d : disk_t) : option (disk_t * Z) :=
  let response := 0 in
  match state d with
  | DISK_IDLE =>
      match op with
      | MEM_READ => Some (d, disk_data d)
      | MEM_WRITE => Some (set_disk_data data d, response)
      end
  | DISK_READ =>
      match op with
      | MEM_READ =>
          let d := set_disk_data (rd (buffer d) (buffer_index d)) d in
          let response := disk_data d in
          let d := clear_status WDDRQ d in
          let d := set_buffer_index (buffer_index d + 1) d in
          let d :=
            if buffer_index d =? SECTOR_SIZE
            then clear_status WDBusy (set_state DISK_IDLE d) else d in
          Some (d, response)
      | MEM_WRITE => Some (d, response)
      end
  | DISK_WRITE =>
      match op with
      | MEM_WRITE =>
          let d := set_disk_data data d in
          let d :=
            set_buffer (<[Z.to_nat (buffer_index d) := data]> (buffer d)) d in
          let d := clear_status WDDRQ d in
          let d := set_buffer_index (buffer_index d + 1) d in
          let d :=
            if buffer_index d =? SECTOR_SIZE then
              let d := set_state DISK_IDLE d in
              let d :=
                loader_disk_fwrite (take (Z.to_nat SECTOR_SIZE) (buffer d)) d in
              clear_status WDBusy d
            else d in
          Some (d, response)
      | MEM_READ => Some (d, response)
      end
  | DISK_READ_ID =>
      match op with
      | MEM_READ =>
          let d := set_disk_data (rd (buffer d) (buffer_index d)) d in
          let response := disk_data d in
          let d := clear_status WDDRQ d in
          let d := set_buffer_index (buffer_index d + 1) d in
          let d :=
            if buffer_index d =? ID_FIELD_SIZE
            then clear_status (WDBusy + WDDRQ) (set_state DISK_IDLE d)
            else d in
          Some (d, response)
      | MEM_WRITE => Some (d, response)
      end
  | DISK_WRITE_TRK =>
      match op with
      | MEM_WRITE =>
          let d := set_disk_data data d in
          let d := clear_status WDDRQ d in
          if buffer_index d <? INIT_BYTE_SKIP then
            Some (set_buffer_index (buffer_index d + 1) d, response)
          else if buffer_index d <? INIT_BYTE_SKIP + SIZEOF_INIT_SECTOR_ID then
            let d :=
              set_buffer (<[Z.to_nat (buffer_index d) := data]> (buffer d)) d in
            Some (set_buffer_index (buffer_index d + 1) d, response)
          else
            let d := set_state DISK_IDLE d in
            let seek_address :=
              disk_to_image_offset (rd (buffer d) INIT_BYTE_SKIP) 1 in
            let seek_address :=
              u32 (seek_address + header_size (vdk_header d)) in
            let d :=
              set_buffer (replicate (Z.to_nat BYTES_PER_TRACK) INIT_SEC_FILL) d in
            let d := loader_disk_fseek seek_address d in
            let d := loader_disk_fwrite (buffer d) d in
            Some (clear_status WDBusy d, response)
      | MEM_READ => Some (d, response)
      end
  | DISK_UNDEFINED => None
  end.

(** [io_handler_drive_ctrl()]. *)
Definition io_handler_drive_ctrl (data : Z) (op : mem_operation_t)
    (d : disk_t) : option (disk_t * Z) :=
  let new_drive_num := Z.land data DriveMask in
  let d := set_nmi_inhibit (if bits_set data NMIE then 0 else 1) d in
  let d := set_motor_on (if bits_set data MotorOn then 1 else 0) d in
  let d := set_disk_double_density (if bits_set data SDensE then 1 else 0) d in
  if negb (new_drive_num =? disk_drive_num d) then None
  else
    let d := if negb (motor_on d =? 0) then emit EvLedOn d else emit EvLedOff d in
    Some (d, data).

(** Postcondition of a handler that may halt. *)
Definition post {A : Type} (P : disk_t -> Prop) (o : option (disk_t * A))
    : Prop :=
  match o with Some (d', _) => P d' | None => True end.

(** *** Runs of the controller

    An access of the CPU to one of the five registers, a tick of the
    executive loop, or the loader mounting another image (or none). *)
Inductive disk_op : Type :=
  | OpCmdStat (data : Z) (op : mem_operation_t)
  | OpTrack (data : Z) (op : mem_operation_t)
  | OpSector (data : Z) (op : mem_operation_t)
  | OpData (data : Z) (op : mem_operation_t)
  | OpDriveCtrl (data : Z) (op : mem_operation_t)
  | OpInterrupt (t1 t2 t3 : Z)
  | OpMount (image : option (list Z)).

Definition disk_step (o : disk_op) (d : disk_t) : option disk_t :=
  match o with
  | OpCmdStat data op => fst <$> io_handler_wd2797_cmd_stat data op d
  | OpTrack data op => Some (fst (io_handler_wd2797_track data op d))
  | OpSector data op => Some (fst (io_handler_wd2797_sector data op d))
  | OpData data op => fst <$> io_handler_wd2797_data data op d
  | OpDriveCtrl data op => fst <$> io_handler_drive_ctrl data op d
  | OpInterrupt t1 t2 t3 => disk_io_interrupt t1 t2 t3 d
  | OpMount None => Some (set_img_pos 0 (set_img_data [] (set_img_type FILE_NONE d)))
  | OpMount (Some image) =>
      Some (set_img_pos 0 (set_img_data image (set_img_type FILE_VDK d)))
  end.

Fixpoint disk_run (ops : list disk_op) (d : disk_t) : option disk_t :=
  match ops with
  | [] => Some d
  | o :: ops' => d' ← disk_step o d; disk_run ops' d'
  end.

(** [n] successive reads of the data register: the bytes returned and
    the state reached. *)
Fixpoint data_reads (n : nat) (d : disk_t) : option (list Z * disk_t) :=
  match n with
  | O => Some ([], d)
  | S n' =>
      '(d1, r) ← io_handler_wd2797_data 0 MEM_READ d;
      '(rs, d2) ← data_reads n' d1;
      Some (r :: rs, d2)
  end.

(** The invariant of the specification: away from [DISK_IDLE] the
    status has the Busy bit or the DRQ bit set. *)
Definition disk_inv (d : disk_t) : Prop :=
  is_idle (state d) = false ->
  Z.testbit (disk_status d) 0 = true \/ Z.testbit (disk_status d) 1 = true.

(** The invariant the controller keeps step by step. *)
Definition busy_inv (d : disk_t) : Prop :=
  is_idle (state d) = false -> bits_set (disk_status d) WDBusy = true.

(** The image offset of the specification's READ SECTOR property, for a
    side [side] of an image of [sides] sides. *)
Definition spec_sector_offset (header sides side track sector : Z) : Z :=
  header + ((track * sides) + side) * 18 * 256 + (sector - 1) * 256.

(** The image offset the controller reads at. *)
Definition code_sector_offset (header track sector : Z) : Z :=
  header + track * 18 * 256 + (sector - 1) * 256.

(** READ SECTOR and the 256 reads of the data register that follow:
    the bytes returned. *)
Definition read_sector (d : disk_t) : option (list Z) :=
  '(d1, _) ← io_handler_wd2797_cmd_stat WDCmdReadSec MEM_WRITE d;
  fst <$> data_reads 256 d1.

(** A VDK image of two tracks and two sides, with the 12-byte header of
    the format ('d', 'k', header size 12, versions, source, tracks,
    sides, flags, compression); each of its four track sides is filled
    with a byte of its own, in the order the specification gives for
    the payload. *)
Definition two_sided_image : list Z :=
  [0x64; 0x6b; 12; 0; 0x10; 0x10; 0; 0; 2; 2; 0; 0]
  ++ replicate 4608 0x00 ++ replicate 4608 0xa5
  ++ replicate 4608 0x11 ++ replicate 4608 0x22.

(** The controller after a SEEK to track 1 on that image. *)
Definition seek_track_1 : option disk_t :=
  disk_run [OpData 1 MEM_WRITE; OpCmdStat WDCmdSeek MEM_WRITE]
    (disk_init FILE_VDK two_sided_image).

(** *** Transfers through the data register *)

(** Successive writes of the bytes [ws] to the data register. *)
Fixpoint data_writes (ws : list Z) (d : disk_t) : option disk_t :=
  match ws with
  | [] => Some d
  | w :: ws' =>
      '(d1, _) ← io_handler_wd2797_data w MEM_WRITE d;
      data_writes ws' d1
  end.

(** WRITE SECTOR and the writes of the data register that follow. *)
Definition write_sector (ws : list Z) (d : disk_t) : option disk_t :=
  '(d1, _) ← io_handler_wd2797_cmd_stat WDCmdWriteSec MEM_WRITE d;
  data_writes ws d1.

(** READ ADDRESS and the six reads of the data register that follow. *)
Definition read_address (d : disk_t) : option (list Z * disk_t) :=
  '(d1, _) ← io_handler_wd2797_cmd_stat WDCmdReadAddr MEM_WRITE d;
  data_reads 6 d1.

(** WRITE TRACK and the writes of the data register that follow. *)
Definition write_track (ws : list Z) (d : disk_t) : option disk_t :=
  '(d1, _) ← io_handler_wd2797_cmd_stat WDCmdWriteTrack MEM_WRITE d;
  data_writes ws d1.

(** The calls on the image file among the events. *)
Definition is_file_event (e : event) : bool :=
  match e with
  | EvSeek _ | EvRead _ | EvWrite _ => true
  | _ => false
  end.

(** The 256 bytes of the image the sector [sector] of the track [track]
    occupies, as a half-open range of offsets. *)
Definition sector_range (track sector : Z) : Z * Z :=
  let off := disk_to_image_offset track sector in (off, off + SECTOR_SIZE).

(** The transfer index stays inside [disk_data_buffer] and inside the
    part of it the state transfers. *)
Definition buffer_inv (d : disk_t) : Prop :=
  Z.of_nat (length (buffer d)) = BYTES_PER_TRACK /\
  match state d with
  | DISK_READ | DISK_WRITE => 0 <= buffer_index d < SECTOR_SIZE
  | DISK_READ_ID => 0 <= buffer_index d < ID_FIELD_SIZE
  | DISK_WRITE_TRK =>
      0 <= buffer_index d <= INIT_BYTE_SKIP + SIZEOF_INIT_SECTOR_ID
  | DISK_IDLE => True
  | DISK_UNDEFINED => False
  end.

(** The command bytes [io_handler_wd2797_cmd_stat()] has a case for. *)
Definition known_command (data : Z) : bool :=
  (data =? WDCmdForceInt)
  || (Z.land data WDCmdStepMask =? WDCmdRestore)
  || (Z.land data WDCmdStepMask =? WDCmdSeek)
  || (data =? WDCmdReadSec) || (data =? WDCmdWriteSec)
  || (data =? WDCmdReadAddr) || (data =? WDCmdWriteTrack).

(** The accesses on which the emulator stops in [rpi_halt()]: a command
    byte without a case, written while the controller is not busy, and
    the selection of a drive other than drive 0. *)
Definition halting (o : disk_op) (d : disk_t) : bool :=
  match o with
  | OpCmdStat data MEM_WRITE =>
      negb (known_command data) && negb (bits_set (disk_status d) WDBusy)
  | OpDriveCtrl data _ => negb (Z.land data DriveMask =? 0)
  | _ => false
  end.

(** What the file calls and the interrupt line leave alone. *)
Definition same_transfer (d d' : disk_t) : Prop :=
  state d' = state d /\ buffer d' = buffer d /\
  buffer_index d' = buffer_index d /\ disk_drive_num d' = disk_drive_num d.

(** Mounting an image, as opposed to taking it out. *)
Definition is_mount (o : disk_op) : bool :=
  match o with OpMount (Some _) => true | _ => false end.

(** What every run of the controller keeps: the transfer index within
    its bounds and drive 0 selected. *)
Definition transfer_inv (d : disk_t) : Prop :=
  buffer_inv d /\ disk_drive_num d = 0.

(** What a run without an image keeps. *)
Definition no_image_inv (d : disk_t) : Prop :=
  mounted d = false /\
  (state d = DISK_IDLE \/ state d = DISK_READ_ID) /\
  Forall (fun e => is_file_event e = false) (trace d).

(** Ticks of the executive loop, each with the three values the timer
    returns during the tick. *)
Definition ticks (ts : list (Z * Z * Z)) : list disk_op :=
  (fun '(t1, t2, t3) => OpInterrupt t1 t2 t3) <$> ts.

End Disk.

(** ** tape.c *)

Module Tape.

Definition CAS_STREAM_SIZE : Z := 64 * 1024.

Inductive cas_tape_state_t : Type :=
  | CAS_STREAM_IDLE | CAS_STREAM_LEADER | CAS_STREAM_SYNC
  | CAS_STREAM_HEADER | CAS_STREAM_DATA | CAS_STREAM_EOF
  | CAS_STREAM_WRITE.

(** The module's global [cas_stream_buffer], the statics of
    [io_handler_cas_tape()] ([tape_state], [count], [file_name] and
    [i], here [stream_index]), the statics [byte_count] and
    [char_index] of the three block parsers, and [written], the sequence
    of byte strings handed to [loader_tape_fwrite()], one entry for
    each call. *)
Record tape_t : Type := mk_tape {
  tape_state : cas_tape_state_t;
  count : Z;
  file_name : list Z;
  stream_index : Z;
  cas_stream_buffer : list Z;
  header_byte_count : Z;
  header_char_index : Z;
  data_byte_count : Z;
  eof_byte_count : Z;
  written : list (list Z)
}.

Definition set_tape_state (x : cas_tape_state_t) (t : tape_t) : tape_t :=
  {| tape_state := x; count := count t; file_name := file_name t;
     stream_index := stream_index t;
     cas_stream_buffer := cas_stream_buffer t;
     header_byte_count := header_byte_count t;
     header_char_index := header_char_index t;
     data_byte_count := data_byte_count t;
     eof_byte_count := eof_byte_count t; written := written t |}.

Definition set_count (x : Z) (t : tape_t) : tape_t :=
  {| tape_state := tape_state t; count := x; file_name := file_name t;
     stream_index := stream_index t;
     cas_stream_buffer := cas_stream_buffer t;
     header_byte_count := header_byte_count t;
     header_char_index := header_char_index t;
     data_byte_count := data_byte_count t;
     eof_byte_count := eof_byte_count t; written := written t |}.

Definition set_file_name (x : list Z) (t : tape_t) : tape_t :=
  {| tape_state := tape_state t; count := count t; file_name := x;
     stream_index := stream_index t;
     cas_stream_buffer := cas_stream_buffer t;
     header_byte_count := header_byte_count t;
     header_char_index := header_char_index t;
     data_byte_count := data_byte_count t;
     eof_byte_count := eof_byte_count t; written := written t |}.

Definition set_stream_index (x : Z) (t : tape_t) : tape_t :=
  {| tape_state := tape_state t; count := count t; file_name := file_name t;
     stream_index := x; cas_stream_buffer := cas_stream_buffer t;
     header_byte_count := header_byte_count t;
     header_char_index := header_char_index t;
     data_byte_count := data_byte_count t;
     eof_byte_count := eof_byte_count t; written := written t |}.

Definition set_cas_stream_buffer (x : list Z) (t : tape_t) : tape_t :=
  {| tape_state := tape_state t; count := count t; file_name := file_name t;
     stream_index := stream_index t; cas_stream_buffer := x;
     header_byte_count := header_byte_count t;
     header_char_index := header_char_index t;
     data_byte_count := data_byte_count t;
     eof_byte_count := eof_byte_count t; written := written t |}.

Definition set_header_byte_count (x : Z) (t : tape_t) : tape_t :=
  {| tape_state := tape_state t; count := count t; file_name := file_name t;
     stream_index := stream_index t;
     cas_stream_buffer := cas_stream_buffer t; header_byte_count := x;
     header_char_index := header_char_index t;
     data_byte_count := data_byte_count t;
     eof_byte_count := eof_byte_count t; written := written t |}.

Definition set_header_char_index (x : Z) (t : tape_t) : tape_t :=
  {| tape_state := tape_state t; count := count t; file_name := file_name t;
     stream_index := stream_index t;
     cas_stream_buffer := cas_stream_buffer t;
     header_byte_count := header_byte_count t; header_char_index := x;
     data_byte_count := data_byte_count t;
     eof_byte_count := eof_byte_count t; written := written t |}.

Definition set_data_byte_count (x : Z) (t : tape_t) : tape_t :=
  {| tape_state := tape_state t; count := count t; file_name := file_name t;
     stream_index := stream_index t;
     cas_stream_buffer := cas_stream_buffer t;
     header_byte_count := header_byte_count t;
     header_char_index := header_char_index t; data_byte_count := x;
     eof_byte_count := eof_byte_count t; written := written t |}.

Definition set_eof_byte_count (x : Z) (t : tape_t) : tape_t :=
  {| tape_state := tape_state t; count := count t; file_name := file_name t;
     stream_index := stream_index t;
     cas_stream_buffer := cas_stream_buffer t;
     header_byte_count := header_byte_count t;
     header_char_index := header_char_index t;
     data_byte_count := data_byte_count t; eof_byte_count := x;
     written := written t |}.

Definition set_written (x : list (list Z)) (t : tape_t) : tape_t :=
  {| tape_state := tape_state t; count := count t; file_name := file_name t;
     stream_index := stream_index t;
     cas_stream_buffer := cas_stream_buffer t;
     header_byte_count := header_byte_count t;
     header_char_index := header_char_index t;
     data_byte_count := data_byte_count t;
     eof_byte_count := eof_byte_count t; written := x |}.

(** Power-on state: [tape_init()] clears the buffer, the statics have
    their initialisers. *)
Definition tape_init : tape_t :=
  {| tape_state := CAS_STREAM_IDLE; count := 0;
     file_name := replicate 9 0; stream_index := 0;
     cas_stream_buffer := replicate (Z.to_nat CAS_STREAM_SIZE) 0;
     header_byte_count := -1; header_char_index := 0;
     data_byte_count := -1; eof_byte_count := -1; written := [] |}.

(** [isalnum()] in the C locale. *)
Definition isalnum (c : Z) : bool :=
  ((0x30 <=? c) && (c <=? 0x39)) || ((0x41 <=? c) && (c <=? 0x5a))
  || ((0x61 <=? c) && (c <=? 0x7a)).

(** [cas_stream_header()]. *)
Definition cas_stream_header (data_byte : Z) (t : tape_t)
    : cas_tape_state_t * tape_t :=
  if header_byte_count t <? 0 then
    let t := set_header_byte_count data_byte t in
    let t := set_header_char_index 0 t in
    (CAS_STREAM_HEADER, t)
  else
    let t := set_header_byte_count (header_byte_count t - 1) t in
    if header_byte_count t <? 0 then (CAS_STREAM_LEADER, t)
    else if (0 <=? header_char_index t) && (header_char_index t <=? 7)
            && isalnum data_byte then
      let k := Z.to_nat (header_char_index t) in
      let t := set_file_name (<[k := data_byte]> (file_name t)) t in
      let t := set_file_name (<[S k := 0]> (file_name t)) t in
      (CAS_STREAM_HEADER, set_header_char_index (header_char_index t + 1) t)
    else (CAS_STREAM_HEADER, t).

(** [cas_stream_data()]. *)
Definition cas_stream_data (data_byte : Z) (t : tape_t)
    : cas_tape_state_t * tape_t :=
  if data_byte_count t <? 0 then
    (CAS_STREAM_DATA, set_data_byte_count data_byte t)
  else
    let t := set_data_byte_count (data_byte_count t - 1) t in
    if data_byte_count t <? 0 then (CAS_STREAM_LEADER, t)
    else (CAS_STREAM_DATA, t).

(** [cas_stream_eof()]. *)
Definition cas_stream_eof (data_byte : Z) (t : tape_t)
    : cas_tape_state_t * tape_t :=
  if eof_byte_count t <? 0 then
    (CAS_STREAM_EOF, set_eof_byte_count data_byte t)
  else
    let t := set_eof_byte_count (eof_byte_count t - 1) t in
    if eof_byte_count t <? 0 then (CAS_STREAM_WRITE, t)
    else (CAS_STREAM_EOF, t).

(** The body of [if ( count == 16 )] in [io_handler_cas_tape()] once
    [data_byte] has been read, in its three parts. First the byte is
    stored and the index advanced and clamped. *)
Definition cas_store (data_byte : Z) (t : tape_t) : tape_t :=
  let t :=
    set_cas_stream_buffer
      (<[Z.to_nat (stream_index t) := data_byte]> (cas_stream_buffer t)) t in
  let t := set_stream_index (stream_index t + 1) t in
  if stream_index t =? CAS_STREAM_SIZE
  then set_stream_index (CAS_STREAM_SIZE - 1) t else t.

(** Then the [switch] on [tape_state]: [cas_file_stream_complete] and
    the state. *)
Definition cas_switch (data_byte : Z) (t : tape_t) : bool * tape_t :=
  match tape_state t with
  | CAS_STREAM_IDLE =>
      if data_byte =? 0x55
      then (false, set_tape_state CAS_STREAM_LEADER t) else (false, t)
  | CAS_STREAM_LEADER =>
      if data_byte =? 0x55 then (false, set_tape_state CAS_STREAM_LEADER t)
      else if data_byte =? 0x3c then (false, set_tape_state CAS_STREAM_SYNC t)
      else (false, set_tape_state CAS_STREAM_IDLE t)
  | CAS_STREAM_SYNC =>
      if data_byte =? 0x00 then (false, set_tape_state CAS_STREAM_HEADER t)
      else if data_byte =? 0x01 then (false, set_tape_state CAS_STREAM_DATA t)
      else if data_byte =? 0xff then (false, set_tape_state CAS_STREAM_EOF t)
      else (false, set_tape_state CAS_STREAM_IDLE t)
  | CAS_STREAM_HEADER =>
      let '(s, t) := cas_stream_header data_byte t in
      (false, set_tape_state s t)
  | CAS_STREAM_DATA =>
      let '(s, t) := cas_stream_data data_byte t in
      (false, set_tape_state s t)
  | CAS_STREAM_EOF =>
      let '(s, t) := cas_stream_eof data_byte t in
      (false, set_tape_state s t)
  | CAS_STREAM_WRITE => (true, set_tape_state CAS_STREAM_IDLE t)
  end.

(** Last, when the stream is complete: [loader_tape_fwrite()] of the
    first [i] bytes of the buffer (its length parameter is a
    [uint16_t]), then the index and the buffer are cleared. *)
Definition cas_flush (t : tape_t) : tape_t :=
  let t :=
    set_written
      (written t
       ++ [take (Z.to_nat (u16 (stream_index t))) (cas_stream_buffer t)]) t in
  let t := set_stream_index 0 t in
  set_cas_stream_buffer (replicate (Z.to_nat CAS_STREAM_SIZE) 0) t.

Definition cas_capture (data_byte : Z) (t : tape_t) : tape_t :=
  let t := cas_store data_byte t in
  let '(cas_file_stream_complete, t) := cas_switch data_byte t in
  if cas_file_stream_complete then cas_flush t else t.

Definition trap_pc (pc : Z) : bool := (pc =? 0xbe1c) || (pc =? 0xbe3f).

(** [io_handler_cas_tape()]. [pc] and [s] are the registers
    [cpu_get_state()] reports, [mem_read] is the bus at the time of the
    call; the handler returns [data]. *)
Definition io_handler_cas_tape (pc s : Z) (mem_read : Z -> Z)
    (data : Z) (t : tape_t) : tape_t * Z :=
  let t := if trap_pc pc then set_count (count t + 1) t else t in
  if count t =? 16 then
    let t := set_count 0 t in
    let data_byte := u8 (mem_read s) in
    (cas_capture data_byte t, data)
  else (t, data).

(** One call of the handler as the bus makes it. *)
Record call : Type := mk_call {
  call_pc : Z;
  call_s : Z;
  call_mem : Z -> Z;
  call_data : Z
}.

Definition handle (t : tape_t) (c : call) : tape_t :=
  fst (io_handler_cas_tape (call_pc c) (call_s c) (call_mem c) (call_data c) t).

(** The state after a sequence of calls, and after a sequence of
    captured bytes. *)
Definition handle_all (cs : list call) (t : tape_t) : tape_t :=
  fold_left handle cs t.

Definition capture_all (bytes : list Z) (t : tape_t) : tape_t :=
  fold_left (fun t b => cas_capture b t) bytes t.

(** The calls made with the program counter at one of the two
    addresses the handler counts. *)
Definition counted (cs : list call) : Z :=
  Z.of_nat (length (List.filter (fun c => trap_pc (call_pc c)) cs)).

(** *** The state machine by itself

    What the progress of the state machine depends on: the state and
    the three byte counters. *)
Definition view : Type := (cas_tape_state_t * Z * Z * Z)%type.

Definition view_of (t : tape_t) : view :=
  (tape_state t, header_byte_count t, data_byte_count t, eof_byte_count t).

(** The counter of a block parser after a byte, and whether the block
    is finished. *)
Definition block_count (byte_count data_byte : Z) : Z * bool :=
  if byte_count <? 0 then (data_byte, false)
  else (byte_count - 1, byte_count - 1 <? 0).

(** One captured byte on the view; the flag tells that the byte made
    the handler write the file out. *)
Definition fsm (data_byte : Z) (v : view) : view * bool :=
  let '(st, hc, dc, ec) := v in
  match st with
  | CAS_STREAM_IDLE =>
      ((if data_byte =? 0x55 then CAS_STREAM_LEADER else CAS_STREAM_IDLE,
        hc, dc, ec), false)
  | CAS_STREAM_LEADER =>
      ((if data_byte =? 0x55 then CAS_STREAM_LEADER
        else if data_byte =? 0x3c then CAS_STREAM_SYNC
        else CAS_STREAM_IDLE, hc, dc, ec), false)
  | CAS_STREAM_SYNC =>
      ((if data_byte =? 0x00 then CAS_STREAM_HEADER
        else if data_byte =? 0x01 then CAS_STREAM_DATA
        else if data_byte =? 0xff then CAS_STREAM_EOF
        else CAS_STREAM_IDLE, hc, dc, ec), false)
  | CAS_STREAM_HEADER =>
      let '(hc, fin) := block_count hc data_byte in
      ((if fin then CAS_STREAM_LEADER else CAS_STREAM_HEADER, hc, dc, ec),
       false)
  | CAS_STREAM_DATA =>
      let '(dc, fin) := block_count dc data_byte in
      ((if fin then CAS_STREAM_LEADER else CAS_STREAM_DATA, hc, dc, ec),
       false)
  | CAS_STREAM_EOF =>
      let '(ec, fin) := block_count ec data_byte in
      ((if fin then CAS_STREAM_WRITE else CAS_STREAM_EOF, hc, dc, ec),
       false)
  | CAS_STREAM_WRITE => ((CAS_STREAM_IDLE, hc, dc, ec), true)
  end.

(** A sequence of captured bytes on the view, counting the files
    written. *)
Definition fsm_run (bytes : list Z) (vk : view * nat) : view * nat :=
  fold_left
    (fun vk b =>
       let '(v, flushed) := fsm b (fst vk) in
       (v, if flushed then S (snd vk) else snd vk))
    bytes vk.

(** The view between blocks, in state [st]. *)
Definition between (st : cas_tape_state_t) : view := (st, -1, -1, -1).

(** The capture so far is [pre] and no file has been written. *)
Definition captured (pre : list Z) (t : tape_t) : Prop :=
  stream_index t = Z.of_nat (length pre) /\
  take (length pre) (cas_stream_buffer t) = pre /\
  Z.of_nat (length (cas_stream_buffer t)) = CAS_STREAM_SIZE /\
  written t = [].

(** *** CAS streams *)

(** A block: type, length, payload, checksum. *)
Definition cas_block (type : Z) (payload : list Z) (cksum : Z) : list Z :=
  type :: Z.of_nat (length payload) :: payload ++ [cksum].

Definition leader (k : nat) : list Z := replicate k 0x55.

(** The stream as the specification words it: a leader of at least one
    byte, the sync byte, the header block, the data blocks and the EOF
    block one after the other. A block is given by its payload and its
    checksum. *)
Definition spec_stream (k : nat) (header : list Z * Z)
    (blocks : list (list Z * Z)) (eof : list Z * Z) : list Z :=
  leader (S k) ++ [0x3c]
  ++ cas_block 0x00 (fst header) (snd header)
  ++ concat (map (fun b => cas_block 0x01 (fst b) (snd b)) blocks)
  ++ cas_block 0xff (fst eof) (snd eof).

(** A block on tape: leader bytes, the sync byte, the block. *)
Definition framed (k : nat) (type : Z) (b : list Z * Z) : list Z :=
  leader k ++ [0x3c] ++ cas_block type (fst b) (snd b).

(** The stream in which every block has its own leader and sync byte,
    with at least one leader byte at the very start. *)
Definition framed_stream (header : nat * (list Z * Z))
    (blocks : list (nat * (list Z * Z))) (eof : nat * (list Z * Z))
    : list Z :=
  leader 1 ++ framed (fst header) 0x00 (snd header)
  ++ concat (map (fun b => framed (fst b) 0x01 (snd b)) blocks)
  ++ framed (fst eof) 0xff (snd eof).

(** The handler keeps [i] inside the buffer, and what it has written
    out is no longer than the buffer. *)
Definition tape_inv (t : tape_t) : Prop :=
  0 <= stream_index t <= CAS_STREAM_SIZE - 1 /\
  Z.of_nat (length (cas_stream_buffer t)) = CAS_STREAM_SIZE /\
  Forall (fun f => Z.of_nat (length f) <= CAS_STREAM_SIZE - 1) (written t).

(** The byte sequence of end-to-end scenario 5 of the specification. *)
Definition scenario_5 : list Z :=
  [0x55; 0x55; 0x3c; 0x00; 0x0f; 0x48; 0x45; 0x4c; 0x4c; 0x4f; 0; 0; 0;
   0x02; 0x00; 0x00; 0xff; 0x01; 0x02; 0x41; 0x42; 0x00; 0xff; 0x00].

(** A header payload: eight name bytes, file type, ASCII flag, gap
    flag, start and load address. *)
Definition hello_header : list Z * Z :=
  ([0x48; 0x45; 0x4c; 0x4c; 0x4f; 0x20; 0x20; 0x20; 0; 0; 0; 0; 0; 0; 0],
   0x9b).

(** [n] calls of the handler with the program counter at [pc], the
    stack pointer at [s] and [byte] on the bus. *)
Definition calls (n : nat) (pc s byte : Z) : list call :=
  replicate n (mk_call pc s (fun _ => byte) 0).

(** What has been captured since the last file was written: the
    buffer up to the index. *)
Definition pending (t : tape_t) : list Z :=
  take (Z.to_nat (stream_index t)) (cas_stream_buffer t).

(** The name a header payload leaves in [file_name]: its first eight
    alphanumeric bytes. *)
Definition name_of (payload : list Z) : list Z :=
  take 8 (List.filter isalnum payload).

(** The state in which the header block that follows a leader byte and
    the sync byte is parsed after power-on. *)
Definition at_header : tape_t := capture_all [0x55; 0x3c; 0x00] tape_init.

End Tape.

(** ** fat32.c *)

Module Fat32.

Definition FAT32_SEC_SIZE : Z := 512.
Definition FAT32_CLUS_PER_SECTOR : Z := FAT32_SEC_SIZE / 4.
Definition FAT32_FAT_MASK : Z := 0x0fffffff.
Definition FAT32_VALID_CLUST_LOW : Z := 0x00000002.
Definition FAT32_VALID_CLUST_HIGH : Z := 0x0fffffef.
Definition FAT32_END_OF_CHAIN : Z := 0x0ffffff8.

Definition NO_ERROR : Z := 0.
Definition FAT_FILE_NOT_OPEN : Z := -19.
Definition FAT_FILE_SEEK_RANGE : Z := -20.
Definition FAT_FILE_SEEK_ERR : Z := -21.
Definition FAT_FILE_OPEN_ERR : Z := -22.

Record fat_param_t : Type := mk_fat_param {
  first_lba : Z;
  fat_begin_lba : Z;
  cluster_begin_lba : Z;
  sectors_per_cluster : Z;
  sectors_per_fat : Z;
  root_dir_first_cluster : Z
}.

(** [dir_entry_t] without its short name, which nothing below reads;
    the long name by its characters before the NUL. *)
Record dir_entry_t : Type := mk_dir_entry {
  is_directory : Z;
  lfn : list Z;
  cluster_chain_head : Z;
  entry_file_size : Z;
  entry_dir_record_index : Z;
  entry_dir_record_lba : Z
}.

Record file_param_t : Type := mk_file {
  file_is_open : Z;
  file_start_cluster : Z;
  file_size : Z;
  current_position : Z;
  current_cluster : Z;
  is_end_of_chain : Z;
  current_base_lba : Z;
  current_lba_index : Z;
  current_byte_index : Z;
  eof_flag : Z;
  sector_cached : Z;
  dir_record_index : Z;
  dir_record_lba : Z
}.

Definition set_current_position (x : Z) (f : file_param_t) : file_param_t :=
  mk_file (file_is_open f) (file_start_cluster f) (file_size f) x
    (current_cluster f) (is_end_of_chain f) (current_base_lba f)
    (current_lba_index f) (current_byte_index f) (eof_flag f)
    (sector_cached f) (dir_record_index f) (dir_record_lba f).
Definition set_current_cluster (x : Z) (f : file_param_t) : file_param_t :=
  mk_file (file_is_open f) (file_start_cluster f) (file_size f)
    (current_position f) x (is_end_of_chain f) (current_base_lba f)
    (current_lba_index f) (current_byte_index f) (eof_flag f)
    (sector_cached f) (dir_record_index f) (dir_record_lba f).
Definition set_is_end_of_chain (x : Z) (f : file_param_t) : file_param_t :=
  mk_file (file_is_open f) (file_start_cluster f) (file_size f)
    (current_position f) (current_cluster f) x (current_base_lba f)
    (current_lba_index f) (current_byte_index f) (eof_flag f)
    (sector_cached f) (dir_record_index f) (dir_record_lba f).
Definition set_current_base_lba (x : Z) (f : file_param_t) : file_param_t :=
  mk_file (file_is_open f) (file_start_cluster f) (file_size f)
    (current_position f) (current_cluster f) (is_end_of_chain f) x
    (current_lba_index f) (current_byte_index f) (eof_flag f)
    (sector_cached f) (dir_record_index f) (dir_record_lba f).
Definition set_current_lba_index (x : Z) (f : file_param_t) : file_param_t :=
  mk_file (file_is_open f) (file_start_cluster f) (file_size f)
    (current_position f) (current_cluster f) (is_end_of_chain f)
    (current_base_lba f) x (current_byte_index f) (eof_flag f)
    (sector_cached f) (dir_record_index f) (dir_record_lba f).
Definition set_current_byte_index (x : Z) (f : file_param_t) : file_param_t :=
  mk_file (file_is_open f) (file_start_cluster f) (file_size f)
    (current_position f) (current_cluster f) (is_end_of_chain f)
    (current_base_lba f) (current_lba_index f) x (eof_flag f)
    (sector_cached f) (dir_record_index f) (dir_record_lba f).
Definition set_eof_flag (x : Z) (f : file_param_t) : file_param_t :=
  mk_file (file_is_open f) (file_start_cluster f) (file_size f)
    (current_position f) (current_cluster f) (is_end_of_chain f)
    (current_base_lba f) (current_lba_index f) (current_byte_index f)
    x (sector_cached f) (dir_record_index f) (dir_record_lba f).
Definition set_sector_cached (x : Z) (f : file_param_t) : file_param_t :=
  mk_file (file_is_open f) (file_start_cluster f) (file_size f)
    (current_position f) (current_cluster f) (is_end_of_chain f)
    (current_base_lba f) (current_lba_index f) (current_byte_index f)
    (eof_flag f) x (dir_record_index f) (dir_record_lba f).

(** The [uint32_t] read at [buffer + off], the processor being little
    endian. *)
Definition le32 (buffer : list Z) (off : Z) : Z :=
  rd buffer off + rd buffer (off + 1) * 256 + rd buffer (off + 2) * 65536
  + rd buffer (off + 3) * 16777216.

Section Volume.

(** The module's globals and the card: [sd_read_block lba] is the
    sector read, [None] for any error of the driver. *)
Variable fat32_initialized : bool.
Variable fat32_parameters : fat_param_t.
Variable sd_read_block : Z -> option (list Z).

Definition fat32_read_sector (lba : Z) : option (list Z) :=
  if negb fat32_initialized then None else sd_read_block lba.

(** The value left in [*next_cluster_num]; the callers below do not
    look at the error code. *)
Definition fat32_get_next_cluster_num (cluster_num : Z) : Z :=
  let fat32_sector_lba :=
    u32 (fat_begin_lba fat32_parameters
         + cluster_num / FAT32_CLUS_PER_SECTOR) in
  match fat32_read_sector fat32_sector_lba with
  | None => FAT32_END_OF_CHAIN
  | Some low_sector_buffer =>
      let fat32_sector_offset := (cluster_num mod FAT32_CLUS_PER_SECTOR) * 4 in
      Z.land (le32 low_sector_buffer fat32_sector_offset) FAT32_FAT_MASK
  end.

Definition fat32_get_cluster_base_lba (cluster : Z) : Z :=
  u32 (cluster_begin_lba fat32_parameters
       + (cluster - 2) * sectors_per_cluster fat32_parameters).

Definition fat32_fopen (directory_entry : dir_entry_t) (f : file_param_t)
    : Z * file_param_t :=
  if negb (is_directory directory_entry =? 0) || negb (file_is_open f =? 0)
  then (FAT_FILE_OPEN_ERR, f)
  else
    (NO_ERROR,
     mk_file 1 (cluster_chain_head directory_entry)
       (entry_file_size directory_entry) 0
       (cluster_chain_head directory_entry) 0
       (fat32_get_cluster_base_lba (cluster_chain_head directory_entry))
       0 0 (if entry_file_size directory_entry =? 0 then 1 else 0) 0
       (entry_dir_record_index directory_entry)
       (entry_dir_record_lba directory_entry)).

Definition fat32_fclose (f : file_param_t) : file_param_t :=
  mk_file 0 0 0 0 0 0 0 0 0 0 0 0 0.

(** How the [for] loop of [fat32_fseek()] ends: through its test or
    its [break], with [current_cluster_num] and the file as they are
    then, or through its [return]. *)
Inductive walk_t : Type :=
  | Walked (current_cluster_num : Z) (f : file_param_t)
  | WalkFailed (f : file_param_t).

Fixpoint seek_walk (n : nat) (current_cluster_num : Z) (f : file_param_t)
    : walk_t :=
  match n with
  | O => Walked current_cluster_num f
  | S n' =>
      let current_cluster_num :=
        fat32_get_next_cluster_num current_cluster_num in
      if current_cluster_num >=? FAT32_END_OF_CHAIN
      then Walked current_cluster_num (set_is_end_of_chain 1 f)
      else if (current_cluster_num >=? FAT32_VALID_CLUST_LOW)
              && (current_cluster_num <=? FAT32_VALID_CLUST_HIGH)
      then seek_walk n' current_cluster_num
             (set_current_cluster current_cluster_num f)
      else WalkFailed f
  end.

(** [byte_position] is a [uint32_t]. The division is the one of C
    where [sectors_per_cluster] is not 0. *)
Definition fat32_fseek (f : file_param_t) (byte_position : Z)
    : Z * file_param_t :=
  if file_is_open f =? 0 then (FAT_FILE_NOT_OPEN, f)
  else if byte_position >? file_size f then (FAT_FILE_SEEK_RANGE, f)
  else
    let cluster_index :=
      byte_position
      / (sectors_per_cluster fat32_parameters * FAT32_SEC_SIZE) in
    let current_cluster_num := file_start_cluster f in
    let f := set_current_cluster current_cluster_num f in
    let f := set_is_end_of_chain 0 f in
    match seek_walk (Z.to_nat cluster_index) current_cluster_num f with
    | WalkFailed f => (FAT_FILE_SEEK_ERR, f)
    | Walked current_cluster_num f =>
        let f :=
          if negb (is_end_of_chain f =? 0) then
            set_current_lba_index 0 (set_current_base_lba 0 f)
          else
            set_current_lba_index
              (u8 ((byte_position / FAT32_SEC_SIZE)
                   mod sectors_per_cluster fat32_parameters))
              (set_current_base_lba
                 (fat32_get_cluster_base_lba current_cluster_num) f) in
        let f := set_current_byte_index
                   (u16 (byte_position mod FAT32_SEC_SIZE)) f in
        let f := set_sector_cached 0 f in
        let f := set_current_position byte_position f in
        let f := if byte_position =? file_size f
                 then set_eof_flag 1 f else set_eof_flag 0 f in
        (NO_ERROR, f)
    end.

(** The cluster [j] links after [cluster] in the table. *)
Definition cluster_chain (j : nat) (cluster : Z) : Z :=
  Nat.iter j fat32_get_next_cluster_num cluster.

Definition valid_cluster (cluster : Z) : Prop :=
  FAT32_VALID_CLUST_LOW <= cluster <= FAT32_VALID_CLUST_HIGH.

End Volume.

(** *** A small volume
    Two sectors per cluster, the table in sector 32, the clusters from
    sector 1000 on; one file of 5000 bytes in the clusters 5, 6 and 7,
    whose chain ends there, two clusters short of the size. *)

Definition le32_bytes (x : Z) : list Z :=
  [x mod 256; (x / 256) mod 256; (x / 65536) mod 256; (x / 16777216) mod 256].

Definition small_volume : fat_param_t := mk_fat_param 0 32 1000 2 1 2.

Definition small_card (lba : Z) : option (list Z) :=
  if lba =? 32 then
    Some (concat (le32_bytes <$>
                    [0x0ffffff8; 0x0fffffff; 0x0fffffff; 0; 0; 6; 7;
                     0x0fffffff])
          ++ replicate 480 0)
  else None.

Definition short_file : file_param_t :=
  mk_file 1 5 5000 0 5 0 1006 0 0 0 0 0 31.

End Fat32.

(** ** sd.c *)

Module Sd.

Definition SD_BLOCK_SIZE : Z := 512.
Definition SD_READ_SINGLE_BLOCK : Z := 17.
Definition SD_WRITE_BLOCK : Z := 24.

Definition crc_lookup_table : list Z :=
  [ 0x00; 0x09; 0x12; 0x1b; 0x24; 0x2d; 0x36; 0x3f; 0x48; 0x41; 0x5a; 0x53; 0x6c; 0x65; 0x7e; 0x77;
    0x19; 0x10; 0x0b; 0x02; 0x3d; 0x34; 0x2f; 0x26; 0x51; 0x58; 0x43; 0x4a; 0x75; 0x7c; 0x67; 0x6e;
    0x32; 0x3b; 0x20; 0x29; 0x16; 0x1f; 0x04; 0x0d; 0x7a; 0x73; 0x68; 0x61; 0x5e; 0x57; 0x4c; 0x45;
    0x2b; 0x22; 0x39; 0x30; 0x0f; 0x06; 0x1d; 0x14; 0x63; 0x6a; 0x71; 0x78; 0x47; 0x4e; 0x55; 0x5c;
    0x64; 0x6d; 0x76; 0x7f; 0x40; 0x49; 0x52; 0x5b; 0x2c; 0x25; 0x3e; 0x37; 0x08; 0x01; 0x1a; 0x13;
    0x7d; 0x74; 0x6f; 0x66; 0x59; 0x50; 0x4b; 0x42; 0x35; 0x3c; 0x27; 0x2e; 0x11; 0x18; 0x03; 0x0a;
    0x56; 0x5f; 0x44; 0x4d; 0x72; 0x7b; 0x60; 0x69; 0x1e; 0x17; 0x0c; 0x05; 0x3a; 0x33; 0x28; 0x21;
    0x4f; 0x46; 0x5d; 0x54; 0x6b; 0x62; 0x79; 0x70; 0x07; 0x0e; 0x15; 0x1c; 0x23; 0x2a; 0x31; 0x38;
    0x41; 0x48; 0x53; 0x5a; 0x65; 0x6c; 0x77; 0x7e; 0x09; 0x00; 0x1b; 0x12; 0x2d; 0x24; 0x3f; 0x36;
    0x58; 0x51; 0x4a; 0x43; 0x7c; 0x75; 0x6e; 0x67; 0x10; 0x19; 0x02; 0x0b; 0x34; 0x3d; 0x26; 0x2f;
    0x73; 0x7a; 0x61; 0x68; 0x57; 0x5e; 0x45; 0x4c; 0x3b; 0x32; 0x29; 0x20; 0x1f; 0x16; 0x0d; 0x04;
    0x6a; 0x63; 0x78; 0x71; 0x4e; 0x47; 0x5c; 0x55; 0x22; 0x2b; 0x30; 0x39; 0x06; 0x0f; 0x14; 0x1d;
    0x25; 0x2c; 0x37; 0x3e; 0x01; 0x08; 0x13; 0x1a; 0x6d; 0x64; 0x7f; 0x76; 0x49; 0x40; 0x5b; 0x52;
    0x3c; 0x35; 0x2e; 0x27; 0x18; 0x11; 0x0a; 0x03; 0x74; 0x7d; 0x66; 0x6f; 0x50; 0x59; 0x42; 0x4b;
    0x17; 0x1e; 0x05; 0x0c; 0x33; 0x3a; 0x21; 0x28; 0x5f; 0x56; 0x4d; 0x44; 0x7b; 0x72; 0x69; 0x60;
    0x0e; 0x07; 0x1c; 0x15; 0x2a; 0x23; 0x38; 0x31; 0x46; 0x4f; 0x54; 0x5d; 0x62; 0x6b; 0x70; 0x79 ].

(** [sd_get_crc7()]; [None] stands for a read outside the table. *)
Definition crc7_step (crc : option Z) (m : Z) : option Z :=
  crc ← crc;
  let i := Z.lxor (Z.shiftl crc 1) m in
  if i <? 0 then None else crc_lookup_table !! Z.to_nat i.

Definition sd_get_crc7 (message : list Z) : option Z :=
  fold_left crc7_step message (Some 0).

(** One turn of the inner loop of [sd_get_crc16()], on a [uint16_t]. *)
Definition crc16_bit (crc : Z) : Z :=
  if bits_set crc 0x8000
  then u16 (Z.lxor (Z.shiftl crc 1) 0x1021)
  else u16 (Z.shiftl crc 1).

Definition crc16_byte (crc b : Z) : Z :=
  Nat.iter 8 crc16_bit (u16 (Z.lxor crc (Z.shiftl b 8))).

Definition sd_get_crc16 (buf : list Z) : Z := fold_left crc16_byte buf 0.

(** The command packet [sd_send_cmd()] hands to the SPI driver. *)
Definition mosi_buffer (cmd arg : Z) : option (list Z) :=
  let b0 := u8 (Z.lor 0x40 cmd) in
  let b1 := u8 (Z.shiftr arg 24) in
  let b2 := u8 (Z.shiftr arg 16) in
  let b3 := u8 (Z.shiftr arg 8) in
  let b4 := u8 (Z.shiftr arg 0) in
  crc ← sd_get_crc7 [b0; b1; b2; b3; b4];
  Some [b0; b1; b2; b3; b4; u8 (Z.lor (Z.shiftl crc 1) 1)].

(** The two bytes [sd_write_block()] sends after the block, and the
    test [sd_read_block()] makes on the two it receives. *)
Definition crc_bytes (buffer : list Z) : Z * Z :=
  let crc := sd_get_crc16 buffer in
  (Z.land (Z.shiftr crc 8) 0xff, Z.land crc 0xff).

Definition crc_accepted (buffer : list Z) (crc_high crc_low : Z) : bool :=
  sd_get_crc16 buffer =? Z.shiftl crc_high 8 + crc_low.

(** The argument of the read and write commands for a sector. *)
Definition block_address (lba : Z) : Z := u32 (lba * SD_BLOCK_SIZE).

End Sd.

(** ** loader.c *)

Module Loader.

Definition SCAN_CODE_Q : Z := 16.
Definition SCAN_CODE_ENTR : Z := 28.
Definition SCAN_CODE_UP : Z := 72.
Definition SCAN_CODE_DOWN : Z := 80.
Definition TERMINAL_STATUS_ROW : Z := 15.
Definition TERMINAL_LIST_LENGTH : Z := TERMINAL_STATUS_ROW - 1.
Definition TERMINAL_LINE_LENGTH : Z := 31.

(** The locals of [loader()] that say where the cursor is in the
    directory listing. *)
Record nav_t : Type := mk_nav {
  list_start : Z;
  prev_list_start : Z;
  highlighted_line : Z;
  list_length : Z
}.

(** What one turn of the main loop of [loader()] can be, as far as the
    cursor goes: a key that moves nothing (none of the four, or ENTER
    on a file that is neither loaded nor mounted), UP, DOWN, or ENTER
    on a directory, with [fat32_parse_dir()] returning [parsed] for
    it. Q, ENTER on a file that is loaded or mounted, and a directory
    that cannot be read leave the loop. *)
Inductive key_t : Type :=
  | KeyNone | KeyUp | KeyDown | KeyEnterDir (parsed : Z).

(** The branch of [SCAN_CODE_UP]. *)
Definition key_up (n : nav_t) : nav_t :=
  let highlighted_line := highlighted_line n - 1 in
  if highlighted_line <? 0 then
    let highlighted_line := 0 in
    let list_start :=
      if list_start n >? 0 then list_start n - 1 else list_start n in
    mk_nav list_start (prev_list_start n) highlighted_line (list_length n)
  else
    mk_nav (list_start n) (prev_list_start n) highlighted_line (list_length n).

(** The branch of [SCAN_CODE_DOWN]. *)
Definition key_down (n : nav_t) : nav_t :=
  let highlighted_line := highlighted_line n + 1 in
  if highlighted_line =? list_length n then
    mk_nav (list_start n) (prev_list_start n) (highlighted_line - 1)
      (list_length n)
  else if highlighted_line >? TERMINAL_LIST_LENGTH then
    let highlighted_line := TERMINAL_LIST_LENGTH in
    let list_start := list_start n + 1 in
    let list_start :=
      if list_length n - list_start <? TERMINAL_LIST_LENGTH + 1
      then list_length n - (TERMINAL_LIST_LENGTH + 1) else list_start in
    mk_nav list_start (prev_list_start n) highlighted_line (list_length n)
  else
    mk_nav (list_start n) (prev_list_start n) highlighted_line (list_length n).

(** One turn of the loop: the key, then the redraw test at the end of
    the loop body; [None] where the loop is left (the directory could
    not be read). The flag tells that the listing was redrawn. *)
Definition loader_turn (k : key_t) (n : nav_t) : option (nav_t * bool) :=
  let moved :=
    match k with
    | KeyNone => Some n
    | KeyUp => Some (key_up n)
    | KeyDown => Some (key_down n)
    | KeyEnterDir parsed =>
        if parsed =? -1 then None else Some (mk_nav 0 0 0 parsed)
    end in
  n ← moved;
  if negb (list_start n =? prev_list_start n)
  then Some (mk_nav (list_start n) (list_start n) (highlighted_line n)
               (list_length n), true)
  else Some (n, false).

Fixpoint loader_turns (ks : list key_t) (n : nav_t) : option nav_t :=
  match ks with
  | [] => Some n
  | k :: ks' => '(n', _) ← loader_turn k n; loader_turns ks' n'
  end.

(** The locals as the loop is entered, for a listing of [parsed]
    entries. *)
Definition nav_init (parsed : Z) : nav_t := mk_nav 0 (-1) 0 parsed.

(** The entry ENTER selects, [directory_list[list_start +
    highlighted_line]], is one of the [list_length] entries parsed. *)
Definition cursor_in_listing (n : nav_t) : Prop :=
  0 <= list_start n /\
  0 <= highlighted_line n <= TERMINAL_LIST_LENGTH /\
  list_start n + highlighted_line n < list_length n /\
  (list_start n = 0 \/
   list_start n + TERMINAL_LIST_LENGTH < list_length n).

(** The listings ENTER opens among the keys. *)
Definition listing_sizes (ks : list key_t) : list Z :=
  omap (fun k => match k with KeyEnterDir p => Some p | _ => None end) ks.

(** [toupper()] in the C locale. *)
Definition toupper (c : Z) : Z :=
  if (0x61 <=? c) && (c <=? 0x7a) then c - 32 else c.

(** [text_write()], from the cell [count] of the text screen on: the
    calls of [mem_write()] it makes, address and value, in order. The
    string is given by its characters, the terminating NUL being the
    end of the list or the first 0 in it. *)
Fixpoint text_write_from (count : Z) (text : list Z) : list (Z * Z) :=
  match text with
  | [] => []
  | c :: text' =>
      if negb (c =? 0) && (count <? 512)
      then (0x400 + count, Z.land (toupper c) 0xbf)
           :: text_write_from (count + 1) text'
      else []
  end.

Definition text_write (row col : Z) (text : list Z) : list (Z * Z) :=
  text_write_from (row * 32 + col) text.

(** One turn of the loop of [text_dir_output()]: the writes of the
    row, [None] where [directory_list] is read outside the array. *)
Definition text_dir_row (list_start list_length : Z)
    (directory_list : list Fat32.dir_entry_t) (row : Z)
    : option (list (Z * Z)) :=
  if row + list_start <? list_length then
    if row + list_start <? 0 then None
    else
      e ← directory_list !! Z.to_nat (row + list_start);
      Some ((if negb (Fat32.is_directory e =? 0)
             then text_write row 0 [0x2a] else [])
            ++ text_write row 1
                 (take (Z.to_nat TERMINAL_LINE_LENGTH) (Fat32.lfn e)))
  else Some [].

Fixpoint text_dir_rows (n : nat) (row : Z) (list_start list_length : Z)
    (directory_list : list Fat32.dir_entry_t) : option (list (Z * Z)) :=
  match n with
  | O => Some []
  | S n' =>
      w ← text_dir_row list_start list_length directory_list row;
      ws ← text_dir_rows n' (row + 1) list_start list_length directory_list;
      Some (w ++ ws)
  end.

Definition text_dir_output (list_start list_length : Z)
    (directory_list : list Fat32.dir_entry_t) : option (list (Z * Z)) :=
  text_dir_rows (Z.to_nat (TERMINAL_LIST_LENGTH + 1)) 0
    list_start list_length directory_list.

End Loader.

(** * Properties *)

Section VdgModeProofs.
Import Vdg.

Lemma vdg_get_mode_total sam pia : is_Some (vdg_get_mode sam pia).
Proof.
  unfold vdg_get_mode, bits_set.
  repeat match goal with |- context [if ?b then _ else _] => destruct b eqn:? end;
    eauto; discriminate.
Qed.

Lemma vdg_get_mode_dma pia : vdg_get_mode 7 pia = Some DMA.
Proof. reflexivity. Qed.

(** C1. The decoder does not realise the row "4 / A / - : SG12 or SG24"
    of the mode matrix: with SAM mode 4 and PIA bits [0x02] it answers
    [UNDEFINED], which is in no row, and no input at all makes it answer
    [SEMI_GRAPHICS_24], whose branch repeats the condition of the
    [SEMI_GRAPHICS_12] branch. SAM mode 7 gives [DMA] as the matrix says. *)
Theorem vdg_get_mode_semi24_unreachable :
  vdg_get_mode 4 0x02 = Some UNDEFINED /\
  spec_mode_table 4 0x02 = Some [SEMI_GRAPHICS_12; SEMI_GRAPHICS_24] /\
  (forall sam pia, vdg_get_mode sam pia <> Some SEMI_GRAPHICS_24) /\
  (forall pia, vdg_get_mode 7 pia = Some DMA).
Proof.
  split; [reflexivity|]. split; [reflexivity|]. split; [|reflexivity].
  intros sam pia. unfold vdg_get_mode, bits_set.
  destruct (sam =? 7); [discriminate|].
  destruct (negb (Z.land pia 16 =? 0)).
  - destruct (Z.land pia 14) as [|[[[[]|[]|]|[[]|[]|]|]|[[[]|[]|]|[[]|[]|]|]|]|];
      discriminate.
  - destruct (Z.land pia 16 =? 0); [|discriminate].
    destruct ((sam =? 0) && (Z.land pia 2 =? 0)); [discriminate|].
    destruct ((sam =? 0) && negb (Z.land pia 2 =? 0)); [discriminate|].
    destruct ((sam =? 2) && (Z.land pia 2 =? 0)); [discriminate|].
    destruct ((sam =? 4) && (Z.land pia 2 =? 0)); discriminate.
Qed.

End VdgModeProofs.

(** ** Bits of a status byte *)

Lemma bits_set_1 x : bits_set x 1 = Z.testbit x 0.
Proof.
  unfold bits_set. change 1 with (Z.ones 1) at 1.
  rewrite Z.land_ones by lia. rewrite <- Z.bit0_mod.
  destruct (Z.testbit x 0); reflexivity.
Qed.

Lemma testbit_u8 x n : 0 <= n < 8 -> Z.testbit (u8 x) n = Z.testbit x n.
Proof.
  intros Hn. unfold u8. change 256 with (2 ^ 8).
  apply Z.mod_pow2_bits_low. lia.
Qed.

Lemma testbit_clear x mask n :
  0 <= n < 8 ->
  Z.testbit (u8 (Z.land x (Z.lnot mask))) n
  = Z.testbit x n && negb (Z.testbit mask n).
Proof.
  intros Hn. rewrite testbit_u8 by assumption.
  rewrite Z.land_spec, Z.lnot_spec by lia. reflexivity.
Qed.

Section DiskProofs.
Import Disk.

(** *** Projections of updated states

    A projection is pushed through an update by rewriting with an
    equation proved on variables, so that no step compares two large
    states. *)

Ltac is_disk_proj p :=
  lazymatch p with
  | disk_cmd => idtac | disk_status => idtac | disk_track => idtac
  | disk_sector => idtac | disk_data => idtac | motor_on => idtac
  | disk_drive_num => idtac | disk_double_density => idtac
  | nmi_inhibit => idtac | state => idtac | vdk_header => idtac
  | buffer => idtac | buffer_index => idtac | time_mark => idtac
  | img_type => idtac | img_data => idtac | img_pos => idtac
  | trace => idtac
  end.

Ltac is_disk_set s :=
  lazymatch s with
  | set_disk_cmd => idtac | set_disk_status => idtac
  | set_disk_track => idtac | set_disk_sector => idtac
  | set_disk_data => idtac | set_motor_on => idtac
  | set_disk_double_density => idtac | set_nmi_inhibit => idtac
  | set_state => idtac | set_vdk_header => idtac | set_buffer => idtac
  | set_buffer_index => idtac | set_time_mark => idtac
  | set_img_type => idtac | set_img_data => idtac | set_img_pos => idtac
  | set_trace => idtac | emit => idtac | clear_status => idtac
  end.

Ltac disk_rw_with p s x d rw :=
  is_disk_proj p; is_disk_set s;
  first
    [ let H := fresh in
      assert (H : forall x' d', p (s x' d') = p d') by reflexivity;
      rw (H x d); clear H
    | let H := fresh in
      assert (H : forall x' d', p (s x' d') = x') by reflexivity;
      rw (H x d); clear H ].

Ltac disk_rw :=
  repeat match goal with
  | |- context [?p (?s ?x ?d)] =>
      disk_rw_with p s x d ltac:(fun e => rewrite e)
  end.

(** *** What the file calls leave alone *)

Lemma fseek_ctl p d :
  let d' := loader_disk_fseek p d in
  state d' = state d /\ disk_status d' = disk_status d.
Proof.
  unfold loader_disk_fseek.
  destruct (_ && _); cbv zeta; disk_rw; split; reflexivity.
Qed.

Lemma fwrite_ctl w d :
  let d' := loader_disk_fwrite w d in
  state d' = state d /\ disk_status d' = disk_status d.
Proof.
  unfold loader_disk_fwrite.
  destruct (_ && _); cbv zeta; disk_rw; split; reflexivity.
Qed.

Lemma disk_intrq_ctl d :
  state (disk_intrq d) = state d /\
  disk_status (disk_intrq d) = disk_status d.
Proof. unfold disk_intrq. destruct (_ =? _); split; reflexivity. Qed.

(** *** C8 and C9: guarded register writes *)

(** C8. While Busy is set, a write of a command byte other than FORCE
    INTERRUPT to the command register latches the byte and does nothing
    else: state, status, track, sector and data registers, the image
    file and the trace of interrupts and file calls are as before. *)
Theorem cmd_write_while_busy_latches_only d data :
  Z.testbit (disk_status d) 0 = true ->
  data <> WDCmdForceInt ->
  exists d',
    io_handler_wd2797_cmd_stat data MEM_WRITE d = Some (d', 0) /\
    d' = set_disk_cmd data d /\
    disk_cmd d' = data /\
    state d' = state d /\ disk_status d' = disk_status d /\
    disk_track d' = disk_track d /\ disk_sector d' = disk_sector d /\
    disk_data d' = disk_data d /\
    img_data d' = img_data d /\ img_pos d' = img_pos d /\
    trace d' = trace d.
Proof.
  intros Hbusy Hcmd. exists (set_disk_cmd data d).
  split; [|repeat split; reflexivity].
  unfold io_handler_wd2797_cmd_stat.
  destruct (data =? WDCmdForceInt) eqn:E; [apply Z.eqb_eq in E; contradiction|].
  change (disk_status (set_disk_cmd data d)) with (disk_status d).
  unfold WDBusy. rewrite bits_set_1, Hbusy. reflexivity.
Qed.

(** A READ SECTOR command written while a sector is being read. *)
Lemma cmd_write_while_busy_witness :
  exists d',
    io_handler_wd2797_cmd_stat 0x88 MEM_WRITE
      (set_disk_status 0x01 (set_state DISK_READ (disk_init FILE_NONE [])))
    = Some (d', 0) /\ disk_cmd d' = 0x88 /\ state d' = DISK_READ.
Proof.
  destruct (cmd_write_while_busy_latches_only
              (set_disk_status 0x01 (set_state DISK_READ (disk_init FILE_NONE [])))
              0x88) as (d' & H & _ & Hc & Hs & _).
  - reflexivity.
  - discriminate.
  - exists d'. split; [exact H|]. split; [exact Hc|exact Hs].
Defined.

(** C9. A write to the track register or to the sector register counts
    only when the whole status register is zero: with a status other
    than zero the register keeps its value and the handler returns that
    value; with status zero the register takes the byte. *)
Theorem track_sector_write_needs_zero_status d data :
  (disk_status d <> 0 ->
     io_handler_wd2797_track data MEM_WRITE d = (d, disk_track d) /\
     io_handler_wd2797_sector data MEM_WRITE d = (d, disk_sector d)) /\
  (disk_status d = 0 ->
     io_handler_wd2797_track data MEM_WRITE d = (set_disk_track data d, 0) /\
     io_handler_wd2797_sector data MEM_WRITE d = (set_disk_sector data d, 0)).
Proof.
  unfold io_handler_wd2797_track, io_handler_wd2797_sector. split.
  - intros H. apply Z.eqb_neq in H. rewrite H. split; reflexivity.
  - intros H. rewrite H. split; reflexivity.
Qed.

(** After [disk_init()] the status is Track0, not zero: the write is
    dropped. After a SEEK to a track other than 0 the status is zero: the
    write goes through. *)
Lemma track_sector_write_witness :
  (io_handler_wd2797_track 7 MEM_WRITE (disk_init FILE_NONE [])
   = (disk_init FILE_NONE [], 0) /\
   io_handler_wd2797_sector 7 MEM_WRITE (disk_init FILE_NONE [])
   = (disk_init FILE_NONE [], 1)) /\
  (io_handler_wd2797_track 7 MEM_WRITE
     (set_disk_status 0 (disk_init FILE_NONE []))
   = (set_disk_track 7 (set_disk_status 0 (disk_init FILE_NONE [])), 0) /\
   io_handler_wd2797_sector 7 MEM_WRITE
     (set_disk_status 0 (disk_init FILE_NONE []))
   = (set_disk_sector 7 (set_disk_status 0 (disk_init FILE_NONE [])), 0)).
Proof.
  split.
  - apply (proj1 (track_sector_write_needs_zero_status
                    (disk_init FILE_NONE []) 7)).
    discriminate.
  - apply (proj2 (track_sector_write_needs_zero_status
                    (set_disk_status 0 (disk_init FILE_NONE [])) 7)).
    reflexivity.
Defined.

(** *** C6: the Busy invariant *)

Lemma busy_inv_ext d d' :
  state d' = state d -> disk_status d' = disk_status d ->
  busy_inv d -> busy_inv d'.
Proof. unfold busy_inv. intros -> ->. auto. Qed.

Lemma busy_inv_idle d : is_idle (state d) = true -> busy_inv d.
Proof. unfold busy_inv. intros ->. discriminate. Qed.

Lemma busy_inv_busy d : Z.testbit (disk_status d) 0 = true -> busy_inv d.
Proof. unfold busy_inv, WDBusy. rewrite bits_set_1. auto. Qed.

Lemma busy_inv_clear_drq d : busy_inv d -> busy_inv (clear_status WDDRQ d).
Proof.
  unfold busy_inv, clear_status, WDBusy. disk_rw. rewrite !bits_set_1.
  intros H Hs. rewrite testbit_clear by lia. rewrite (H Hs). reflexivity.
Qed.

Lemma busy_inv_disk_inv d : busy_inv d -> disk_inv d.
Proof.
  unfold busy_inv, disk_inv, WDBusy. rewrite bits_set_1. intros H Hs.
  left. auto.
Qed.

Lemma busy_inv_init ty image : busy_inv (disk_init ty image).
Proof. apply busy_inv_idle. reflexivity. Qed.

Lemma post_elim {A} (P : disk_t -> Prop) (o : option (disk_t * A)) d r :
  post P o -> o = Some (d, r) -> P d.
Proof. intros H ->. exact H. Qed.

Lemma cmd_stat_busy_inv data op d :
  busy_inv d -> post busy_inv (io_handler_wd2797_cmd_stat data op d).
Proof.
  intros Hinv. unfold io_handler_wd2797_cmd_stat.
  destruct op; [exact Hinv|]. cbv zeta.
  assert (Hsame : busy_inv (set_disk_cmd data d)).
  { revert Hinv. apply busy_inv_ext; reflexivity. }
  destruct (data =? WDCmdForceInt); [apply busy_inv_idle; reflexivity|].
  destruct (negb _); [|exact Hsame].
  destruct (_ =? WDCmdRestore).
  { apply busy_inv_idle. rewrite (proj1 (disk_intrq_ctl _)). reflexivity. }
  destruct (_ =? WDCmdSeek).
  { apply busy_inv_idle. rewrite (proj1 (disk_intrq_ctl _)).
    destruct (_ =? 0); reflexivity. }
  destruct (data =? WDCmdReadSec).
  { destruct (mounted _); [|exact Hsame].
    destruct (command_seek_address _) as [a d1].
    destruct (loader_disk_fread _ _) as [got d2].
    apply busy_inv_busy. reflexivity. }
  destruct (data =? WDCmdWriteSec).
  { destruct (mounted _); [|exact Hsame].
    destruct (command_seek_address _) as [a d1].
    apply busy_inv_busy. reflexivity. }
  destruct (data =? WDCmdReadAddr); [apply busy_inv_busy; reflexivity|].
  destruct (data =? WDCmdWriteTrack); [|exact I].
  destruct (mounted _); [|exact Hsame].
  destruct (command_seek_address _) as [a d1].
  apply busy_inv_busy. reflexivity.
Qed.

Lemma data_busy_inv data op d :
  busy_inv d -> post busy_inv (io_handler_wd2797_data data op d).
Proof.
  intros Hinv. unfold io_handler_wd2797_data.
  assert (Hclr : forall x y,
    busy_inv (set_buffer_index x (clear_status WDDRQ (set_disk_data y d)))).
  { intros x y.
    eapply busy_inv_ext; [| |apply (busy_inv_clear_drq d Hinv)]; reflexivity. }
  destruct (state d) eqn:Hst; [exact I| | | | |].
  - destruct op; apply busy_inv_idle; disk_rw; rewrite Hst; reflexivity.
  - destruct op; [|exact Hinv]. cbv zeta.
    match goal with |- context [if ?b then _ else _] => destruct b end.
    + apply busy_inv_idle. reflexivity.
    + apply Hclr.
  - destruct op; [exact Hinv|]. cbv zeta.
    match goal with |- context [if ?b then _ else _] => destruct b end.
    + apply busy_inv_idle. cbn [post]. disk_rw.
      rewrite (proj1 (fwrite_ctl _ _)). reflexivity.
    + generalize (Hclr (buffer_index d + 1) data).
      apply busy_inv_ext; reflexivity.
  - destruct op; [|exact Hinv]. cbv zeta.
    match goal with |- context [if ?b then _ else _] => destruct b end.
    + apply busy_inv_idle. reflexivity.
    + apply Hclr.
  - destruct op; [exact Hinv|]. cbv zeta.
    destruct (_ <? INIT_BYTE_SKIP); [apply Hclr|].
    destruct (_ <? _).
    { generalize (Hclr 0 data). apply busy_inv_ext; reflexivity. }
    apply busy_inv_idle. cbn [post]. disk_rw.
    rewrite (proj1 (fwrite_ctl _ _)), (proj1 (fseek_ctl _ _)).
    disk_rw. reflexivity.
Qed.

Lemma interrupt_busy_inv t1 t2 t3 d d' :
  busy_inv d -> disk_io_interrupt t1 t2 t3 d = Some d' -> busy_inv d'.
Proof.
  intros Hinv H.
  assert (H0 : busy_inv (if negb (is_idle (state d)) && (time_mark d =? 0)
                         then set_time_mark t1 d else d)).
  { destruct (_ && _); [|exact Hinv].
    revert Hinv. apply busy_inv_ext; reflexivity. }
  unfold disk_io_interrupt in H. cbv zeta in H.
  remember (if negb (is_idle (state d)) && (time_mark d =? 0)
            then set_time_mark t1 d else d) as d0 eqn:Hd0.
  clear Hd0 Hinv.
  destruct (_ && _); [|injection H as <-; exact H0].
  assert (Hdrq : busy_inv
    (emit EvFIRQ
       (set_disk_status (Z.lor (disk_status (set_time_mark t3 d0)) WDDRQ)
          (set_time_mark t3 d0)))).
  { revert H0. unfold busy_inv, WDBusy, WDDRQ. disk_rw.
    rewrite !bits_set_1.
    intros H0 Hs. rewrite Z.lor_spec, (H0 Hs). reflexivity. }
  destruct (state d0) eqn:Hst; try discriminate;
    try (injection H as <-; exact Hdrq).
  injection H as <-. apply busy_inv_idle.
  rewrite (proj1 (disk_intrq_ctl _)). disk_rw. rewrite Hst. reflexivity.
Qed.

Lemma drive_ctrl_busy_inv data op d :
  busy_inv d -> post busy_inv (io_handler_drive_ctrl data op d).
Proof.
  intros Hinv. unfold io_handler_drive_ctrl. cbv zeta.
  destruct (negb _); [exact I|].
  revert Hinv. destruct (negb _); apply busy_inv_ext; reflexivity.
Qed.

Lemma disk_step_busy_inv o d d' :
  busy_inv d -> disk_step o d = Some d' -> busy_inv d'.
Proof.
  intros Hinv H. destruct o; cbn [disk_step] in H.
  - destruct (io_handler_wd2797_cmd_stat data op d) as [[d1 r]|] eqn:E;
      [|discriminate].
    injection H as <-.
    exact (post_elim _ _ _ _ (cmd_stat_busy_inv data op d Hinv) E).
  - injection H as <-. unfold io_handler_wd2797_track.
    destruct (_ && _); cbn [fst]; [|exact Hinv].
    revert Hinv. apply busy_inv_ext; reflexivity.
  - injection H as <-. unfold io_handler_wd2797_sector.
    destruct (_ && _); cbn [fst]; [|exact Hinv].
    revert Hinv. apply busy_inv_ext; reflexivity.
  - destruct (io_handler_wd2797_data data op d) as [[d1 r]|] eqn:E;
      [|discriminate].
    injection H as <-.
    exact (post_elim _ _ _ _ (data_busy_inv data op d Hinv) E).
  - destruct (io_handler_drive_ctrl data op d) as [[d1 r]|] eqn:E;
      [|discriminate].
    injection H as <-.
    exact (post_elim _ _ _ _ (drive_ctrl_busy_inv data op d Hinv) E).
  - eapply interrupt_busy_inv; eauto.
  - destruct image; injection H as <-; revert Hinv;
      apply busy_inv_ext; reflexivity.
Qed.

Lemma disk_run_busy_inv ops : forall d d',
  busy_inv d -> disk_run ops d = Some d' -> busy_inv d'.
Proof.
  induction ops as [|o ops IH]; intros d d' Hinv H; cbn [disk_run] in H.
  - injection H as <-. exact Hinv.
  - destruct (disk_step o d) as [d1|] eqn:E; [|discriminate].
    cbn in H. eapply IH; [|exact H]. eapply disk_step_busy_inv; eauto.
Qed.

(** C6. In every state the controller reaches from [disk_init()] by
    register accesses, interrupt ticks and image changes, a state other
    than [DISK_IDLE] has the Busy bit or the DRQ bit of the status set
    (the Busy bit, in fact). *)
Theorem disk_not_idle_busy_or_drq ty image ops d :
  disk_run ops (disk_init ty image) = Some d -> disk_inv d.
Proof.
  intros H. apply busy_inv_disk_inv.
  eapply disk_run_busy_inv; [apply busy_inv_init|exact H].
Qed.

(** *** C2: READ SECTOR *)

Lemma mounted_vdk d : img_type d = FILE_VDK -> mounted d = true.
Proof. unfold mounted. intros ->. reflexivity. Qed.

Lemma fseek_mounted p d :
  mounted d = true -> 0 <= p <= Z.of_nat (length (img_data d)) ->
  loader_disk_fseek p d = set_img_pos p (emit (EvSeek p) d).
Proof.
  intros Hm Hp. unfold loader_disk_fseek. cbv zeta.
  assert (E1 : mounted (emit (EvSeek p) d) = true) by exact Hm.
  assert (E2 : img_data (emit (EvSeek p) d) = img_data d) by reflexivity.
  rewrite E1, E2.
  destruct (Z.leb_spec p (Z.of_nat (length (img_data d)))); [reflexivity|lia].
Qed.

Lemma fread_mounted n d :
  mounted d = true ->
  loader_disk_fread n d =
  (take (Z.to_nat n) (drop (Z.to_nat (img_pos d)) (img_data d)),
   set_img_pos
     (img_pos d
      + Z.of_nat (length (take (Z.to_nat n)
                            (drop (Z.to_nat (img_pos d)) (img_data d)))))
     (emit (EvRead n) d)).
Proof.
  intros Hm. unfold loader_disk_fread. cbv zeta.
  assert (E1 : mounted (emit (EvRead n) d) = true) by exact Hm.
  rewrite E1. reflexivity.
Qed.

Lemma rd_app_l l k i :
  0 <= i < Z.of_nat (length l) -> rd (l ++ k) i = rd l i.
Proof.
  intros Hi. unfold rd. rewrite lookup_app_l by lia. reflexivity.
Qed.

Lemma rd_take n l i :
  0 <= i < Z.of_nat n -> rd (take n l) i = rd l i.
Proof.
  intros Hi. unfold rd. rewrite lookup_take_lt by lia. reflexivity.
Qed.

Lemma header_size_overlay img old :
  (12 <= length img)%nat ->
  header_size (overlay (take 12 img) old) = header_size img.
Proof.
  intros H. unfold header_size, overlay.
  rewrite !rd_app_l by (rewrite length_take; lia).
  rewrite !rd_take by lia. reflexivity.
Qed.

Lemma command_seek_address_vdk d :
  img_type d = FILE_VDK -> (12 <= length (img_data d))%nat ->
  command_seek_address d =
  (u32 (disk_to_image_offset (disk_track d) (disk_sector d)
        + header_size (img_data d)),
   set_vdk_header (overlay (take 12 (img_data d)) (vdk_header d))
     (set_img_pos 12 (emit (EvRead 12) (set_img_pos 0 (emit (EvSeek 0) d))))).
Proof.
  intros Hty Hlen. unfold command_seek_address, is_vdk. rewrite Hty.
  cbv zeta. rewrite fseek_mounted by (auto using mounted_vdk; lia).
  rewrite fread_mounted by (unfold mounted; disk_rw; rewrite Hty; reflexivity).
  cbv beta iota. disk_rw.
  change (Z.to_nat SIZEOF_VDK_HEADER) with 12%nat.
  change (Z.to_nat 0) with 0%nat. rewrite drop_0.
  rewrite length_take, (Nat.min_l 12) by lia.
  rewrite header_size_overlay by assumption.
  reflexivity.
Qed.


Lemma cmd_read_sector_vdk d :
  Z.testbit (disk_status d) 0 = false ->
  img_type d = FILE_VDK -> (12 <= length (img_data d))%nat ->
  let off :=
    u32 (disk_to_image_offset (disk_track d) (disk_sector d)
         + header_size (img_data d)) in
  off <= Z.of_nat (length (img_data d)) ->
  exists d1,
    io_handler_wd2797_cmd_stat WDCmdReadSec MEM_WRITE d = Some (d1, 0) /\
    state d1 = DISK_READ /\ buffer_index d1 = 0 /\
    buffer d1 = overlay (take 256 (drop (Z.to_nat off) (img_data d))) (buffer d) /\
    disk_status d1 = WDBusy.
Proof.
  intros Hbusy Hty Hlen off Hoff.
  assert (Hoff0 : 0 <= off) by (apply Z.mod_pos_bound; lia).
  eexists. split.
  - unfold io_handler_wd2797_cmd_stat. cbv zeta.
    change (WDCmdReadSec =? WDCmdForceInt) with false.
    change (Z.land WDCmdReadSec WDCmdStepMask =? WDCmdRestore) with false.
    change (Z.land WDCmdReadSec WDCmdStepMask =? WDCmdSeek) with false.
    change (WDCmdReadSec =? WDCmdReadSec) with true.
    cbv iota. disk_rw. unfold WDBusy at 1. rewrite bits_set_1, Hbusy.
    cbv [negb]. cbv iota.
    unfold mounted at 1. disk_rw. rewrite Hty. cbv iota.
    rewrite command_seek_address_vdk by (disk_rw; assumption).
    cbv iota beta. disk_rw. fold off.
    rewrite fseek_mounted
      by (unfold mounted; disk_rw; rewrite ?Hty; first [reflexivity|lia]).
    rewrite fread_mounted by (unfold mounted; disk_rw; rewrite Hty; reflexivity).
    cbv iota beta. disk_rw.
    reflexivity.
  - disk_rw. repeat split; reflexivity.
Qed.

Lemma data_reads_S n d :
  data_reads (S n) d =
  match io_handler_wd2797_data 0 MEM_READ d with
  | Some (d1, r) =>
      match data_reads n d1 with
      | Some (rs, d2) => Some (r :: rs, d2)
      | None => None
      end
  | None => None
  end.
Proof.
  cbn [data_reads]. destruct (io_handler_wd2797_data 0 MEM_READ d) as [[d1 r]|];
    [|reflexivity].
  cbn. destruct (data_reads n d1) as [[rs d2]|]; reflexivity.
Qed.

(** One read of the data register while a sector is being read. *)
Lemma data_read_step d :
  state d = DISK_READ ->
  io_handler_wd2797_data 0 MEM_READ d =
  Some (let d1 :=
          set_buffer_index (buffer_index d + 1)
            (clear_status WDDRQ
               (set_disk_data (rd (buffer d) (buffer_index d)) d)) in
        if buffer_index d + 1 =? SECTOR_SIZE
        then clear_status WDBusy (set_state DISK_IDLE d1) else d1,
        rd (buffer d) (buffer_index d)).
Proof.
  intros Hst. unfold io_handler_wd2797_data. rewrite Hst. cbv zeta.
  disk_rw. reflexivity.
Qed.

Lemma data_reads_sector n : forall d,
  state d = DISK_READ -> 0 <= buffer_index d ->
  buffer_index d + Z.of_nat (S n) = SECTOR_SIZE ->
  exists d',
    data_reads (S n) d
    = Some (rd (buffer d) <$> seqZ (buffer_index d) (Z.of_nat (S n)), d') /\
    state d' = DISK_IDLE /\ Z.testbit (disk_status d') 0 = false.
Proof.
  induction n as [|n IH]; intros d Hst H0 Hn.
  - rewrite data_reads_S, (data_read_step d Hst). cbv zeta.
    destruct (Z.eqb_spec (buffer_index d + 1) SECTOR_SIZE) as [_|Hne]; [|lia].
    cbn [data_reads]. eexists. split; [reflexivity|].
    disk_rw. split; [reflexivity|].
    unfold clear_status. disk_rw. rewrite testbit_clear by lia. 
    apply andb_false_r.
  - rewrite data_reads_S, (data_read_step d Hst). cbv zeta.
    destruct (Z.eqb_spec (buffer_index d + 1) SECTOR_SIZE) as [He|_]; [lia|].
    destruct (IH (set_buffer_index (buffer_index d + 1)
                    (clear_status WDDRQ
                       (set_disk_data (rd (buffer d) (buffer_index d)) d))))
      as (d' & Hr & Hs & Hb).
    + disk_rw. exact Hst.
    + disk_rw. lia.
    + disk_rw. lia.
    + rewrite Hr. exists d'. split; [|split; assumption].
      disk_rw. rewrite (seqZ_cons _ (Z.of_nat (S (S n)))) by lia.
      rewrite fmap_cons.
      replace (Z.succ (buffer_index d)) with (buffer_index d + 1) by lia.
      replace (Z.pred (Z.of_nat (S (S n)))) with (Z.of_nat (S n)) by lia.
      reflexivity.
Qed.

Lemma fmap_rd_prefix l k :
  rd (l ++ k) <$> seqZ 0 (Z.of_nat (length l)) = l.
Proof.
  apply list_eq. intros i. rewrite list_lookup_fmap.
  destruct (decide (i < length l)%nat) as [Hi|Hi].
  - rewrite lookup_seqZ_lt by lia. cbn. unfold rd.
    rewrite Z.add_0_l, Nat2Z.id, lookup_app_l by lia.
    destruct (lookup_lt_is_Some_2 l i Hi) as [x Hx]. rewrite Hx. reflexivity.
  - rewrite lookup_seqZ_ge by lia. rewrite lookup_ge_None_2 by lia.
    reflexivity.
Qed.

Lemma code_offset_u32 img track sector :
  0 <= track < 256 -> 1 <= sector < 256 ->
  0 <= rd img 2 < 256 -> 0 <= rd img 3 < 256 ->
  u32 (disk_to_image_offset track sector + header_size img)
  = code_sector_offset (header_size img) track sector.
Proof.
  intros Ht Hs H2 H3.
  unfold disk_to_image_offset, code_sector_offset, header_size, u32, u16,
    SECTOR_SIZE, SEC_PER_TRACK.
  rewrite (Z.mod_small track), (Z.mod_small sector) by lia.
  rewrite (Z.mod_small (256 * _)) by lia.
  rewrite Z.mod_small by lia. lia.
Qed.

(** C2, as the controller does it. With a VDK image mounted and the
    controller not busy, READ SECTOR followed by 256 reads of the data
    register returns the 256 image bytes at
    [header_size + track*18*256 + (sector-1)*256], the header size
    being read from the image: the image is addressed as single-sided,
    whatever its header says about sides. After the last read the
    controller is idle and no longer busy. *)
Theorem read_sector_returns_image_bytes d :
  Z.testbit (disk_status d) 0 = false ->
  img_type d = FILE_VDK ->
  (12 <= length (img_data d))%nat ->
  0 <= rd (img_data d) 2 < 256 -> 0 <= rd (img_data d) 3 < 256 ->
  0 <= disk_track d < 256 -> 1 <= disk_sector d < 256 ->
  let off :=
    code_sector_offset (header_size (img_data d))
      (disk_track d) (disk_sector d) in
  off + 256 <= Z.of_nat (length (img_data d)) ->
  exists d1 d2,
    io_handler_wd2797_cmd_stat WDCmdReadSec MEM_WRITE d = Some (d1, 0) /\
    data_reads 256 d1
    = Some (take 256 (drop (Z.to_nat off) (img_data d)), d2) /\
    state d2 = DISK_IDLE /\ Z.testbit (disk_status d2) 0 = false.
Proof.
  intros Hbusy Hty Hlen H2 H3 Ht Hs off Hoff.
  assert (Hpos : 0 <= off).
  { unfold off, code_sector_offset, header_size. lia. }
  destruct (cmd_read_sector_vdk d Hbusy Hty Hlen) as (d1 & Hc & Hst & Hi & Hb & _).
  { rewrite code_offset_u32 by assumption. fold off. lia. }
  rewrite code_offset_u32 in Hb by assumption. fold off in Hb.
  destruct (data_reads_sector 255 d1) as (d2 & Hr & Hs2 & Hb2).
  { exact Hst. } { lia. } { rewrite Hi. reflexivity. }
  exists d1, d2. split; [exact Hc|]. split; [|split; assumption].
  rewrite Hr, Hi, Hb. unfold overlay. f_equal. f_equal.
  set (got := take 256 (drop (Z.to_nat off) (img_data d))).
  assert (Hg : length got = 256%nat).
  { unfold got. rewrite length_take, length_drop. lia. }
  replace (Z.of_nat 256) with (Z.of_nat (length got)) by (rewrite Hg; reflexivity).
  apply fmap_rd_prefix.
Qed.

(** Track 1, sector 1 of the two-sided fixture: the bytes at 12 + 4608. *)
Lemma read_sector_returns_image_bytes_witness :
  exists d1 d2,
    io_handler_wd2797_cmd_stat WDCmdReadSec MEM_WRITE
      (set_disk_status 0 (set_disk_track 1 (disk_init FILE_VDK two_sided_image)))
    = Some (d1, 0) /\
    data_reads 256 d1 = Some (take 256 (drop 4620 two_sided_image), d2) /\
    state d2 = DISK_IDLE /\ Z.testbit (disk_status d2) 0 = false.
Proof.
  apply (read_sector_returns_image_bytes
           (set_disk_status 0
              (set_disk_track 1 (disk_init FILE_VDK two_sided_image))));
    try reflexivity;
    first [ apply Nat.leb_le; vm_compute; reflexivity
          | vm_compute; repeat split; try reflexivity; intro; discriminate ].
Defined.

(** C2, as the specification states it, fails on an image of two
    sides. After a SEEK to track 1, READ SECTOR of sector 1 returns the
    256 bytes at offset [12 + 4608], which the payload order of the
    specification assigns to track 0, side 1; the offset of the
    specification, [12 + (1*2 + side)*4608], holds other bytes on either
    side. *)
Lemma read_sector_two_sided_counterexample :
  header_sides two_sided_image = 2 /\
  header_tracks two_sided_image = 2 /\
  (disk_track <$> seek_track_1) = Some 1 /\
  (disk_sector <$> seek_track_1) = Some 1 /\
  (seek_track_1 ≫= read_sector) = Some (replicate 256 0xa5) /\
  forall side, 0 <= side < 2 ->
    take 256 (drop (Z.to_nat (spec_sector_offset 12 2 side 1 1))
                two_sided_image)
    <> replicate 256 0xa5.
Proof.
  repeat (split; [vm_compute; reflexivity|]).
  intros side Hside.
  assert (Hs : side = 0 \/ side = 1) by lia.
  destruct Hs as [-> | ->]; vm_compute; discriminate.
Qed.

(** READ ADDRESS and the first read of its six bytes. *)
Lemma disk_not_idle_busy_or_drq_witness :
  exists d,
    disk_run [OpCmdStat WDCmdReadAddr MEM_WRITE; OpData 0 MEM_READ]
      (disk_init FILE_NONE []) = Some d /\
    state d = DISK_READ_ID /\ disk_inv d.
Proof.
  eexists. split; [vm_compute; reflexivity|]. split; [reflexivity|].
  apply (disk_not_idle_busy_or_drq FILE_NONE []
           [OpCmdStat WDCmdReadAddr MEM_WRITE; OpData 0 MEM_READ]).
  vm_compute. reflexivity.
Defined.

End DiskProofs.

Section TapeProofs.
Import Tape.

Ltac is_tape_proj p :=
  lazymatch p with
  | tape_state => idtac | count => idtac | file_name => idtac
  | stream_index => idtac | cas_stream_buffer => idtac
  | header_byte_count => idtac | header_char_index => idtac
  | data_byte_count => idtac | eof_byte_count => idtac | written => idtac
  end.

Ltac is_tape_set s :=
  lazymatch s with
  | set_tape_state => idtac | set_count => idtac | set_file_name => idtac
  | set_stream_index => idtac | set_cas_stream_buffer => idtac
  | set_header_byte_count => idtac | set_header_char_index => idtac
  | set_data_byte_count => idtac | set_eof_byte_count => idtac
  | set_written => idtac
  end.

Ltac tape_rw :=
  repeat match goal with
  | |- context [?p (?s ?x ?t)] =>
      is_tape_proj p; is_tape_set s;
      first
        [ let H := fresh in
          assert (H : forall x' t', p (s x' t') = p t') by reflexivity;
          rewrite (H x t); clear H
        | let H := fresh in
          assert (H : forall x' t', p (s x' t') = x') by reflexivity;
          rewrite (H x t); clear H ]
  end.

Ltac split_ifs :=
  repeat match goal with
  | |- context [if ?c then _ else _] => destruct c eqn:?
  end.

(** *** The three parts of a capture *)

Lemma cas_store_frame b t :
  view_of (cas_store b t) = view_of t /\
  written (cas_store b t) = written t /\
  count (cas_store b t) = count t.
Proof. unfold cas_store. cbv zeta. destruct (_ =? _); repeat split. Qed.

Lemma cas_store_buffer b t :
  cas_stream_buffer (cas_store b t)
  = <[Z.to_nat (stream_index t) := b]> (cas_stream_buffer t).
Proof. unfold cas_store. cbv zeta. destruct (_ =? _); reflexivity. Qed.

Lemma cas_store_index b t :
  stream_index (cas_store b t)
  = if stream_index t + 1 =? CAS_STREAM_SIZE
    then CAS_STREAM_SIZE - 1 else stream_index t + 1.
Proof.
  unfold cas_store. cbv zeta. tape_rw. destruct (_ =? _); reflexivity.
Qed.

Lemma cas_switch_spec b t :
  view_of (snd (cas_switch b t)) = fst (fsm b (view_of t)) /\
  fst (cas_switch b t) = snd (fsm b (view_of t)) /\
  stream_index (snd (cas_switch b t)) = stream_index t /\
  cas_stream_buffer (snd (cas_switch b t)) = cas_stream_buffer t /\
  written (snd (cas_switch b t)) = written t /\
  count (snd (cas_switch b t)) = count t.
Proof.
  unfold cas_switch, fsm, view_of, block_count,
    cas_stream_header, cas_stream_data, cas_stream_eof.
  destruct (tape_state t) eqn:Est; cbv zeta; tape_rw; split_ifs;
    cbn [fst snd]; tape_rw; rewrite ?Est; repeat split; reflexivity.
Qed.

Lemma cas_flush_spec t :
  view_of (cas_flush t) = view_of t /\
  count (cas_flush t) = count t /\
  stream_index (cas_flush t) = 0 /\
  cas_stream_buffer (cas_flush t) = replicate (Z.to_nat CAS_STREAM_SIZE) 0 /\
  written (cas_flush t)
  = written t
    ++ [take (Z.to_nat (u16 (stream_index t))) (cas_stream_buffer t)].
Proof. repeat split. Qed.

Lemma cas_capture_view b t :
  view_of (cas_capture b t) = fst (fsm b (view_of t)).
Proof.
  unfold cas_capture. cbv zeta.
  destruct (cas_switch_spec b (cas_store b t)) as (Hv & _).
  rewrite (proj1 (cas_store_frame b t)) in Hv.
  destruct (cas_switch b (cas_store b t)) as [c t2]. cbn [fst snd] in Hv.
  destruct c; [rewrite (proj1 (cas_flush_spec t2))|]; exact Hv.
Qed.

Lemma cas_capture_count b t : count (cas_capture b t) = count t.
Proof.
  unfold cas_capture. cbv zeta.
  destruct (cas_switch_spec b (cas_store b t)) as (_ & _ & _ & _ & _ & Hc).
  rewrite (proj2 (proj2 (cas_store_frame b t))) in Hc.
  destruct (cas_switch b (cas_store b t)) as [c t2]. cbn [fst snd] in Hc.
  destruct c; [rewrite (proj1 (proj2 (cas_flush_spec t2)))|]; exact Hc.
Qed.

(** A capture that does not write the file out. *)
Lemma cas_capture_keep b t :
  snd (fsm b (view_of t)) = false ->
  stream_index (cas_capture b t) = stream_index (cas_store b t) /\
  cas_stream_buffer (cas_capture b t)
  = <[Z.to_nat (stream_index t) := b]> (cas_stream_buffer t) /\
  written (cas_capture b t) = written t.
Proof.
  intros Hf. unfold cas_capture. cbv zeta.
  destruct (cas_switch_spec b (cas_store b t)) as (_ & Hc & Hi & Hb & Hw & _).
  rewrite (proj1 (cas_store_frame b t)), Hf in Hc.
  rewrite cas_store_buffer in Hb.
  rewrite (proj1 (proj2 (cas_store_frame b t))) in Hw.
  destruct (cas_switch b (cas_store b t)) as [c t2]. cbn [fst snd] in *.
  subst c. repeat split; assumption.
Qed.

(** A capture that writes the file out. *)
Lemma cas_capture_flush b t :
  snd (fsm b (view_of t)) = true ->
  stream_index (cas_capture b t) = 0 /\
  cas_stream_buffer (cas_capture b t)
  = replicate (Z.to_nat CAS_STREAM_SIZE) 0 /\
  written (cas_capture b t)
  = written t
    ++ [take (Z.to_nat (u16 (stream_index (cas_store b t))))
          (<[Z.to_nat (stream_index t) := b]> (cas_stream_buffer t))].
Proof.
  intros Hf. unfold cas_capture. cbv zeta.
  destruct (cas_switch_spec b (cas_store b t)) as (_ & Hc & Hi & Hb & Hw & _).
  rewrite (proj1 (cas_store_frame b t)), Hf in Hc.
  rewrite cas_store_buffer in Hb.
  rewrite (proj1 (proj2 (cas_store_frame b t))) in Hw.
  destruct (cas_switch b (cas_store b t)) as [c t2]. cbn [fst snd] in *.
  subst c. destruct (cas_flush_spec t2) as (_ & _ & Fi & Fb & Fw).
  rewrite Fi, Fb, Fw, Hi, Hb, Hw. repeat split.
Qed.

(** *** Runs of the state machine *)

Lemma fsm_run_app l1 l2 vk : fsm_run (l1 ++ l2) vk = fsm_run l2 (fsm_run l1 vk).
Proof. unfold fsm_run. apply fold_left_app. Qed.

Lemma fsm_run_cons b l v k :
  fsm_run (b :: l) (v, k)
  = fsm_run l (fst (fsm b v), if snd (fsm b v) then S k else k).
Proof. unfold fsm_run. cbn [fold_left fst snd]. destruct (fsm b v); reflexivity. Qed.

Lemma fsm_run_mono l : forall v k, (k <= snd (fsm_run l (v, k)))%nat.
Proof.
  induction l as [|b l IH]; intros v k; [cbn; lia|].
  rewrite fsm_run_cons. etransitivity; [|apply IH].
  destruct (snd (fsm b v)); lia.
Qed.

Lemma fsm_run_leader n st k :
  st = CAS_STREAM_LEADER \/ (st = CAS_STREAM_IDLE /\ (0 < n)%nat) ->
  fsm_run (leader n) (between st, k) = (between CAS_STREAM_LEADER, k).
Proof.
  revert st. induction n as [|n IH]; intros st [->|[-> Hn]];
    [reflexivity|lia| |].
  - unfold leader. cbn [replicate]. rewrite fsm_run_cons. apply IH. auto.
  - unfold leader. cbn [replicate]. rewrite fsm_run_cons. apply IH. auto.
Qed.

(** The payload and checksum of a block, after the length byte. *)
Lemma fsm_run_header_body payload ck dc ec k :
  fsm_run (payload ++ [ck])
    ((CAS_STREAM_HEADER, Z.of_nat (length payload), dc, ec), k)
  = ((CAS_STREAM_LEADER, -1, dc, ec), k).
Proof.
  induction payload as [|b payload IH].
  - reflexivity.
  - cbn [app length]. rewrite fsm_run_cons.
    unfold fsm, block_count.
    destruct (Z.ltb_spec (Z.of_nat (S (length payload))) 0); [lia|].
    destruct (Z.ltb_spec (Z.of_nat (S (length payload)) - 1) 0); [lia|].
    cbn [fst snd].
    replace (Z.of_nat (S (length payload)) - 1)
      with (Z.of_nat (length payload)) by lia.
    exact IH.
Qed.

Lemma fsm_run_data_body payload ck hc ec k :
  fsm_run (payload ++ [ck])
    ((CAS_STREAM_DATA, hc, Z.of_nat (length payload), ec), k)
  = ((CAS_STREAM_LEADER, hc, -1, ec), k).
Proof.
  induction payload as [|b payload IH].
  - reflexivity.
  - cbn [app length]. rewrite fsm_run_cons.
    unfold fsm, block_count.
    destruct (Z.ltb_spec (Z.of_nat (S (length payload))) 0); [lia|].
    destruct (Z.ltb_spec (Z.of_nat (S (length payload)) - 1) 0); [lia|].
    cbn [fst snd].
    replace (Z.of_nat (S (length payload)) - 1)
      with (Z.of_nat (length payload)) by lia.
    exact IH.
Qed.

Lemma fsm_run_eof_body payload ck hc dc k :
  fsm_run (payload ++ [ck])
    ((CAS_STREAM_EOF, hc, dc, Z.of_nat (length payload)), k)
  = ((CAS_STREAM_WRITE, hc, dc, -1), k).
Proof.
  induction payload as [|b payload IH].
  - reflexivity.
  - cbn [app length]. rewrite fsm_run_cons.
    unfold fsm, block_count.
    destruct (Z.ltb_spec (Z.of_nat (S (length payload))) 0); [lia|].
    destruct (Z.ltb_spec (Z.of_nat (S (length payload)) - 1) 0); [lia|].
    cbn [fst snd].
    replace (Z.of_nat (S (length payload)) - 1)
      with (Z.of_nat (length payload)) by lia.
    exact IH.
Qed.

(** A block with its leader and sync byte, met between blocks. *)
Lemma fsm_run_framed n ty b k :
  ty = 0x00 \/ ty = 0x01 \/ ty = 0xff ->
  fsm_run (framed n ty b) (between CAS_STREAM_LEADER, k)
  = (between (if ty =? 0xff then CAS_STREAM_WRITE else CAS_STREAM_LEADER), k).
Proof.
  intros Hty. unfold framed, cas_block.
  rewrite fsm_run_app, fsm_run_leader by auto.
  cbn [app]. rewrite fsm_run_cons. cbn [fsm between fst snd Z.eqb Pos.eqb].
  rewrite fsm_run_cons. unfold between.
  destruct Hty as [->|[->| ->]]; cbn [fsm fst snd Z.eqb Pos.eqb];
    rewrite fsm_run_cons; unfold fsm, block_count;
    (destruct (Z.ltb_spec (-1) 0); [|lia]); cbn [fst snd].
  - apply fsm_run_header_body.
  - apply fsm_run_data_body.
  - apply fsm_run_eof_body.
Qed.

Lemma fsm_run_blocks blocks k :
  fsm_run (concat (map (fun b => framed (fst b) 0x01 (snd b)) blocks))
    (between CAS_STREAM_LEADER, k)
  = (between CAS_STREAM_LEADER, k).
Proof.
  induction blocks as [|b blocks IH]; [reflexivity|].
  cbn [map concat]. rewrite fsm_run_app, fsm_run_framed by auto. exact IH.
Qed.

Lemma fsm_run_framed_stream header blocks eof k :
  fsm_run (framed_stream header blocks eof) (between CAS_STREAM_IDLE, k)
  = (between CAS_STREAM_WRITE, k).
Proof.
  unfold framed_stream.
  rewrite fsm_run_app, fsm_run_leader by (right; split; [reflexivity|lia]).
  rewrite fsm_run_app, fsm_run_framed by auto.
  rewrite fsm_run_app. change (0 =? 255) with false. cbv iota.
  rewrite fsm_run_blocks, fsm_run_framed by auto. reflexivity.
Qed.

(** *** C3: the buffer along a run *)

Lemma take_snoc_insert (l : list Z) (n : nat) (b : Z) :
  (n < length l)%nat -> take (S n) (<[n := b]> l) = take n l ++ [b].
Proof.
  intros Hn. rewrite (take_S_r _ _ b).
  - rewrite take_insert_ge by lia. reflexivity.
  - apply list_lookup_insert_eq. exact Hn.
Qed.

Lemma captured_init : captured [] tape_init.
Proof.
  unfold captured, tape_init.
  cbn [stream_index cas_stream_buffer written length].
  split; [reflexivity|]. split; [reflexivity|]. split; [|reflexivity].
  rewrite length_replicate. apply Z2Nat.id. discriminate.
Qed.

Lemma captured_step pre b t :
  captured pre t ->
  Z.of_nat (length pre) + 1 <= CAS_STREAM_SIZE - 1 ->
  snd (fsm b (view_of t)) = false ->
  captured (pre ++ [b]) (cas_capture b t).
Proof.
  intros (Hi & Hb & Hl & Hw) Hlen Hf.
  destruct (cas_capture_keep b t Hf) as (Ki & Kb & Kw).
  unfold captured. rewrite Ki, Kb, Kw, cas_store_index, Hi.
  destruct (Z.eqb_spec (Z.of_nat (length pre) + 1) CAS_STREAM_SIZE); [lia|].
  rewrite length_app, length_insert. cbn [length]. rewrite Nat2Z.id.
  repeat split; [lia| |assumption..].
  replace (length pre + 1)%nat with (S (length pre)) by lia.
  rewrite take_snoc_insert by lia. rewrite Hb. reflexivity.
Qed.

Lemma capture_all_snoc bytes b t :
  capture_all (bytes ++ [b]) t = cas_capture b (capture_all bytes t).
Proof. unfold capture_all. rewrite fold_left_app. reflexivity. Qed.

(** While the state machine writes no file, the buffer holds what has
    been captured and the handler follows the state machine. *)
Lemma capture_all_fsm bytes : forall t pre k,
  captured pre t ->
  Z.of_nat (length pre) + Z.of_nat (length bytes) <= CAS_STREAM_SIZE - 1 ->
  snd (fsm_run bytes (view_of t, k)) = k ->
  captured (pre ++ bytes) (capture_all bytes t) /\
  view_of (capture_all bytes t) = fst (fsm_run bytes (view_of t, k)).
Proof.
  induction bytes as [|b bytes IH]; intros t pre k Hc Hlen Hk.
  - rewrite app_nil_r. split; [exact Hc|reflexivity].
  - rewrite fsm_run_cons in Hk |- *. cbn [length] in Hlen.
    pose proof (fsm_run_mono bytes (fst (fsm b (view_of t)))
                  (if snd (fsm b (view_of t)) then S k else k)) as Hm.
    rewrite Hk in Hm.
    destruct (snd (fsm b (view_of t))) eqn:Hf; [lia|].
    change (capture_all (b :: bytes) t)
      with (capture_all bytes (cas_capture b t)).
    destruct (IH (cas_capture b t) (pre ++ [b]) k) as (Hc' & Hv').
    + apply captured_step; [assumption|lia|assumption].
    + rewrite length_app. cbn [length]. lia.
    + rewrite cas_capture_view. exact Hk.
    + rewrite <- app_assoc in Hc'. split; [exact Hc'|].
      rewrite Hv', cas_capture_view. reflexivity.
Qed.

(** C3, as the handler does it. Let every block of the stream (header
    0x00, data blocks 0x01, EOF block 0xFF; each with its length byte,
    payload and checksum) come with leader bytes 0x55 and the sync byte
    0x3C before it, at least one leader byte opening the stream.
    Captured from power-on, such a stream leaves the state machine in
    WRITE with no file written; the next captured byte, whatever it is,
    makes the handler write exactly one file, which holds every captured
    byte including that last one, and go back to IDLE. The whole capture
    has to be shorter than the 64 KiB buffer. *)
Theorem framed_stream_written_on_next_byte header blocks eof b :
  let s := framed_stream header blocks eof in
  Z.of_nat (length s) + 1 <= CAS_STREAM_SIZE - 1 ->
  let t := capture_all s tape_init in
  tape_state t = CAS_STREAM_WRITE /\ written t = [] /\
  tape_state (cas_capture b t) = CAS_STREAM_IDLE /\
  written (cas_capture b t) = [s ++ [b]].
Proof.
  intros s Hlen t.
  destruct (capture_all_fsm s tape_init [] 0%nat captured_init) as (Hc & Hv).
  { cbn [length]. lia. }
  { change (view_of tape_init) with (between CAS_STREAM_IDLE).
    unfold s. rewrite fsm_run_framed_stream. reflexivity. }
  change (view_of tape_init) with (between CAS_STREAM_IDLE) in Hv.
  unfold s in Hv at 2. rewrite fsm_run_framed_stream in Hv.
  fold t in Hc, Hv. cbn [app fst] in Hc, Hv.
  destruct Hc as (Hi & Hb & Hl & Hw).
  assert (Hst : tape_state t = CAS_STREAM_WRITE).
  { change (tape_state t) with (fst (fst (fst (view_of t)))).
    rewrite Hv. reflexivity. }
  split; [exact Hst|]. split; [exact Hw|].
  pose proof (cas_capture_view b t) as Hv2. rewrite Hv in Hv2.
  split.
  { change (tape_state (cas_capture b t))
      with (fst (fst (fst (view_of (cas_capture b t))))).
    rewrite Hv2. reflexivity. }
  destruct (cas_capture_flush b t) as (_ & _ & Fw).
  { rewrite Hv. reflexivity. }
  rewrite Fw, Hw, cas_store_index, Hi. cbn [app].
  destruct (Z.eqb_spec (Z.of_nat (length s) + 1) CAS_STREAM_SIZE); [lia|].
  unfold u16. rewrite Z.mod_small by (unfold CAS_STREAM_SIZE in Hlen; lia).
  rewrite Nat2Z.id.
  replace (Z.to_nat (Z.of_nat (length s) + 1)) with (S (length s)) by lia.
  rewrite take_snoc_insert by lia. rewrite Hb. reflexivity.
Qed.

(** A header, one data block and the EOF block, then one leader byte. *)
Lemma framed_stream_written_on_next_byte_witness :
  let s :=
    framed_stream (0%nat, hello_header) [(1%nat, ([0x41; 0x42], 0x85))]
      (1%nat, ([], 0xff)) in
  let t := capture_all s tape_init in
  tape_state t = CAS_STREAM_WRITE /\ written t = [] /\
  tape_state (cas_capture 0x55 t) = CAS_STREAM_IDLE /\
  written (cas_capture 0x55 t) = [s ++ [0x55]].
Proof.
  apply (framed_stream_written_on_next_byte
           (0%nat, hello_header) [(1%nat, ([0x41; 0x42], 0x85))]
           (1%nat, ([], 0xff)) 0x55).
  vm_compute. intro H. discriminate H.
Defined.

(** C3, as the specification states it, fails. The stream with header,
    one data block and EOF block one after the other sends the state
    machine back to IDLE at the type byte of the data block, and no file
    is written; so it is with the byte sequence of scenario 5. With a
    leader and a sync byte before each block, the stream ends in WRITE,
    still with no file written. *)
Lemma tape_stream_no_file_counterexample :
  let s1 := spec_stream 0 hello_header [([0x41; 0x42], 0x85)] ([], 0xff) in
  let s2 :=
    framed_stream (0%nat, hello_header) [(1%nat, ([0x41; 0x42], 0x85))]
      (1%nat, ([], 0xff)) in
  (tape_state (capture_all s1 tape_init) = CAS_STREAM_IDLE /\
   written (capture_all s1 tape_init) = []) /\
  (tape_state (capture_all scenario_5 tape_init) = CAS_STREAM_IDLE /\
   written (capture_all scenario_5 tape_init) = []) /\
  (tape_state (capture_all s2 tape_init) = CAS_STREAM_WRITE /\
   written (capture_all s2 tape_init) = []).
Proof. vm_compute. repeat split. Qed.

(** *** Calls of the handler: the count *)

Lemma counted_snoc cs c :
  counted (cs ++ [c]) = counted cs + (if trap_pc (call_pc c) then 1 else 0).
Proof.
  unfold counted. rewrite List.filter_app, length_app. cbn [List.filter].
  destruct (trap_pc (call_pc c)); cbn [length]; lia.
Qed.

Lemma counted_nonneg cs : 0 <= counted cs.
Proof. unfold counted. lia. Qed.

Lemma handle_all_snoc cs c t :
  handle_all (cs ++ [c]) t = handle (handle_all cs t) c.
Proof. unfold handle_all. rewrite fold_left_app. reflexivity. Qed.

(** One call, by cases on the program counter and the count. *)
Lemma handle_cases t c :
  0 <= count t < 16 ->
  handle t c =
  if trap_pc (call_pc c) && (count t =? 15)
  then cas_capture (u8 (call_mem c (call_s c))) (set_count 0 t)
  else if trap_pc (call_pc c) then set_count (count t + 1) t else t.
Proof.
  intros Hc. unfold handle, io_handler_cas_tape. cbv zeta.
  destruct (trap_pc (call_pc c)); cbn [andb].
  - tape_rw.
    destruct (Z.eqb_spec (count t) 15) as [E|E].
    + rewrite E. reflexivity.
    + destruct (Z.eqb_spec (count t + 1) 16); [lia|reflexivity].
  - destruct (Z.eqb_spec (count t) 16); [lia|reflexivity].
Qed.

Lemma mod16_succ n :
  (n + 1) mod 16 = if n mod 16 =? 15 then 0 else n mod 16 + 1.
Proof.
  destruct (Z.eqb_spec (n mod 16) 15); Z.div_mod_to_equations; lia.
Qed.

Lemma handle_all_count cs :
  count (handle_all cs tape_init) = counted cs mod 16.
Proof.
  induction cs as [|c cs IH] using rev_ind; [reflexivity|].
  rewrite handle_all_snoc, counted_snoc.
  assert (Hc : 0 <= count (handle_all cs tape_init) < 16).
  { rewrite IH. apply Z.mod_pos_bound. lia. }
  rewrite (handle_cases _ _ Hc).
  destruct (trap_pc (call_pc c)); cbn [andb].
  - rewrite mod16_succ, <- IH.
    destruct (count (handle_all cs tape_init) =? 15).
    + rewrite cas_capture_count. reflexivity.
    + reflexivity.
  - rewrite Z.add_0_r. exact IH.
Qed.

Lemma fsm_flag_write b v :
  fst (fst (fst v)) <> CAS_STREAM_WRITE -> snd (fsm b v) = false.
Proof.
  destruct v as [[[st hc] dc] ec]. cbn [fst]. intros Hst.
  unfold fsm, block_count. destruct st; try reflexivity;
    repeat match goal with
    | |- context [if ?c then _ else _] => destruct c
    end; try reflexivity.
  contradiction.
Qed.

(** *** Calls of the handler: index and buffer *)

Lemma tape_inv_init : tape_inv tape_init.
Proof.
  unfold tape_inv, tape_init.
  cbn [stream_index cas_stream_buffer written].
  split; [unfold CAS_STREAM_SIZE; lia|]. split; [|constructor].
  rewrite length_replicate. apply Z2Nat.id. discriminate.
Qed.

Lemma cas_capture_inv b t : tape_inv t -> tape_inv (cas_capture b t).
Proof.
  intros (Hi & Hl & Hw). unfold tape_inv.
  pose proof (cas_store_index b t) as Si.
  assert (Hs : 0 <= stream_index (cas_store b t) <= CAS_STREAM_SIZE - 1).
  { rewrite Si. destruct (_ =? _) eqn:E; [lia|].
    apply Z.eqb_neq in E. lia. }
  destruct (snd (fsm b (view_of t))) eqn:Hf.
  - destruct (cas_capture_flush b t Hf) as (Fi & Fb & Fw).
    rewrite Fi, Fb, Fw, length_replicate.
    split; [unfold CAS_STREAM_SIZE; lia|].
    split; [apply Z2Nat.id; discriminate|].
    apply Forall_app. split; [exact Hw|]. constructor; [|constructor].
    rewrite length_take. unfold u16.
    pose proof (Z.mod_pos_bound (stream_index (cas_store b t)) 65536).
    unfold CAS_STREAM_SIZE. lia.
  - destruct (cas_capture_keep b t Hf) as (Ki & Kb & Kw).
    rewrite Ki, Kb, Kw, length_insert. repeat split; try assumption; lia.
Qed.

Lemma handle_inv t c : tape_inv t -> tape_inv (handle t c).
Proof.
  intros Hinv. unfold handle, io_handler_cas_tape. cbv zeta.
  assert (H1 : forall x, tape_inv (set_count x t)) by (intros x; exact Hinv).
  destruct (trap_pc (call_pc c)); destruct (_ =? 16); cbn [fst];
    try apply cas_capture_inv; try apply H1; exact Hinv.
Qed.

Lemma handle_all_inv cs : tape_inv (handle_all cs tape_init).
Proof.
  induction cs as [|c cs IH] using rev_ind; [apply tape_inv_init|].
  rewrite handle_all_snoc. apply handle_inv, IH.
Qed.

(** *** What a call captures and where it stores *)

(** C4, as the handler does it. Only calls made with the program
    counter at 0xBE1C or 0xBE3F are counted. After any sequence of calls
    from power-on, the next call captures a byte exactly when it is a
    counted call and the sixteenth of them since the last capture; the
    byte is read from the bus at the address in S and goes through
    [cas_capture], which stores it at the buffer index. Every other
    call changes nothing but, when counted, the count. *)
Theorem capture_on_every_16th_counted_call cs c :
  let t := handle_all cs tape_init in
  count t = counted cs mod 16 /\
  handle t c
  = (if trap_pc (call_pc c) && ((counted cs + 1) mod 16 =? 0)
     then cas_capture (u8 (call_mem c (call_s c))) (set_count 0 t)
     else if trap_pc (call_pc c) then set_count (count t + 1) t else t) /\
  (tape_state t <> CAS_STREAM_WRITE ->
   forall b,
     cas_stream_buffer (cas_capture b (set_count 0 t))
       !! Z.to_nat (stream_index t) = Some b).
Proof.
  intros t. pose proof (handle_all_count cs) as Hcnt. fold t in Hcnt.
  split; [exact Hcnt|].
  pose proof (counted_nonneg cs) as Hn.
  assert (Hc : 0 <= count t < 16).
  { rewrite Hcnt. apply Z.mod_pos_bound. lia. }
  split.
  - rewrite (handle_cases _ _ Hc), Hcnt, mod16_succ.
    destruct (counted cs mod 16 =? 15) eqn:E; [reflexivity|].
    destruct (Z.eqb_spec (counted cs mod 16 + 1) 0); [|reflexivity].
    pose proof (Z.mod_pos_bound (counted cs) 16). lia.
  - intros Hst b.
    destruct (cas_capture_keep b (set_count 0 t)) as (_ & Kb & _).
    { apply fsm_flag_write. exact Hst. }
    rewrite Kb. apply list_lookup_insert_eq.
    destruct (handle_all_inv cs) as (Hi & Hl & _). fold t in Hi, Hl.
    change (stream_index (set_count 0 t)) with (stream_index t).
    change (cas_stream_buffer (set_count 0 t)) with (cas_stream_buffer t).
    unfold CAS_STREAM_SIZE in *. lia.
Qed.

(** C4, as the specification states it, fails: sixteen calls with the
    program counter elsewhere capture nothing, while sixteen calls from
    0xBE1C capture the byte the stack pointer points at. *)
Lemma sixteen_uncounted_calls_counterexample :
  stream_index (handle_all (calls 16 0xbe20 0x7f00 0xaa) tape_init) = 0 /\
  cas_stream_buffer (handle_all (calls 16 0xbe20 0x7f00 0xaa) tape_init)
    !! 0%nat = Some 0 /\
  stream_index (handle_all (calls 16 0xbe1c 0x7f00 0xaa) tape_init) = 1 /\
  cas_stream_buffer (handle_all (calls 16 0xbe1c 0x7f00 0xaa) tape_init)
    !! 0%nat = Some 0xaa.
Proof. vm_compute. repeat split. Qed.

(** C10. In every state the handler reaches from power-on, the index
    [i] lies within [0, 65535] inside the 65536-byte buffer, and every
    file written out is at most 65535 bytes long. A capture stores its
    byte at that index and moves the index on by one, holding it at
    65535: from there on each further byte overwrites the last cell. *)
Theorem capture_store_within_buffer cs b :
  let t := handle_all cs tape_init in
  (0 <= stream_index t <= 65535 /\
   Z.of_nat (length (cas_stream_buffer t)) = 65536 /\
   Forall (fun f => Z.of_nat (length f) <= 65535) (written t)) /\
  (cas_stream_buffer (cas_store b t)
   = <[Z.to_nat (stream_index t) := b]> (cas_stream_buffer t) /\
   stream_index (cas_store b t) = Z.min (stream_index t + 1) 65535) /\
  (stream_index t = 65535 ->
   stream_index (cas_store b t) = 65535 /\
   cas_stream_buffer (cas_store b t) !! Z.to_nat 65535 = Some b).
Proof.
  intros t. destruct (handle_all_inv cs) as (Hi & Hl & Hw). fold t in Hi, Hl, Hw.
  unfold CAS_STREAM_SIZE in Hi, Hl.
  assert (Hidx : stream_index (cas_store b t) = Z.min (stream_index t + 1) 65535).
  { rewrite cas_store_index. unfold CAS_STREAM_SIZE.
    destruct (Z.eqb_spec (stream_index t + 1) (64 * 1024)); lia. }
  split; [|split].
  - split; [lia|]. split; [lia|]. exact Hw.
  - split; [apply cas_store_buffer|exact Hidx].
  - intros E. rewrite Hidx, cas_store_buffer, E. split; [reflexivity|].
    apply list_lookup_insert_eq. lia.
Qed.

End TapeProofs.

(** ** Loops that emit *)

Lemma for_emit_length body k n : forall i,
  (forall j, length (body j) = k) ->
  length (for_emit n i body) = (n * k)%nat.
Proof.
  induction n as [|n IH]; intros i Hk; [reflexivity|].
  cbn [for_emit]. rewrite length_app, Hk, IH by assumption. lia.
Qed.

Lemma for_emit_lookup body k n : forall i (j p : nat),
  (forall j, length (body j) = k) ->
  (j < n)%nat -> (p < k)%nat ->
  for_emit n i body !! (j * k + p)%nat = body (i + Z.of_nat j) !! p.
Proof.
  induction n as [|n IH]; intros i j p Hk Hj Hp; [lia|].
  cbn [for_emit]. destruct j as [|j].
  - rewrite lookup_app_l by (rewrite Hk; lia).
    cbn [Nat.mul Nat.add]. rewrite Z.add_0_r. reflexivity.
  - rewrite lookup_app_r by (rewrite Hk; lia).
    rewrite Hk. replace (S j * k + p - k)%nat with (j * k + p)%nat by lia.
    rewrite IH by (assumption || lia). f_equal. f_equal. lia.
Qed.

Lemma loop_emit_length {S : Type} (body : Z -> S -> S * list Z) k n :
  forall i s,
  (forall j s', length (snd (body j s')) = k) ->
  length (snd (loop_emit n i body s)) = (n * k)%nat.
Proof.
  induction n as [|n IH]; intros i s Hk; [reflexivity|].
  cbn [loop_emit]. specialize (Hk i s) as Hk1.
  destruct (body i s) as [s1 o1]. specialize (IH (i + 1) s1 Hk).
  destruct (loop_emit n (i + 1) body s1) as [s2 o2].
  cbn [snd] in *. rewrite length_app, Hk1, IH. lia.
Qed.

(** ** Bits of a character code *)

Lemma land_pow2 x k :
  0 <= k -> Z.land x (2 ^ k) = if Z.testbit x k then 2 ^ k else 0.
Proof.
  intros Hk. apply Z.bits_inj'. intros n Hn.
  rewrite Z.land_spec, Z.pow2_bits_eqb by assumption.
  destruct (Z.eqb_spec k n) as [->|Hne].
  - rewrite andb_true_r. destruct (Z.testbit x n).
    + rewrite Z.pow2_bits_eqb, Z.eqb_refl by assumption. reflexivity.
    + rewrite Z.bits_0. reflexivity.
  - rewrite andb_false_r. destruct (Z.testbit x k).
    + rewrite Z.pow2_bits_eqb by assumption.
      symmetry. apply Z.eqb_neq. exact Hne.
    + rewrite Z.bits_0. reflexivity.
Qed.

Lemma bits_set_pow2 x m k :
  m = 2 ^ k -> 0 <= k -> bits_set x m = Z.testbit x k.
Proof.
  intros -> Hk. unfold bits_set. rewrite land_pow2 by assumption.
  destruct (Z.testbit x k); [|reflexivity].
  destruct (Z.eqb_spec (2 ^ k) 0) as [E|_]; [|reflexivity].
  pose proof (Z.pow_pos_nonneg 2 k). lia.
Qed.

Lemma u8_testbit_high x n : 8 <= n -> Z.testbit (u8 x) n = false.
Proof.
  intros Hn. unfold u8. change 256 with (2 ^ 8).
  apply Z.mod_pow2_bits_high. lia.
Qed.

Lemma text_char_index c :
  Z.land (u8 c) (Z.lnot (Z.lor Vdg.CHAR_SEMI_GRAPHICS Vdg.CHAR_INVERSE))
  = Z.land (u8 c) 0x3f.
Proof.
  apply Z.bits_inj'. intros n Hn.
  rewrite !Z.land_spec, Z.lnot_spec by assumption.
  destruct (Z_lt_le_dec n 8) as [Hlt|Hge].
  - f_equal.
    assert (Hc : n = 0 \/ n = 1 \/ n = 2 \/ n = 3 \/ n = 4 \/ n = 5
                 \/ n = 6 \/ n = 7) by lia.
    destruct Hc as [->|[->|[->|[->|[->|[->|[->| ->]]]]]]]; reflexivity.
  - rewrite u8_testbit_high by assumption. reflexivity.
Qed.

Section RenderProofs.
Import Vdg.

Variable RPI_BARE_METAL : bool.
Variable font_img5x7 : Z -> Z -> Z.
Variable semi_graph_4 : Z -> Z -> Z.
Variable semi_graph_6 : Z -> Z -> Z.
Variable mem_read : Z -> Z.

Lemma render_pixels_length n : forall bp pp fg bg,
  length (render_pixels n bp pp fg bg) = n.
Proof.
  induction n as [|n IH]; intros; [reflexivity|].
  cbn [render_pixels length]. rewrite IH. reflexivity.
Qed.

Lemma render_pixels_lookup_pow2 bp fg bg : forall (n : nat) (k : Z) (p : nat),
  (p < n)%nat -> Z.of_nat n <= k + 1 -> k < 8 ->
  render_pixels n (u8 bp) (2 ^ k) fg bg !! p
  = Some (if Z.testbit bp (k - Z.of_nat p) then fg else bg).
Proof.
  induction n as [|n IH]; intros k p Hp Hn Hk; [lia|].
  cbn [render_pixels]. destruct p as [|p].
  - change ((?x :: ?l) !! 0%nat) with (Some x).
    rewrite (bits_set_pow2 _ _ k) by (reflexivity || lia).
    rewrite testbit_u8 by lia. rewrite Z.sub_0_r. reflexivity.
  - change ((?x :: ?l) !! S p) with (l !! p).
    assert (Hs : u8 (Z.shiftr (2 ^ k) 1) = 2 ^ (k - 1)).
    { rewrite Z.shiftr_div_pow2 by lia. change (2 ^ 1) with 2.
      replace (2 ^ k) with (2 ^ (k - 1) * 2).
      2:{ replace k with (Z.succ (k - 1)) at 2 by lia.
          rewrite Z.pow_succ_r by lia. lia. }
      rewrite Z.div_mul by lia. unfold u8. apply Z.mod_small.
      split; [apply Z.pow_nonneg; lia|].
      change 256 with (2 ^ 8). apply Z.pow_lt_mono_r; lia. }
    rewrite Hs, IH by lia.
    replace (k - Z.of_nat (S p)) with (k - 1 - Z.of_nat p) by lia.
    reflexivity.
Qed.

Lemma render_pixels_lookup bp fg bg (p : nat) :
  (p < 8)%nat ->
  render_pixels 8 (u8 bp) 0x80 fg bg !! p
  = Some (if Z.testbit bp (7 - Z.of_nat p) then fg else bg).
Proof.
  intros Hp. change 0x80 with (2 ^ 7).
  apply render_pixels_lookup_pow2; lia.
Qed.

(** The cell of a character code with bit 7 clear. *)
Lemma alpha_semi4_cell_text color_set c font_row :
  Z.testbit (u8 c) 7 = false ->
  alpha_semi4_cell RPI_BARE_METAL font_img5x7 semi_graph_4 color_set c font_row
  = (if Z.testbit (u8 c) 6 then (FB_BLACK, color_set)
     else (color_set, FB_BLACK),
     u8 (font_img5x7 (Z.land (u8 c) 0x3f) font_row)).
Proof.
  intros H7. unfold alpha_semi4_cell.
  rewrite (bits_set_pow2 _ CHAR_SEMI_GRAPHICS 7), H7 by (reflexivity || lia).
  rewrite (bits_set_pow2 _ CHAR_INVERSE 6) by (reflexivity || lia).
  rewrite text_char_index. destruct (Z.testbit (u8 c) 6); reflexivity.
Qed.

Lemma default_color_css pia :
  default_color RPI_BARE_METAL pia
  = if Z.testbit pia 0
    then FB_WHITE
    else if RPI_BARE_METAL then FB_LIGHT_GREEN else FB_GREEN.
Proof.
  unfold default_color, PIA_COLOR_SET. rewrite bits_set_1.
  destruct (Z.testbit pia 0); reflexivity.
Qed.

Lemma alpha_semi4_col_length pia base row font_row col :
  length
    (let c := mem_read (col + (row * SCREEN_WIDTH_CHAR + base)) in
     let '(fg_color, bg_color, bit_pattern) :=
       alpha_semi4_cell RPI_BARE_METAL font_img5x7 semi_graph_4
         (default_color RPI_BARE_METAL pia) c font_row in
     render_pixels (Z.to_nat FONT_WIDTH) bit_pattern 0x80 fg_color bg_color)
  = 8%nat.
Proof.
  cbv zeta. destruct (alpha_semi4_cell _ _ _ _ _ _) as [[fg bg] bp].
  apply render_pixels_length.
Qed.

(** C5, as the renderer does it. In a frame of the alphanumeric
    renderer, the pixel [font_col] of scan line [font_row] of the
    character cell at ([row], [col]) whose code has bit 7 clear shows
    the font bit in the default colour on black, the two swapped when
    bit 6 of the code is set. The default colour is entry 0 of the
    colour table, green, when the CSS bit is 0 and entry 4, the buff
    entry (white in this palette), when the CSS bit is 1; the orange
    entry 7 is not used. *)
Theorem alpha_text_pixel_colours pia base (row font_row col font_col : nat) :
  (row < 16)%nat -> (font_row < 12)%nat -> (col < 32)%nat ->
  (font_col < 8)%nat ->
  let c := u8 (mem_read (Z.of_nat col + (Z.of_nat row * 32 + base))) in
  Z.testbit c 7 = false ->
  let color_set :=
    if Z.testbit pia 0 then rd (colors RPI_BARE_METAL) 4
    else rd (colors RPI_BARE_METAL) 0 in
  let fg := if Z.testbit c 6 then FB_BLACK else color_set in
  let bg := if Z.testbit c 6 then color_set else FB_BLACK in
  let bit_pattern := font_img5x7 (Z.land c 0x3f) (Z.of_nat font_row) in
  vdg_render_alpha_semi4 RPI_BARE_METAL font_img5x7 semi_graph_4 mem_read
    pia base
    !! (((row * 12 + font_row) * 32 + col) * 8 + font_col)%nat
  = Some (if Z.testbit bit_pattern (7 - Z.of_nat font_col) then fg else bg)
  /\ rd (colors RPI_BARE_METAL) 0
     = (if RPI_BARE_METAL then FB_LIGHT_GREEN else FB_GREEN)
  /\ rd (colors RPI_BARE_METAL) 4 = FB_WHITE.
Proof.
  intros Hrow Hfr Hcol Hfc c H7 color_set fg bg bit_pattern.
  split; [|split; reflexivity].
  unfold vdg_render_alpha_semi4.
  change (Z.to_nat SCREEN_HEIGHT_CHAR) with 16%nat.
  change (Z.to_nat FONT_HEIGHT) with 12%nat.
  change (Z.to_nat SCREEN_WIDTH_CHAR) with 32%nat.
  cbv zeta.
  replace (((row * 12 + font_row) * 32 + col) * 8 + font_col)%nat
    with (row * (12 * (32 * 8)) + (font_row * (32 * 8) + (col * 8 + font_col)))%nat
    by lia.
  rewrite (for_emit_lookup _ (12 * (32 * 8))); [| |lia|lia].
  2:{ intros j. apply for_emit_length. intros j2.
      apply for_emit_length. intros j3. apply alpha_semi4_col_length. }
  rewrite (for_emit_lookup _ (32 * 8)); [| |lia|lia].
  2:{ intros j. apply for_emit_length. intros j3.
      apply alpha_semi4_col_length. }
  rewrite (for_emit_lookup _ 8); [| |lia|lia].
  2:{ intros j. apply alpha_semi4_col_length. }
  rewrite !Z.add_0_l.
  assert (Hu : u8 (mem_read (Z.of_nat col + (Z.of_nat row * SCREEN_WIDTH_CHAR + base))) = c)
    by reflexivity.
  rewrite alpha_semi4_cell_text by (rewrite Hu; exact H7).
  rewrite Hu. change (Z.to_nat FONT_WIDTH) with 8%nat.
  rewrite default_color_css.
  unfold fg, bg, color_set, bit_pattern.
  destruct (Z.testbit c 6); rewrite render_pixels_lookup by assumption;
    destruct (Z.testbit pia 0); reflexivity.
Qed.

(** *** C7: the size of a frame *)

Lemma semi6_col_length pia base row font_row col :
  length
    (let c := mem_read (col + (row * SCREEN_WIDTH_CHAR + base)) in
     let bg_color := FB_BLACK in
     let fg_color :=
       colors_at RPI_BARE_METAL
         (Z.shiftr (Z.land c 0xc0) 6 + 4 * Z.land pia PIA_COLOR_SET) in
     let char_index := Z.land (u8 c) SEMI_GRAPH6_MASK in
     let bit_pattern := u8 (semi_graph_6 char_index font_row) in
     render_pixels (Z.to_nat FONT_WIDTH) bit_pattern 0x80 fg_color bg_color)
  = 8%nat.
Proof. cbv zeta. apply render_pixels_length. Qed.

Lemma alpha_semi4_length pia base :
  Z.of_nat (length (vdg_render_alpha_semi4 RPI_BARE_METAL font_img5x7
                      semi_graph_4 mem_read pia base)) = 49152.
Proof.
  unfold vdg_render_alpha_semi4. cbv zeta.
  rewrite (for_emit_length _ (12 * (32 * 8))).
  - reflexivity.
  - intros j. apply for_emit_length. intros j2.
    apply for_emit_length. intros j3. apply alpha_semi4_col_length.
Qed.

Lemma semi6_length pia base :
  Z.of_nat (length (vdg_render_semi6 RPI_BARE_METAL semi_graph_6 mem_read
                      pia base)) = 49152.
Proof.
  unfold vdg_render_semi6. cbv zeta.
  rewrite (for_emit_length _ (12 * (32 * 8))).
  - reflexivity.
  - intros j. apply for_emit_length. intros j2.
    apply for_emit_length. intros j3. apply semi6_col_length.
Qed.

Lemma semi_ext_length mode pia base :
  mode = SEMI_GRAPHICS_8 \/ mode = SEMI_GRAPHICS_12
  \/ mode = SEMI_GRAPHICS_24 ->
  Z.of_nat (length (vdg_render_semi_ext RPI_BARE_METAL font_img5x7
                      semi_graph_4 mem_read mode pia base)) = 49152.
Proof.
  intros Hm. unfold vdg_render_semi_ext. cbv zeta.
  assert (Hline : forall row_address font_row,
    length
      (for_emit (Z.to_nat SCREEN_WIDTH_CHAR) 0 (fun col =>
         let '(fg_color, bg_color, bit_pattern) :=
           alpha_semi4_cell RPI_BARE_METAL font_img5x7 semi_graph_4
             (default_color RPI_BARE_METAL pia)
             (mem_read (col + row_address)) font_row in
         render_pixels (Z.to_nat FONT_WIDTH) bit_pattern 0x80
           fg_color bg_color)) = (32 * 8)%nat).
  { intros ra fr. apply for_emit_length. intros j.
    destruct (alpha_semi4_cell _ _ _ _ _ _) as [[fg bg] bp].
    apply render_pixels_length. }
  destruct Hm as [->|[->| ->]].
  - change (FONT_HEIGHT / SEMIG8_SEG_HEIGHT) with 3.
    rewrite (loop_emit_length _ (4 * (3 * (32 * 8)))); [reflexivity|].
    intros j s. apply loop_emit_length. intros j2 s2.
    apply loop_emit_length. intros j3 s3. cbn [snd]. apply Hline.
  - change (FONT_HEIGHT / SEMIG12_SEG_HEIGHT) with 2.
    rewrite (loop_emit_length _ (6 * (2 * (32 * 8)))); [reflexivity|].
    intros j s. apply loop_emit_length. intros j2 s2.
    apply loop_emit_length. intros j3 s3. cbn [snd]. apply Hline.
  - change (FONT_HEIGHT / SEMIG24_SEG_HEIGHT) with 1.
    rewrite (loop_emit_length _ (12 * (1 * (32 * 8)))); [reflexivity|].
    intros j s. apply loop_emit_length. intros j2 s2.
    apply loop_emit_length. intros j3 s3. cbn [snd]. apply Hline.
Qed.

(** *** The graphics renderers: counters *)

Lemma row_store_snd pixel st : snd (row_store pixel st) = snd st + 1.
Proof. reflexivity. Qed.

Lemma resl_elements_snd n : forall element mode b fg st,
  snd (resl_elements n element mode b fg st)
  = snd st
    + Z.of_nat n * (if video_mode_eqb mode GRAPHICS_6R then 1 else 2).
Proof.
  induction n as [|n IH]; intros element mode b fg st.
  - cbn [resl_elements]. lia.
  - cbn [resl_elements]. cbv zeta. rewrite IH.
    destruct (video_mode_eqb mode GRAPHICS_6R); rewrite !row_store_snd; lia.
Qed.

Lemma color_elements_snd n : forall element mode b cs st,
  snd (color_elements RPI_BARE_METAL n element mode b cs st)
  = snd st
    + Z.of_nat n * (if video_mode_eqb mode GRAPHICS_1C then 4 else 2).
Proof.
  induction n as [|n IH]; intros element mode b cs st.
  - cbn [color_elements]. lia.
  - cbn [color_elements]. cbv zeta. rewrite IH.
    destruct (video_mode_eqb mode GRAPHICS_1C); rewrite !row_store_snd; lia.
Qed.

Lemma flush_row_spec row_rep st :
  snd (fst (flush_row row_rep st))
  = (if SCREEN_WIDTH_PIX <=? snd st then 0 else snd st) /\
  Z.of_nat (length (snd (flush_row row_rep st)))
  = if SCREEN_WIDTH_PIX <=? snd st
    then Z.max 0 row_rep * SCREEN_WIDTH_PIX else 0.
Proof.
  unfold flush_row. destruct st as [pr bi]. cbn [snd].
  destruct (SCREEN_WIDTH_PIX <=? bi); cbn [fst snd]; [|split; reflexivity].
  split; [reflexivity|].
  rewrite (for_emit_length _ (Z.to_nat SCREEN_WIDTH_PIX)).
  - rewrite Nat2Z.inj_mul. unfold SCREEN_WIDTH_PIX. lia.
  - intros j. rewrite (for_emit_length _ 1); [lia|reflexivity].
Qed.

(** A byte loop whose body moves the index on by [px] and then
    flushes, counted. *)
Lemma byte_loop_count (step : Z -> list Z * Z -> list Z * Z) px row_rep n :
  (forall i st, snd (step i st) = snd st + px) ->
  forall i st,
  let r := loop_emit n i (fun off st => flush_row row_rep (step off st)) st in
  snd (fst r) = fst (count_loop n px row_rep (snd st)) /\
  Z.of_nat (length (snd r)) = snd (count_loop n px row_rep (snd st)).
Proof.
  intros Hstep. induction n as [|n IH]; intros i st; [split; reflexivity|].
  cbn [loop_emit count_loop]. cbv zeta.
  destruct (flush_row_spec row_rep (step i st)) as (Hb & Hl).
  rewrite Hstep in Hb, Hl.
  destruct (flush_row row_rep (step i st)) as [st1 o1]. cbn [fst snd] in Hb, Hl.
  specialize (IH (i + 1) st1). cbv zeta in IH. rewrite Hb in IH.
  destruct (loop_emit n (i + 1) _ st1) as [st2 o2]. cbn [fst snd] in IH |- *.
  destruct IH as (IHb & IHl). rewrite length_app, Nat2Z.inj_add, Hl, IHl, IHb.
  destruct (SCREEN_WIDTH_PIX <=? snd st + px).
  - destruct (count_loop n px row_rep 0). cbn [fst snd]. split; reflexivity.
  - split; [reflexivity|lia].
Qed.

Lemma resl_graph_length mode pia base pr :
  mode = GRAPHICS_1R \/ mode = GRAPHICS_2R \/ mode = GRAPHICS_3R
  \/ mode = GRAPHICS_6R ->
  Z.of_nat (length (snd (vdg_render_resl_graph RPI_BARE_METAL mem_read
                           mode pia base pr))) = 49152.
Proof.
  intros Hm. unfold vdg_render_resl_graph. cbv zeta.
  pose proof (byte_loop_count
    (fun off st =>
       resl_elements 8 7 mode (u8 (mem_read (off + base)))
         (default_color RPI_BARE_METAL pia) st)
    (pixels_per_byte mode) (resolution_at mode RES_ROW_REP)
    (Z.to_nat (resolution_at mode RES_MEM))) as H.
  specialize (H ltac:(intros i st; cbv beta; rewrite resl_elements_snd;
                      destruct Hm as [->|[->|[->| ->]]]; reflexivity)
                0 (pr, 0)).
  cbv zeta in H. destruct (loop_emit _ _ _ _) as [st out].
  cbn [fst snd] in *. rewrite (proj2 H).
  destruct Hm as [->|[->|[->| ->]]]; vm_compute; reflexivity.
Qed.

Lemma color_graph_length mode pia base pr :
  mode = GRAPHICS_1C \/ mode = GRAPHICS_2C \/ mode = GRAPHICS_3C
  \/ mode = GRAPHICS_6C ->
  Z.of_nat (length (snd (vdg_render_color_graph RPI_BARE_METAL mem_read
                           mode pia base pr))) = 49152.
Proof.
  intros Hm. unfold vdg_render_color_graph. cbv zeta.
  pose proof (byte_loop_count
    (fun off st =>
       color_elements RPI_BARE_METAL 4 6 mode (u8 (mem_read (off + base)))
         (4 * Z.land pia PIA_COLOR_SET) st)
    (pixels_per_byte mode) (resolution_at mode RES_ROW_REP)
    (Z.to_nat (resolution_at mode RES_MEM))) as H.
  specialize (H ltac:(intros i st; cbv beta; rewrite color_elements_snd;
                      destruct Hm as [->|[->|[->| ->]]]; reflexivity)
                0 (pr, 0)).
  cbv zeta in H. destruct (loop_emit _ _ _ _) as [st out].
  cbn [fst snd] in *. rewrite (proj2 H).
  destruct Hm as [->|[->|[->| ->]]]; vm_compute; reflexivity.
Qed.

(** *** The graphics renderers: [pixel_row] is rewritten before use *)

Lemma row_store_rel pixel st1 st2 :
  row_rel st1 st2 -> row_rel (row_store pixel st1) (row_store pixel st2).
Proof.
  destruct st1 as [p1 b1], st2 as [p2 b2]. unfold row_rel, row_store.
  cbn [fst snd]. intros (Hb & H0 & L1 & L2 & Ht). subst b2.
  rewrite !length_insert. repeat split; try assumption; [lia|].
  replace (Z.to_nat (b1 + 1)) with (S (Z.to_nat b1)) by lia.
  destruct (decide (Z.to_nat b1 < length p1)%nat) as [Hlt|Hge].
  - rewrite !take_snoc_insert by lia. rewrite Ht. reflexivity.
  - rewrite !list_insert_ge by lia.
    rewrite !take_ge in Ht by lia. rewrite Ht. reflexivity.
Qed.

Lemma resl_elements_rel n : forall element mode b fg st1 st2,
  row_rel st1 st2 ->
  row_rel (resl_elements n element mode b fg st1)
          (resl_elements n element mode b fg st2).
Proof.
  induction n as [|n IH]; intros element mode b fg st1 st2 H; [exact H|].
  cbn [resl_elements]. cbv zeta. apply IH.
  destruct (video_mode_eqb mode GRAPHICS_6R); auto using row_store_rel.
Qed.

Lemma color_elements_rel n : forall element mode b cs st1 st2,
  row_rel st1 st2 ->
  row_rel (color_elements RPI_BARE_METAL n element mode b cs st1)
          (color_elements RPI_BARE_METAL n element mode b cs st2).
Proof.
  induction n as [|n IH]; intros element mode b cs st1 st2 H; [exact H|].
  cbn [color_elements]. cbv zeta. apply IH.
  destruct (video_mode_eqb mode GRAPHICS_1C); auto using row_store_rel.
Qed.

Lemma flush_row_rel row_rep st1 st2 :
  row_rel st1 st2 ->
  row_rel (fst (flush_row row_rep st1)) (fst (flush_row row_rep st2)) /\
  snd (flush_row row_rep st1) = snd (flush_row row_rep st2).
Proof.
  destruct st1 as [p1 b1], st2 as [p2 b2]. unfold row_rel, flush_row.
  cbn [fst snd]. intros (Hb & H0 & L1 & L2 & Ht). subst b2.
  destruct (Z.leb_spec SCREEN_WIDTH_PIX b1) as [Hge|Hlt]; cbn [fst snd].
  - assert (p1 = p2) as ->.
    { rewrite !take_ge in Ht by lia. exact Ht. }
    repeat split; try assumption; lia.
  - repeat split; try assumption.
Qed.

Lemma loop_emit_rel {S : Type} (R : S -> S -> Prop)
    (body : Z -> S -> S * list Z) n :
  (forall i s1 s2, R s1 s2 ->
     R (fst (body i s1)) (fst (body i s2)) /\
     snd (body i s1) = snd (body i s2)) ->
  forall i s1 s2, R s1 s2 ->
  R (fst (loop_emit n i body s1)) (fst (loop_emit n i body s2)) /\
  snd (loop_emit n i body s1) = snd (loop_emit n i body s2).
Proof.
  intros Hbody. induction n as [|n IH]; intros i s1 s2 HR.
  - split; [exact HR|reflexivity].
  - cbn [loop_emit]. destruct (Hbody i s1 s2 HR) as (HR1 & Ho1).
    destruct (body i s1) as [a1 o1], (body i s2) as [a2 o2].
    cbn [fst snd] in HR1, Ho1. subst o2.
    destruct (IH (i + 1) a1 a2 HR1) as (HR2 & Ho2).
    destruct (loop_emit n (i + 1) body a1) as [c1 q1],
             (loop_emit n (i + 1) body a2) as [c2 q2].
    cbn [fst snd] in *. subst q2. split; [exact HR2|reflexivity].
Qed.

Lemma row_rel_start pr1 pr2 :
  length pr1 = 256%nat -> length pr2 = 256%nat -> row_rel (pr1, 0) (pr2, 0).
Proof. intros L1 L2. unfold row_rel. cbn [fst snd]. repeat split; auto; lia. Qed.

Lemma resl_graph_indep mode pia base pr1 pr2 :
  length pr1 = 256%nat -> length pr2 = 256%nat ->
  snd (vdg_render_resl_graph RPI_BARE_METAL mem_read mode pia base pr1)
  = snd (vdg_render_resl_graph RPI_BARE_METAL mem_read mode pia base pr2) /\
  length (fst (vdg_render_resl_graph RPI_BARE_METAL mem_read mode pia base pr1))
  = 256%nat.
Proof.
  intros L1 L2. unfold vdg_render_resl_graph. cbv zeta.
  match goal with |- context [loop_emit ?n ?i0 ?body (pr1, 0)] =>
    assert (Hbody : forall i s1 s2, row_rel s1 s2 ->
              row_rel (fst (body i s1)) (fst (body i s2)) /\
              snd (body i s1) = snd (body i s2))
      by (intros i s1 s2 HR; cbv beta;
          apply flush_row_rel, resl_elements_rel, HR);
    destruct (loop_emit_rel row_rel body n Hbody i0 (pr1, 0) (pr2, 0)
                (row_rel_start _ _ L1 L2)) as (HR & Ho);
    destruct (loop_emit n i0 body (pr1, 0)) as [a1 o1],
             (loop_emit n i0 body (pr2, 0)) as [a2 o2]
  end.
  cbn [fst snd] in *. split; [exact Ho|]. apply HR.
Qed.

Lemma color_graph_indep mode pia base pr1 pr2 :
  length pr1 = 256%nat -> length pr2 = 256%nat ->
  snd (vdg_render_color_graph RPI_BARE_METAL mem_read mode pia base pr1)
  = snd (vdg_render_color_graph RPI_BARE_METAL mem_read mode pia base pr2) /\
  length (fst (vdg_render_color_graph RPI_BARE_METAL mem_read mode pia base pr1))
  = 256%nat.
Proof.
  intros L1 L2. unfold vdg_render_color_graph. cbv zeta.
  match goal with |- context [loop_emit ?n ?i0 ?body (pr1, 0)] =>
    assert (Hbody : forall i s1 s2, row_rel s1 s2 ->
              row_rel (fst (body i s1)) (fst (body i s2)) /\
              snd (body i s1) = snd (body i s2))
      by (intros i s1 s2 HR; cbv beta;
          apply flush_row_rel, color_elements_rel, HR);
    destruct (loop_emit_rel row_rel body n Hbody i0 (pr1, 0) (pr2, 0)
                (row_rel_start _ _ L1 L2)) as (HR & Ho);
    destruct (loop_emit n i0 body (pr1, 0)) as [a1 o1],
             (loop_emit n i0 body (pr2, 0)) as [a2 o2]
  end.
  cbn [fst snd] in *. split; [exact Ho|]. apply HR.
Qed.

Lemma frame_of_character_mode (w pr : list Z) :
  Z.of_nat (length w) = 49152 -> length pr = 256%nat ->
  exists pr' w',
    Some (pr, w) = Some (pr', w') /\
    Z.of_nat (length w') = 49152 /\ length pr' = 256%nat /\
    forall pr2 : list Z, length pr2 = 256%nat ->
      snd <$> Some (pr2, w) = Some w'.
Proof.
  intros Hw Hl. exists pr, w. repeat split; assumption.
Qed.

Lemma frame_of_graphics_mode (f : list Z -> list Z * list Z) (pr : list Z) :
  (forall p, Z.of_nat (length (snd (f p))) = 49152) ->
  (forall p1 p2, length p1 = 256%nat -> length p2 = 256%nat ->
     snd (f p1) = snd (f p2) /\ length (fst (f p1)) = 256%nat) ->
  length pr = 256%nat ->
  exists pr' w',
    Some (f pr) = Some (pr', w') /\
    Z.of_nat (length w') = 49152 /\ length pr' = 256%nat /\
    forall pr2 : list Z, length pr2 = 256%nat ->
      snd <$> Some (f pr2) = Some w'.
Proof.
  intros Hlen Hind Hl. exists (fst (f pr)), (snd (f pr)).
  split; [f_equal; apply surjective_pairing|].
  split; [apply Hlen|]. split; [apply (Hind pr pr Hl Hl)|].
  intros pr2 L2. change (Some (snd (f pr2)) = Some (snd (f pr))).
  f_equal. apply Hind; assumption.
Qed.

(** One rendering in a mode that has a renderer: 49152 bytes are
    stored, [pixel_row] keeps its size, and the bytes do not depend on
    what [pixel_row] held before. *)
Lemma render_mode_frame mode pia base pr :
  renderable mode = true -> length pr = 256%nat ->
  exists pr' w,
    render_mode RPI_BARE_METAL font_img5x7 semi_graph_4 semi_graph_6
      mem_read mode pia base pr = Some (pr', w) /\
    Z.of_nat (length w) = 49152 /\ length pr' = 256%nat /\
    forall pr2, length pr2 = 256%nat ->
      snd <$> render_mode RPI_BARE_METAL font_img5x7 semi_graph_4
                semi_graph_6 mem_read mode pia base pr2 = Some w.
Proof.
  intros Hr Hl.
  destruct mode; try discriminate Hr; cbn [render_mode].
  - apply frame_of_character_mode; [apply alpha_semi4_length|exact Hl].
  - apply frame_of_character_mode; [apply semi6_length|exact Hl].
  - apply frame_of_character_mode; [apply alpha_semi4_length|exact Hl].
  - apply frame_of_character_mode; [apply semi6_length|exact Hl].
  - apply frame_of_character_mode; [apply semi_ext_length; auto|exact Hl].
  - apply frame_of_character_mode; [apply semi_ext_length; auto|exact Hl].
  - apply frame_of_character_mode; [apply semi_ext_length; auto|exact Hl].
  - apply (frame_of_graphics_mode
             (vdg_render_color_graph RPI_BARE_METAL mem_read GRAPHICS_1C pia base));
      [intros; apply color_graph_length; auto 6
      |intros; apply color_graph_indep; assumption|exact Hl].
  - apply (frame_of_graphics_mode
             (vdg_render_resl_graph RPI_BARE_METAL mem_read GRAPHICS_1R pia base));
      [intros; apply resl_graph_length; auto 6
      |intros; apply resl_graph_indep; assumption|exact Hl].
  - apply (frame_of_graphics_mode
             (vdg_render_color_graph RPI_BARE_METAL mem_read GRAPHICS_2C pia base));
      [intros; apply color_graph_length; auto 6
      |intros; apply color_graph_indep; assumption|exact Hl].
  - apply (frame_of_graphics_mode
             (vdg_render_resl_graph RPI_BARE_METAL mem_read GRAPHICS_2R pia base));
      [intros; apply resl_graph_length; auto 6
      |intros; apply resl_graph_indep; assumption|exact Hl].
  - apply (frame_of_graphics_mode
             (vdg_render_color_graph RPI_BARE_METAL mem_read GRAPHICS_3C pia base));
      [intros; apply color_graph_length; auto 6
      |intros; apply color_graph_indep; assumption|exact Hl].
  - apply (frame_of_graphics_mode
             (vdg_render_resl_graph RPI_BARE_METAL mem_read GRAPHICS_3R pia base));
      [intros; apply resl_graph_length; auto 6
      |intros; apply resl_graph_indep; assumption|exact Hl].
  - apply (frame_of_graphics_mode
             (vdg_render_color_graph RPI_BARE_METAL mem_read GRAPHICS_6C pia base));
      [intros; apply color_graph_length; auto 6
      |intros; apply color_graph_indep; assumption|exact Hl].
  - apply (frame_of_graphics_mode
             (vdg_render_resl_graph RPI_BARE_METAL mem_read GRAPHICS_6R pia base));
      [intros; apply resl_graph_length; auto 6
      |intros; apply resl_graph_indep; assumption|exact Hl].
Qed.

Lemma fb_store_twice w fb : fb_store w (fb_store w fb) = fb_store w fb.
Proof.
  unfold fb_store. rewrite drop_app_length. reflexivity.
Qed.

Lemma fb_store_full w fb : length w = length fb -> fb_store w fb = w.
Proof.
  intros H. unfold fb_store. rewrite drop_ge by lia. apply app_nil_r.
Qed.

(** In the two other modes [vdg_render()] halts. *)
Lemma vdg_render_unsupported v mode :
  vdg_get_mode (sam_video_mode v) (pia_video_mode v) = Some mode ->
  renderable mode = false ->
  vdg_render RPI_BARE_METAL font_img5x7 semi_graph_4 semi_graph_6
    mem_read v = None.
Proof.
  intros Hmode Hr. unfold vdg_render. rewrite Hmode.
  destruct mode; try discriminate Hr; reflexivity.
Qed.

(** C7. In a mode [vdg_render()] has a renderer for (every mode but
    DMA and the undefined one, on which it halts) and with the bus
    fixed, one call stores exactly 256*192 = 49152 bytes in the frame
    buffer, from its start, and a second call right after it leaves
    the frame buffer as the first one made it. [pixel_row] is the
    256-byte array of the module. *)
Theorem render_writes_frame_and_is_idempotent v mode :
  vdg_get_mode (sam_video_mode v) (pia_video_mode v) = Some mode ->
  renderable mode = true ->
  length (pixel_row v) = 256%nat ->
  exists w v1 v2,
    vdg_render_writes RPI_BARE_METAL font_img5x7 semi_graph_4 semi_graph_6
      mem_read v = Some w /\
    Z.of_nat (length w) = 256 * 192 /\
    vdg_render RPI_BARE_METAL font_img5x7 semi_graph_4 semi_graph_6
      mem_read v = Some v1 /\
    fb v1 = fb_store w (fb v) /\
    (Z.of_nat (length (fb v)) = 256 * 192 -> fb v1 = w) /\
    vdg_render RPI_BARE_METAL font_img5x7 semi_graph_4 semi_graph_6
      mem_read v1 = Some v2 /\
    fb v2 = fb v1.
Proof.
  intros Hmode Hr Hl.
  destruct (render_mode_frame mode (pia_video_mode v)
              (Z.shiftl (video_ram_offset v) 9) (pixel_row v) Hr Hl)
    as (pr' & w & Hrm & Hw & Hl' & Hind).
  assert (H1 : vdg_render RPI_BARE_METAL font_img5x7 semi_graph_4
                 semi_graph_6 mem_read v
               = Some (mk_vdg (video_ram_offset v) (sam_video_mode v)
                         (pia_video_mode v) mode
                         (if video_mode_eqb mode (prev_mode v)
                          then prev_mode v else mode)
                         pr' (fb_store w (fb v)))).
  { unfold vdg_render. rewrite Hmode. cbn [mbind option_bind]. cbv zeta.
    rewrite Hrm. reflexivity. }
  pose proof (Hind pr' Hl') as Hrm2.
  destruct (render_mode RPI_BARE_METAL font_img5x7 semi_graph_4 semi_graph_6
              mem_read mode (pia_video_mode v)
              (Z.shiftl (video_ram_offset v) 9) pr') as [[pr'' w2]|] eqn:E2;
    [|discriminate Hrm2].
  cbn in Hrm2. injection Hrm2 as ->.
  eexists w, _, _. split; [|split; [exact Hw|split; [exact H1|]]].
  { unfold vdg_render_writes. rewrite Hmode. cbn [mbind option_bind].
    rewrite Hrm. reflexivity. }
  cbn [fb]. split; [reflexivity|]. split.
  { intros Hfb. apply fb_store_full. lia. }
  split.
  - unfold vdg_render. cbn [sam_video_mode pia_video_mode video_ram_offset
                            pixel_row prev_mode fb].
    rewrite Hmode. cbn [mbind option_bind]. cbv zeta. rewrite E2. reflexivity.
  - cbn [fb]. apply fb_store_twice.
Qed.

End RenderProofs.

(** ** The renderer on a fixture

    A font whose every pixel is set, and a video memory filled with one
    character code. *)

Section RenderFixture.
Import Vdg.

(** The inverse-video letter at row 1, column 3, with CSS = 0. *)
Lemma alpha_text_pixel_colours_witness :
  let c := u8 ((fun _ : Z => 0x41) (Z.of_nat 3 + (Z.of_nat 1 * 32 + 0x400))) in
  let color_set :=
    if Z.testbit 0 0 then rd (colors false) 4 else rd (colors false) 0 in
  let fg := if Z.testbit c 6 then FB_BLACK else color_set in
  let bg := if Z.testbit c 6 then color_set else FB_BLACK in
  let bit_pattern :=
    (fun _ _ : Z => 0xff) (Z.land c 0x3f) (Z.of_nat 2) in
  vdg_render_alpha_semi4 false (fun _ _ => 0xff) (fun _ _ => 0)
    (fun _ => 0x41) 0 0x400
    !! (((1 * 12 + 2) * 32 + 3) * 8 + 4)%nat
  = Some (if Z.testbit bit_pattern (7 - Z.of_nat 4) then fg else bg)
  /\ rd (colors false) 0 = (if false then FB_LIGHT_GREEN else FB_GREEN)
  /\ rd (colors false) 4 = FB_WHITE.
Proof.
  apply (alpha_text_pixel_colours false (fun _ _ => 0xff) (fun _ _ => 0)
           (fun _ => 0x41) 0 0x400 1 2 3 4); [lia|lia|lia|lia|reflexivity].
Defined.

(** C5, as the specification states it, fails for CSS = 1: the
    foreground of a text cell is then entry 4 of the colour table, the
    buff entry (white), in either build, and not the orange entry 7. *)
Lemma alpha_css1_foreground_counterexample :
  vdg_render_alpha_semi4 false (fun _ _ => 0xff) (fun _ _ => 0)
    (fun _ => 0x01) 0x01 0x400 !! 0%nat = Some FB_WHITE /\
  vdg_render_alpha_semi4 true (fun _ _ => 0xff) (fun _ _ => 0)
    (fun _ => 0x01) 0x01 0x400 !! 0%nat = Some FB_WHITE /\
  rd (colors false) 7 = FB_BROWN /\ rd (colors true) 7 = FB_BROWN /\
  FB_WHITE <> FB_BROWN.
Proof.
  split; [vm_compute; reflexivity|]. split; [vm_compute; reflexivity|].
  split; [reflexivity|]. split; [reflexivity|]. discriminate.
Qed.

(** The text screen at power-on. *)
Lemma render_writes_frame_and_is_idempotent_witness :
  let v :=
    mk_vdg 2 0 0 ALPHA_INTERNAL UNDEFINED (replicate 256 0)
      (replicate (Z.to_nat 49152) 0) in
  exists w v1 v2,
    vdg_render_writes false (fun _ _ => 0xff) (fun _ _ => 0) (fun _ _ => 0)
      (fun _ => 0x41) v = Some w /\
    Z.of_nat (length w) = 256 * 192 /\
    vdg_render false (fun _ _ => 0xff) (fun _ _ => 0) (fun _ _ => 0)
      (fun _ => 0x41) v = Some v1 /\
    fb v1 = fb_store w (fb v) /\
    (Z.of_nat (length (fb v)) = 256 * 192 -> fb v1 = w) /\
    vdg_render false (fun _ _ => 0xff) (fun _ _ => 0) (fun _ _ => 0)
      (fun _ => 0x41) v1 = Some v2 /\
    fb v2 = fb v1.
Proof.
  intros v.
  apply (render_writes_frame_and_is_idempotent false (fun _ _ => 0xff)
           (fun _ _ => 0) (fun _ _ => 0) (fun _ => 0x41) v ALPHA_INTERNAL);
    reflexivity.
Defined.

End RenderFixture.

(** * Further properties of the disk controller *)

Section DiskTransfers.
Import Disk.

Ltac is_disk_proj p :=
  lazymatch p with
  | disk_cmd => idtac | disk_status => idtac | disk_track => idtac
  | disk_sector => idtac | disk_data => idtac | motor_on => idtac
  | disk_drive_num => idtac | disk_double_density => idtac
  | nmi_inhibit => idtac | state => idtac | vdk_header => idtac
  | buffer => idtac | buffer_index => idtac | time_mark => idtac
  | img_type => idtac | img_data => idtac | img_pos => idtac
  | trace => idtac
  end.

Ltac is_disk_set s :=
  lazymatch s with
  | set_disk_cmd => idtac | set_disk_status => idtac
  | set_disk_track => idtac | set_disk_sector => idtac
  | set_disk_data => idtac | set_motor_on => idtac
  | set_disk_double_density => idtac | set_nmi_inhibit => idtac
  | set_state => idtac | set_vdk_header => idtac | set_buffer => idtac
  | set_buffer_index => idtac | set_time_mark => idtac
  | set_img_type => idtac | set_img_data => idtac | set_img_pos => idtac
  | set_trace => idtac | emit => idtac | clear_status => idtac
  end.

Ltac disk_rw_with p s x d rw :=
  is_disk_proj p; is_disk_set s;
  first
    [ let H := fresh in
      assert (H : forall x' d', p (s x' d') = p d') by reflexivity;
      rw (H x d); clear H
    | let H := fresh in
      assert (H : forall x' d', p (s x' d') = x') by reflexivity;
      rw (H x d); clear H ].

Ltac disk_rw :=
  repeat match goal with
  | |- context [?p (?s ?x ?d)] =>
      disk_rw_with p s x d ltac:(fun e => rewrite e)
  end.

Ltac disk_rw_in H :=
  repeat match type of H with
  | context [?p (?s ?x ?d)] =>
      disk_rw_with p s x d ltac:(fun e => rewrite e in H)
  end.

(** *** The image file under a write *)

Lemma fwrite_mounted w d :
  mounted d = true -> img_data d <> [] ->
  loader_disk_fwrite w d =
  set_img_pos (img_pos d + Z.of_nat (length w))
    (set_img_data
       (take (Z.to_nat (img_pos d)) (img_data d) ++ w
        ++ drop (Z.to_nat (img_pos d) + length w) (img_data d))
       (emit (EvWrite w) d)).
Proof.
  intros Hm Hd. unfold loader_disk_fwrite. cbv zeta.
  assert (E1 : mounted (emit (EvWrite w) d) = true) by exact Hm.
  assert (E2 : img_data (emit (EvWrite w) d) = img_data d) by reflexivity.
  assert (E3 : img_pos (emit (EvWrite w) d) = img_pos d) by reflexivity.
  rewrite E1, E2, E3.
  destruct (Z.eqb_spec (Z.of_nat (length (img_data d))) 0) as [He|_];
    [|reflexivity].
  destruct (img_data d); [contradiction|discriminate].
Qed.

(** The command part of WRITE SECTOR on a mounted VDK image. *)
Lemma cmd_write_sector_vdk d :
  Z.testbit (disk_status d) 0 = false ->
  img_type d = FILE_VDK -> (12 <= length (img_data d))%nat ->
  let off :=
    u32 (disk_to_image_offset (disk_track d) (disk_sector d)
         + header_size (img_data d)) in
  off <= Z.of_nat (length (img_data d)) ->
  exists d1,
    io_handler_wd2797_cmd_stat WDCmdWriteSec MEM_WRITE d = Some (d1, 0) /\
    state d1 = DISK_WRITE /\ buffer_index d1 = 0 /\
    buffer d1 = buffer d /\ disk_status d1 = WDBusy /\
    img_type d1 = FILE_VDK /\ img_data d1 = img_data d /\ img_pos d1 = off /\
    disk_track d1 = disk_track d /\ disk_sector d1 = disk_sector d.
Proof.
  intros Hbusy Hty Hlen off Hoff.
  assert (Hoff0 : 0 <= off) by (apply Z.mod_pos_bound; lia).
  eexists. split.
  - unfold io_handler_wd2797_cmd_stat. cbv zeta.
    change (WDCmdWriteSec =? WDCmdForceInt) with false.
    change (Z.land WDCmdWriteSec WDCmdStepMask =? WDCmdRestore) with false.
    change (Z.land WDCmdWriteSec WDCmdStepMask =? WDCmdSeek) with false.
    change (WDCmdWriteSec =? WDCmdReadSec) with false.
    change (WDCmdWriteSec =? WDCmdWriteSec) with true.
    cbv iota. disk_rw. unfold WDBusy at 1. rewrite bits_set_1, Hbusy.
    cbv [negb]. cbv iota.
    unfold mounted at 1. disk_rw. rewrite Hty. cbv iota.
    rewrite command_seek_address_vdk by (disk_rw; assumption).
    cbv iota beta. disk_rw. fold off.
    rewrite fseek_mounted
      by (unfold mounted; disk_rw; rewrite ?Hty; first [reflexivity|lia]).
    reflexivity.
  - disk_rw. repeat split; first [reflexivity | assumption].
Qed.

(** One write of the data register while a sector is being written. *)
Lemma data_write_step d w :
  state d = DISK_WRITE ->
  io_handler_wd2797_data w MEM_WRITE d =
  Some (let d1 :=
          set_buffer_index (buffer_index d + 1)
            (clear_status WDDRQ
               (set_buffer (<[Z.to_nat (buffer_index d) := w]> (buffer d))
                  (set_disk_data w d))) in
        if buffer_index d + 1 =? SECTOR_SIZE
        then clear_status WDBusy
               (loader_disk_fwrite
                  (take (Z.to_nat SECTOR_SIZE)
                     (<[Z.to_nat (buffer_index d) := w]> (buffer d)))
                  (set_state DISK_IDLE d1))
        else d1,
        0).
Proof.
  intros Hst. unfold io_handler_wd2797_data. rewrite Hst. cbv zeta.
  disk_rw. reflexivity.
Qed.

(** The writes that complete a sector: the sector's bytes go to the
    image at the file position; nothing else of the image changes. *)
Lemma data_writes_sector ws : forall d,
  state d = DISK_WRITE -> 0 <= buffer_index d ->
  buffer_index d + Z.of_nat (length ws) = SECTOR_SIZE -> ws <> [] ->
  (256 <= length (buffer d))%nat ->
  mounted d = true -> img_data d <> [] ->
  exists d',
    data_writes ws d = Some d' /\
    state d' = DISK_IDLE /\ Z.testbit (disk_status d') 0 = false /\
    disk_track d' = disk_track d /\ disk_sector d' = disk_sector d /\
    img_type d' = img_type d /\
    img_data d' =
      take (Z.to_nat (img_pos d)) (img_data d)
      ++ (take (Z.to_nat (buffer_index d)) (buffer d) ++ ws)
      ++ drop (Z.to_nat (img_pos d) + 256) (img_data d).
Proof.
  induction ws as [|w ws IH]; intros d Hst H0 Hn Hne Hlen Hm Hd;
    [contradiction|].
  cbn [data_writes]. rewrite (data_write_step d w Hst). cbv zeta.
  destruct ws as [|w' ws].
  - cbn [length] in Hn.
    destruct (Z.eqb_spec (buffer_index d + 1) SECTOR_SIZE) as [He|Hx]; [|lia].
    cbn [mbind option_bind data_writes].
    rewrite fwrite_mounted
      by (first [ unfold mounted; disk_rw; exact Hm | disk_rw; exact Hd ]).
    eexists. split; [reflexivity|].
    disk_rw. split; [reflexivity|].
    split.
    { unfold clear_status. disk_rw. rewrite testbit_clear by lia.
      apply andb_false_r. }
    do 3 (split; [reflexivity|]).
    unfold SECTOR_SIZE in *.
    replace (Z.to_nat 256) with (S (Z.to_nat (buffer_index d))) by lia.
    rewrite take_snoc_insert by lia.
    rewrite length_app, length_take. cbn [length].
    replace (Z.to_nat (img_pos d)
             + (Z.to_nat (buffer_index d) `min` length (buffer d) + 1))%nat
      with (Z.to_nat (img_pos d) + 256)%nat by lia.
    reflexivity.
  - assert (Hl : Z.of_nat (length (w :: w' :: ws))
                 = 1 + Z.of_nat (length (w' :: ws))).
    { cbn [length]. lia. }
    rewrite Hl in Hn.
    assert (Hp : 0 < Z.of_nat (length (w' :: ws))) by (cbn [length]; lia).
    destruct (Z.eqb_spec (buffer_index d + 1) SECTOR_SIZE) as [He|_]; [lia|].
    cbn [mbind option_bind].
    set (d1 := set_buffer_index (buffer_index d + 1)
                 (clear_status WDDRQ
                    (set_buffer (<[Z.to_nat (buffer_index d) := w]> (buffer d))
                       (set_disk_data w d)))).
    destruct (IH d1) as (d' & Hr & Hs & Hb & Ht & Hsec & Hty & Himg).
    + unfold d1. disk_rw. exact Hst.
    + unfold d1. disk_rw. lia.
    + unfold d1. disk_rw. lia.
    + discriminate.
    + unfold d1. disk_rw. rewrite length_insert. exact Hlen.
    + unfold mounted, d1. disk_rw. exact Hm.
    + unfold d1. disk_rw. exact Hd.
    + exists d'. split; [exact Hr|].
      split; [exact Hs|]. split; [exact Hb|].
      unfold d1 in Ht, Hsec, Hty, Himg.
      disk_rw_in Ht. disk_rw_in Hsec. disk_rw_in Hty. disk_rw_in Himg.
      split; [exact Ht|]. split; [exact Hsec|]. split; [exact Hty|].
      rewrite Himg. unfold SECTOR_SIZE in *.
      replace (Z.to_nat (buffer_index d + 1))
        with (S (Z.to_nat (buffer_index d))) by lia.
      rewrite take_snoc_insert by lia.
      rewrite <- (app_assoc _ [w]). reflexivity.
Qed.

(** READ SECTOR and its 256 reads on a mounted VDK image. *)
Lemma read_sector_bytes d :
  Z.testbit (disk_status d) 0 = false ->
  img_type d = FILE_VDK ->
  (12 <= length (img_data d))%nat ->
  0 <= rd (img_data d) 2 < 256 -> 0 <= rd (img_data d) 3 < 256 ->
  0 <= disk_track d < 256 -> 1 <= disk_sector d < 256 ->
  let off :=
    code_sector_offset (header_size (img_data d))
      (disk_track d) (disk_sector d) in
  off + 256 <= Z.of_nat (length (img_data d)) ->
  read_sector d = Some (take 256 (drop (Z.to_nat off) (img_data d))).
Proof.
  intros Hbusy Hty Hlen H2 H3 Ht Hs off Hoff.
  assert (Hpos : 0 <= off).
  { unfold off, code_sector_offset, header_size. lia. }
  destruct (cmd_read_sector_vdk d Hbusy Hty Hlen) as (d1 & Hc & Hst & Hi & Hb & _).
  { rewrite code_offset_u32 by assumption. fold off. lia. }
  rewrite code_offset_u32 in Hb by assumption. fold off in Hb.
  destruct (data_reads_sector 255 d1) as (d2 & Hr & _).
  { exact Hst. } { lia. } { rewrite Hi. reflexivity. }
  unfold read_sector. rewrite Hc. cbn [mbind option_bind].
  rewrite Hr. cbn [fmap option_fmap option_map fst]. f_equal.
  rewrite Hi, Hb. unfold overlay.
  set (got := take 256 (drop (Z.to_nat off) (img_data d))).
  assert (Hg : length got = 256%nat).
  { unfold got. rewrite length_take, length_drop. lia. }
  replace (Z.of_nat 256) with (Z.of_nat (length got)) by (rewrite Hg; reflexivity).
  apply fmap_rd_prefix.
Qed.

(** WRITE SECTOR followed by 256 writes of the data register replaces
    the 256 image bytes of the sector addressed by the track and sector
    registers with the bytes written, and leaves every other byte of
    the image and its length as they were; the controller is then idle
    and not busy, and a READ SECTOR of the same sector returns the
    bytes written. *)
Theorem write_sector_then_read_back d ws :
  Z.testbit (disk_status d) 0 = false ->
  img_type d = FILE_VDK ->
  Z.of_nat (length (buffer d)) = BYTES_PER_TRACK ->
  0 <= rd (img_data d) 2 < 256 -> 0 <= rd (img_data d) 3 < 256 ->
  12 <= header_size (img_data d) ->
  0 <= disk_track d < 256 -> 1 <= disk_sector d < 256 ->
  length ws = 256%nat ->
  let off :=
    code_sector_offset (header_size (img_data d))
      (disk_track d) (disk_sector d) in
  off + 256 <= Z.of_nat (length (img_data d)) ->
  exists d2,
    write_sector ws d = Some d2 /\
    state d2 = DISK_IDLE /\ Z.testbit (disk_status d2) 0 = false /\
    img_data d2 =
      take (Z.to_nat off) (img_data d) ++ ws
      ++ drop (Z.to_nat off + 256) (img_data d) /\
    length (img_data d2) = length (img_data d) /\
    read_sector d2 = Some ws.
Proof.
  intros Hbusy Hty Hbuf H2 H3 Hhs Ht Hs Hws off Hoff.
  assert (Hoff12 : 12 <= off).
  { unfold off, code_sector_offset. lia. }
  assert (Hlen : (12 <= length (img_data d))%nat) by lia.
  destruct (cmd_write_sector_vdk d Hbusy Hty Hlen)
    as (d1 & Hc & Hst & Hi & Hb & _ & Hty1 & Himg1 & Hpos1 & Ht1 & Hs1).
  { rewrite code_offset_u32 by assumption. fold off. lia. }
  rewrite code_offset_u32 in Hpos1 by assumption. fold off in Hpos1.
  destruct (data_writes_sector ws d1)
    as (d2 & Hw & Hst2 & Hb2 & Ht2 & Hs2 & Hty2 & Himg2).
  { exact Hst. } { lia. }
  { rewrite Hi, Hws. reflexivity. }
  { intros ->. discriminate. }
  { rewrite Hb. unfold BYTES_PER_TRACK, SEC_PER_TRACK, SECTOR_SIZE in Hbuf. lia. }
  { apply mounted_vdk. exact Hty1. }
  { rewrite Himg1. intros E. rewrite E in Hlen. cbn in Hlen. lia. }
  rewrite Hi, Himg1, Hpos1 in Himg2. change (take (Z.to_nat 0) (buffer d1)) with (@nil Z) in Himg2.
  rewrite app_nil_l in Himg2.
  assert (Hl2 : length (img_data d2) = length (img_data d)).
  { rewrite Himg2, !length_app, length_take, length_drop. lia. }
  assert (Hrd : forall i, 0 <= i < 12 -> rd (img_data d2) i = rd (img_data d) i).
  { intros i Hi12. rewrite Himg2, rd_app_l by (rewrite length_take; lia).
    apply rd_take. lia. }
  assert (Hh2 : header_size (img_data d2) = header_size (img_data d)).
  { unfold header_size. rewrite !Hrd by lia. reflexivity. }
  exists d2. split.
  { unfold write_sector. rewrite Hc. exact Hw. }
  split; [exact Hst2|]. split; [exact Hb2|]. split; [exact Himg2|].
  split; [exact Hl2|].
  rewrite read_sector_bytes.
  - rewrite Hh2, Ht2, Hs2, Ht1, Hs1. fold off. f_equal.
    rewrite Himg2. rewrite drop_app_length' by (rewrite length_take; lia).
    apply take_app_length'. symmetry. exact Hws.
  - exact Hb2.
  - rewrite Hty2. exact Hty1.
  - rewrite Hl2. exact Hlen.
  - rewrite Hrd by lia. exact H2.
  - rewrite Hrd by lia. exact H3.
  - rewrite Ht2, Ht1. exact Ht.
  - rewrite Hs2, Hs1. exact Hs.
  - rewrite Hh2, Ht2, Hs2, Ht1, Hs1, Hl2. exact Hoff.
Qed.

(** *** READ ADDRESS *)

(** One read of the data register while an ID field is being read. *)
Lemma data_read_id_step d :
  state d = DISK_READ_ID ->
  io_handler_wd2797_data 0 MEM_READ d =
  Some (let d1 :=
          set_buffer_index (buffer_index d + 1)
            (clear_status WDDRQ
               (set_disk_data (rd (buffer d) (buffer_index d)) d)) in
        if buffer_index d + 1 =? ID_FIELD_SIZE
        then clear_status (WDBusy + WDDRQ) (set_state DISK_IDLE d1) else d1,
        rd (buffer d) (buffer_index d)).
Proof.
  intros Hst. unfold io_handler_wd2797_data. rewrite Hst. cbv zeta.
  disk_rw. reflexivity.
Qed.

Lemma data_reads_id n : forall d,
  state d = DISK_READ_ID -> 0 <= buffer_index d ->
  buffer_index d + Z.of_nat (S n) = ID_FIELD_SIZE ->
  exists d',
    data_reads (S n) d
    = Some (rd (buffer d) <$> seqZ (buffer_index d) (Z.of_nat (S n)), d') /\
    state d' = DISK_IDLE /\
    Z.testbit (disk_status d') 0 = false /\
    Z.testbit (disk_status d') 1 = false /\
    trace d' = trace d /\ img_data d' = img_data d /\
    disk_track d' = disk_track d /\ disk_sector d' = disk_sector d.
Proof.
  induction n as [|n IH]; intros d Hst H0 Hn.
  - rewrite data_reads_S, (data_read_id_step d Hst). cbv zeta.
    destruct (Z.eqb_spec (buffer_index d + 1) ID_FIELD_SIZE) as [_|Hne]; [|lia].
    cbn [data_reads]. eexists. split; [reflexivity|].
    disk_rw. split; [reflexivity|].
    unfold clear_status. disk_rw. rewrite !testbit_clear by lia.
    repeat split; try reflexivity; apply andb_false_r.
  - rewrite data_reads_S, (data_read_id_step d Hst). cbv zeta.
    destruct (Z.eqb_spec (buffer_index d + 1) ID_FIELD_SIZE) as [He|_]; [lia|].
    destruct (IH (set_buffer_index (buffer_index d + 1)
                    (clear_status WDDRQ
                       (set_disk_data (rd (buffer d) (buffer_index d)) d))))
      as (d' & Hr & Hs & Hb & Hq & Htr & Him & Htk & Hsc).
    + disk_rw. exact Hst.
    + disk_rw. lia.
    + disk_rw. lia.
    + rewrite Hr. exists d'.
      disk_rw_in Htr. disk_rw_in Him. disk_rw_in Htk. disk_rw_in Hsc.
      split; [|repeat split; assumption].
      disk_rw. rewrite (seqZ_cons _ (Z.of_nat (S (S n)))) by lia.
      rewrite fmap_cons.
      replace (Z.succ (buffer_index d)) with (buffer_index d + 1) by lia.
      replace (Z.pred (Z.of_nat (S (S n)))) with (Z.of_nat (S n)) by lia.
      reflexivity.
Qed.

Lemma list_six (l : list Z) :
  (6 <= length l)%nat ->
  exists b0 b1 b2 b3 b4 b5 rest, l = b0 :: b1 :: b2 :: b3 :: b4 :: b5 :: rest.
Proof.
  destruct l as [|b0 [|b1 [|b2 [|b3 [|b4 [|b5 rest]]]]]]; cbn [length];
    intros H; try lia.
  do 7 eexists. reflexivity.
Qed.

(** READ ADDRESS, with or without an image, followed by six reads of
    the data register returns the ID field the controller makes up:
    the track register, side 1, the sector register, the sector length
    code 255 and the two bytes 0xBE, 0xEF in place of a CRC. The
    controller is then idle with Busy and DRQ clear; it has raised no
    interrupt and has not touched the image. *)
Theorem read_address_returns_id_field d :
  Z.testbit (disk_status d) 0 = false ->
  Z.of_nat (length (buffer d)) = BYTES_PER_TRACK ->
  exists d',
    read_address d
    = Some ([disk_track d; 1; disk_sector d; 255; 0xbe; 0xef], d') /\
    state d' = DISK_IDLE /\
    Z.testbit (disk_status d') 0 = false /\
    Z.testbit (disk_status d') 1 = false /\
    trace d' = trace d /\ img_data d' = img_data d.
Proof.
  intros Hbusy Hbuf.
  set (b := <[5%nat := 0xef]> (<[4%nat := 0xbe]> (<[3%nat := SECTOR_SIZE - 1]>
             (<[2%nat := disk_sector d]> (<[1%nat := 1]>
                (<[0%nat := disk_track d]> (buffer d))))))).
  set (d1 := set_buffer_index 0
               (set_disk_status WDBusy
                  (set_buffer b
                     (set_state DISK_READ_ID (set_disk_cmd WDCmdReadAddr d))))).
  assert (Hc : io_handler_wd2797_cmd_stat WDCmdReadAddr MEM_WRITE d
               = Some (d1, 0)).
  { unfold io_handler_wd2797_cmd_stat. cbv zeta.
    change (WDCmdReadAddr =? WDCmdForceInt) with false.
    change (Z.land WDCmdReadAddr WDCmdStepMask =? WDCmdRestore) with false.
    change (Z.land WDCmdReadAddr WDCmdStepMask =? WDCmdSeek) with false.
    change (WDCmdReadAddr =? WDCmdReadSec) with false.
    change (WDCmdReadAddr =? WDCmdWriteSec) with false.
    change (WDCmdReadAddr =? WDCmdReadAddr) with true.
    cbv iota. disk_rw. unfold WDBusy at 1. rewrite bits_set_1, Hbusy.
    reflexivity. }
  destruct (data_reads_id 5 d1)
    as (d' & Hr & Hs & Hb & Hq & Htr & Him & _).
  { reflexivity. } { unfold d1. disk_rw. lia. }
  { unfold d1. disk_rw. reflexivity. }
  exists d'. unfold read_address. rewrite Hc. cbn [mbind option_bind].
  rewrite Hr. unfold d1 in Htr, Him |- *. disk_rw_in Htr. disk_rw_in Him.
  disk_rw. split; [|repeat split; assumption].
  do 2 f_equal.
  destruct (list_six (buffer d))
    as (b0 & b1 & b2 & b3 & b4 & b5 & rest & E).
  { unfold BYTES_PER_TRACK, SEC_PER_TRACK, SECTOR_SIZE in Hbuf. lia. }
  unfold b. rewrite E. reflexivity.
Qed.

(** *** WRITE TRACK *)

Lemma fseek_frame p d :
  let d' := loader_disk_fseek p d in
  buffer d' = buffer d /\ img_type d' = img_type d /\
  img_data d' = img_data d /\ disk_track d' = disk_track d /\
  disk_sector d' = disk_sector d.
Proof.
  unfold loader_disk_fseek.
  destruct (_ && _); cbv zeta; disk_rw; repeat split; reflexivity.
Qed.

(** The command part of WRITE TRACK on a mounted VDK image. *)
Lemma cmd_write_track_vdk d :
  Z.testbit (disk_status d) 0 = false ->
  img_type d = FILE_VDK -> (12 <= length (img_data d))%nat ->
  exists d1,
    io_handler_wd2797_cmd_stat WDCmdWriteTrack MEM_WRITE d = Some (d1, 0) /\
    state d1 = DISK_WRITE_TRK /\ buffer_index d1 = 0 /\
    buffer d1 = buffer d /\ disk_status d1 = WDBusy /\
    img_type d1 = FILE_VDK /\ img_data d1 = img_data d /\
    header_size (vdk_header d1) = header_size (img_data d).
Proof.
  intros Hbusy Hty Hlen.
  eexists. split.
  - unfold io_handler_wd2797_cmd_stat. cbv zeta.
    change (WDCmdWriteTrack =? WDCmdForceInt) with false.
    change (Z.land WDCmdWriteTrack WDCmdStepMask =? WDCmdRestore) with false.
    change (Z.land WDCmdWriteTrack WDCmdStepMask =? WDCmdSeek) with false.
    change (WDCmdWriteTrack =? WDCmdReadSec) with false.
    change (WDCmdWriteTrack =? WDCmdWriteSec) with false.
    change (WDCmdWriteTrack =? WDCmdReadAddr) with false.
    change (WDCmdWriteTrack =? WDCmdWriteTrack) with true.
    cbv iota. disk_rw. unfold WDBusy at 1. rewrite bits_set_1, Hbusy.
    cbv [negb]. cbv iota.
    unfold mounted at 1. disk_rw. rewrite Hty. cbv iota.
    rewrite command_seek_address_vdk by (disk_rw; assumption).
    cbv iota beta. reflexivity.
  - disk_rw. repeat split; try first [reflexivity | assumption].
    apply header_size_overlay. exact Hlen.
Qed.

Lemma data_writes_app ws1 : forall ws2 d,
  data_writes (ws1 ++ ws2) d = data_writes ws1 d ≫= data_writes ws2.
Proof.
  induction ws1 as [|w ws1 IH]; intros ws2 d; [reflexivity|].
  cbn [app data_writes].
  destruct (io_handler_wd2797_data w MEM_WRITE d) as [[d1 r]|]; [|reflexivity].
  cbn [mbind option_bind]. apply IH.
Qed.

(** The writes of the gap that precedes the first ID field are only
    counted. *)
Lemma data_writes_skip ws : forall d,
  state d = DISK_WRITE_TRK -> 0 <= buffer_index d ->
  buffer_index d + Z.of_nat (length ws) <= INIT_BYTE_SKIP ->
  exists d',
    data_writes ws d = Some d' /\
    state d' = DISK_WRITE_TRK /\
    buffer_index d' = buffer_index d + Z.of_nat (length ws) /\
    buffer d' = buffer d /\ vdk_header d' = vdk_header d /\
    img_type d' = img_type d /\ img_data d' = img_data d.
Proof.
  induction ws as [|w ws IH]; intros d Hst H0 Hn.
  - exists d. cbn [data_writes length].
    repeat split; first [assumption | reflexivity | lia].
  - cbn [length] in Hn. cbn [data_writes].
    unfold io_handler_wd2797_data. rewrite Hst. cbv zeta. disk_rw.
    destruct (Z.ltb_spec (buffer_index d) INIT_BYTE_SKIP) as [_|Hx]; [|lia].
    cbn [mbind option_bind].
    destruct (IH (set_buffer_index (buffer_index d + 1)
                    (clear_status WDDRQ (set_disk_data w d))))
      as (d' & Hr & Hs & Hi & Hb & Hv & Hty & Him).
    + disk_rw. exact Hst.
    + disk_rw. lia.
    + disk_rw. lia.
    + exists d'. disk_rw_in Hi. disk_rw_in Hb. disk_rw_in Hv.
      disk_rw_in Hty. disk_rw_in Him.
      split; [exact Hr|]. split; [exact Hs|].
      split; [cbn [length]; lia|]. repeat split; assumption.
Qed.

(** A write of one of the four bytes of the first ID field. *)
Lemma data_write_trk_store d w :
  state d = DISK_WRITE_TRK ->
  INIT_BYTE_SKIP <= buffer_index d < INIT_BYTE_SKIP + SIZEOF_INIT_SECTOR_ID ->
  exists d',
    io_handler_wd2797_data w MEM_WRITE d = Some (d', 0) /\
    state d' = DISK_WRITE_TRK /\
    buffer_index d' = buffer_index d + 1 /\
    buffer d' = <[Z.to_nat (buffer_index d) := w]> (buffer d) /\
    vdk_header d' = vdk_header d /\
    img_type d' = img_type d /\ img_data d' = img_data d.
Proof.
  intros Hst Hi. eexists. split.
  - unfold io_handler_wd2797_data. rewrite Hst. cbv zeta. disk_rw.
    destruct (Z.ltb_spec (buffer_index d) INIT_BYTE_SKIP) as [Hx|_]; [lia|].
    destruct (Z.ltb_spec (buffer_index d)
                (INIT_BYTE_SKIP + SIZEOF_INIT_SECTOR_ID)) as [_|Hx]; [|lia].
    reflexivity.
  - disk_rw. repeat split; first [reflexivity | assumption].
Qed.

(** The write after the ID field: the track named by the first byte of
    the ID field is filled with 0xE5 in the image. *)
Lemma data_write_trk_fill d w :
  state d = DISK_WRITE_TRK ->
  buffer_index d = INIT_BYTE_SKIP + SIZEOF_INIT_SECTOR_ID ->
  mounted d = true -> img_data d <> [] ->
  let addr :=
    u32 (disk_to_image_offset (rd (buffer d) INIT_BYTE_SKIP) 1
         + header_size (vdk_header d)) in
  addr <= Z.of_nat (length (img_data d)) ->
  exists d',
    io_handler_wd2797_data w MEM_WRITE d = Some (d', 0) /\
    state d' = DISK_IDLE /\ Z.testbit (disk_status d') 0 = false /\
    img_data d' =
      take (Z.to_nat addr) (img_data d)
      ++ replicate (Z.to_nat BYTES_PER_TRACK) INIT_SEC_FILL
      ++ drop (Z.to_nat addr + Z.to_nat BYTES_PER_TRACK) (img_data d).
Proof.
  intros Hst Hi Hm Hd addr Haddr.
  assert (H0 : 0 <= addr) by (apply Z.mod_pos_bound; lia).
  eexists. split.
  - unfold io_handler_wd2797_data. rewrite Hst. cbv zeta. disk_rw.
    destruct (Z.ltb_spec (buffer_index d) INIT_BYTE_SKIP) as [Hx|_];
      [unfold INIT_BYTE_SKIP, SIZEOF_INIT_SECTOR_ID in *; lia|].
    destruct (Z.ltb_spec (buffer_index d)
                (INIT_BYTE_SKIP + SIZEOF_INIT_SECTOR_ID)) as [Hx|_]; [lia|].
    fold addr.
    rewrite fseek_mounted
      by (first [ unfold mounted; disk_rw; exact Hm | disk_rw; lia ]).
    disk_rw.
    rewrite fwrite_mounted
      by (first [ unfold mounted; disk_rw; exact Hm | disk_rw; exact Hd ]).
    reflexivity.
  - disk_rw. split; [reflexivity|]. split.
    + unfold clear_status. disk_rw. rewrite testbit_clear by lia.
      apply andb_false_r.
    + rewrite length_replicate. reflexivity.
Qed.

(** WRITE TRACK formats one track of a mounted VDK image. Of the bytes
    the CPU then writes to the data register, the first 111 are
    dropped, the next four are taken as the first ID field, and on the
    116th the 4608 bytes of the track whose number is the first byte
    of that ID field are set to 0xE5 in the image, at
    [header_size + track * 4608]; the rest of the image is kept and the
    controller is idle and not busy. The track register plays no
    part. *)
Theorem write_track_fills_track d gap track id1 id2 id3 w :
  Z.testbit (disk_status d) 0 = false ->
  img_type d = FILE_VDK ->
  Z.of_nat (length (buffer d)) = BYTES_PER_TRACK ->
  (12 <= length (img_data d))%nat ->
  0 <= rd (img_data d) 2 < 256 -> 0 <= rd (img_data d) 3 < 256 ->
  length gap = 111%nat ->
  0 <= track < 256 ->
  let off := header_size (img_data d) + track * 4608 in
  off <= Z.of_nat (length (img_data d)) ->
  exists d',
    write_track (gap ++ [track; id1; id2; id3; w]) d = Some d' /\
    state d' = DISK_IDLE /\ Z.testbit (disk_status d') 0 = false /\
    img_data d' =
      take (Z.to_nat off) (img_data d) ++ replicate 4608 0xe5
      ++ drop (Z.to_nat off + 4608) (img_data d).
Proof.
  intros Hbusy Hty Hbuf Hlen H2 H3 Hgap Htrack off Hoff.
  unfold BYTES_PER_TRACK, SEC_PER_TRACK, SECTOR_SIZE in Hbuf.
  destruct (cmd_write_track_vdk d Hbusy Hty Hlen)
    as (d1 & Hc & Hst1 & Hi1 & Hb1 & _ & Hty1 & Him1 & Hh1).
  destruct (data_writes_skip gap d1) as (d2 & Hw2 & Hst2 & Hi2 & Hb2 & Hv2 & Hty2 & Him2).
  { exact Hst1. } { lia. }
  { rewrite Hi1, Hgap. unfold INIT_BYTE_SKIP. lia. }
  rewrite Hi1, Hgap in Hi2.
  destruct (data_write_trk_store d2 track)
    as (d3 & Hw3 & Hst3 & Hi3 & Hb3 & Hv3 & Hty3 & Him3).
  { exact Hst2. } { rewrite Hi2. unfold INIT_BYTE_SKIP, SIZEOF_INIT_SECTOR_ID. lia. }
  destruct (data_write_trk_store d3 id1)
    as (d4 & Hw4 & Hst4 & Hi4 & Hb4 & Hv4 & Hty4 & Him4).
  { exact Hst3. }
  { rewrite Hi3, Hi2. unfold INIT_BYTE_SKIP, SIZEOF_INIT_SECTOR_ID. lia. }
  destruct (data_write_trk_store d4 id2)
    as (d5 & Hw5 & Hst5 & Hi5 & Hb5 & Hv5 & Hty5 & Him5).
  { exact Hst4. }
  { rewrite Hi4, Hi3, Hi2. unfold INIT_BYTE_SKIP, SIZEOF_INIT_SECTOR_ID. lia. }
  destruct (data_write_trk_store d5 id3)
    as (d6 & Hw6 & Hst6 & Hi6 & Hb6 & Hv6 & Hty6 & Him6).
  { exact Hst5. }
  { rewrite Hi5, Hi4, Hi3, Hi2. unfold INIT_BYTE_SKIP, SIZEOF_INIT_SECTOR_ID. lia. }
  assert (Himg : img_data d6 = img_data d).
  { rewrite Him6, Him5, Him4, Him3, Him2. exact Him1. }
  assert (Hhdr : header_size (vdk_header d6) = header_size (img_data d)).
  { rewrite Hv6, Hv5, Hv4, Hv3, Hv2. exact Hh1. }
  assert (Hid : rd (buffer d6) INIT_BYTE_SKIP = track).
  { rewrite Hb6, Hb5, Hb4, Hb3, Hi5, Hi4, Hi3, Hi2, Hb2, Hb1.
    unfold rd, INIT_BYTE_SKIP.
    change (Z.to_nat (0 + Z.of_nat 111 + 1 + 1 + 1)) with 114%nat.
    change (Z.to_nat (0 + Z.of_nat 111 + 1 + 1)) with 113%nat.
    change (Z.to_nat (0 + Z.of_nat 111 + 1)) with 112%nat.
    change (Z.to_nat (0 + Z.of_nat 111)) with 111%nat.
    change (Z.to_nat 111) with 111%nat.
    rewrite !list_lookup_insert_ne by lia.
    rewrite list_lookup_insert_eq by lia. reflexivity. }
  assert (Haddr : u32 (disk_to_image_offset (rd (buffer d6) INIT_BYTE_SKIP) 1
                       + header_size (vdk_header d6)) = off).
  { rewrite Hid, Hhdr. unfold off, header_size in *.
    unfold disk_to_image_offset, u32, u16, SECTOR_SIZE, SEC_PER_TRACK.
    rewrite (Z.mod_small track), (Z.mod_small 1) by lia.
    rewrite (Z.mod_small (256 * _)) by lia.
    rewrite Z.mod_small by lia. lia. }
  destruct (data_write_trk_fill d6 w) as (d7 & Hw7 & Hst7 & Hb7 & Him7).
  { exact Hst6. }
  { rewrite Hi6, Hi5, Hi4, Hi3, Hi2. reflexivity. }
  { unfold mounted. rewrite Hty6, Hty5, Hty4, Hty3, Hty2, Hty1. reflexivity. }
  { rewrite Himg. intros E. rewrite E in Hlen. cbn in Hlen. lia. }
  { rewrite Haddr, Himg. exact Hoff. }
  rewrite Haddr, Himg in Him7.
  exists d7. split.
  { unfold write_track. rewrite Hc. cbn [mbind option_bind].
    rewrite data_writes_app, Hw2. cbn [mbind option_bind data_writes].
    rewrite Hw3. cbn [mbind option_bind].
    rewrite Hw4. cbn [mbind option_bind].
    rewrite Hw5. cbn [mbind option_bind].
    rewrite Hw6. cbn [mbind option_bind].
    rewrite Hw7. reflexivity. }
  split; [exact Hst7|]. split; [exact Hb7|]. exact Him7.
Qed.

(** *** Sectors outside the image *)

Lemma fseek_refused p d :
  Z.of_nat (length (img_data d)) < p ->
  loader_disk_fseek p d = emit (EvSeek p) d.
Proof.
  intros Hp. unfold loader_disk_fseek. cbv zeta.
  assert (E2 : img_data (emit (EvSeek p) d) = img_data d) by reflexivity.
  rewrite E2.
  destruct (Z.leb_spec p (Z.of_nat (length (img_data d)))); [lia|].
  rewrite andb_false_r. reflexivity.
Qed.

(** The command part of WRITE SECTOR when the sector lies beyond the
    end of the image: the seek is refused and the file position stays
    where the read of the header left it. *)
Lemma cmd_write_sector_refused d :
  Z.testbit (disk_status d) 0 = false ->
  img_type d = FILE_VDK -> (12 <= length (img_data d))%nat ->
  let off :=
    u32 (disk_to_image_offset (disk_track d) (disk_sector d)
         + header_size (img_data d)) in
  Z.of_nat (length (img_data d)) < off ->
  exists d1,
    io_handler_wd2797_cmd_stat WDCmdWriteSec MEM_WRITE d = Some (d1, 0) /\
    state d1 = DISK_WRITE /\ buffer_index d1 = 0 /\
    buffer d1 = buffer d /\ disk_status d1 = WDBusy /\
    img_type d1 = FILE_VDK /\ img_data d1 = img_data d /\ img_pos d1 = 12.
Proof.
  intros Hbusy Hty Hlen off Hoff.
  eexists. split.
  - unfold io_handler_wd2797_cmd_stat. cbv zeta.
    change (WDCmdWriteSec =? WDCmdForceInt) with false.
    change (Z.land WDCmdWriteSec WDCmdStepMask =? WDCmdRestore) with false.
    change (Z.land WDCmdWriteSec WDCmdStepMask =? WDCmdSeek) with false.
    change (WDCmdWriteSec =? WDCmdReadSec) with false.
    change (WDCmdWriteSec =? WDCmdWriteSec) with true.
    cbv iota. disk_rw. unfold WDBusy at 1. rewrite bits_set_1, Hbusy.
    cbv [negb]. cbv iota.
    unfold mounted at 1. disk_rw. rewrite Hty. cbv iota.
    rewrite command_seek_address_vdk by (disk_rw; assumption).
    cbv iota beta. disk_rw. fold off.
    rewrite fseek_refused by (disk_rw; exact Hoff).
    reflexivity.
  - disk_rw. repeat split; first [reflexivity | assumption].
Qed.

(** A WRITE SECTOR whose sector lies beyond the end of the mounted VDK
    image is not refused: the seek fails, its failure is ignored, and
    the 256 bytes written go to the file position the read of the
    header left, offset 12, over the start of the image. The controller
    ends idle and not busy as after any write. *)
Theorem write_sector_beyond_image_overwrites_start d ws :
  Z.testbit (disk_status d) 0 = false ->
  img_type d = FILE_VDK ->
  Z.of_nat (length (buffer d)) = BYTES_PER_TRACK ->
  (12 <= length (img_data d))%nat ->
  0 <= rd (img_data d) 2 < 256 -> 0 <= rd (img_data d) 3 < 256 ->
  0 <= disk_track d < 256 -> 1 <= disk_sector d < 256 ->
  length ws = 256%nat ->
  Z.of_nat (length (img_data d))
  < code_sector_offset (header_size (img_data d))
      (disk_track d) (disk_sector d) ->
  exists d2,
    write_sector ws d = Some d2 /\
    state d2 = DISK_IDLE /\ Z.testbit (disk_status d2) 0 = false /\
    img_data d2 = take 12 (img_data d) ++ ws ++ drop (12 + 256) (img_data d).
Proof.
  intros Hbusy Hty Hbuf Hlen H2 H3 Ht Hs Hws Hoff.
  destruct (cmd_write_sector_refused d Hbusy Hty Hlen)
    as (d1 & Hc & Hst & Hi & Hb & _ & Hty1 & Himg1 & Hpos1).
  { rewrite code_offset_u32 by assumption. exact Hoff. }
  destruct (data_writes_sector ws d1)
    as (d2 & Hw & Hst2 & Hb2 & _ & _ & _ & Himg2).
  { exact Hst. } { lia. }
  { rewrite Hi, Hws. reflexivity. }
  { intros ->. discriminate. }
  { rewrite Hb. unfold BYTES_PER_TRACK, SEC_PER_TRACK, SECTOR_SIZE in Hbuf. lia. }
  { apply mounted_vdk. exact Hty1. }
  { rewrite Himg1. intros E. rewrite E in Hlen. cbn in Hlen. lia. }
  rewrite Hi, Himg1, Hpos1 in Himg2.
  change (take (Z.to_nat 0) (buffer d1)) with (@nil Z) in Himg2.
  rewrite app_nil_l in Himg2.
  exists d2. split.
  { unfold write_sector. rewrite Hc. exact Hw. }
  split; [exact Hst2|]. split; [exact Hb2|]. exact Himg2.
Qed.

(** The 256-byte ranges [disk_to_image_offset()] assigns to the
    sectors 1..18 of the tracks 0..255 are laid out track after track,
    sector after sector, and no two of them overlap. *)
Theorem sector_ranges_do_not_overlap t1 s1 t2 s2 :
  0 <= t1 < 256 -> 0 <= t2 < 256 ->
  1 <= s1 <= SEC_PER_TRACK -> 1 <= s2 <= SEC_PER_TRACK ->
  (t1, s1) <> (t2, s2) ->
  fst (sector_range t1 s1) = 4608 * t1 + 256 * (s1 - 1) /\
  (snd (sector_range t1 s1) <= fst (sector_range t2 s2) \/
   snd (sector_range t2 s2) <= fst (sector_range t1 s1)).
Proof.
  unfold SEC_PER_TRACK. intros Ht1 Ht2 Hs1 Hs2 Hne.
  assert (Hoff : forall t s, 0 <= t < 256 -> 1 <= s <= 18 ->
            disk_to_image_offset t s = 4608 * t + 256 * (s - 1)).
  { intros t s Ht Hs.
    unfold disk_to_image_offset, u32, u16, SECTOR_SIZE, SEC_PER_TRACK.
    rewrite (Z.mod_small t), (Z.mod_small s) by lia.
    rewrite Z.mod_small by lia. lia. }
  unfold sector_range. cbv zeta. cbn [fst snd]. unfold SECTOR_SIZE.
  rewrite !Hoff by assumption. split; [reflexivity|].
  assert (Hcase : t1 < t2 \/ t2 < t1 \/ (t1 = t2 /\ s1 <> s2)).
  { destruct (Z.eq_dec t1 t2) as [->|]; [|lia].
    right. right. split; [reflexivity|]. intros ->. apply Hne. reflexivity. }
  lia.
Qed.

End DiskTransfers.

Section DiskReachable.
Import Disk.

Ltac is_disk_proj p :=
  lazymatch p with
  | disk_cmd => idtac | disk_status => idtac | disk_track => idtac
  | disk_sector => idtac | disk_data => idtac | motor_on => idtac
  | disk_drive_num => idtac | disk_double_density => idtac
  | nmi_inhibit => idtac | state => idtac | vdk_header => idtac
  | buffer => idtac | buffer_index => idtac | time_mark => idtac
  | img_type => idtac | img_data => idtac | img_pos => idtac
  | trace => idtac
  end.

Ltac is_disk_set s :=
  lazymatch s with
  | set_disk_cmd => idtac | set_disk_status => idtac
  | set_disk_track => idtac | set_disk_sector => idtac
  | set_disk_data => idtac | set_motor_on => idtac
  | set_disk_double_density => idtac | set_nmi_inhibit => idtac
  | set_state => idtac | set_vdk_header => idtac | set_buffer => idtac
  | set_buffer_index => idtac | set_time_mark => idtac
  | set_img_type => idtac | set_img_data => idtac | set_img_pos => idtac
  | set_trace => idtac | emit => idtac | clear_status => idtac
  end.

Ltac disk_rw_with p s x d rw :=
  is_disk_proj p; is_disk_set s;
  first
    [ let H := fresh in
      assert (H : forall x' d', p (s x' d') = p d') by reflexivity;
      rw (H x d); clear H
    | let H := fresh in
      assert (H : forall x' d', p (s x' d') = x') by reflexivity;
      rw (H x d); clear H ].

Ltac disk_rw :=
  repeat match goal with
  | |- context [?p (?s ?x ?d)] =>
      disk_rw_with p s x d ltac:(fun e => rewrite e)
  end.

Ltac disk_rw_in H :=
  repeat match type of H with
  | context [?p (?s ?x ?d)] =>
      disk_rw_with p s x d ltac:(fun e => rewrite e in H)
  end.

(** *** What the file calls leave of the transfer *)

Lemma same_transfer_refl d : same_transfer d d.
Proof. repeat split. Qed.

Lemma same_transfer_trans d1 d2 d3 :
  same_transfer d1 d2 -> same_transfer d2 d3 -> same_transfer d1 d3.
Proof.
  intros (A1 & A2 & A3 & A4) (B1 & B2 & B3 & B4).
  repeat split; congruence.
Qed.

Lemma fseek_same p d : same_transfer d (loader_disk_fseek p d).
Proof.
  unfold loader_disk_fseek, same_transfer.
  destruct (_ && _); cbv zeta; disk_rw; repeat split; reflexivity.
Qed.

Lemma fwrite_same w d : same_transfer d (loader_disk_fwrite w d).
Proof.
  unfold loader_disk_fwrite, same_transfer.
  destruct (_ && _); cbv zeta; disk_rw; repeat split; reflexivity.
Qed.

Lemma fread_same n d :
  same_transfer d (snd (loader_disk_fread n d)) /\
  (length (fst (loader_disk_fread n d)) <= Z.to_nat n)%nat.
Proof.
  unfold loader_disk_fread, same_transfer. cbv zeta.
  destruct (mounted _); cbn [fst snd]; disk_rw.
  - split; [repeat split; reflexivity|]. rewrite length_take. lia.
  - split; [repeat split; reflexivity|]. cbn [length]. lia.
Qed.

Lemma disk_intrq_same d : same_transfer d (disk_intrq d).
Proof.
  unfold disk_intrq, same_transfer.
  destruct (_ =? _); disk_rw; repeat split; reflexivity.
Qed.

Lemma command_seek_address_same d :
  same_transfer d (snd (command_seek_address d)).
Proof.
  unfold command_seek_address. cbv zeta.
  destruct (is_vdk d); [|apply same_transfer_refl].
  destruct (loader_disk_fread SIZEOF_VDK_HEADER (loader_disk_fseek 0 d))
    as [got d2] eqn:E.
  cbn [snd].
  pose proof (fread_same SIZEOF_VDK_HEADER (loader_disk_fseek 0 d)) as [Hf _].
  rewrite E in Hf. cbn [snd] in Hf.
  eapply same_transfer_trans; [apply fseek_same|].
  eapply same_transfer_trans; [exact Hf|].
  unfold same_transfer. disk_rw. repeat split; reflexivity.
Qed.

(** *** The transfer index *)

Lemma transfer_inv_same d d' :
  same_transfer d d' -> transfer_inv d -> transfer_inv d'.
Proof.
  unfold same_transfer, transfer_inv, buffer_inv.
  intros (-> & -> & -> & ->). auto.
Qed.

Lemma transfer_inv_idle d d' :
  transfer_inv d -> state d' = DISK_IDLE ->
  length (buffer d') = length (buffer d) ->
  disk_drive_num d' = disk_drive_num d -> transfer_inv d'.
Proof.
  unfold transfer_inv, buffer_inv. intros ((Hl & _) & Hn) -> -> ->.
  auto.
Qed.

Lemma transfer_inv_start d d' :
  transfer_inv d -> is_idle (state d') = false ->
  state d' <> DISK_UNDEFINED -> buffer_index d' = 0 ->
  length (buffer d') = length (buffer d) ->
  disk_drive_num d' = disk_drive_num d -> transfer_inv d'.
Proof.
  unfold transfer_inv, buffer_inv, SECTOR_SIZE, ID_FIELD_SIZE,
    INIT_BYTE_SKIP, SIZEOF_INIT_SECTOR_ID.
  intros ((Hl & _) & Hn) Hi Hu -> -> ->.
  split; [|exact Hn]. split; [exact Hl|].
  destruct (state d'); first [discriminate | contradiction | lia].
Qed.

Lemma transfer_inv_next d d' bound :
  transfer_inv d -> is_idle (state d) = false ->
  state d' = state d -> buffer_index d' = buffer_index d + 1 ->
  length (buffer d') = length (buffer d) ->
  disk_drive_num d' = disk_drive_num d ->
  match state d with
  | DISK_READ | DISK_WRITE => buffer_index d + 1 <> SECTOR_SIZE
  | DISK_READ_ID => buffer_index d + 1 <> ID_FIELD_SIZE
  | DISK_WRITE_TRK => buffer_index d < bound /\
                      bound <= INIT_BYTE_SKIP + SIZEOF_INIT_SECTOR_ID
  | _ => True
  end ->
  transfer_inv d'.
Proof.
  unfold transfer_inv, buffer_inv, SECTOR_SIZE, ID_FIELD_SIZE,
    INIT_BYTE_SKIP, SIZEOF_INIT_SECTOR_ID.
  intros ((Hl & Hi) & Hn) Hidle -> -> -> ->.
  intros Hb. split; [|exact Hn]. split; [exact Hl|].
  destruct (state d); first [discriminate | contradiction | lia].
Qed.

Lemma length_overlay (got old : list Z) :
  (length got <= length old)%nat -> length (overlay got old) = length old.
Proof. intros H. unfold overlay. rewrite length_app, length_drop. lia. Qed.

Lemma transfer_inv_init ty image : transfer_inv (disk_init ty image).
Proof.
  unfold transfer_inv, buffer_inv. cbn [state buffer disk_init disk_drive_num].
  rewrite length_replicate.
  split; [split; [|exact I]|reflexivity].
  unfold SIZEOF_VDK_HEADER, BYTES_PER_TRACK, SEC_PER_TRACK, SECTOR_SIZE. lia.
Qed.

Ltac seek_address_same H :=
  match goal with
  | |- context [command_seek_address ?y] =>
      pose proof (command_seek_address_same y) as H;
      let a := fresh "a" in let d1 := fresh "d1" in
      destruct (command_seek_address y) as [a d1]; cbn [snd] in H
  end.

Ltac fread_same_as H Hlen :=
  match goal with
  | |- context [loader_disk_fread ?n ?y] =>
      pose proof (fread_same n y) as [H Hlen];
      let got := fresh "got" in let d1 := fresh "d1" in
      destruct (loader_disk_fread n y) as [got d1]; cbn [fst snd] in H, Hlen
  end.

Lemma cmd_stat_transfer_inv data op d :
  transfer_inv d -> post transfer_inv (io_handler_wd2797_cmd_stat data op d).
Proof.
  intros Hinv. unfold io_handler_wd2797_cmd_stat.
  destruct op; [exact Hinv|]. cbv zeta.
  assert (Hlen : Z.of_nat (length (buffer d)) = BYTES_PER_TRACK)
    by exact (proj1 (proj1 Hinv)).
  unfold BYTES_PER_TRACK, SEC_PER_TRACK, SECTOR_SIZE in Hlen.
  assert (Hsame : transfer_inv (set_disk_cmd data d)).
  { revert Hinv. apply transfer_inv_same. repeat split. }
  destruct (data =? WDCmdForceInt).
  { apply (transfer_inv_idle d); [exact Hinv|reflexivity..]. }
  destruct (negb _); [|exact Hsame].
  destruct (_ =? WDCmdRestore).
  { cbn [post]. eapply transfer_inv_same; [apply disk_intrq_same|].
    apply (transfer_inv_idle d); [exact Hinv|reflexivity..]. }
  destruct (_ =? WDCmdSeek).
  { cbn [post]. eapply transfer_inv_same; [apply disk_intrq_same|].
    apply (transfer_inv_idle d); [exact Hinv|..];
      destruct (_ =? 0); reflexivity. }
  destruct (data =? WDCmdReadSec).
  { destruct (mounted _); [|exact Hsame].
    seek_address_same H1.
    pose proof (fseek_same a d1) as H2.
    fread_same_as H3 Hgot.
    pose proof (same_transfer_trans _ _ _ (same_transfer_trans _ _ _ H1 H2) H3)
      as (Hs & Hb & _ & Hn).
    disk_rw_in Hs. disk_rw_in Hb. disk_rw_in Hn.
    apply (transfer_inv_start d); [exact Hinv|..]; disk_rw;
      rewrite ?Hs, ?Hn; try first [reflexivity | discriminate].
    rewrite length_overlay; rewrite Hb; [reflexivity|].
    unfold SECTOR_SIZE in Hgot. lia. }
  destruct (data =? WDCmdWriteSec).
  { destruct (mounted _); [|exact Hsame].
    seek_address_same H1.
    pose proof (fseek_same a d1) as H2.
    pose proof (same_transfer_trans _ _ _ H1 H2) as (Hs & Hb & _ & Hn).
    disk_rw_in Hs. disk_rw_in Hb. disk_rw_in Hn.
    apply (transfer_inv_start d); [exact Hinv|..]; disk_rw;
      rewrite ?Hs, ?Hb, ?Hn; first [reflexivity | discriminate]. }
  destruct (data =? WDCmdReadAddr).
  { apply (transfer_inv_start d); [exact Hinv|reflexivity|discriminate|
                                   reflexivity|..].
    - disk_rw. rewrite !length_insert. reflexivity.
    - reflexivity. }
  destruct (data =? WDCmdWriteTrack); [|exact I].
  destruct (mounted _); [|exact Hsame].
  seek_address_same H1.
  destruct H1 as (Hs & Hb & _ & Hn).
  disk_rw_in Hs. disk_rw_in Hb. disk_rw_in Hn.
  apply (transfer_inv_start d); [exact Hinv|..]; disk_rw;
    rewrite ?Hs, ?Hb, ?Hn; first [reflexivity | discriminate].
Qed.

Lemma data_transfer_inv data op d :
  transfer_inv d -> post transfer_inv (io_handler_wd2797_data data op d).
Proof.
  intros Hinv. unfold io_handler_wd2797_data.
  pose proof Hinv as ((Hlen & Hidx) & Hnum).
  destruct (state d) eqn:Hst; [contradiction| | | | |].
  - destruct op; [exact Hinv|].
    revert Hinv. apply transfer_inv_same. repeat split.
  - destruct op; [|exact Hinv]. cbv zeta. disk_rw.
    destruct (Z.eqb_spec (buffer_index d + 1) SECTOR_SIZE) as [He|Hne].
    + apply (transfer_inv_idle d); [exact Hinv|reflexivity..].
    + apply (transfer_inv_next d _ 0); [exact Hinv|rewrite Hst; reflexivity|
                                        reflexivity..|].
      rewrite Hst. exact Hne.
  - destruct op; [exact Hinv|]. cbv zeta. disk_rw.
    destruct (Z.eqb_spec (buffer_index d + 1) SECTOR_SIZE) as [He|Hne].
    + cbn [post]. eapply transfer_inv_same.
      { eapply same_transfer_trans; [apply fwrite_same|].
        unfold same_transfer. disk_rw. repeat split. }
      apply (transfer_inv_idle d); [exact Hinv|reflexivity| |reflexivity].
      disk_rw. apply length_insert.
    + apply (transfer_inv_next d _ 0); [exact Hinv|rewrite Hst; reflexivity|
                                        reflexivity|reflexivity| |reflexivity|].
      * disk_rw. apply length_insert.
      * rewrite Hst. exact Hne.
  - destruct op; [|exact Hinv]. cbv zeta. disk_rw.
    destruct (Z.eqb_spec (buffer_index d + 1) ID_FIELD_SIZE) as [He|Hne].
    + apply (transfer_inv_idle d); [exact Hinv|reflexivity..].
    + apply (transfer_inv_next d _ 0); [exact Hinv|rewrite Hst; reflexivity|
                                        reflexivity..|].
      rewrite Hst. exact Hne.
  - destruct op; [exact Hinv|]. cbv zeta. disk_rw.
    destruct (Z.ltb_spec (buffer_index d) INIT_BYTE_SKIP) as [Hlt|Hge].
    { apply (transfer_inv_next d _ INIT_BYTE_SKIP);
        [exact Hinv|rewrite Hst; reflexivity|reflexivity..|].
      rewrite Hst. unfold SIZEOF_INIT_SECTOR_ID. lia. }
    destruct (Z.ltb_spec (buffer_index d)
                (INIT_BYTE_SKIP + SIZEOF_INIT_SECTOR_ID)) as [Hlt|Hge2].
    { apply (transfer_inv_next d _ (INIT_BYTE_SKIP + SIZEOF_INIT_SECTOR_ID));
        [exact Hinv|rewrite Hst; reflexivity|reflexivity|reflexivity|
         |reflexivity|].
      - disk_rw. apply length_insert.
      - rewrite Hst. lia. }
    cbn [post]. eapply transfer_inv_same.
    { eapply same_transfer_trans; [apply fseek_same|].
      eapply same_transfer_trans; [apply fwrite_same|].
      unfold same_transfer. disk_rw. repeat split. }
    apply (transfer_inv_idle d); [exact Hinv|reflexivity| |reflexivity].
    disk_rw. rewrite length_replicate. lia.
Qed.

Lemma interrupt_transfer_inv t1 t2 t3 d :
  transfer_inv d ->
  exists d', disk_io_interrupt t1 t2 t3 d = Some d' /\ transfer_inv d'.
Proof.
  intros Hinv.
  assert (H0 : transfer_inv (if negb (is_idle (state d)) && (time_mark d =? 0)
                             then set_time_mark t1 d else d)).
  { destruct (_ && _); [|exact Hinv].
    revert Hinv. apply transfer_inv_same. repeat split. }
  unfold disk_io_interrupt. cbv zeta.
  remember (if negb (is_idle (state d)) && (time_mark d =? 0)
            then set_time_mark t1 d else d) as d0 eqn:Hd0.
  clear Hd0 Hinv.
  destruct (_ && _); [|exists d0; split; [reflexivity|exact H0]].
  assert (Hdrq : transfer_inv
    (emit EvFIRQ
       (set_disk_status (Z.lor (disk_status (set_time_mark t3 d0)) WDDRQ)
          (set_time_mark t3 d0)))).
  { revert H0. apply transfer_inv_same. repeat split. }
  pose proof H0 as ((_ & Hidx) & _).
  destruct (state d0) eqn:Hst; [contradiction| | | | |];
    try (eexists; split; [reflexivity|exact Hdrq]).
  eexists; split; [reflexivity|].
  eapply transfer_inv_same; [apply disk_intrq_same|].
  revert H0. apply transfer_inv_same. repeat split.
Qed.

Lemma drive_ctrl_transfer_inv data op d :
  transfer_inv d -> post transfer_inv (io_handler_drive_ctrl data op d).
Proof.
  intros Hinv. unfold io_handler_drive_ctrl. cbv zeta.
  destruct (negb _); [exact I|].
  revert Hinv. destruct (negb _); apply transfer_inv_same; repeat split.
Qed.

Lemma disk_step_transfer_inv o d d' :
  transfer_inv d -> disk_step o d = Some d' -> transfer_inv d'.
Proof.
  intros Hinv H. destruct o; cbn [disk_step] in H.
  - destruct (io_handler_wd2797_cmd_stat data op d) as [[d1 r]|] eqn:E;
      [|discriminate].
    injection H as <-.
    exact (post_elim _ _ _ _ (cmd_stat_transfer_inv data op d Hinv) E).
  - injection H as <-. unfold io_handler_wd2797_track.
    destruct (_ && _); cbn [fst]; [|exact Hinv].
    revert Hinv. apply transfer_inv_same; repeat split.
  - injection H as <-. unfold io_handler_wd2797_sector.
    destruct (_ && _); cbn [fst]; [|exact Hinv].
    revert Hinv. apply transfer_inv_same; repeat split.
  - destruct (io_handler_wd2797_data data op d) as [[d1 r]|] eqn:E;
      [|discriminate].
    injection H as <-.
    exact (post_elim _ _ _ _ (data_transfer_inv data op d Hinv) E).
  - destruct (io_handler_drive_ctrl data op d) as [[d1 r]|] eqn:E;
      [|discriminate].
    injection H as <-.
    exact (post_elim _ _ _ _ (drive_ctrl_transfer_inv data op d Hinv) E).
  - destruct (interrupt_transfer_inv t1 t2 t3 d Hinv) as (d1 & E & H1).
    rewrite E in H. injection H as <-. exact H1.
  - destruct image; injection H as <-; revert Hinv;
      apply transfer_inv_same; repeat split.
Qed.

Lemma disk_run_transfer_inv ops : forall d d',
  transfer_inv d -> disk_run ops d = Some d' -> transfer_inv d'.
Proof.
  induction ops as [|o ops IH]; intros d d' Hinv H; cbn [disk_run] in H.
  - injection H as <-. exact Hinv.
  - destruct (disk_step o d) as [d1|] eqn:E; [|discriminate].
    cbn [mbind option_bind] in H.
    eapply IH; [|exact H]. eapply disk_step_transfer_inv; eauto.
Qed.

(** In every state the controller reaches from [disk_init()] the data
    buffer has its 4608 bytes and, while a transfer is under way, the
    transfer index is inside the part of the buffer the transfer uses:
    below 256 for a sector, below 6 for an ID field, at most 115 while
    a track is formatted; so no read or write of the data register
    falls outside the buffer. The state is never [DISK_UNDEFINED]. *)
Theorem transfer_index_within_buffer ty image ops d :
  disk_run ops (disk_init ty image) = Some d ->
  buffer_inv d /\
  Z.of_nat (length (buffer d)) = 4608 /\
  state d <> DISK_UNDEFINED /\
  (is_idle (state d) = false -> 0 <= buffer_index d < 256).
Proof.
  intros H.
  assert (Hinv : transfer_inv d).
  { eapply disk_run_transfer_inv; [apply transfer_inv_init|exact H]. }
  destruct Hinv as (Hb & _). split; [exact Hb|].
  destruct Hb as (Hl & Hi). split; [exact Hl|].
  unfold SECTOR_SIZE, ID_FIELD_SIZE, INIT_BYTE_SKIP, SIZEOF_INIT_SECTOR_ID in Hi.
  destruct (state d); split; try discriminate; try contradiction;
    intros; first [discriminate | lia].
Qed.

(** *** Where the emulator stops *)

Lemma data_never_halts data op d :
  state d <> DISK_UNDEFINED -> io_handler_wd2797_data data op d <> None.
Proof.
  intros Hst. unfold io_handler_wd2797_data.
  destruct (state d); [contradiction|..]; destruct op; cbv zeta;
    try discriminate.
  destruct (_ <? _); [discriminate|]. destruct (_ <? _); discriminate.
Qed.

Lemma cmd_stat_halts data d :
  io_handler_wd2797_cmd_stat data MEM_WRITE d = None <->
  negb (known_command data) && negb (bits_set (disk_status d) WDBusy) = true.
Proof.
  unfold io_handler_wd2797_cmd_stat, known_command. cbv zeta. disk_rw.
  destruct (data =? WDCmdForceInt); [split; discriminate|].
  destruct (negb (bits_set (disk_status d) WDBusy));
    [|rewrite andb_false_r; split; discriminate].
  rewrite andb_true_r.
  destruct (_ =? WDCmdRestore); [split; discriminate|].
  destruct (_ =? WDCmdSeek); [split; discriminate|].
  destruct (data =? WDCmdReadSec).
  { destruct (mounted _); [|split; discriminate].
    destruct (command_seek_address _) as [a d1].
    destruct (loader_disk_fread _ _) as [got d2]. split; discriminate. }
  destruct (data =? WDCmdWriteSec).
  { destruct (mounted _); [|split; discriminate].
    destruct (command_seek_address _) as [a d1]. split; discriminate. }
  destruct (data =? WDCmdReadAddr); [split; discriminate|].
  destruct (data =? WDCmdWriteTrack); [|split; reflexivity].
  destruct (mounted _); [|split; discriminate].
  destruct (command_seek_address _) as [a d1]. split; discriminate.
Qed.

Lemma fmap_fst_none {A B} (o : option (A * B)) : fst <$> o = None <-> o = None.
Proof. destruct o; split; intros H; first [discriminate | reflexivity]. Qed.

(** In every state the controller reaches from [disk_init()], an
    access stops the emulator in [rpi_halt()] in two cases only: a byte
    that is no known command is written to the command register while
    the controller is not busy, or the drive control register is
    accessed with a drive number other than 0 in the low two bits of
    the data (drive 0 is the only drive that is ever selected). Reads
    and writes of the data, track and sector registers and the
    interrupt tick never stop it. *)
Theorem disk_halts_on_unknown_command_or_drive ty image ops d o :
  disk_run ops (disk_init ty image) = Some d ->
  (disk_step o d = None <-> halting o d = true).
Proof.
  intros H.
  assert (Hinv : transfer_inv d).
  { eapply disk_run_transfer_inv; [apply transfer_inv_init|exact H]. }
  destruct o; cbn [disk_step halting].
  - rewrite fmap_fst_none. destruct op; [split; discriminate|].
    apply cmd_stat_halts.
  - split; discriminate.
  - split; discriminate.
  - rewrite fmap_fst_none. split; [|discriminate].
    intros E. exfalso. revert E. apply data_never_halts.
    destruct Hinv as ((_ & Hi) & _). intros E. rewrite E in Hi. exact Hi.
  - rewrite fmap_fst_none. unfold io_handler_drive_ctrl. cbv zeta. disk_rw.
    rewrite (proj2 Hinv).
    destruct (negb (Z.land data DriveMask =? 0)); split;
      first [reflexivity | discriminate].
  - destruct (interrupt_transfer_inv t1 t2 t3 d Hinv) as (d' & E & _).
    rewrite E. split; discriminate.
  - destruct image0; split; discriminate.
Qed.

(** *** Without an image *)

Lemma no_image_type d : mounted d = false -> img_type d = FILE_NONE.
Proof. unfold mounted. destruct (img_type d); first [reflexivity|discriminate]. Qed.

Lemma no_image_ext d d' :
  img_type d' = img_type d -> trace d' = trace d ->
  state d' = state d \/ state d' = DISK_IDLE \/ state d' = DISK_READ_ID ->
  no_image_inv d -> no_image_inv d'.
Proof.
  unfold no_image_inv, mounted. intros -> -> Hs (Hm & Hst & Htr).
  split; [exact Hm|]. split; [|exact Htr].
  destruct Hs as [->|[->| ->]]; auto.
Qed.

Lemma no_image_emit e d :
  is_file_event e = false -> no_image_inv d -> no_image_inv (emit e d).
Proof.
  unfold no_image_inv, mounted. intros He (Hm & Hst & Htr).
  split; [exact Hm|]. split; [exact Hst|].
  change (trace (emit e d)) with (trace d ++ [e]).
  apply Forall_app. split; [exact Htr|]. constructor; [exact He|constructor].
Qed.

Lemma no_image_intrq d : no_image_inv d -> no_image_inv (disk_intrq d).
Proof.
  intros H. unfold disk_intrq. destruct (_ =? _); [|exact H].
  apply no_image_emit; [reflexivity|exact H].
Qed.

Lemma cmd_stat_no_image data op d :
  no_image_inv d -> post no_image_inv (io_handler_wd2797_cmd_stat data op d).
Proof.
  intros Hinv. unfold io_handler_wd2797_cmd_stat.
  destruct op; [exact Hinv|]. cbv zeta.
  assert (Hty : img_type d = FILE_NONE) by (apply no_image_type, Hinv).
  assert (Hsame : no_image_inv (set_disk_cmd data d)).
  { revert Hinv. apply no_image_ext; auto. }
  assert (Hidle : forall d', img_type d' = img_type d -> trace d' = trace d ->
                             state d' = DISK_IDLE -> no_image_inv d').
  { intros d' H1 H2 H3. revert Hinv. apply no_image_ext; auto. }
  destruct (data =? WDCmdForceInt); [apply Hidle; reflexivity|].
  destruct (negb _); [|exact Hsame].
  destruct (_ =? WDCmdRestore).
  { apply no_image_intrq, Hidle; reflexivity. }
  destruct (_ =? WDCmdSeek).
  { apply no_image_intrq, Hidle; destruct (_ =? 0); reflexivity. }
  assert (Hm : mounted (set_disk_cmd data d) = false).
  { unfold mounted. disk_rw. rewrite Hty. reflexivity. }
  destruct (data =? WDCmdReadSec); [rewrite Hm; exact Hsame|].
  destruct (data =? WDCmdWriteSec); [rewrite Hm; exact Hsame|].
  destruct (data =? WDCmdReadAddr).
  { revert Hinv. apply no_image_ext; auto. }
  destruct (data =? WDCmdWriteTrack); [|exact I].
  rewrite Hm. exact Hsame.
Qed.

Lemma data_no_image data op d :
  no_image_inv d -> post no_image_inv (io_handler_wd2797_data data op d).
Proof.
  intros Hinv. unfold io_handler_wd2797_data.
  destruct (proj1 (proj2 Hinv)) as [Hst|Hst]; rewrite Hst.
  - destruct op; [exact Hinv|]. revert Hinv. apply no_image_ext; auto.
  - destruct op; [|exact Hinv]. cbv zeta. disk_rw.
    destruct (_ =? _); revert Hinv; apply no_image_ext; auto.
Qed.

Lemma disk_step_no_image o d d' :
  is_mount o = false ->
  no_image_inv d -> disk_step o d = Some d' -> no_image_inv d'.
Proof.
  intros Ho Hinv H. destruct o; cbn [disk_step] in H.
  - destruct (io_handler_wd2797_cmd_stat data op d) as [[d1 r]|] eqn:E;
      [|discriminate].
    injection H as <-.
    exact (post_elim _ _ _ _ (cmd_stat_no_image data op d Hinv) E).
  - injection H as <-. unfold io_handler_wd2797_track.
    destruct (_ && _); cbn [fst]; [|exact Hinv].
    revert Hinv. apply no_image_ext; auto.
  - injection H as <-. unfold io_handler_wd2797_sector.
    destruct (_ && _); cbn [fst]; [|exact Hinv].
    revert Hinv. apply no_image_ext; auto.
  - destruct (io_handler_wd2797_data data op d) as [[d1 r]|] eqn:E;
      [|discriminate].
    injection H as <-.
    exact (post_elim _ _ _ _ (data_no_image data op d Hinv) E).
  - unfold io_handler_drive_ctrl in H. cbv zeta in H.
    destruct (negb (_ =? _)); [discriminate|].
    cbn [fmap option_fmap option_map fst] in H. injection H as <-.
    destruct (negb _); (apply no_image_emit; [reflexivity|]);
      revert Hinv; apply no_image_ext; auto.
  - assert (H0 : no_image_inv (if negb (is_idle (state d)) && (time_mark d =? 0)
                               then set_time_mark t1 d else d)).
    { destruct (_ && _); [|exact Hinv].
      revert Hinv. apply no_image_ext; auto. }
    unfold disk_io_interrupt in H. cbv zeta in H.
    remember (if negb (is_idle (state d)) && (time_mark d =? 0)
              then set_time_mark t1 d else d) as d0 eqn:Hd0.
    clear Hd0 Hinv.
    destruct (_ && _); [|injection H as <-; exact H0].
    assert (Hdrq : no_image_inv
      (emit EvFIRQ
         (set_disk_status (Z.lor (disk_status (set_time_mark t3 d0)) WDDRQ)
            (set_time_mark t3 d0)))).
    { apply no_image_emit; [reflexivity|].
      revert H0. apply no_image_ext; auto. }
    destruct (state d0) eqn:Hst; try discriminate;
      try (injection H as <-; exact Hdrq).
    injection H as <-. apply no_image_intrq.
    revert H0. apply no_image_ext; auto.
  - destruct image; [discriminate|]. injection H as <-.
    destruct Hinv as (_ & Hst & Htr). split; [reflexivity|]. split; assumption.
Qed.

(** As long as no image is mounted the controller never calls the file
    layer: from [disk_init()] without an image, whatever the CPU writes
    to or reads from the five registers and however the interrupt
    ticks, no seek, read or write of the image file is ever issued, and
    the controller is only ever idle or returning an ID field (READ
    SECTOR, WRITE SECTOR and WRITE TRACK start nothing). *)
Theorem no_image_no_file_access image ops d :
  Forall (fun o => is_mount o = false) ops ->
  disk_run ops (disk_init FILE_NONE image) = Some d ->
  Forall (fun e => is_file_event e = false) (trace d) /\
  (state d = DISK_IDLE \/ state d = DISK_READ_ID) /\
  img_type d = FILE_NONE.
Proof.
  intros Hops H.
  assert (Hinv : no_image_inv d).
  { assert (H0 : no_image_inv (disk_init FILE_NONE image)).
    { split; [reflexivity|]. split; [left; reflexivity|constructor]. }
    revert H0 H. generalize (disk_init FILE_NONE image).
    induction Hops as [|o ops Ho Hops IH]; intros d0 H0 H; cbn [disk_run] in H.
    - injection H as <-. exact H0.
    - destruct (disk_step o d0) as [d1|] eqn:E; [|discriminate].
      cbn [mbind option_bind] in H.
      eapply IH; [|exact H]. eapply disk_step_no_image; eauto. }
  destruct Hinv as (Hm & Hst & Htr).
  split; [exact Htr|]. split; [exact Hst|]. apply no_image_type, Hm.
Qed.

(** *** Ticks while idle *)

Lemma idle_tick t1 t2 t3 d :
  state d = DISK_IDLE ->
  exists d',
    disk_io_interrupt t1 t2 t3 d = Some d' /\
    state d' = DISK_IDLE /\ disk_status d' = disk_status d /\
    nmi_inhibit d' = nmi_inhibit d /\
    ((trace d' = trace d /\ time_mark d' = time_mark d) \/
     (time_mark d <> 0 /\ time_mark d' = 0 /\
      (trace d' = trace d \/
       (nmi_inhibit d = 0 /\ trace d' = trace d ++ [EvNMI])))).
Proof.
  intros Hst. unfold disk_io_interrupt. rewrite Hst. cbn [is_idle negb andb].
  cbv zeta. rewrite Hst. cbn [is_idle].
  destruct (Z.eqb_spec (time_mark d) 0) as [E|E]; cbn [negb andb].
  { exists d. repeat split; auto. }
  destruct (_ <=? _).
  - eexists. split; [reflexivity|]. unfold disk_intrq. disk_rw.
    destruct (Z.eqb_spec (nmi_inhibit d) 0) as [En|En]; disk_rw;
      (split; [exact Hst|]); (split; [reflexivity|]);
      (split; [reflexivity|]); right; (split; [exact E|]);
      (split; [reflexivity|]).
    + right. split; [exact En|reflexivity].
    + left. reflexivity.
  - exists d. repeat split; auto.
Qed.

(** While the controller stays idle the interrupt ticks raise the NMI
    once at most, however many they are and whatever the timer
    returns: once, if a transfer has left a time mark, the NMI is
    enabled and 250 ms have passed since the mark; never otherwise.
    They raise no FIRQ and leave the status register alone. *)
Theorem idle_ticks_raise_one_nmi_at_most ts : forall d,
  state d = DISK_IDLE ->
  exists d',
    disk_run (ticks ts) d = Some d' /\
    state d' = DISK_IDLE /\ disk_status d' = disk_status d /\
    (trace d' = trace d \/
     (nmi_inhibit d = 0 /\ time_mark d <> 0 /\
      trace d' = trace d ++ [EvNMI])).
Proof.
  assert (Hzero : forall ts d, state d = DISK_IDLE -> time_mark d = 0 ->
            exists d', disk_run (ticks ts) d = Some d' /\
              state d' = DISK_IDLE /\ disk_status d' = disk_status d /\
              trace d' = trace d).
  { clear ts. induction ts as [|[[t1 t2] t3] ts IH]; intros d Hst Hm.
    - exists d. repeat split; auto.
    - cbn [ticks fmap list_fmap disk_run disk_step].
      destruct (idle_tick t1 t2 t3 d Hst)
        as (d1 & E & Hs1 & Hq1 & _ & [[Ht Hk]|[Hne _]]); [|contradiction].
      rewrite E. cbn [mbind option_bind].
      destruct (IH d1 Hs1) as (d' & Hr & Hs & Hq & Htr); [congruence|].
      exists d'. split; [exact Hr|]. split; [exact Hs|].
      split; congruence. }
  induction ts as [|[[t1 t2] t3] ts IH]; intros d Hst.
  - exists d. repeat split; auto.
  - cbn [ticks fmap list_fmap disk_run disk_step].
    destruct (idle_tick t1 t2 t3 d Hst)
      as (d1 & E & Hs1 & Hq1 & Hn1 & [[Ht Hk]|(Hne & Hk & Ht)]).
    + rewrite E. cbn [mbind option_bind].
      destruct (IH d1 Hs1) as (d' & Hr & Hs & Hq & Htr).
      exists d'. split; [exact Hr|]. split; [exact Hs|].
      split; [congruence|].
      destruct Htr as [Htr|(Hn & Hm & Htr)]; [left; congruence|].
      right. split; [congruence|]. split; congruence.
    + rewrite E. cbn [mbind option_bind].
      destruct (Hzero ts d1 Hs1 Hk) as (d' & Hr & Hs & Hq & Htr).
      exists d'. split; [exact Hr|]. split; [exact Hs|].
      split; [congruence|].
      destruct Ht as [Ht|(Hn & Ht)]; [left; congruence|].
      right. split; [exact Hn|]. split; [exact Hne|]. congruence.
Qed.

End DiskReachable.

Section DiskFixtures.
Import Disk.

Ltac hyp_by_compute :=
  first [ reflexivity
        | apply Nat.leb_le; vm_compute; reflexivity
        | vm_compute; repeat split; try reflexivity; intro; discriminate ].

(** Track 1 of the two-sided fixture, sector 1, overwritten with 0x5A
    and read back. *)
Lemma write_sector_then_read_back_witness :
  exists d2,
    write_sector (replicate 256 0x5a)
      (set_disk_status 0 (set_disk_track 1 (disk_init FILE_VDK two_sided_image)))
    = Some d2 /\
    read_sector d2 = Some (replicate 256 0x5a).
Proof.
  destruct (write_sector_then_read_back
              (set_disk_status 0
                 (set_disk_track 1 (disk_init FILE_VDK two_sided_image)))
              (replicate 256 0x5a))
    as (d2 & Hw & _ & _ & _ & _ & Hr);
    [hyp_by_compute..|].
  exists d2. split; assumption.
Defined.

(** READ ADDRESS on track 1 of the fixture. *)
Lemma read_address_returns_id_field_witness :
  exists d',
    read_address
      (set_disk_status 0 (set_disk_track 1 (disk_init FILE_VDK two_sided_image)))
    = Some ([1; 1; 1; 255; 0xbe; 0xef], d') /\
    state d' = DISK_IDLE.
Proof.
  destruct (read_address_returns_id_field
              (set_disk_status 0
                 (set_disk_track 1 (disk_init FILE_VDK two_sided_image))))
    as (d' & Hr & Hs & _);
    [hyp_by_compute..|].
  exists d'. split; assumption.
Defined.

(** Track 2 of the fixture formatted: the 4608 bytes at 12 + 2 * 4608. *)
Lemma write_track_fills_track_witness :
  exists d',
    write_track (replicate 111 0x4e ++ [2; 0; 1; 1; 0xf7])
      (set_disk_status 0 (disk_init FILE_VDK two_sided_image))
    = Some d' /\
    take 4608 (drop (Z.to_nat 9228) (img_data d')) = replicate 4608 0xe5.
Proof.
  destruct (write_track_fills_track
              (set_disk_status 0 (disk_init FILE_VDK two_sided_image))
              (replicate 111 0x4e) 2 0 1 1 0xf7)
    as (d' & Hw & _ & _ & Him);
    [hyp_by_compute..|].
  exists d'. split; [exact Hw|].
  rewrite Him. vm_compute. reflexivity.
Defined.

(** Track 5 of the fixture, which has four track sides, written to. *)
Lemma write_sector_beyond_image_witness :
  exists d2,
    write_sector (replicate 256 0x5a)
      (set_disk_status 0 (set_disk_track 5 (disk_init FILE_VDK two_sided_image)))
    = Some d2 /\
    take 256 (drop 12 (img_data d2)) = replicate 256 0x5a.
Proof.
  destruct (write_sector_beyond_image_overwrites_start
              (set_disk_status 0
                 (set_disk_track 5 (disk_init FILE_VDK two_sided_image)))
              (replicate 256 0x5a))
    as (d2 & Hw & _ & _ & Him);
    [hyp_by_compute..|].
  exists d2. split; [exact Hw|].
  rewrite Him. vm_compute. reflexivity.
Defined.

(** The last sector of track 0 and the first of track 1. *)
Lemma sector_ranges_do_not_overlap_witness :
  fst (sector_range 0 18) = 4608 * 0 + 256 * (18 - 1) /\
  (snd (sector_range 0 18) <= fst (sector_range 1 1) \/
   snd (sector_range 1 1) <= fst (sector_range 0 18)).
Proof.
  apply (sector_ranges_do_not_overlap 0 18 1 1);
    first [ discriminate
          | vm_compute; repeat split; try reflexivity; intro; discriminate ].
Defined.

(** READ ADDRESS and the first read of its six bytes. *)
Lemma transfer_index_within_buffer_witness :
  exists d,
    disk_run [OpCmdStat WDCmdReadAddr MEM_WRITE; OpData 0 MEM_READ]
      (disk_init FILE_NONE []) = Some d /\
    state d = DISK_READ_ID /\ 0 <= buffer_index d < 256.
Proof.
  eexists. split; [vm_compute; reflexivity|]. split; [reflexivity|].
  apply (transfer_index_within_buffer FILE_NONE []
           [OpCmdStat WDCmdReadAddr MEM_WRITE; OpData 0 MEM_READ]).
  - vm_compute. reflexivity.
  - reflexivity.
Defined.

(** Drive 1 selected right after [disk_init()]. *)
Lemma disk_halts_on_unknown_command_or_drive_witness :
  disk_step (OpDriveCtrl 1 MEM_WRITE) (disk_init FILE_NONE []) = None.
Proof.
  apply (disk_halts_on_unknown_command_or_drive FILE_NONE [] []
           (disk_init FILE_NONE []) (OpDriveCtrl 1 MEM_WRITE));
    reflexivity.
Defined.

(** READ SECTOR without an image, then a read of the data register. *)
Lemma no_image_no_file_access_witness :
  exists d,
    disk_run [OpCmdStat WDCmdReadSec MEM_WRITE; OpData 0 MEM_READ]
      (disk_init FILE_NONE []) = Some d /\
    Forall (fun e => is_file_event e = false) (trace d) /\
    (state d = DISK_IDLE \/ state d = DISK_READ_ID) /\
    img_type d = FILE_NONE.
Proof.
  eexists. split; [vm_compute; reflexivity|].
  apply (no_image_no_file_access []
           [OpCmdStat WDCmdReadSec MEM_WRITE; OpData 0 MEM_READ]).
  - repeat constructor.
  - vm_compute. reflexivity.
Defined.

(** Three ticks after a transfer has left the time mark 1000, with the
    NMI enabled: the second one is 250 ms after the mark. *)
Lemma idle_ticks_raise_one_nmi_at_most_witness :
  exists d',
    disk_run (ticks [(0, 2000, 0); (0, 251000, 0); (0, 600000, 0)])
      (set_nmi_inhibit 0 (set_time_mark 1000 (disk_init FILE_NONE [])))
    = Some d' /\
    state d' = DISK_IDLE /\ trace d' = [EvNMI].
Proof.
  destruct (idle_ticks_raise_one_nmi_at_most
              [(0, 2000, 0); (0, 251000, 0); (0, 600000, 0)]
              (set_nmi_inhibit 0 (set_time_mark 1000 (disk_init FILE_NONE []))))
    as (d' & Hr & Hs & _ & _);
    [reflexivity|].
  exists d'. split; [exact Hr|]. split; [exact Hs|].
  vm_compute in Hr. injection Hr as <-. reflexivity.
Defined.

End DiskFixtures.

(** * Further properties of the tape trap *)

Section TapeStreams.
Import Tape.

Ltac is_tape_proj p :=
  lazymatch p with
  | tape_state => idtac | count => idtac | file_name => idtac
  | stream_index => idtac | cas_stream_buffer => idtac
  | header_byte_count => idtac | header_char_index => idtac
  | data_byte_count => idtac | eof_byte_count => idtac | written => idtac
  end.

Ltac is_tape_set s :=
  lazymatch s with
  | set_tape_state => idtac | set_count => idtac | set_file_name => idtac
  | set_stream_index => idtac | set_cas_stream_buffer => idtac
  | set_header_byte_count => idtac | set_header_char_index => idtac
  | set_data_byte_count => idtac | set_eof_byte_count => idtac
  | set_written => idtac
  end.

Ltac tape_rw :=
  repeat match goal with
  | |- context [?p (?s ?x ?t)] =>
      is_tape_proj p; is_tape_set s;
      first
        [ let H := fresh in
          assert (H : forall x' t', p (s x' t') = p t') by reflexivity;
          rewrite (H x t); clear H
        | let H := fresh in
          assert (H : forall x' t', p (s x' t') = x') by reflexivity;
          rewrite (H x t); clear H ]
  end.

(** *** Nothing captured is lost *)

Lemma capture_conserves pre b t :
  concat (written t) ++ pending t = pre ->
  0 <= stream_index t <= Z.of_nat (length pre) ->
  Z.of_nat (length (cas_stream_buffer t)) = CAS_STREAM_SIZE ->
  Z.of_nat (length pre) + 1 <= CAS_STREAM_SIZE - 1 ->
  let t' := cas_capture b t in
  concat (written t') ++ pending t' = pre ++ [b] /\
  0 <= stream_index t' <= Z.of_nat (length (pre ++ [b])) /\
  Z.of_nat (length (cas_stream_buffer t')) = CAS_STREAM_SIZE.
Proof.
  intros Hc Hi Hl Hlen t'. unfold t', pending in *.
  unfold CAS_STREAM_SIZE in *.
  assert (Hidx : stream_index (cas_store b t) = stream_index t + 1).
  { rewrite cas_store_index. unfold CAS_STREAM_SIZE.
    destruct (Z.eqb_spec (stream_index t + 1) (64 * 1024)); [lia|reflexivity]. }
  assert (Htake : take (Z.to_nat (stream_index t + 1))
                    (<[Z.to_nat (stream_index t) := b]> (cas_stream_buffer t))
                  = take (Z.to_nat (stream_index t)) (cas_stream_buffer t)
                    ++ [b]).
  { replace (Z.to_nat (stream_index t + 1))
      with (S (Z.to_nat (stream_index t))) by lia.
    apply take_snoc_insert. lia. }
  rewrite length_app. cbn [length].
  destruct (snd (fsm b (view_of t))) eqn:Hf.
  - destruct (cas_capture_flush b t Hf) as (Ki & Kb & Kw).
    rewrite Ki, Kb, Kw, Hidx. unfold u16.
    rewrite Z.mod_small by lia. rewrite Htake.
    rewrite concat_app. cbn [concat take Z.to_nat].
    rewrite length_replicate, !app_nil_r, app_assoc, Hc.
    unfold CAS_STREAM_SIZE.
    split; [reflexivity|]. split; lia.
  - destruct (cas_capture_keep b t Hf) as (Ki & Kb & Kw).
    rewrite Ki, Kb, Kw, Hidx, Htake, length_insert, app_assoc, Hc.
    split; [reflexivity|]. split; lia.
Qed.

(** Nothing the trap captures is lost or reordered: at any moment the
    files written so far, one after the other, followed by what is
    pending in the buffer, are exactly the bytes captured since
    power-on, whatever those bytes are (leader, blocks, or bytes that
    belong to no stream), as long as fewer than 65535 have been
    captured. A file therefore starts with whatever was captured
    since the previous file. *)
Theorem captured_bytes_are_kept_in_order bytes :
  Z.of_nat (length bytes) <= CAS_STREAM_SIZE - 1 ->
  let t := capture_all bytes tape_init in
  concat (written t) ++ pending t = bytes /\
  Z.of_nat (length (pending t)) = stream_index t.
Proof.
  intros Hlen t.
  assert (H : concat (written t) ++ pending t = bytes /\
              0 <= stream_index t <= Z.of_nat (length bytes) /\
              Z.of_nat (length (cas_stream_buffer t)) = CAS_STREAM_SIZE).
  { unfold t. clear t. revert Hlen.
    induction bytes as [|b bytes IH] using rev_ind; intros Hlen.
    - cbn [capture_all fold_left]. split; [reflexivity|].
      split; [cbn; lia|]. apply captured_init.
    - rewrite length_app in Hlen. cbn [length] in Hlen.
      rewrite capture_all_snoc.
      destruct IH as (Hc & Hi & Hl); [lia|].
      apply capture_conserves; [assumption..|lia]. }
  destruct H as (Hc & Hi & Hl). split; [exact Hc|].
  unfold pending. rewrite length_take. unfold CAS_STREAM_SIZE in *. lia.
Qed.

(** *** No file without a sync byte and an EOF block *)

Lemma capture_written_keep b t :
  snd (fsm b (view_of t)) = false -> written (cas_capture b t) = written t.
Proof. intros Hf. apply (cas_capture_keep b t Hf). Qed.

Lemma capture_state b t :
  tape_state (cas_capture b t) = fst (fst (fst (fst (fsm b (view_of t))))).
Proof.
  pose proof (cas_capture_view b t) as H. unfold view_of in H at 1.
  rewrite <- H. reflexivity.
Qed.

Lemma no_sync_no_file bytes :
  0x3c ∉ bytes ->
  let t := capture_all bytes tape_init in
  written t = [] /\
  (tape_state t = CAS_STREAM_IDLE \/ tape_state t = CAS_STREAM_LEADER).
Proof.
  induction bytes as [|b bytes IH] using rev_ind; intros Hn.
  - split; [reflexivity|left; reflexivity].
  - rewrite not_elem_of_app in Hn. destruct Hn as (Hn & Hb).
    rewrite not_elem_of_cons in Hb. destruct Hb as (Hb & _).
    cbv zeta. rewrite capture_all_snoc.
    destruct (IH Hn) as (Hw & Hs). cbv zeta in Hw, Hs.
    set (t := capture_all bytes tape_init) in *.
    rewrite capture_state.
    assert (Hne : (b =? 0x3c) = false) by (apply Z.eqb_neq; congruence).
    destruct Hs as [Hs|Hs].
    + rewrite capture_written_keep
        by (unfold fsm, view_of; rewrite Hs; reflexivity).
      split; [exact Hw|]. unfold fsm, view_of. rewrite Hs. cbn [fst].
      destruct (b =? 0x55); auto.
    + rewrite capture_written_keep
        by (unfold fsm, view_of; rewrite Hs; reflexivity).
      split; [exact Hw|]. unfold fsm, view_of. rewrite Hs, Hne. cbn [fst].
      destruct (b =? 0x55); auto.
Qed.

Lemma no_eof_no_file bytes :
  0xff ∉ bytes ->
  let t := capture_all bytes tape_init in
  written t = [] /\
  tape_state t <> CAS_STREAM_EOF /\ tape_state t <> CAS_STREAM_WRITE.
Proof.
  induction bytes as [|b bytes IH] using rev_ind; intros Hn.
  - split; [reflexivity|]. split; discriminate.
  - rewrite not_elem_of_app in Hn. destruct Hn as (Hn & Hb).
    rewrite not_elem_of_cons in Hb. destruct Hb as (Hb & _).
    cbv zeta. rewrite capture_all_snoc.
    destruct (IH Hn) as (Hw & Hs1 & Hs2). cbv zeta in Hw, Hs1, Hs2.
    set (t := capture_all bytes tape_init) in *.
    rewrite capture_state.
    assert (Hne : (b =? 0xff) = false) by (apply Z.eqb_neq; congruence).
    assert (Hf : snd (fsm b (view_of t)) = false).
    { unfold fsm, view_of, block_count.
      destruct (tape_state t); try reflexivity; try contradiction;
        destruct (_ <? 0); reflexivity. }
    rewrite (capture_written_keep b t Hf). split; [exact Hw|].
    unfold fsm, view_of, block_count.
    destruct (tape_state t); try contradiction; cbn [fst]; rewrite ?Hne;
      repeat match goal with
      | |- context [if ?c then _ else _] => destruct c
      end; cbn [fst]; split; discriminate.
Qed.

(** No file is written unless the captured bytes hold both a sync byte
    0x3C and a byte 0xFF, the type of an EOF block: from power-on, a
    capture without one of the two leaves the list of written files
    empty. *)
Theorem no_file_without_sync_and_eof_type bytes :
  0x3c ∉ bytes \/ 0xff ∉ bytes ->
  written (capture_all bytes tape_init) = [].
Proof.
  intros [H|H].
  - apply (no_sync_no_file bytes H).
  - apply (no_eof_no_file bytes H).
Qed.

End TapeStreams.
Section TapeNames.
Import Tape.

Ltac is_tape_proj p :=
  lazymatch p with
  | tape_state => idtac | count => idtac | file_name => idtac
  | stream_index => idtac | cas_stream_buffer => idtac
  | header_byte_count => idtac | header_char_index => idtac
  | data_byte_count => idtac | eof_byte_count => idtac | written => idtac
  end.

Ltac is_tape_set s :=
  lazymatch s with
  | set_tape_state => idtac | set_count => idtac | set_file_name => idtac
  | set_stream_index => idtac | set_cas_stream_buffer => idtac
  | set_header_byte_count => idtac | set_header_char_index => idtac
  | set_data_byte_count => idtac | set_eof_byte_count => idtac
  | set_written => idtac
  end.

Ltac tape_rw :=
  repeat match goal with
  | |- context [?p (?s ?x ?t)] =>
      is_tape_proj p; is_tape_set s;
      first
        [ let H := fresh in
          assert (H : forall x' t', p (s x' t') = p t') by reflexivity;
          rewrite (H x t); clear H
        | let H := fresh in
          assert (H : forall x' t', p (s x' t') = x') by reflexivity;
          rewrite (H x t); clear H ]
  end.

(** *** The file name of a header block *)

Lemma cas_store_name b t :
  tape_state (cas_store b t) = tape_state t /\
  header_byte_count (cas_store b t) = header_byte_count t /\
  header_char_index (cas_store b t) = header_char_index t /\
  file_name (cas_store b t) = file_name t.
Proof. unfold cas_store. cbv zeta. destruct (_ =? _); repeat split. Qed.

(** A byte captured while a header block is parsed. *)
Lemma capture_in_header b t :
  tape_state t = CAS_STREAM_HEADER ->
  let t' := cas_capture b t in
  let k := header_char_index t in
  if header_byte_count t <? 0 then
    tape_state t' = CAS_STREAM_HEADER /\ header_byte_count t' = b /\
    header_char_index t' = 0 /\ file_name t' = file_name t
  else if header_byte_count t - 1 <? 0 then
    tape_state t' = CAS_STREAM_LEADER /\
    header_byte_count t' = header_byte_count t - 1 /\
    header_char_index t' = k /\ file_name t' = file_name t
  else if (0 <=? k) && (k <=? 7) && isalnum b then
    tape_state t' = CAS_STREAM_HEADER /\
    header_byte_count t' = header_byte_count t - 1 /\
    header_char_index t' = k + 1 /\
    file_name t'
    = <[S (Z.to_nat k) := 0]> (<[Z.to_nat k := b]> (file_name t))
  else
    tape_state t' = CAS_STREAM_HEADER /\
    header_byte_count t' = header_byte_count t - 1 /\
    header_char_index t' = k /\ file_name t' = file_name t.
Proof.
  intros Hst. cbv zeta.
  destruct (cas_store_name b t) as (Ss & Sh & Sk & Sf).
  unfold cas_capture. cbv zeta. unfold cas_switch. rewrite Ss, Hst.
  unfold cas_stream_header. cbv zeta. tape_rw. rewrite !Sh, !Sk, !Sf.
  destruct (header_byte_count t <? 0).
  { cbn [fst snd]. tape_rw. rewrite ?Sf. repeat split; reflexivity. }
  destruct (header_byte_count t - 1 <? 0).
  { cbn [fst snd]. tape_rw. rewrite ?Sk, ?Sf. repeat split; reflexivity. }
  destruct ((0 <=? header_char_index t) && (header_char_index t <=? 7)
            && isalnum b);
    cbn [fst snd]; tape_rw; rewrite ?Sk, ?Sf; repeat split; reflexivity.
Qed.

Lemma name_insert (fn : list Z) (i : nat) (b : Z) :
  length fn = 9%nat -> (i <= 7)%nat ->
  <[S i := 0]> (<[i := b]> fn) = take i fn ++ [b] ++ 0 :: drop (i + 2) fn.
Proof.
  intros Hl Hi.
  do 10 (destruct fn as [|? fn]; try discriminate).
  do 8 (destruct i as [|i]; [reflexivity|]). lia.
Qed.

Lemma name_insert_take (fn : list Z) (i : nat) (b : Z) :
  length fn = 9%nat -> (i <= 7)%nat ->
  take (S i) (<[S i := 0]> (<[i := b]> fn)) = take i fn ++ [b].
Proof.
  intros Hl Hi.
  do 10 (destruct fn as [|? fn]; try discriminate).
  do 8 (destruct i as [|i]; [reflexivity|]). lia.
Qed.

Lemma name_insert_drop (fn : list Z) (i n : nat) (b : Z) :
  (S i < n)%nat ->
  drop n (<[S i := 0]> (<[i := b]> fn)) = drop n fn.
Proof. intros H. rewrite !drop_insert_lt by lia. reflexivity. Qed.

(** The payload bytes of a header block, from anywhere inside it. *)
Lemma header_payload p : forall t,
  tape_state t = CAS_STREAM_HEADER ->
  Z.of_nat (length p) <= header_byte_count t ->
  0 <= header_char_index t <= 8 ->
  length (file_name t) = 9%nat ->
  let t' := capture_all p t in
  let k := Z.to_nat (header_char_index t) in
  let nm := take (8 - k) (List.filter isalnum p) in
  tape_state t' = CAS_STREAM_HEADER /\
  header_byte_count t' = header_byte_count t - Z.of_nat (length p) /\
  length (file_name t') = 9%nat /\
  file_name t'
  = match nm with
    | [] => file_name t
    | _ => take k (file_name t) ++ nm
           ++ 0 :: drop (k + length nm + 1) (file_name t)
    end.
Proof.
  induction p as [|b p IH]; intros t Hst Hc Hk Hl; cbv zeta.
  - cbn [capture_all fold_left length List.filter].
    rewrite take_nil. repeat split; try assumption. lia.
  - change (capture_all (b :: p) t) with (capture_all p (cas_capture b t)).
    cbn [length] in Hc.
    pose proof (capture_in_header b t Hst) as H. cbv zeta in H.
    destruct (Z.ltb_spec (header_byte_count t) 0) as [?|_]; [lia|].
    destruct (Z.ltb_spec (header_byte_count t - 1) 0) as [?|_]; [lia|].
    cbn [List.filter].
    destruct (Z.leb_spec 0 (header_char_index t)) as [_|?]; [|lia].
    cbn [andb] in H.
    destruct (Z.leb_spec (header_char_index t) 7) as [Hk7|Hk8];
      cbn [andb] in H.
    + destruct (isalnum b) eqn:Hb.
      * destruct H as (Hs1 & Hc1 & Hk1 & Hf1).
        destruct (IH (cas_capture b t)) as (Hs' & Hc' & Hl' & Hf').
        { exact Hs1. } { rewrite Hc1. lia. } { rewrite Hk1. lia. }
        { rewrite Hf1, !length_insert. exact Hl. }
        split; [exact Hs'|]. split; [rewrite Hc', Hc1; cbn [length]; lia|].
        split; [exact Hl'|].
        rewrite Hf'. rewrite Hk1, Hf1.
        set (k := Z.to_nat (header_char_index t)).
        assert (Hk' : (k <= 7)%nat) by (unfold k; lia).
        replace (Z.to_nat (header_char_index t + 1)) with (S k)
          by (unfold k; lia).
        replace (8 - k)%nat with (S (8 - S k)) by lia.
        cbn [take].
        destruct (take (8 - S k) (List.filter isalnum p)) as [|c nm] eqn:En.
        -- rewrite name_insert by assumption. cbn [length app].
           replace (k + 1 + 1)%nat with (k + 2)%nat by lia. reflexivity.
        -- rewrite name_insert_take by assumption.
           rewrite name_insert_drop by (cbn [length]; lia).
           rewrite <- app_assoc. cbn [length app].
           replace (S k + S (length nm) + 1)%nat
             with (k + S (S (length nm)) + 1)%nat by lia.
           reflexivity.
      * destruct H as (Hs1 & Hc1 & Hk1 & Hf1).
        destruct (IH (cas_capture b t)) as (Hs' & Hc' & Hl' & Hf').
        { exact Hs1. } { rewrite Hc1. lia. } { rewrite Hk1. lia. }
        { rewrite Hf1. exact Hl. }
        split; [exact Hs'|]. split; [rewrite Hc', Hc1; cbn [length]; lia|].
        split; [exact Hl'|].
        rewrite Hf', Hk1, Hf1. reflexivity.
    + destruct H as (Hs1 & Hc1 & Hk1 & Hf1).
      destruct (IH (cas_capture b t)) as (Hs' & Hc' & Hl' & Hf').
      { exact Hs1. } { rewrite Hc1. lia. } { rewrite Hk1. lia. }
      { rewrite Hf1. exact Hl. }
      split; [exact Hs'|]. split; [rewrite Hc', Hc1; cbn [length]; lia|].
      split; [exact Hl'|].
      rewrite Hf', Hk1, Hf1.
      replace (8 - Z.to_nat (header_char_index t))%nat with 0%nat by lia.
      rewrite !take_0. reflexivity.
Qed.

(** A header block (length byte, payload, checksum) captured while the
    state machine is at the start of a header leaves in [file_name] the
    first eight alphanumeric bytes found anywhere in the payload, not
    only among its eight name bytes, followed by a NUL; what lies
    behind the NUL is kept, and a payload without an alphanumeric byte
    leaves the name of the previous file in place. The nine bytes of
    [file_name] are never overrun, the checksum is not taken for a
    name byte, and the state machine is back in LEADER. *)
Theorem header_block_sets_file_name payload ck t :
  tape_state t = CAS_STREAM_HEADER ->
  header_byte_count t < 0 ->
  length (file_name t) = 9%nat ->
  let t' := capture_all (Z.of_nat (length payload) :: payload ++ [ck]) t in
  tape_state t' = CAS_STREAM_LEADER /\
  length (file_name t') = 9%nat /\
  file_name t'
  = match name_of payload with
    | [] => file_name t
    | nm => nm ++ 0 :: drop (length nm + 1) (file_name t)
    end.
Proof.
  intros Hst Hc Hl. cbv zeta.
  change (capture_all (Z.of_nat (length payload) :: payload ++ [ck]) t)
    with (capture_all (payload ++ [ck])
            (cas_capture (Z.of_nat (length payload)) t)).
  rewrite capture_all_snoc.
  pose proof (capture_in_header (Z.of_nat (length payload)) t Hst) as H.
  cbv zeta in H.
  destruct (Z.ltb_spec (header_byte_count t) 0) as [_|?]; [|lia].
  destruct H as (Hs1 & Hc1 & Hk1 & Hf1).
  set (t1 := cas_capture (Z.of_nat (length payload)) t) in *.
  destruct (header_payload payload t1) as (Hs2 & Hc2 & Hl2 & Hf2).
  { exact Hs1. } { rewrite Hc1. lia. } { rewrite Hk1. lia. }
  { rewrite Hf1. exact Hl. }
  set (t2 := capture_all payload t1) in *.
  pose proof (capture_in_header ck t2 Hs2) as H. cbv zeta in H.
  rewrite Hc2, Hc1 in H.
  destruct (Z.ltb_spec (Z.of_nat (length payload) - Z.of_nat (length payload)) 0)
    as [?|_]; [lia|].
  destruct (Z.ltb_spec (Z.of_nat (length payload) - Z.of_nat (length payload) - 1) 0)
    as [_|?]; [|lia].
  destruct H as (Hs3 & _ & _ & Hf3).
  split; [exact Hs3|]. rewrite Hf3. split; [exact Hl2|].
  rewrite Hf2, Hk1, Hf1. unfold name_of.
  change (8 - Z.to_nat 0)%nat with 8%nat.
  destruct (take 8 (List.filter isalnum payload)); reflexivity.
Qed.

End TapeNames.

Section TapeFixtures.
Import Tape.

(** An EOF block after a leader byte and the sync byte, the byte that
    makes the handler write the file, and one byte more. *)
Lemma captured_bytes_are_kept_in_order_witness :
  let t := capture_all [0x55; 0x3c; 0xff; 0x00; 0xff; 0x55; 0x07] tape_init in
  written t = [[0x55; 0x3c; 0xff; 0x00; 0xff; 0x55]] /\
  concat (written t) ++ pending t = [0x55; 0x3c; 0xff; 0x00; 0xff; 0x55; 0x07].
Proof.
  split; [vm_compute; reflexivity|].
  apply (captured_bytes_are_kept_in_order
           [0x55; 0x3c; 0xff; 0x00; 0xff; 0x55; 0x07]).
  vm_compute. intro. discriminate.
Defined.

(** The same bytes without the sync byte. *)
Lemma no_file_without_sync_and_eof_type_witness :
  written (capture_all [0x55; 0xff; 0x00; 0xff; 0x55; 0x07] tape_init) = [].
Proof.
  apply (no_file_without_sync_and_eof_type
           [0x55; 0xff; 0x00; 0xff; 0x55; 0x07]).
  left. repeat (apply not_elem_of_cons; split; [discriminate|]).
  apply not_elem_of_nil.
Defined.

(** The header of a file named HELLO, after power-on. *)
Lemma header_block_sets_file_name_witness :
  let t' :=
    capture_all (15 :: fst hello_header ++ [snd hello_header]) at_header in
  tape_state t' = CAS_STREAM_LEADER /\
  take 6 (file_name t') = [0x48; 0x45; 0x4c; 0x4c; 0x4f; 0].
Proof.
  destruct (header_block_sets_file_name (fst hello_header) (snd hello_header)
              at_header) as (Hs & _ & Hf).
  - vm_compute. reflexivity.
  - vm_compute. reflexivity.
  - vm_compute. reflexivity.
  - split; [exact Hs|].
    change (Z.of_nat (length (fst hello_header))) with 15 in Hf.
    cbv zeta. rewrite Hf. vm_compute. reflexivity.
Defined.

End TapeFixtures.

(** * Further properties of the VDG *)

Lemma land_pow2_eqb x k :
  0 <= k -> (Z.land x (2 ^ k) =? 0) = negb (Z.testbit x k).
Proof.
  intros Hk. rewrite land_pow2 by assumption.
  destruct (Z.testbit x k); [|reflexivity].
  apply Z.eqb_neq. pose proof (Z.pow_pos_nonneg 2 k). lia.
Qed.

Lemma land_ag_eqb x : (Z.land x 0x10 =? 0) = negb (Z.testbit x 4).
Proof. apply (land_pow2_eqb x 4). lia. Qed.

Lemma land_gm0_eqb x : (Z.land x 0x02 =? 0) = negb (Z.testbit x 1).
Proof. apply (land_pow2_eqb x 1). lia. Qed.

(** The three GM bits as the decoder masks them. *)
Lemma land_gm_bits pia :
  Z.land pia 0x0e
  = (if Z.testbit pia 1 then 2 else 0) + (if Z.testbit pia 2 then 4 else 0)
    + (if Z.testbit pia 3 then 8 else 0).
Proof.
  apply Z.bits_inj'. intros n Hn. rewrite Z.land_spec.
  destruct (Z_lt_le_dec n 4) as [Hlt|Hge].
  - assert (Hc : n = 0 \/ n = 1 \/ n = 2 \/ n = 3) by lia.
    destruct Hc as [->|[->|[->| ->]]];
      destruct (Z.testbit pia 1) eqn:E1, (Z.testbit pia 2) eqn:E2,
        (Z.testbit pia 3) eqn:E3;
      rewrite ?E1, ?E2, ?E3; try reflexivity;
      rewrite ?andb_false_r; reflexivity.
  - assert (H14 : Z.testbit 14 n = false).
    { apply Z.bits_above_log2; [lia|]. change (Z.log2 14) with 3. lia. }
    rewrite H14, andb_false_r. symmetry.
    destruct (Z.testbit pia 1), (Z.testbit pia 2), (Z.testbit pia 3);
      (apply Z.bits_above_log2 || apply Z.bits_0); try lia;
      match goal with |- Z.log2 ?c < _ =>
        let v := eval vm_compute in (Z.log2 c) in change (Z.log2 c) with v
      end; lia.
Qed.

Section VdgDecoder.
Import Vdg.

Variable RPI_BARE_METAL : bool.
Variable font_img5x7 : Z -> Z -> Z.
Variable semi_graph_4 : Z -> Z -> Z.
Variable semi_graph_6 : Z -> Z -> Z.
Variable mem_read : Z -> Z.

Lemma render_mode_renderable mode pia base pr :
  renderable mode = true ->
  render_mode RPI_BARE_METAL font_img5x7 semi_graph_4 semi_graph_6
    mem_read mode pia base pr <> None.
Proof. destruct mode; try discriminate; intros _; discriminate. Qed.

Lemma vdg_render_none v :
  vdg_render RPI_BARE_METAL font_img5x7 semi_graph_4 semi_graph_6
    mem_read v = None <->
  match vdg_get_mode (sam_video_mode v) (pia_video_mode v) with
  | Some mode => renderable mode = false
  | None => True
  end.
Proof.
  unfold vdg_render.
  destruct (vdg_get_mode _ _) as [mode|]; cbn [mbind option_bind];
    [|split; auto].
  cbv zeta.
  destruct (renderable mode) eqn:Hr.
  - pose proof (render_mode_renderable mode (pia_video_mode v)
                  (Z.shiftl (video_ram_offset v) 9) (pixel_row v) Hr) as Hn.
    destruct (render_mode _ _ _ _ _ _ _ _ _) as [[row w]|]; [|contradiction].
    split; discriminate.
  - destruct mode; try discriminate Hr; split; reflexivity.
Qed.

(** [vdg_render()] stops the emulator in [rpi_halt()] exactly when the
    SAM mode is 7 (DMA), or when the PIA selects a character mode (bit
    4, ^A/G, clear) and the SAM mode is neither 0 nor, with bit 1 (GM0)
    clear, 2 or 4. With the PIA's ^A/G bit set and a SAM mode other
    than 7 it always renders: the graphics mode is taken from the
    three GM bits alone. *)
Theorem vdg_render_halts_exactly v :
  let sam := sam_video_mode v in
  let pia := pia_video_mode v in
  vdg_render RPI_BARE_METAL font_img5x7 semi_graph_4 semi_graph_6
    mem_read v = None <->
  sam = 7 \/
  (Z.testbit pia 4 = false /\ sam <> 0 /\
   ~ ((sam = 2 \/ sam = 4) /\ Z.testbit pia 1 = false)).
Proof.
  cbv zeta. rewrite vdg_render_none. unfold vdg_get_mode. cbv zeta.
  rewrite !(bits_set_pow2 _ 0x10 4) by (reflexivity || lia).
  rewrite !(bits_set_pow2 _ 0x02 1) by (reflexivity || lia).
  rewrite !land_ag_eqb, !land_gm0_eqb.
  destruct (Z.eqb_spec (sam_video_mode v) 7) as [E7|N7].
  { split; [left; exact E7|reflexivity]. }
  destruct (Z.testbit (pia_video_mode v) 4) eqn:E4.
  { rewrite land_gm_bits.
    split.
    - destruct (Z.testbit (pia_video_mode v) 1),
        (Z.testbit (pia_video_mode v) 2), (Z.testbit (pia_video_mode v) 3);
        intros H; vm_compute in H; discriminate.
    - intros [H|(H & _)]; [contradiction|discriminate]. }
  cbn [negb].
  destruct (Z.eqb_spec (sam_video_mode v) 0) as [E0|N0].
  { destruct (Z.testbit (pia_video_mode v) 1); cbn [negb andb];
      (split; [discriminate|]);
      intros [H|(_ & H & _)]; contradiction. }
  cbn [andb].
  destruct (Z.eqb_spec (sam_video_mode v) 2) as [E2|N2].
  { destruct (Z.testbit (pia_video_mode v) 1); cbn [negb andb].
    - rewrite E2. change (2 =? 4) with false. cbn [andb].
      split; [|reflexivity]. intros _. right.
      split; [reflexivity|]. split; [lia|]. intros (_ & H). discriminate.
    - split; [discriminate|].
      intros [H|(_ & _ & H)]; [contradiction|]. exfalso. apply H. auto. }
  cbn [andb].
  destruct (Z.eqb_spec (sam_video_mode v) 4) as [E4'|N4].
  { destruct (Z.testbit (pia_video_mode v) 1); cbn [negb andb].
    - split; [|reflexivity]. intros _. right.
      split; [reflexivity|]. split; [lia|]. intros (_ & H). discriminate.
    - split; [discriminate|].
      intros [H|(_ & _ & H)]; [contradiction|]. exfalso. apply H. auto. }
  cbn [andb]. split; [|reflexivity]. intros _. right.
  split; [reflexivity|]. split; [exact N0|]. intros ([H|H] & _); contradiction.
Qed.

End VdgDecoder.

Section VdgCells.
Import Vdg.

Variable RPI_BARE_METAL : bool.
Variable font_img5x7 : Z -> Z -> Z.
Variable semi_graph_4 : Z -> Z -> Z.
Variable semi_graph_6 : Z -> Z -> Z.
Variable mem_read : Z -> Z.

(** The cell of a character code with bit 7 set. *)
Lemma alpha_semi4_cell_graphics color_set c font_row :
  Z.testbit (u8 c) 7 = true ->
  alpha_semi4_cell RPI_BARE_METAL font_img5x7 semi_graph_4 color_set c font_row
  = (rd (colors RPI_BARE_METAL) (Z.shiftr (Z.land (u8 c) 0x70) 4), FB_BLACK,
     u8 (semi_graph_4 (Z.land (u8 c) 0x0f) font_row)).
Proof.
  intros H7. unfold alpha_semi4_cell.
  rewrite (bits_set_pow2 _ CHAR_SEMI_GRAPHICS 7), H7 by (reflexivity || lia).
  reflexivity.
Qed.

Lemma colour_field_range c mask k w :
  0 <= k -> 0 <= w -> Z.shiftr mask k = Z.ones w ->
  0 <= Z.shiftr (Z.land c mask) k < 2 ^ w.
Proof.
  intros Hk Hw Hm. rewrite Z.shiftr_land, Hm, Z.land_ones by assumption.
  apply Z.mod_pos_bound. apply Z.pow_pos_nonneg; lia.
Qed.

(** In a frame of the alphanumeric and semigraphics-4 renderer, the
    cell at ([row], [col]) whose code has bit 7 set is a semigraphics
    cell: its pixel [font_col] of scan line [font_row] shows the bit of
    the pattern [semi_graph_4[code & 0x0f][font_row]] in the colour of
    the table entry numbered by bits 4..6 of the code, on black. The
    entry number is always inside the eight-entry table, and the CSS
    bit of the PIA plays no part. *)
Theorem semi4_pixel_colours pia base (row font_row col font_col : nat) :
  (row < 16)%nat -> (font_row < 12)%nat -> (col < 32)%nat ->
  (font_col < 8)%nat ->
  let c := u8 (mem_read (Z.of_nat col + (Z.of_nat row * 32 + base))) in
  Z.testbit c 7 = true ->
  let entry := Z.shiftr (Z.land c 0x70) 4 in
  let bit_pattern := semi_graph_4 (Z.land c 0x0f) (Z.of_nat font_row) in
  vdg_render_alpha_semi4 RPI_BARE_METAL font_img5x7 semi_graph_4 mem_read
    pia base
    !! (((row * 12 + font_row) * 32 + col) * 8 + font_col)%nat
  = Some (if Z.testbit bit_pattern (7 - Z.of_nat font_col)
          then rd (colors RPI_BARE_METAL) entry else FB_BLACK)
  /\ 0 <= entry < 8.
Proof.
  intros Hrow Hfr Hcol Hfc c H7 entry bit_pattern.
  split; [|apply (colour_field_range c 0x70 4 3); first [lia|reflexivity]].
  unfold vdg_render_alpha_semi4.
  change (Z.to_nat SCREEN_HEIGHT_CHAR) with 16%nat.
  change (Z.to_nat FONT_HEIGHT) with 12%nat.
  change (Z.to_nat SCREEN_WIDTH_CHAR) with 32%nat.
  cbv zeta.
  replace (((row * 12 + font_row) * 32 + col) * 8 + font_col)%nat
    with (row * (12 * (32 * 8)) + (font_row * (32 * 8) + (col * 8 + font_col)))%nat
    by lia.
  rewrite (for_emit_lookup _ (12 * (32 * 8))); [| |lia|lia].
  2:{ intros j. apply for_emit_length. intros j2.
      apply for_emit_length. intros j3. apply alpha_semi4_col_length. }
  rewrite (for_emit_lookup _ (32 * 8)); [| |lia|lia].
  2:{ intros j. apply for_emit_length. intros j3.
      apply alpha_semi4_col_length. }
  rewrite (for_emit_lookup _ 8); [| |lia|lia].
  2:{ intros j. apply alpha_semi4_col_length. }
  rewrite !Z.add_0_l.
  assert (Hu : u8 (mem_read (Z.of_nat col + (Z.of_nat row * SCREEN_WIDTH_CHAR + base))) = c)
    by reflexivity.
  rewrite alpha_semi4_cell_graphics by (rewrite Hu; exact H7).
  rewrite Hu. change (Z.to_nat FONT_WIDTH) with 8%nat.
  rewrite render_pixels_lookup by assumption. reflexivity.
Qed.

(** In a frame of the semigraphics-6 renderer, whatever the cell's
    code, its pixel [font_col] of scan line [font_row] shows the bit of
    the pattern [semi_graph_6[code & 0x3f][font_row]] in the colour of
    the table entry numbered by bits 6..7 of the code plus four times
    the CSS bit of the PIA, on black; the entry number is always inside
    the eight-entry table. *)
Theorem semi6_pixel_colours pia base (row font_row col font_col : nat) :
  (row < 16)%nat -> (font_row < 12)%nat -> (col < 32)%nat ->
  (font_col < 8)%nat ->
  let c := mem_read (Z.of_nat col + (Z.of_nat row * 32 + base)) in
  let entry := Z.shiftr (Z.land c 0xc0) 6 + 4 * Z.land pia 0x01 in
  let bit_pattern := semi_graph_6 (Z.land (u8 c) 0x3f) (Z.of_nat font_row) in
  vdg_render_semi6 RPI_BARE_METAL semi_graph_6 mem_read pia base
    !! (((row * 12 + font_row) * 32 + col) * 8 + font_col)%nat
  = Some (if Z.testbit bit_pattern (7 - Z.of_nat font_col)
          then rd (colors RPI_BARE_METAL) entry else FB_BLACK)
  /\ 0 <= entry < 8.
Proof.
  intros Hrow Hfr Hcol Hfc c entry bit_pattern.
  split.
  2:{ unfold entry.
      assert (H1 : 0 <= Z.shiftr (Z.land c 0xc0) 6 < 4).
      { apply (colour_field_range c 0xc0 6 2); first [lia|reflexivity]. }
      assert (H2 : Z.land pia 1 = 0 \/ Z.land pia 1 = 1).
      { change (Z.land pia 1) with (Z.land pia (2 ^ 0)).
        rewrite land_pow2 by lia.
        destruct (Z.testbit pia 0); [right|left]; reflexivity. }
      lia. }
  unfold vdg_render_semi6.
  change (Z.to_nat SCREEN_HEIGHT_CHAR) with 16%nat.
  change (Z.to_nat FONT_HEIGHT) with 12%nat.
  change (Z.to_nat SCREEN_WIDTH_CHAR) with 32%nat.
  cbv zeta.
  replace (((row * 12 + font_row) * 32 + col) * 8 + font_col)%nat
    with (row * (12 * (32 * 8)) + (font_row * (32 * 8) + (col * 8 + font_col)))%nat
    by lia.
  rewrite (for_emit_lookup _ (12 * (32 * 8))); [| |lia|lia].
  2:{ intros j. apply for_emit_length. intros j2.
      apply for_emit_length. intros j3. apply semi6_col_length. }
  rewrite (for_emit_lookup _ (32 * 8)); [| |lia|lia].
  2:{ intros j. apply for_emit_length. intros j3. apply semi6_col_length. }
  rewrite (for_emit_lookup _ 8); [| |lia|lia].
  2:{ intros j. apply semi6_col_length. }
  rewrite !Z.add_0_l. change (Z.to_nat FONT_WIDTH) with 8%nat.
  rewrite render_pixels_lookup by assumption. reflexivity.
Qed.

End VdgCells.

(** ** The byte loop of the graphics renderers *)

Lemma loop_emit_app {St : Type} (body : Z -> St -> St * list Z) n1 : forall n2 i s,
  loop_emit (n1 + n2) i body s
  = (fst (loop_emit n2 (i + Z.of_nat n1) body (fst (loop_emit n1 i body s))),
     snd (loop_emit n1 i body s)
     ++ snd (loop_emit n2 (i + Z.of_nat n1) body (fst (loop_emit n1 i body s)))).
Proof.
  induction n1 as [|n1 IH]; intros n2 i s.
  - cbn [Nat.add loop_emit fst snd app]. rewrite Z.add_0_r.
    apply surjective_pairing.
  - cbn [Nat.add loop_emit]. destruct (body i s) as [s1 o1].
    rewrite IH. destruct (loop_emit n1 (i + 1) body s1) as [s2 o2].
    cbn [fst snd].
    replace (i + 1 + Z.of_nat n1) with (i + Z.of_nat (S n1)) by lia.
    rewrite app_assoc. reflexivity.
Qed.

Section ByteLoop.
Import Vdg.

(** What one byte of video memory does to [(pixel_row, buffer_index)]:
    it fills the next [px] pixels, byte [off] giving the pixel
    [pix off q] at place [q]. *)
Variable step : Z -> list Z * Z -> list Z * Z.
Variable px bpr : nat.
Variable row_rep : Z.
Variable pix : Z -> nat -> Z.

Hypothesis Hpx : (0 < px)%nat.
Hypothesis Hbpr : (bpr * px = 256)%nat.
Hypothesis Hstep : forall off pr (bi : nat),
  (bi + px <= 256)%nat -> length pr = 256%nat ->
  snd (step off (pr, Z.of_nat bi)) = Z.of_nat (bi + px) /\
  length (fst (step off (pr, Z.of_nat bi))) = 256%nat /\
  (forall j, (j < bi)%nat -> fst (step off (pr, Z.of_nat bi)) !! j = pr !! j) /\
  (forall q, (q < px)%nat ->
     fst (step off (pr, Z.of_nat bi)) !! (bi + q)%nat = Some (pix off q)).

Let byte_body (off : Z) (st : list Z * Z) : (list Z * Z) * list Z :=
  flush_row row_rep (step off st).

(** The bytes of one row of pixels: the last one completes
    [pixel_row], which is then copied [row_rep] times. *)
Lemma row_loop k : forall (m : nat) i pr,
  (m + k = bpr)%nat -> (0 < k)%nat -> length pr = 256%nat ->
  (forall m' q, (m' < m)%nat -> (q < px)%nat ->
     pr !! (m' * px + q)%nat
     = Some (pix (i - Z.of_nat m + Z.of_nat m') q)) ->
  exists pr',
    loop_emit k i byte_body (pr, Z.of_nat (m * px))
    = ((pr', 0),
       for_emit (Z.to_nat row_rep) 0 (fun _ =>
         for_emit 256 0 (fun j => [rd pr' j]))) /\
    length pr' = 256%nat /\
    forall m' q, (m' < bpr)%nat -> (q < px)%nat ->
      pr' !! (m' * px + q)%nat
      = Some (pix (i - Z.of_nat m + Z.of_nat m') q).
Proof.
  induction k as [|k IH]; intros m i pr Hm Hk Hl Hpre; [lia|].
  cbn [loop_emit]. unfold byte_body at 1.
  destruct (Hstep i pr (m * px)) as (Hs & Hlen & Hlow & Hnew);
    [nia|exact Hl|].
  destruct (step i (pr, Z.of_nat (m * px))) as [pr1 bi1].
  cbn [fst snd] in Hs, Hlen, Hlow, Hnew. subst bi1.
  assert (Hall : forall m' q, (m' < S m)%nat -> (q < px)%nat ->
            pr1 !! (m' * px + q)%nat
            = Some (pix (i - Z.of_nat m + Z.of_nat m') q)).
  { intros m' q Hm' Hq. destruct (decide (m' = m)) as [->|Hne].
    - rewrite Hnew by exact Hq. do 2 f_equal. lia.
    - rewrite Hlow by nia. apply Hpre; [lia|exact Hq]. }
  unfold flush_row.
  destruct k as [|k].
  - assert (E : (m * px + px)%nat = 256%nat) by nia.
    rewrite E. change (SCREEN_WIDTH_PIX <=? Z.of_nat 256) with true.
    cbv iota. cbn [loop_emit]. rewrite app_nil_r.
    change (Z.to_nat SCREEN_WIDTH_PIX) with 256%nat.
    exists pr1. split; [reflexivity|]. split; [exact Hlen|].
    intros m' q Hm' Hq. apply Hall; [lia|exact Hq].
  - destruct (Z.leb_spec SCREEN_WIDTH_PIX (Z.of_nat (m * px + px)))
      as [Hge|_]; [unfold SCREEN_WIDTH_PIX in Hge; nia|].
    specialize (IH (S m) (i + 1) pr1).
    replace (S m * px)%nat with (m * px + px)%nat in IH by lia.
    destruct IH as (pr' & I1 & I2 & I3); [lia|lia|exact Hlen| |].
    { intros m' q Hm' Hq. rewrite Hall by assumption. do 2 f_equal. lia. }
    rewrite I1. cbn [app]. exists pr'.
    split; [reflexivity|]. split; [exact I2|].
    intros m' q Hm' Hq. rewrite I3 by assumption. do 2 f_equal. lia.
Qed.

(** The whole loop: row [rr] of video memory gives the lines
    [rr * row_rep .. rr * row_rep + row_rep - 1] of the frame. *)
Lemma rows_loop rows : forall i pr,
  length pr = 256%nat -> (0 < bpr)%nat ->
  exists pr' out,
    loop_emit (rows * bpr) i byte_body (pr, 0) = ((pr', 0), out) /\
    length pr' = 256%nat /\
    forall rr c m q,
      (rr < rows)%nat -> (c < Z.to_nat row_rep)%nat ->
      (m < bpr)%nat -> (q < px)%nat ->
      out !! ((rr * Z.to_nat row_rep + c) * 256 + (m * px + q))%nat
      = Some (pix (i + Z.of_nat (rr * bpr) + Z.of_nat m) q).
Proof.
  induction rows as [|rows IH]; intros i pr Hl Hb.
  - cbn [Nat.mul loop_emit]. exists pr, []. split; [reflexivity|].
    split; [exact Hl|]. intros; lia.
  - replace (S rows * bpr)%nat with (bpr + rows * bpr)%nat by lia.
    rewrite loop_emit_app.
    destruct (row_loop bpr 0 i pr) as (pr1 & R1 & R2 & R3);
      [lia|exact Hb|exact Hl|intros; lia|].
    cbn [Nat.mul] in R1. change (Z.of_nat 0) with 0 in R1.
    rewrite R1. cbn [fst snd].
    destruct (IH (i + Z.of_nat bpr) pr1 R2 Hb) as (pr2 & o2 & I1 & I2 & I3).
    rewrite I1. cbn [fst snd].
    eexists pr2, _. split; [reflexivity|]. split; [exact I2|].
    set (o1 := for_emit (Z.to_nat row_rep) 0
                 (fun _ => for_emit 256 0 (fun j => [rd pr1 j]))).
    assert (Ho1 : length o1 = (Z.to_nat row_rep * 256)%nat).
    { apply for_emit_length. intros j.
      rewrite (for_emit_length _ 1); [lia|reflexivity]. }
    intros rr c m q Hrr Hc Hm Hq.
    assert (Hx : (m * px + q < 256)%nat) by nia.
    destruct rr as [|rr].
    + rewrite lookup_app_l by (rewrite Ho1; nia).
      unfold o1. cbn [Nat.mul Nat.add].
      rewrite (for_emit_lookup _ 256); [| |lia|lia].
      2:{ intros j. rewrite (for_emit_length _ 1); [lia|reflexivity]. }
      replace (m * px + q)%nat with ((m * px + q) * 1 + 0)%nat at 1 by lia.
      rewrite (for_emit_lookup _ 1); [|reflexivity|lia|lia].
      cbn [lookup list_lookup]. unfold rd.
      rewrite Z.add_0_l, Nat2Z.id, R3 by assumption.
      cbn [default]. do 2 f_equal; lia.
    + rewrite lookup_app_r by (rewrite Ho1; nia).
      rewrite Ho1.
      replace ((S rr * Z.to_nat row_rep + c) * 256 + (m * px + q)
               - Z.to_nat row_rep * 256)%nat
        with ((rr * Z.to_nat row_rep + c) * 256 + (m * px + q))%nat by nia.
      rewrite I3 by (assumption || lia). do 2 f_equal. nia.
Qed.

End ByteLoop.

Section VdgGraphics.
Import Vdg.

Variable RPI_BARE_METAL : bool.
Variable mem_read : Z -> Z.

Lemma row_store_nat pixel pr (bi : nat) :
  row_store pixel (pr, Z.of_nat bi) = (<[bi := pixel]> pr, Z.of_nat (S bi)).
Proof.
  unfold row_store. cbn [fst snd]. rewrite Nat2Z.id. f_equal. lia.
Qed.

(** *** The resolution graphics modes *)

(** The eight elements of a byte, two frame pixels each. *)
Lemma resl_elements_wide mode b fg :
  video_mode_eqb mode GRAPHICS_6R = false ->
  forall n element pr (bi : nat),
  element = Z.of_nat n - 1 -> (bi + n * 2 <= 256)%nat ->
  length pr = 256%nat ->
  let r := resl_elements n element mode b fg (pr, Z.of_nat bi) in
  snd r = Z.of_nat (bi + n * 2) /\ length (fst r) = 256%nat /\
  (forall j, (j < bi)%nat -> fst r !! j = pr !! j) /\
  (forall e s, (e < n)%nat -> (s < 2)%nat ->
     fst r !! (bi + e * 2 + s)%nat
     = Some (if Z.testbit b (element - Z.of_nat e) then fg else FB_BLACK)).
Proof.
  intros Hmode. induction n as [|n IH]; intros element pr bi He Hb Hl; cbv zeta.
  - cbn [resl_elements fst snd]. split; [f_equal; lia|].
    split; [exact Hl|]. split; [reflexivity|]. intros; lia.
  - cbn [resl_elements]. cbv zeta. rewrite Hmode, bits_set_1, Z.shiftr_spec by lia.
    rewrite Z.add_0_l. rewrite !row_store_nat.
    set (p := if Z.testbit b element then fg else FB_BLACK).
    destruct (IH (element - 1) (<[S bi := p]> (<[bi := p]> pr)) (S (S bi)))
      as (I1 & I2 & I3 & I4); [lia|lia|rewrite !length_insert; exact Hl|].
    cbv zeta in I1, I2, I3, I4.
    split; [rewrite I1; f_equal; lia|]. split; [exact I2|].
    split.
    + intros j Hj. rewrite I3 by lia.
      rewrite !list_lookup_insert_ne by lia. reflexivity.
    + intros e s Hlt Hs. destruct e as [|e].
      * rewrite I3 by lia. rewrite Z.sub_0_r. fold p.
        assert (Hc : s = 0%nat \/ s = 1%nat) by lia.
        destruct Hc as [-> | ->].
        -- rewrite list_lookup_insert_ne by lia.
           replace (bi + 0 * 2 + 0)%nat with bi by lia.
           apply list_lookup_insert_eq. lia.
        -- replace (bi + 0 * 2 + 1)%nat with (S bi) by lia.
           apply list_lookup_insert_eq. rewrite length_insert. lia.
      * replace (bi + S e * 2 + s)%nat with (S (S bi) + e * 2 + s)%nat by lia.
        rewrite I4 by lia.
        replace (element - Z.of_nat (S e)) with (element - 1 - Z.of_nat e) by lia.
        reflexivity.
Qed.

(** The eight elements of a byte in [GRAPHICS_6R], one frame pixel
    each. *)
Lemma resl_elements_narrow mode b fg :
  video_mode_eqb mode GRAPHICS_6R = true ->
  forall n element pr (bi : nat),
  element = Z.of_nat n - 1 -> (bi + n <= 256)%nat ->
  length pr = 256%nat ->
  let r := resl_elements n element mode b fg (pr, Z.of_nat bi) in
  snd r = Z.of_nat (bi + n) /\ length (fst r) = 256%nat /\
  (forall j, (j < bi)%nat -> fst r !! j = pr !! j) /\
  (forall e, (e < n)%nat ->
     fst r !! (bi + e)%nat
     = Some (if Z.testbit b (element - Z.of_nat e) then fg else FB_BLACK)).
Proof.
  intros Hmode. induction n as [|n IH]; intros element pr bi He Hb Hl; cbv zeta.
  - cbn [resl_elements fst snd]. split; [f_equal; lia|].
    split; [exact Hl|]. split; [reflexivity|]. intros; lia.
  - cbn [resl_elements]. cbv zeta. rewrite Hmode, bits_set_1, Z.shiftr_spec by lia.
    rewrite Z.add_0_l. rewrite !row_store_nat.
    set (p := if Z.testbit b element then fg else FB_BLACK).
    destruct (IH (element - 1) (<[bi := p]> pr) (S bi))
      as (I1 & I2 & I3 & I4); [lia|lia|rewrite !length_insert; exact Hl|].
    cbv zeta in I1, I2, I3, I4.
    split; [rewrite I1; f_equal; lia|]. split; [exact I2|].
    split.
    + intros j Hj. rewrite I3 by lia.
      rewrite !list_lookup_insert_ne by lia. reflexivity.
    + intros e Hlt. destruct e as [|e].
      * rewrite I3 by lia. rewrite Z.sub_0_r. fold p.
        replace (bi + 0)%nat with bi by lia.
        apply list_lookup_insert_eq. lia.
      * replace (bi + S e)%nat with (S bi + e)%nat by lia.
        rewrite I4 by lia.
        replace (element - Z.of_nat (S e)) with (element - 1 - Z.of_nat e) by lia.
        reflexivity.
Qed.

(** A frame of the resolution graphics renderer, pixel by pixel. The
    video memory is read as rows of [bytes_per_row] bytes from the
    base address; bit [7 - e] of byte [m] of row [r] is shown
    [pixel_rep] frame pixels wide and [row_rep] frame lines high, in
    the default colour of the colour set when it is set and in black
    when it is clear. The repetitions are those of the table
    [resolution], and together the pixels fill the 256 x 192 frame. *)
Theorem resolution_graphics_pixels mode pia base pr (r c m e s : nat) :
  resolution_graphics mode = true -> length pr = 256%nat ->
  (r < memory_rows 8 mode)%nat -> (c < row_rep mode)%nat ->
  (m < bytes_per_row 8 mode)%nat -> (e < 8)%nat -> (s < pixel_rep mode)%nat ->
  let line := (r * row_rep mode + c)%nat in
  let column := ((m * 8 + e) * pixel_rep mode + s)%nat in
  let byte :=
    u8 (mem_read (base + Z.of_nat (r * bytes_per_row 8 mode + m))) in
  snd (vdg_render_resl_graph RPI_BARE_METAL mem_read mode pia base pr)
    !! (line * 256 + column)%nat
  = Some (if Z.testbit byte (7 - Z.of_nat e)
          then default_color RPI_BARE_METAL pia else FB_BLACK)
  /\ (memory_rows 8 mode * row_rep mode = 192)%nat
  /\ (bytes_per_row 8 mode * 8 * pixel_rep mode = 256)%nat.
Proof.
  intros Hmode Hl Hr Hc Hm He Hs. cbv zeta.
  split; [|destruct mode; try discriminate Hmode; split; reflexivity].
  unfold vdg_render_resl_graph. cbv zeta.
  set (fg := default_color RPI_BARE_METAL pia).
  destruct (video_mode_eqb mode GRAPHICS_6R) eqn:E6.
  - assert (mode = GRAPHICS_6R) as ->
      by (destruct mode; try discriminate E6; reflexivity).
    change (memory_rows 8 GRAPHICS_6R) with 192%nat in Hr.
    change (row_rep GRAPHICS_6R) with 1%nat in *.
    change (bytes_per_row 8 GRAPHICS_6R) with 32%nat in *.
    change (pixel_rep GRAPHICS_6R) with 1%nat in *.
    change (Z.to_nat (resolution_at GRAPHICS_6R RES_MEM)) with (192 * 32)%nat.
    destruct (rows_loop
                (fun off st =>
                   resl_elements 8 7 GRAPHICS_6R (u8 (mem_read (off + base)))
                     fg st)
                8 32 (resolution_at GRAPHICS_6R RES_ROW_REP)
                (fun off q =>
                   if Z.testbit (u8 (mem_read (off + base))) (7 - Z.of_nat q)
                   then fg else FB_BLACK)
                ltac:(lia) ltac:(reflexivity)
                ltac:(intros off p bi Hb Hp;
                      destruct (resl_elements_narrow GRAPHICS_6R
                                  (u8 (mem_read (off + base))) fg E6
                                  8 7 p bi ltac:(lia) Hb Hp)
                        as (A1 & A2 & A3 & A4);
                      repeat split; assumption)
                192 0 pr Hl ltac:(lia))
      as (pr' & out & Hloop & _ & Hpix).
    rewrite Hloop. cbn [snd].
    change (Z.to_nat (resolution_at GRAPHICS_6R RES_ROW_REP)) with 1%nat in Hpix.
    replace ((r * 1 + c) * 256 + ((m * 8 + e) * 1 + s))%nat
      with ((r * 1 + c) * 256 + (m * 8 + e))%nat by lia.
    rewrite Hpix by lia. cbv beta.
    replace (0 + Z.of_nat (r * 32) + Z.of_nat m + base)
      with (base + Z.of_nat (r * 32 + m)) by lia.
    reflexivity.
  - assert (Hrep : pixel_rep mode = 2%nat /\ bytes_per_row 8 mode = 16%nat /\
                   (Z.to_nat (resolution_at mode RES_MEM)
                    = memory_rows 8 mode * 16)%nat /\
                   Z.to_nat (resolution_at mode RES_ROW_REP) = row_rep mode).
    { destruct mode; try discriminate Hmode; try discriminate E6;
        repeat split; reflexivity. }
    destruct Hrep as (Hp & Hb & Hmem & Hrr). rewrite Hp, Hb in *. rewrite Hmem.
    destruct (rows_loop
                (fun off st =>
                   resl_elements 8 7 mode (u8 (mem_read (off + base))) fg st)
                16 16 (resolution_at mode RES_ROW_REP)
                (fun off q =>
                   if Z.testbit (u8 (mem_read (off + base)))
                        (7 - Z.of_nat (q / 2))
                   then fg else FB_BLACK)
                ltac:(lia) ltac:(reflexivity)
                ltac:(intros off p bi Hbi Hlp;
                      destruct (resl_elements_wide mode
                                  (u8 (mem_read (off + base))) fg E6
                                  8 7 p bi ltac:(lia) ltac:(lia) Hlp)
                        as (A1 & A2 & A3 & A4);
                      split; [exact A1|]; split; [exact A2|];
                      split; [exact A3|];
                      intros q Hq;
                      rewrite (Nat.div_mod_eq q 2) at 1;
                      replace (bi + (2 * (q / 2) + q mod 2))%nat
                        with (bi + (q / 2) * 2 + q mod 2)%nat by lia;
                      apply A4;
                      [apply Nat.Div0.div_lt_upper_bound; lia
                      |apply Nat.mod_upper_bound; lia])
                (memory_rows 8 mode) 0 pr Hl ltac:(lia))
      as (pr' & out & Hloop & _ & Hpix).
    rewrite Hloop. cbn [snd]. rewrite Hrr in Hpix.
    replace ((r * row_rep mode + c) * 256 + ((m * 8 + e) * 2 + s))%nat
      with ((r * row_rep mode + c) * 256 + (m * 16 + (e * 2 + s)))%nat by lia.
    rewrite Hpix by lia. cbv beta.
    replace ((e * 2 + s) / 2)%nat with e.
    2:{ rewrite Nat.div_add_l by lia. rewrite (Nat.div_small s 2) by lia. lia. }
    replace (0 + Z.of_nat (r * 16) + Z.of_nat m + base)
      with (base + Z.of_nat (r * 16 + m)) by lia.
    reflexivity.
Qed.

(** *** The colour graphics modes *)

(** The four elements of a byte, two frame pixels each. *)
Lemma color_elements_pair mode b cs :
  video_mode_eqb mode GRAPHICS_1C = false ->
  forall n element pr (bi : nat),
  element = 2 * (Z.of_nat n - 1) -> (bi + n * 2 <= 256)%nat ->
  length pr = 256%nat ->
  let r := color_elements RPI_BARE_METAL n element mode b cs (pr, Z.of_nat bi) in
  snd r = Z.of_nat (bi + n * 2) /\ length (fst r) = 256%nat /\
  (forall j, (j < bi)%nat -> fst r !! j = pr !! j) /\
  (forall e s, (e < n)%nat -> (s < 2)%nat ->
     fst r !! (bi + e * 2 + s)%nat
     = Some (rd (colors RPI_BARE_METAL)
               (Z.land (Z.shiftr b (element - 2 * Z.of_nat e)) 0x03 + cs))).
Proof.
  intros Hmode. induction n as [|n IH]; intros element pr bi He Hb Hl; cbv zeta.
  - cbn [color_elements fst snd]. split; [f_equal; lia|].
    split; [exact Hl|]. split; [reflexivity|]. intros; lia.
  - cbn [color_elements]. cbv zeta. rewrite Hmode. rewrite !row_store_nat.
    set (p := colors_at RPI_BARE_METAL (Z.land (Z.shiftr b element) 3 + cs)).
    destruct (IH (element - 2) (<[S bi := p]> (<[bi := p]> pr)) (S (S bi)))
      as (I1 & I2 & I3 & I4); [lia|lia|rewrite !length_insert; exact Hl|].
    cbv zeta in I1, I2, I3, I4.
    split; [rewrite I1; f_equal; lia|]. split; [exact I2|].
    split.
    + intros j Hj. rewrite I3 by lia.
      rewrite !list_lookup_insert_ne by lia. reflexivity.
    + intros e s Hlt Hs. destruct e as [|e].
      * rewrite I3 by lia. rewrite Z.mul_0_r, Z.sub_0_r.
        change (rd (colors RPI_BARE_METAL) (Z.land (Z.shiftr b element) 3 + cs))
          with p.
        assert (Hc : s = 0%nat \/ s = 1%nat) by lia.
        destruct Hc as [-> | ->].
        -- rewrite list_lookup_insert_ne by lia.
           replace (bi + 0 * 2 + 0)%nat with bi by lia.
           apply list_lookup_insert_eq. lia.
        -- replace (bi + 0 * 2 + 1)%nat with (S bi) by lia.
           apply list_lookup_insert_eq. rewrite length_insert. lia.
      * replace (bi + S e * 2 + s)%nat with (S (S bi) + e * 2 + s)%nat by lia.
        rewrite I4 by lia.
        replace (element - 2 * Z.of_nat (S e))
          with (element - 2 - 2 * Z.of_nat e) by lia.
        reflexivity.
Qed.

(** The four elements of a byte in [GRAPHICS_1C], four frame pixels
    each. *)
Lemma color_elements_quad mode b cs :
  video_mode_eqb mode GRAPHICS_1C = true ->
  forall n element pr (bi : nat),
  element = 2 * (Z.of_nat n - 1) -> (bi + n * 4 <= 256)%nat ->
  length pr = 256%nat ->
  let r := color_elements RPI_BARE_METAL n element mode b cs (pr, Z.of_nat bi) in
  snd r = Z.of_nat (bi + n * 4) /\ length (fst r) = 256%nat /\
  (forall j, (j < bi)%nat -> fst r !! j = pr !! j) /\
  (forall e s, (e < n)%nat -> (s < 4)%nat ->
     fst r !! (bi + e * 4 + s)%nat
     = Some (rd (colors RPI_BARE_METAL)
               (Z.land (Z.shiftr b (element - 2 * Z.of_nat e)) 0x03 + cs))).
Proof.
  intros Hmode. induction n as [|n IH]; intros element pr bi He Hb Hl; cbv zeta.
  - cbn [color_elements fst snd]. split; [f_equal; lia|].
    split; [exact Hl|]. split; [reflexivity|]. intros; lia.
  - cbn [color_elements]. cbv zeta. rewrite Hmode. rewrite !row_store_nat.
    set (p := colors_at RPI_BARE_METAL (Z.land (Z.shiftr b element) 3 + cs)).
    destruct (IH (element - 2)
                (<[S (S (S bi)) := p]> (<[S (S bi) := p]>
                   (<[S bi := p]> (<[bi := p]> pr))))
                (S (S (S (S bi)))))
      as (I1 & I2 & I3 & I4); [lia|lia|rewrite !length_insert; exact Hl|].
    cbv zeta in I1, I2, I3, I4.
    split; [rewrite I1; f_equal; lia|]. split; [exact I2|].
    split.
    + intros j Hj. rewrite I3 by lia.
      rewrite !list_lookup_insert_ne by lia. reflexivity.
    + intros e s Hlt Hs. destruct e as [|e].
      * rewrite I3 by lia. rewrite Z.mul_0_r, Z.sub_0_r.
        change (rd (colors RPI_BARE_METAL) (Z.land (Z.shiftr b element) 3 + cs))
          with p.
        assert (Hc : s = 0%nat \/ s = 1%nat \/ s = 2%nat \/ s = 3%nat) by lia.
        destruct Hc as [-> |[-> |[-> | ->]]].
        -- rewrite !list_lookup_insert_ne by lia.
           replace (bi + 0 * 4 + 0)%nat with bi by lia.
           apply list_lookup_insert_eq. lia.
        -- rewrite !list_lookup_insert_ne by lia.
           replace (bi + 0 * 4 + 1)%nat with (S bi) by lia.
           apply list_lookup_insert_eq. rewrite !length_insert. lia.
        -- rewrite !list_lookup_insert_ne by lia.
           replace (bi + 0 * 4 + 2)%nat with (S (S bi)) by lia.
           apply list_lookup_insert_eq. rewrite !length_insert. lia.
        -- replace (bi + 0 * 4 + 3)%nat with (S (S (S bi))) by lia.
           apply list_lookup_insert_eq. rewrite !length_insert. lia.
      * replace (bi + S e * 4 + s)%nat
          with (S (S (S (S bi))) + e * 4 + s)%nat by lia.
        rewrite I4 by lia.
        replace (element - 2 * Z.of_nat (S e))
          with (element - 2 - 2 * Z.of_nat e) by lia.
        reflexivity.
Qed.

Lemma colour_entry_range b k pia :
  0 <= Z.land (Z.shiftr b k) 0x03 + 4 * Z.land pia 0x01 < 8.
Proof.
  assert (H1 : 0 <= Z.land (Z.shiftr b k) 3 < 4).
  { change (Z.land (Z.shiftr b k) 3) with (Z.land (Z.shiftr b k) (Z.ones 2)).
    rewrite Z.land_ones by lia. apply Z.mod_pos_bound. lia. }
  assert (H2 : 0 <= Z.land pia 1 < 2).
  { change (Z.land pia 1) with (Z.land pia (Z.ones 1)).
    rewrite Z.land_ones by lia. apply Z.mod_pos_bound. lia. }
  lia.
Qed.

(** A frame of the colour graphics renderer, pixel by pixel. The video
    memory is read as rows of [bytes_per_row] bytes from the base
    address; the two bits [7 - 2e, 6 - 2e] of byte [m] of row [r],
    plus four times the CSS bit of the PIA, number the entry of the
    colour table that is shown [pixel_rep] frame pixels wide and
    [row_rep] frame lines high. The entry number is always inside the
    eight-entry table; the repetitions are those of the table
    [resolution], and together the pixels fill the 256 x 192 frame. *)
Theorem color_graphics_pixels mode pia base pr (r c m e s : nat) :
  color_graphics mode = true -> length pr = 256%nat ->
  (r < memory_rows 4 mode)%nat -> (c < row_rep mode)%nat ->
  (m < bytes_per_row 4 mode)%nat -> (e < 4)%nat -> (s < pixel_rep mode)%nat ->
  let line := (r * row_rep mode + c)%nat in
  let column := ((m * 4 + e) * pixel_rep mode + s)%nat in
  let byte :=
    u8 (mem_read (base + Z.of_nat (r * bytes_per_row 4 mode + m))) in
  let entry :=
    Z.land (Z.shiftr byte (6 - 2 * Z.of_nat e)) 0x03 + 4 * Z.land pia 0x01 in
  snd (vdg_render_color_graph RPI_BARE_METAL mem_read mode pia base pr)
    !! (line * 256 + column)%nat
  = Some (rd (colors RPI_BARE_METAL) entry)
  /\ 0 <= entry < 8
  /\ (memory_rows 4 mode * row_rep mode = 192)%nat
  /\ (bytes_per_row 4 mode * 4 * pixel_rep mode = 256)%nat.
Proof.
  intros Hmode Hl Hr Hc Hm He Hs. cbv zeta.
  split; [|split; [apply colour_entry_range|];
           destruct mode; try discriminate Hmode; split; reflexivity].
  unfold vdg_render_color_graph. cbv zeta.
  change PIA_COLOR_SET with 1.
  set (cs := 4 * Z.land pia 1).
  destruct (video_mode_eqb mode GRAPHICS_1C) eqn:E1.
  - assert (mode = GRAPHICS_1C) as ->
      by (destruct mode; try discriminate E1; reflexivity).
    change (memory_rows 4 GRAPHICS_1C) with 64%nat in Hr.
    change (row_rep GRAPHICS_1C) with 3%nat in *.
    change (bytes_per_row 4 GRAPHICS_1C) with 16%nat in *.
    change (pixel_rep GRAPHICS_1C) with 4%nat in *.
    change (Z.to_nat (resolution_at GRAPHICS_1C RES_MEM)) with (64 * 16)%nat.
    destruct (rows_loop
                (fun off st =>
                   color_elements RPI_BARE_METAL 4 6 GRAPHICS_1C
                     (u8 (mem_read (off + base))) cs st)
                16 16 (resolution_at GRAPHICS_1C RES_ROW_REP)
                (fun off q =>
                   rd (colors RPI_BARE_METAL)
                     (Z.land (Z.shiftr (u8 (mem_read (off + base)))
                                (6 - 2 * Z.of_nat (q / 4))) 0x03 + cs))
                ltac:(lia) ltac:(reflexivity)
                ltac:(intros off p bi Hbi Hlp;
                      destruct (color_elements_quad GRAPHICS_1C
                                  (u8 (mem_read (off + base))) cs E1
                                  4 6 p bi ltac:(lia) ltac:(lia) Hlp)
                        as (A1 & A2 & A3 & A4);
                      split; [exact A1|]; split; [exact A2|];
                      split; [exact A3|];
                      intros q Hq;
                      rewrite (Nat.div_mod_eq q 4) at 1;
                      replace (bi + (4 * (q / 4) + q mod 4))%nat
                        with (bi + (q / 4) * 4 + q mod 4)%nat by lia;
                      apply A4;
                      [apply Nat.Div0.div_lt_upper_bound; lia
                      |apply Nat.mod_upper_bound; lia])
                64 0 pr Hl ltac:(lia))
      as (pr' & out & Hloop & _ & Hpix).
    rewrite Hloop. cbn [snd].
    change (Z.to_nat (resolution_at GRAPHICS_1C RES_ROW_REP)) with 3%nat in Hpix.
    replace ((r * 3 + c) * 256 + ((m * 4 + e) * 4 + s))%nat
      with ((r * 3 + c) * 256 + (m * 16 + (e * 4 + s)))%nat by lia.
    rewrite Hpix by lia. cbv beta.
    replace ((e * 4 + s) / 4)%nat with e.
    2:{ rewrite Nat.div_add_l by lia. rewrite (Nat.div_small s 4) by lia. lia. }
    replace (0 + Z.of_nat (r * 16) + Z.of_nat m + base)
      with (base + Z.of_nat (r * 16 + m)) by lia.
    reflexivity.
  - assert (Hrep : pixel_rep mode = 2%nat /\ bytes_per_row 4 mode = 32%nat /\
                   (Z.to_nat (resolution_at mode RES_MEM)
                    = memory_rows 4 mode * 32)%nat /\
                   Z.to_nat (resolution_at mode RES_ROW_REP) = row_rep mode).
    { destruct mode; try discriminate Hmode; try discriminate E1;
        repeat split; reflexivity. }
    destruct Hrep as (Hp & Hb & Hmem & Hrr). rewrite Hp, Hb in *. rewrite Hmem.
    destruct (rows_loop
                (fun off st =>
                   color_elements RPI_BARE_METAL 4 6 mode
                     (u8 (mem_read (off + base))) cs st)
                8 32 (resolution_at mode RES_ROW_REP)
                (fun off q =>
                   rd (colors RPI_BARE_METAL)
                     (Z.land (Z.shiftr (u8 (mem_read (off + base)))
                                (6 - 2 * Z.of_nat (q / 2))) 0x03 + cs))
                ltac:(lia) ltac:(reflexivity)
                ltac:(intros off p bi Hbi Hlp;
                      destruct (color_elements_pair mode
                                  (u8 (mem_read (off + base))) cs E1
                                  4 6 p bi ltac:(lia) ltac:(lia) Hlp)
                        as (A1 & A2 & A3 & A4);
                      split; [exact A1|]; split; [exact A2|];
                      split; [exact A3|];
                      intros q Hq;
                      rewrite (Nat.div_mod_eq q 2) at 1;
                      replace (bi + (2 * (q / 2) + q mod 2))%nat
                        with (bi + (q / 2) * 2 + q mod 2)%nat by lia;
                      apply A4;
                      [apply Nat.Div0.div_lt_upper_bound; lia
                      |apply Nat.mod_upper_bound; lia])
                (memory_rows 4 mode) 0 pr Hl ltac:(lia))
      as (pr' & out & Hloop & _ & Hpix).
    rewrite Hloop. cbn [snd]. rewrite Hrr in Hpix.
    replace ((r * row_rep mode + c) * 256 + ((m * 4 + e) * 2 + s))%nat
      with ((r * row_rep mode + c) * 256 + (m * 8 + (e * 2 + s)))%nat by lia.
    rewrite Hpix by lia. cbv beta.
    replace ((e * 2 + s) / 2)%nat with e.
    2:{ rewrite Nat.div_add_l by lia. rewrite (Nat.div_small s 2) by lia. lia. }
    replace (0 + Z.of_nat (r * 32) + Z.of_nat m + base)
      with (base + Z.of_nat (r * 32 + m)) by lia.
    reflexivity.
Qed.

End VdgGraphics.

(** ** What a frame depends on *)

Lemma for_emit_ext n : forall i (b1 b2 : Z -> list Z),
  (forall j, i <= j < i + Z.of_nat n -> b1 j = b2 j) ->
  for_emit n i b1 = for_emit n i b2.
Proof.
  induction n as [|n IH]; intros i b1 b2 H; [reflexivity|].
  cbn [for_emit]. rewrite (H i) by lia. f_equal.
  apply IH. intros j Hj. apply H. lia.
Qed.

Lemma loop_emit_ext {St : Type} n : forall i (b1 b2 : Z -> St -> St * list Z) s,
  (forall j s', i <= j < i + Z.of_nat n -> b1 j s' = b2 j s') ->
  loop_emit n i b1 s = loop_emit n i b2 s.
Proof.
  induction n as [|n IH]; intros i b1 b2 s H; [reflexivity|].
  cbn [loop_emit]. rewrite (H i) by lia. destruct (b2 i s) as [s1 o1].
  rewrite (IH (i + 1) b1 b2 s1); [reflexivity|].
  intros j s' Hj. apply H. lia.
Qed.

Section VdgWindow.
Import Vdg.

Variable RPI_BARE_METAL : bool.
Variable font_img5x7 : Z -> Z -> Z.
Variable semi_graph_4 : Z -> Z -> Z.
Variable semi_graph_6 : Z -> Z -> Z.

(** One rendering reads the video memory of the mode and nothing else:
    the [RES_MEM] bytes from the base address that the table
    [resolution] gives for the mode (512 for the text and the
    semigraphics 4 and 6 modes, up to 6144 for the others). Two buses
    that agree on that window give the same frame and the same
    [pixel_row], in every mode that is rendered. *)
Theorem render_reads_only_video_memory mode pia base pr
    (mem1 mem2 : Z -> Z) :
  renderable mode = true ->
  (forall a, base <= a < base + resolution_at mode RES_MEM ->
     mem1 a = mem2 a) ->
  render_mode RPI_BARE_METAL font_img5x7 semi_graph_4 semi_graph_6
    mem1 mode pia base pr
  = render_mode RPI_BARE_METAL font_img5x7 semi_graph_4 semi_graph_6
      mem2 mode pia base pr.
Proof.
  intros Hr Hmem.
  assert (Halpha : resolution_at mode RES_MEM = 512 ->
            vdg_render_alpha_semi4 RPI_BARE_METAL font_img5x7 semi_graph_4
              mem1 pia base
            = vdg_render_alpha_semi4 RPI_BARE_METAL font_img5x7 semi_graph_4
                mem2 pia base).
  { intros Hsize. rewrite Hsize in Hmem. unfold vdg_render_alpha_semi4.
    cbv zeta.
    apply for_emit_ext. intros row Hrow.
    apply for_emit_ext. intros font_row Hfr.
    apply for_emit_ext. intros col Hcol.
    unfold SCREEN_HEIGHT_CHAR, SCREEN_WIDTH_CHAR in *.
    rewrite Hmem by lia. reflexivity. }
  assert (Hsemi6 : resolution_at mode RES_MEM = 512 ->
            vdg_render_semi6 RPI_BARE_METAL semi_graph_6 mem1 pia base
            = vdg_render_semi6 RPI_BARE_METAL semi_graph_6 mem2 pia base).
  { intros Hsize. rewrite Hsize in Hmem. unfold vdg_render_semi6.
    cbv zeta.
    apply for_emit_ext. intros row Hrow.
    apply for_emit_ext. intros font_row Hfr.
    apply for_emit_ext. intros col Hcol.
    unfold SCREEN_HEIGHT_CHAR, SCREEN_WIDTH_CHAR in *.
    rewrite Hmem by lia. reflexivity. }
  assert (Hext :
            mode = SEMI_GRAPHICS_8 \/ mode = SEMI_GRAPHICS_12
            \/ mode = SEMI_GRAPHICS_24 ->
            vdg_render_semi_ext RPI_BARE_METAL font_img5x7 semi_graph_4
              mem1 mode pia base
            = vdg_render_semi_ext RPI_BARE_METAL font_img5x7 semi_graph_4
                mem2 mode pia base).
  { intros Hcase. unfold vdg_render_semi_ext. cbv zeta.
    destruct Hcase as [->|[->| ->]]; cbv iota beta;
      [change (resolution_at SEMI_GRAPHICS_8 RES_MEM) with 2048 in Hmem
      |change (resolution_at SEMI_GRAPHICS_12 RES_MEM) with 3072 in Hmem
      |change (resolution_at SEMI_GRAPHICS_24 RES_MEM) with 6144 in Hmem];
      apply (f_equal snd);
      (apply loop_emit_ext; intros row fr1 Hrow;
       apply loop_emit_ext; intros seg_row fr2 Hsr;
       apply loop_emit_ext; intros scan_line fr3 Hsl;
       apply f_equal2; [reflexivity|];
       apply for_emit_ext; intros col Hcol;
       unfold SCREEN_HEIGHT_CHAR, SCREEN_WIDTH_CHAR, SEMIG8_SEG_HEIGHT,
         SEMIG12_SEG_HEIGHT, SEMIG24_SEG_HEIGHT in *;
       rewrite Hmem by lia; reflexivity). }
  assert (Hresl :
            vdg_render_resl_graph RPI_BARE_METAL mem1 mode pia base pr
            = vdg_render_resl_graph RPI_BARE_METAL mem2 mode pia base pr).
  { unfold vdg_render_resl_graph. cbv zeta.
    rewrite (loop_emit_ext _ _ _
               (fun vdg_mem_offset st =>
                  flush_row (resolution_at mode RES_ROW_REP)
                    (resl_elements 8 7 mode
                       (u8 (mem2 (vdg_mem_offset + base)))
                       (default_color RPI_BARE_METAL pia) st))).
    - reflexivity.
    - intros j s' Hj. cbv beta. rewrite Hmem by lia. reflexivity. }
  assert (Hcolor :
            vdg_render_color_graph RPI_BARE_METAL mem1 mode pia base pr
            = vdg_render_color_graph RPI_BARE_METAL mem2 mode pia base pr).
  { unfold vdg_render_color_graph. cbv zeta.
    rewrite (loop_emit_ext _ _ _
               (fun vdg_mem_offset st =>
                  flush_row (resolution_at mode RES_ROW_REP)
                    (color_elements RPI_BARE_METAL 4 6 mode
                       (u8 (mem2 (vdg_mem_offset + base)))
                       (4 * Z.land pia PIA_COLOR_SET) st))).
    - reflexivity.
    - intros j s' Hj. cbv beta. rewrite Hmem by lia. reflexivity. }
  destruct mode; try discriminate Hr; cbn [render_mode].
  - rewrite Halpha by reflexivity. reflexivity.
  - rewrite Hsemi6 by reflexivity. reflexivity.
  - rewrite Halpha by reflexivity. reflexivity.
  - rewrite Hsemi6 by reflexivity. reflexivity.
  - rewrite Hext by auto. reflexivity.
  - rewrite Hext by auto. reflexivity.
  - rewrite Hext by auto. reflexivity.
  - rewrite Hcolor. reflexivity.
  - rewrite Hresl. reflexivity.
  - rewrite Hcolor. reflexivity.
  - rewrite Hresl. reflexivity.
  - rewrite Hcolor. reflexivity.
  - rewrite Hresl. reflexivity.
  - rewrite Hcolor. reflexivity.
  - rewrite Hresl. reflexivity.
Qed.

End VdgWindow.

(** ** The renderers on fixtures *)

Section VdgFixtures.
Import Vdg.

(** A semigraphics-4 cell of colour 4 with every element lit. *)
Lemma semi4_pixel_colours_witness :
  let c := u8 ((fun _ : Z => 0xcf) (Z.of_nat 3 + (Z.of_nat 1 * 32 + 0x400))) in
  let entry := Z.shiftr (Z.land c 0x70) 4 in
  let bit_pattern := (fun _ _ : Z => 0xff) (Z.land c 0x0f) (Z.of_nat 2) in
  vdg_render_alpha_semi4 false (fun _ _ => 0) (fun _ _ => 0xff)
    (fun _ => 0xcf) 0 0x400
    !! (((1 * 12 + 2) * 32 + 3) * 8 + 4)%nat
  = Some (if Z.testbit bit_pattern (7 - Z.of_nat 4)
          then rd (colors false) entry else FB_BLACK)
  /\ 0 <= entry < 8.
Proof.
  apply (semi4_pixel_colours false (fun _ _ => 0) (fun _ _ => 0xff)
           (fun _ => 0xcf) 0 0x400 1 2 3 4); [lia|lia|lia|lia|reflexivity].
Defined.

(** A semigraphics-6 cell of colour 2 with CSS = 1. *)
Lemma semi6_pixel_colours_witness :
  let c := (fun _ : Z => 0xbf) (Z.of_nat 3 + (Z.of_nat 1 * 32 + 0x400)) in
  let entry := Z.shiftr (Z.land c 0xc0) 6 + 4 * Z.land 1 0x01 in
  let bit_pattern := (fun _ _ : Z => 0xff) (Z.land (u8 c) 0x3f) (Z.of_nat 2) in
  vdg_render_semi6 false (fun _ _ => 0xff) (fun _ => 0xbf) 1 0x400
    !! (((1 * 12 + 2) * 32 + 3) * 8 + 4)%nat
  = Some (if Z.testbit bit_pattern (7 - Z.of_nat 4)
          then rd (colors false) entry else FB_BLACK)
  /\ 0 <= entry < 8.
Proof.
  apply (semi6_pixel_colours false (fun _ _ => 0xff) (fun _ => 0xbf)
           1 0x400 1 2 3 4); lia.
Defined.

(** PMODE 4 on a memory of alternating bits: the leftmost pixel of
    byte 2 of row 1. *)
Lemma resolution_graphics_pixels_witness :
  let line := (1 * row_rep GRAPHICS_6R + 0)%nat in
  let column := ((2 * 8 + 0) * pixel_rep GRAPHICS_6R + 0)%nat in
  let byte :=
    u8 ((fun _ : Z => 0xaa)
          (0x600 + Z.of_nat (1 * bytes_per_row 8 GRAPHICS_6R + 2))) in
  snd (vdg_render_resl_graph false (fun _ => 0xaa) GRAPHICS_6R 0 0x600
         (replicate 256 0))
    !! (line * 256 + column)%nat
  = Some (if Z.testbit byte (7 - Z.of_nat 0)
          then default_color false 0 else FB_BLACK)
  /\ (memory_rows 8 GRAPHICS_6R * row_rep GRAPHICS_6R = 192)%nat
  /\ (bytes_per_row 8 GRAPHICS_6R * 8 * pixel_rep GRAPHICS_6R = 256)%nat.
Proof.
  apply (resolution_graphics_pixels false (fun _ => 0xaa) GRAPHICS_6R 0 0x600
           (replicate 256 0) 1 0 2 0 0);
    first [reflexivity | vm_compute; lia].
Defined.

(** PMODE 3 on a memory of bytes 0xE4: the four elements of a byte
    number the four entries of colour set 0. *)
Lemma color_graphics_pixels_witness :
  let line := (1 * row_rep GRAPHICS_6C + 0)%nat in
  let column := ((2 * 4 + 3) * pixel_rep GRAPHICS_6C + 1)%nat in
  let byte :=
    u8 ((fun _ : Z => 0xe4)
          (0x600 + Z.of_nat (1 * bytes_per_row 4 GRAPHICS_6C + 2))) in
  let entry :=
    Z.land (Z.shiftr byte (6 - 2 * Z.of_nat 3)) 0x03 + 4 * Z.land 0 0x01 in
  snd (vdg_render_color_graph false (fun _ => 0xe4) GRAPHICS_6C 0 0x600
         (replicate 256 0))
    !! (line * 256 + column)%nat
  = Some (rd (colors false) entry)
  /\ 0 <= entry < 8
  /\ (memory_rows 4 GRAPHICS_6C * row_rep GRAPHICS_6C = 192)%nat
  /\ (bytes_per_row 4 GRAPHICS_6C * 4 * pixel_rep GRAPHICS_6C = 256)%nat.
Proof.
  apply (color_graphics_pixels false (fun _ => 0xe4) GRAPHICS_6C 0 0x600
           (replicate 256 0) 1 0 2 3 1);
    first [reflexivity | vm_compute; lia].
Defined.

(** The text screen at 0x400 on two buses that differ from 0x600 on. *)
Lemma render_reads_only_video_memory_witness :
  render_mode false (fun _ _ => 0xff) (fun _ _ => 0) (fun _ _ => 0)
    (fun _ => 0x41) ALPHA_INTERNAL 0 0x400 (replicate 256 0)
  = render_mode false (fun _ _ => 0xff) (fun _ _ => 0) (fun _ _ => 0)
      (fun a => if a <? 0x600 then 0x41 else 0) ALPHA_INTERNAL 0 0x400
      (replicate 256 0).
Proof.
  apply (render_reads_only_video_memory false (fun _ _ => 0xff)
           (fun _ _ => 0) (fun _ _ => 0) ALPHA_INTERNAL 0 0x400
           (replicate 256 0) (fun _ => 0x41)
           (fun a => if a <? 0x600 then 0x41 else 0)).
  - reflexivity.
  - intros a Ha. change (resolution_at ALPHA_INTERNAL RES_MEM) with 512 in Ha.
    cbv beta. destruct (Z.ltb_spec a 0x600); [reflexivity|lia].
Defined.

End VdgFixtures.

(** * The loader's directory listing *)

Section LoaderProofs.
Import Loader.

Lemma key_up_in_listing n : cursor_in_listing n -> cursor_in_listing (key_up n).
Proof.
  unfold cursor_in_listing, key_up, TERMINAL_LIST_LENGTH, TERMINAL_STATUS_ROW.
  intros (H1 & H2 & H3 & H4). cbv zeta.
  destruct (Z.ltb_spec (highlighted_line n - 1) 0);
    [destruct (Z.gtb_spec (list_start n) 0)|];
    cbn [list_start highlighted_line list_length]; lia.
Qed.

Lemma key_down_in_listing n :
  cursor_in_listing n -> cursor_in_listing (key_down n).
Proof.
  unfold cursor_in_listing, key_down, TERMINAL_LIST_LENGTH, TERMINAL_STATUS_ROW.
  intros (H1 & H2 & H3 & H4). cbv zeta.
  destruct (Z.eqb_spec (highlighted_line n + 1) (list_length n));
    [|destruct (Z.gtb_spec (highlighted_line n + 1) (15 - 1));
      [destruct (Z.ltb_spec (list_length n - (list_start n + 1)) (15 - 1 + 1))|]];
    cbn [list_start highlighted_line list_length]; lia.
Qed.

Lemma loader_turn_in_listing k n n' redrawn :
  match k with KeyEnterDir p => 1 <= p | _ => True end ->
  cursor_in_listing n -> loader_turn k n = Some (n', redrawn) ->
  cursor_in_listing n' /\ list_start n' = prev_list_start n' \/
  cursor_in_listing n' /\ redrawn = false.
Proof.
  intros Hk Hn H. unfold loader_turn in H. cbv zeta in H.
  assert (Hm : forall m, cursor_in_listing m ->
            (if negb (list_start m =? prev_list_start m)
             then Some (mk_nav (list_start m) (list_start m)
                          (highlighted_line m) (list_length m), true)
             else Some (m, false)) = Some (n', redrawn) ->
            cursor_in_listing n' /\ list_start n' = prev_list_start n' \/
            cursor_in_listing n' /\ redrawn = false).
  { intros m Hc E. destruct (negb _); injection E as <- <-.
    - left. split; [exact Hc|reflexivity].
    - right. split; [exact Hc|reflexivity]. }
  destruct k; cbn [mbind option_bind] in H.
  - apply (Hm n Hn H).
  - apply (Hm _ (key_up_in_listing n Hn) H).
  - apply (Hm _ (key_down_in_listing n Hn) H).
  - destruct (Z.eqb_spec parsed (-1)); [discriminate|].
    cbn [mbind option_bind] in H. apply (Hm (mk_nav 0 0 0 parsed)); [|exact H].
    unfold cursor_in_listing, TERMINAL_LIST_LENGTH, TERMINAL_STATUS_ROW.
    cbn [list_start highlighted_line list_length]. lia.
Qed.

(** In a listing that is not empty the cursor of the loader never
    leaves the listing. Whatever the sequence of UP, DOWN and other
    keys and of directories entered with ENTER, as long as every
    directory listed has at least one entry: the first entry shown is
    an entry of the listing, the highlighted line is one of the 15
    lines of the list, the entry under it, the one ENTER reads as
    [directory_list[list_start + highlighted_line]], is one of the
    entries parsed, and the list never scrolls past its end. *)
Theorem loader_cursor_stays_in_listing parsed ks n :
  1 <= parsed -> Forall (fun p => 1 <= p) (listing_sizes ks) ->
  loader_turns ks (nav_init parsed) = Some n ->
  0 <= list_start n /\
  0 <= highlighted_line n <= 14 /\
  0 <= list_start n + highlighted_line n < list_length n /\
  (list_start n = 0 \/ list_start n + 15 <= list_length n).
Proof.
  intros Hp Hks H.
  assert (H0 : cursor_in_listing (nav_init parsed)).
  { unfold cursor_in_listing, nav_init, TERMINAL_LIST_LENGTH,
      TERMINAL_STATUS_ROW.
    cbn [list_start highlighted_line list_length]. lia. }
  assert (Hn : cursor_in_listing n).
  { revert H0 H Hks. generalize (nav_init parsed).
    induction ks as [|k ks IH]; intros m Hm H Hks; cbn [loader_turns] in H.
    - injection H as <-. exact Hm.
    - destruct (loader_turn k m) as [[m' r]|] eqn:E; [|discriminate].
      cbn [mbind option_bind] in H.
      assert (Hk : match k with KeyEnterDir p => 1 <= p | _ => True end).
      { destruct k; try exact I. cbn [listing_sizes omap] in Hks.
        apply Forall_cons in Hks. apply Hks. }
      assert (Hks' : Forall (fun p => 1 <= p) (listing_sizes ks)).
      { destruct k; cbn [listing_sizes omap] in Hks; try exact Hks.
        apply Forall_cons in Hks. apply Hks. }
      destruct (loader_turn_in_listing k m m' r Hk Hm E) as [(Hc & _)|(Hc & _)];
        apply (IH m' Hc H Hks'). }
  unfold cursor_in_listing, TERMINAL_LIST_LENGTH, TERMINAL_STATUS_ROW in Hn.
  lia.
Qed.

(** *** text_write *)

Lemma text_write_from_spec text : forall count,
  0 <= count ->
  let w := text_write_from count text in
  Forall (fun aw => 0x400 <= fst aw < 0x600 /\ Z.testbit (snd aw) 6 = false) w /\
  Z.of_nat (length w) <= Z.max 0 (512 - count) /\
  (Z.of_nat (length w) <= Z.of_nat (length text)) /\
  forall i, (i < length w)%nat ->
    fst <$> w !! i = Some (0x400 + count + Z.of_nat i).
Proof.
  induction text as [|c text IH]; intros count Hc; cbv zeta.
  - cbn [text_write_from length]. split; [constructor|].
    split; [lia|]. split; [lia|]. intros i Hi. cbn in Hi. lia.
  - cbn [text_write_from].
    destruct (negb (c =? 0)); cbn [andb];
      [destruct (Z.ltb_spec count 512)|].
    + destruct (IH (count + 1)) as (I1 & I2 & I3 & I4); [lia|].
      cbv zeta in I1, I2, I3, I4. cbn [length].
      split.
      { constructor; [|exact I1]. cbn [fst snd]. split; [lia|].
        rewrite Z.land_spec. change (Z.testbit 0xbf 6) with false.
        apply andb_false_r. }
      split; [lia|]. split; [lia|].
      intros i Hi. destruct i as [|i].
      * cbn. f_equal. lia.
      * cbn [lookup list_lookup]. rewrite I4 by lia. f_equal. lia.
    + cbn [length]. split; [constructor|]. split; [lia|]. split; [lia|].
      intros i Hi. cbn in Hi. lia.
    + cbn [length]. split; [constructor|]. split; [lia|]. split; [lia|].
      intros i Hi. cbn in Hi. lia.
Qed.

(** [text_write()] started on a cell of the text screen stays on the
    text screen: every [mem_write()] it makes goes to an address of
    the 512 bytes from 0x400, the addresses following one another
    from the cell given, and it stops at the end of the screen however
    long the text is. Each byte written has bit 6 clear, so the text
    never comes out in inverse video. *)
Theorem text_write_stays_on_text_screen row col text :
  0 <= row * 32 + col ->
  let w := text_write row col text in
  Forall (fun aw => 0x400 <= fst aw < 0x600 /\ Z.testbit (snd aw) 6 = false) w /\
  Z.of_nat (length w) <= Z.max 0 (512 - (row * 32 + col)) /\
  forall i, (i < length w)%nat ->
    fst <$> w !! i = Some (0x400 + (row * 32 + col) + Z.of_nat i).
Proof.
  intros H. cbv zeta. unfold text_write.
  destruct (text_write_from_spec text (row * 32 + col) H) as (A & B & _ & D).
  split; [exact A|]. split; [exact B|exact D].
Qed.

End LoaderProofs.

Section LoaderFixtures.
Import Loader.

(** Twenty entries: sixteen times DOWN, then ENTER on a directory of
    three entries, then UP. *)
Lemma loader_cursor_stays_in_listing_witness :
  exists n,
    loader_turns (replicate 16 KeyDown ++ [KeyEnterDir 3; KeyUp]) (nav_init 20)
    = Some n /\
    0 <= list_start n /\
    0 <= highlighted_line n <= 14 /\
    0 <= list_start n + highlighted_line n < list_length n /\
    (list_start n = 0 \/ list_start n + 15 <= list_length n).
Proof.
  eexists. split; [vm_compute; reflexivity|].
  apply (loader_cursor_stays_in_listing 20
           (replicate 16 KeyDown ++ [KeyEnterDir 3; KeyUp])).
  - lia.
  - vm_compute. repeat constructor; discriminate.
  - vm_compute. reflexivity.
Defined.

(** The status line, written from the start of row 15. *)
Lemma text_write_stays_on_text_screen_witness :
  let w := text_write 15 0 [0x50; 0x52; 0x45; 0x53; 0x53; 0x20; 0x71] in
  Forall (fun aw => 0x400 <= fst aw < 0x600 /\ Z.testbit (snd aw) 6 = false) w /\
  Z.of_nat (length w) <= Z.max 0 (512 - (15 * 32 + 0)) /\
  forall i, (i < length w)%nat ->
    fst <$> w !! i = Some (0x400 + (15 * 32 + 0) + Z.of_nat i).
Proof.
  apply (text_write_stays_on_text_screen 15 0
           [0x50; 0x52; 0x45; 0x53; 0x53; 0x20; 0x71]).
  lia.
Defined.

End LoaderFixtures.

Section LoaderEmptyListing.
Import Loader.

(** Where [j] presses of DOWN leave the cursor in an empty listing. *)
Let pressed (j : Z) (n : nav_t) : Prop :=
  list_length n = 0 /\ highlighted_line n = Z.min j 14 /\
  list_start n = (if j <=? 14 then 0 else -15).

Lemma key_down_empty j n :
  0 <= j -> pressed j n ->
  exists n' r, loader_turn KeyDown n = Some (n', r) /\ pressed (j + 1) n'.
Proof.
  unfold pressed. intros Hj (Hl & Hh & Hs).
  assert (Hd : list_length (key_down n) = 0 /\
               highlighted_line (key_down n) = Z.min (j + 1) 14 /\
               list_start (key_down n) = (if j + 1 <=? 14 then 0 else -15)).
  { unfold key_down, TERMINAL_LIST_LENGTH, TERMINAL_STATUS_ROW. cbv zeta.
    rewrite Hl, Hh, Hs.
    destruct (Z.eqb_spec (Z.min j 14 + 1) 0); [lia|].
    destruct (Z.gtb_spec (Z.min j 14 + 1) (15 - 1)).
    - destruct (Z.leb_spec j 14), (Z.leb_spec (j + 1) 14);
        cbn [list_start highlighted_line list_length]; try lia;
        repeat split; try lia; vm_compute; reflexivity.
    - destruct (Z.leb_spec j 14), (Z.leb_spec (j + 1) 14);
        cbn [list_start highlighted_line list_length]; lia. }
  unfold loader_turn. cbv zeta. cbn [mbind option_bind].
  destruct (negb _); eexists _, _; (split; [reflexivity|]);
    cbn [list_start highlighted_line list_length]; exact Hd.
Qed.

Lemma keys_down_empty k : forall j n,
  0 <= j -> pressed j n ->
  exists n', loader_turns (replicate k KeyDown) n = Some n' /\
             pressed (j + Z.of_nat k) n'.
Proof.
  induction k as [|k IH]; intros j n Hj Hn.
  - exists n. split; [reflexivity|]. replace (j + Z.of_nat 0) with j by lia.
    exact Hn.
  - destruct (key_down_empty j n Hj Hn) as (n1 & r & E & H1).
    destruct (IH (j + 1) n1) as (n' & E' & H'); [lia|exact H1|].
    exists n'. split.
    + cbn [replicate loader_turns]. rewrite E. cbn [mbind option_bind].
      exact E'.
    + replace (j + Z.of_nat (S k)) with (j + 1 + Z.of_nat k) by lia. exact H'.
Qed.

(** In an empty listing DOWN takes the cursor out of the listing: after
    [k] presses the highlighted line is line [k], up to line 14, with
    no entry under it, and from the fifteenth press on the first entry
    shown is entry -15, so that ENTER then reads
    [directory_list[-1]]. *)
Theorem loader_empty_listing_cursor_leaves_listing (k : nat) :
  exists n,
    loader_turns (replicate k KeyDown) (nav_init 0) = Some n /\
    list_length n = 0 /\
    highlighted_line n = Z.min (Z.of_nat k) 14 /\
    list_start n = (if Z.of_nat k <=? 14 then 0 else -15).
Proof.
  destruct (keys_down_empty k 0 (nav_init 0)) as (n & E & H); [lia| |].
  - unfold pressed, nav_init. cbn [list_start highlighted_line list_length].
    repeat split; reflexivity.
  - exists n. split; [exact E|]. exact H.
Qed.

End LoaderEmptyListing.

Section LoaderListing.
Import Loader.

(** The cells of row [row] of the text screen. *)
Let in_row (row : Z) (aw : Z * Z) : Prop :=
  0x400 + row * 32 <= fst aw < 0x400 + row * 32 + 32 /\
  Z.testbit (snd aw) 6 = false.

Lemma text_write_in_row row col text :
  0 <= row -> 0 <= col -> col + Z.of_nat (length text) <= 32 ->
  Forall (in_row row) (text_write row col text).
Proof.
  intros Hr Hc Hl.
  destruct (text_write_from_spec text (row * 32 + col) ltac:(lia))
    as (A & _ & B & D).
  cbv zeta in A, B, D. unfold text_write. apply Forall_lookup_2.
  intros i aw Hi.
  assert (Hlt : (i < length (text_write_from (row * 32 + col) text))%nat)
    by (apply lookup_lt_is_Some; eexists; exact Hi).
  specialize (D i Hlt). rewrite Hi in D. cbn in D. injection D as D.
  rewrite Forall_lookup in A. destruct (A i aw Hi) as [_ Hb].
  split; [lia|exact Hb].
Qed.

Lemma text_dir_row_in_row list_start list_length directory_list row :
  Z.of_nat (length directory_list) >= list_length ->
  0 <= list_start -> 0 <= row ->
  exists w, text_dir_row list_start list_length directory_list row = Some w /\
            Forall (in_row row) w.
Proof.
  intros Hlen Hs Hr. unfold text_dir_row.
  destruct (Z.ltb_spec (row + list_start) list_length);
    [|exists []; split; [reflexivity|constructor]].
  destruct (Z.ltb_spec (row + list_start) 0); [lia|].
  destruct (directory_list !! Z.to_nat (row + list_start)) as [e|] eqn:E.
  - cbn [mbind option_bind]. eexists. split; [reflexivity|].
    apply Forall_app. split.
    + destruct (negb _); [|constructor].
      apply text_write_in_row; cbn [length]; lia.
    + apply text_write_in_row; [lia|lia|].
      rewrite length_take. unfold TERMINAL_LINE_LENGTH. lia.
  - apply lookup_ge_None in E. lia.
Qed.

Lemma text_dir_rows_in_rows list_start list_length directory_list n :
  forall row,
  Z.of_nat (length directory_list) >= list_length ->
  0 <= list_start -> 0 <= row ->
  exists w,
    text_dir_rows n row list_start list_length directory_list = Some w /\
    Forall (fun aw => 0x400 + row * 32 <= fst aw
                      < 0x400 + (row + Z.of_nat n) * 32 /\
                      Z.testbit (snd aw) 6 = false) w.
Proof.
  induction n as [|n IH]; intros row Hlen Hs Hr.
  - exists []. split; [reflexivity|constructor].
  - destruct (text_dir_row_in_row list_start list_length directory_list row
                Hlen Hs Hr) as (w & E & Hw).
    destruct (IH (row + 1) Hlen Hs ltac:(lia)) as (ws & Es & Hws).
    exists (w ++ ws). cbn [text_dir_rows]. rewrite E. cbn [mbind option_bind].
    rewrite Es. cbn [mbind option_bind]. split; [reflexivity|].
    apply Forall_app. split.
    + eapply Forall_impl; [exact Hw|]. intros aw [Ha Hb]. split; [lia|exact Hb].
    + eapply Forall_impl; [exact Hws|]. intros aw [Ha Hb].
      split; [lia|exact Hb].
Qed.

Lemma text_dir_rows_none list_start list_length directory_list n row :
  text_dir_row list_start list_length directory_list row = None ->
  text_dir_rows (S n) row list_start list_length directory_list = None.
Proof. intros E. cbn [text_dir_rows]. rewrite E. reflexivity. Qed.

(** The listing on the screen. With a first entry that is not
    negative, [text_dir_output()] reads [directory_list] only at
    entries below [list_length], and writes only to the rows 0 to 14
    of the text screen, with bit 6 clear: the status row is never
    overwritten by a name, however long. With a negative first entry
    below [list_length], as the empty listing gives after DOWN, it
    reads before the start of [directory_list]. *)
Theorem text_dir_output_stays_in_list_rows list_start list_length
    directory_list :
  list_length <= Z.of_nat (length directory_list) ->
  (0 <= list_start ->
   exists w,
     text_dir_output list_start list_length directory_list = Some w /\
     Forall (fun aw => 0x400 <= fst aw < 0x400 + 15 * 32 /\
                       Z.testbit (snd aw) 6 = false) w) /\
  (list_start < 0 -> list_start < list_length ->
   text_dir_output list_start list_length directory_list = None).
Proof.
  intros Hlen. split.
  - intros Hs.
    destruct (text_dir_rows_in_rows list_start list_length directory_list
                15 0 ltac:(lia) Hs ltac:(lia)) as (w & E & Hw).
    exists w. split; [exact E|].
    eapply Forall_impl; [exact Hw|]. intros aw [Ha Hb].
    change (Z.of_nat 15) with 15 in Ha. split; [lia|exact Hb].
  - intros Hneg Hlt. unfold text_dir_output.
    change (Z.to_nat (TERMINAL_LIST_LENGTH + 1)) with 15%nat.
    apply (text_dir_rows_none _ _ _ 14). unfold text_dir_row.
    destruct (Z.ltb_spec (0 + list_start) list_length); [|lia].
    destruct (Z.ltb_spec (0 + list_start) 0); [|lia].
    reflexivity.
Qed.

End LoaderListing.

Section LoaderListingFixtures.
Import Loader.

(** A directory and a file with a name of forty letters, listed from
    the first entry. *)
Lemma text_dir_output_stays_in_list_rows_witness :
  exists w,
    text_dir_output 0 2
      [Fat32.mk_dir_entry 1 [0x44; 0x49; 0x52] 9 0 0 0;
       Fat32.mk_dir_entry 0 (replicate 40 0x61) 12 100 1 0] = Some w /\
    length w = 35%nat /\
    Forall (fun aw => 0x400 <= fst aw < 0x400 + 15 * 32 /\
                      Z.testbit (snd aw) 6 = false) w.
Proof.
  destruct (text_dir_output_stays_in_list_rows 0 2
              [Fat32.mk_dir_entry 1 [0x44; 0x49; 0x52] 9 0 0 0;
               Fat32.mk_dir_entry 0 (replicate 40 0x61) 12 100 1 0])
    as [H _].
  - cbn [length]. lia.
  - destruct (H ltac:(lia)) as (w & E & Hw). exists w.
    split; [exact E|]. split; [|exact Hw].
    vm_compute in E. injection E as <-. reflexivity.
Defined.

End LoaderListingFixtures.

(** * Seeking in a file of the FAT32 volume *)

Section FatSeek.
Import Fat32.

Variable fat32_initialized : bool.
Variable fat32_parameters : fat_param_t.
Variable sd_read_block : Z -> option (list Z).

Let next := fat32_get_next_cluster_num fat32_initialized fat32_parameters
              sd_read_block.
Let chain := cluster_chain fat32_initialized fat32_parameters sd_read_block.
Let walk := seek_walk fat32_initialized fat32_parameters sd_read_block.
Let spc := sectors_per_cluster fat32_parameters.

(** The fields the loop of [fat32_fseek()] leaves alone. *)
Let same_but_cluster (f f' : file_param_t) : Prop :=
  file_is_open f' = file_is_open f /\
  file_start_cluster f' = file_start_cluster f /\
  file_size f' = file_size f /\
  current_position f' = current_position f /\
  current_base_lba f' = current_base_lba f /\
  current_lba_index f' = current_lba_index f /\
  current_byte_index f' = current_byte_index f /\
  eof_flag f' = eof_flag f /\
  sector_cached f' = sector_cached f /\
  dir_record_index f' = dir_record_index f /\
  dir_record_lba f' = dir_record_lba f.

Lemma same_but_cluster_refl f : same_but_cluster f f.
Proof. repeat split. Qed.

Lemma same_but_cluster_set c f f' :
  same_but_cluster (set_current_cluster c f) f' -> same_but_cluster f f'.
Proof. exact (fun H => H). Qed.

Lemma chain_succ j c : chain (S j) c = chain j (next c).
Proof. unfold chain, cluster_chain. apply Nat.iter_succ_r. Qed.

Lemma chain_next j c : chain (S j) c = next (chain j c).
Proof. reflexivity. Qed.

(** The loop over a chain of clusters. *)
Lemma seek_walk_valid n : forall c f,
  current_cluster f = c ->
  (forall j, (1 <= j <= n)%nat -> valid_cluster (chain j c)) ->
  exists f', walk n c f = Walked (chain n c) f' /\
             current_cluster f' = chain n c /\
             is_end_of_chain f' = is_end_of_chain f /\
             same_but_cluster f f'.
Proof.
  induction n as [|n IH]; intros c f Hc Hv.
  - exists f. split; [reflexivity|]. split; [exact Hc|].
    split; [reflexivity|apply same_but_cluster_refl].
  - assert (H1 : valid_cluster (next c)) by (apply (Hv 1%nat); lia).
    destruct (IH (next c) (set_current_cluster (next c) f))
      as (f' & E & C & X & Sm).
    { reflexivity. }
    { intros j Hj. rewrite <- chain_succ. apply Hv. lia. }
    exists f'. rewrite chain_succ. split; [|split; [exact C|split; [exact X|]]].
    + unfold walk in *. cbn [seek_walk]. fold next.
      unfold valid_cluster, FAT32_VALID_CLUST_LOW, FAT32_VALID_CLUST_HIGH in H1.
      unfold FAT32_END_OF_CHAIN, FAT32_VALID_CLUST_LOW, FAT32_VALID_CLUST_HIGH.
      destruct (Z.geb_spec (next c) 268435448); [lia|].
      destruct (Z.geb_spec (next c) 2); [|lia].
      destruct (Z.leb_spec (next c) 268435439); [|lia].
      exact E.
    + apply (same_but_cluster_set (next c)). exact Sm.
Qed.

(** The loop when entry [j0] of the chain is the first that is no
    cluster number. *)
Lemma seek_walk_stops n : forall c f (j0 : nat),
  current_cluster f = c ->
  (1 <= j0 <= n)%nat ->
  (forall j, (1 <= j < j0)%nat -> valid_cluster (chain j c)) ->
  ~ valid_cluster (chain j0 c) ->
  exists f', current_cluster f' = chain (j0 - 1)%nat c /\
             same_but_cluster f f' /\
             if chain j0 c >=? FAT32_END_OF_CHAIN
             then walk n c f = Walked (chain j0 c) f' /\ is_end_of_chain f' = 1
             else walk n c f = WalkFailed f' /\
                  is_end_of_chain f' = is_end_of_chain f.
Proof.
  induction n as [|n IH]; intros c f j0 Hc Hj Hv Hbad; [lia|].
  destruct (Nat.eq_dec j0 1%nat) as [->|Hne].
  - change (chain 1%nat c) with (next c) in *.
    change (chain (1 - 1)%nat c) with c.
    unfold walk. cbn [seek_walk]. fold next.
    destruct (next c >=? FAT32_END_OF_CHAIN) eqn:E.
    + exists (set_is_end_of_chain 1 f). repeat split; assumption.
    + exists f. split; [exact Hc|]. split; [apply same_but_cluster_refl|].
      split; [|reflexivity].
      destruct ((next c >=? FAT32_VALID_CLUST_LOW)
                && (next c <=? FAT32_VALID_CLUST_HIGH)) eqn:V; [|reflexivity].
      exfalso. apply Hbad. apply andb_prop in V. destruct V as [V1 V2].
      unfold valid_cluster. split; lia.
  - assert (H1 : valid_cluster (next c)) by (apply (Hv 1%nat); lia).
    destruct j0 as [|j0]; [lia|].
    destruct (IH (next c) (set_current_cluster (next c) f) j0)
      as (f' & C & Sm & R).
    { reflexivity. }
    { lia. }
    { intros j Hj'. rewrite <- chain_succ. apply Hv. lia. }
    { rewrite <- chain_succ. exact Hbad. }
    exists f'. rewrite chain_succ.
    replace (S j0 - 1)%nat with (S (j0 - 1)) by lia. rewrite chain_succ.
    split; [exact C|]. split; [apply (same_but_cluster_set (next c)); exact Sm|].
    unfold walk in *. cbn [seek_walk]. fold next.
    unfold valid_cluster, FAT32_VALID_CLUST_LOW, FAT32_VALID_CLUST_HIGH in H1.
    unfold FAT32_VALID_CLUST_LOW, FAT32_VALID_CLUST_HIGH.
    destruct (Z.geb_spec (next c) FAT32_END_OF_CHAIN) as [G|G];
      [unfold FAT32_END_OF_CHAIN in G; lia|].
    destruct (Z.geb_spec (next c) 2); [|lia].
    destruct (Z.leb_spec (next c) 268435439); [|lia].
    exact R.
Qed.

(** [fat32_fseek()] lands on the cluster of the position. For an open
    file and a position up to its size, when the clusters of the file
    are linked in the table up to the one that holds the position, the
    seek succeeds; the current cluster is the one reached from the
    first cluster of the file by as many links as whole clusters lie
    before the position, with its first sector as base; and cluster,
    sector and byte indexes make up the position again. The file is
    flagged at its end when the position is its size, and only then. *)
Theorem fseek_lands_on_cluster_of_position (f : file_param_t) (pos : Z) :
  file_is_open f <> 0 -> 0 <= pos <= file_size f -> 1 <= spc <= 255 ->
  let k := Z.to_nat (pos / (spc * 512)) in
  (forall j, (1 <= j <= k)%nat ->
     valid_cluster (chain j (file_start_cluster f))) ->
  exists f',
    fat32_fseek fat32_initialized fat32_parameters sd_read_block f pos
    = (NO_ERROR, f') /\
    current_cluster f' = chain k (file_start_cluster f) /\
    is_end_of_chain f' = 0 /\
    current_base_lba f'
    = fat32_get_cluster_base_lba fat32_parameters (current_cluster f') /\
    pos = (Z.of_nat k * spc + current_lba_index f') * 512
          + current_byte_index f' /\
    0 <= current_lba_index f' < spc /\
    0 <= current_byte_index f' < 512 /\
    current_position f' = pos /\
    sector_cached f' = 0 /\
    eof_flag f' = (if pos =? file_size f then 1 else 0) /\
    file_is_open f' = file_is_open f /\
    file_start_cluster f' = file_start_cluster f /\
    file_size f' = file_size f.
Proof.
  intros Hopen Hpos Hspc k Hv.
  destruct (seek_walk_valid k (file_start_cluster f)
              (set_is_end_of_chain 0
                 (set_current_cluster (file_start_cluster f) f)))
    as (f1 & E & C & X & Sm); [reflexivity|exact Hv|].
  destruct Sm as (S1 & S2 & S3 & S4 & S5 & S6 & S7 & S8 & S9 & S10 & S11).
  cbn [set_is_end_of_chain set_current_cluster file_is_open file_start_cluster
       file_size current_position current_cluster is_end_of_chain
       current_base_lba current_lba_index current_byte_index eof_flag
       sector_cached dir_record_index dir_record_lba] in X, S1, S2, S3.
  unfold fat32_fseek. fold spc. unfold FAT32_SEC_SIZE. cbv zeta.
  destruct (Z.eqb_spec (file_is_open f) 0) as [|_]; [contradiction|].
  destruct (Z.gtb_spec pos (file_size f)); [lia|].
  fold k. unfold walk in E. rewrite E.
  assert (Hl : 0 <= (pos / 512) mod spc < spc) by (apply Z.mod_pos_bound; lia).
  assert (Hb : 0 <= pos mod 512 < 512) by (apply Z.mod_pos_bound; lia).
  assert (Hk : Z.of_nat k = pos / 512 / spc).
  { unfold k. rewrite Z2Nat.id by (apply Z.div_pos; lia).
    rewrite (Z.mul_comm spc 512). rewrite Z.div_div by lia. reflexivity. }
  assert (Hdec : pos = (Z.of_nat k * spc + (pos / 512) mod spc) * 512
                       + pos mod 512).
  { rewrite Hk. pose proof (Z.div_mod (pos / 512) spc ltac:(lia)).
    pose proof (Z.div_mod pos 512 ltac:(lia)). lia. }
  assert (Hu8 : u8 ((pos / 512) mod spc) = (pos / 512) mod spc).
  { unfold u8. apply Z.mod_small. lia. }
  assert (Hu16 : u16 (pos mod 512) = pos mod 512).
  { unfold u16. apply Z.mod_small. lia. }
  rewrite X. change (negb (0 =? 0)) with false. cbv iota.
  rewrite Hu8, Hu16.
  destruct f1 as [a1 a2 a3 a4 a5 a6 a7 a8 a9 a10 a11 a12 a13].
  cbn [file_is_open file_start_cluster file_size current_cluster] in S1, S2, S3, C.
  cbn [set_current_lba_index set_current_base_lba set_current_byte_index
       set_sector_cached set_current_position set_eof_flag
       file_is_open file_start_cluster
       file_size current_position current_cluster is_end_of_chain
       current_base_lba current_lba_index current_byte_index eof_flag
       sector_cached dir_record_index dir_record_lba].
  cbn [is_end_of_chain] in X. subst a1 a2 a3 a5 a6.
  destruct (pos =? file_size f); eexists; (split; [reflexivity|]);
    cbn [set_current_lba_index set_current_base_lba set_current_byte_index
       set_sector_cached set_current_position set_eof_flag file_is_open file_start_cluster
       file_size current_position current_cluster is_end_of_chain
       current_base_lba current_lba_index current_byte_index eof_flag
       sector_cached dir_record_index dir_record_lba];
    repeat split; first [exact Hdec | lia | reflexivity].
Qed.

(** [fat32_fseek()] when the chain of the file ends before the cluster
    of the position. With entry [j0] the first that is no cluster
    number: on an end-of-chain mark the seek still returns NO_ERROR,
    the file standing on the last cluster of the chain, marked as at
    the end of its chain, with base sector 0 and the position asked
    for; on any other entry it returns FAT_FILE_SEEK_ERR, and the file
    keeps its old position while its current cluster has moved. *)
Theorem fseek_stops_where_chain_ends (f : file_param_t) (pos : Z) (j0 : nat) :
  file_is_open f <> 0 -> 0 <= pos <= file_size f -> 1 <= spc <= 255 ->
  (1 <= j0 <= Z.to_nat (pos / (spc * 512)))%nat ->
  (forall j, (1 <= j < j0)%nat ->
     valid_cluster (chain j (file_start_cluster f))) ->
  ~ valid_cluster (chain j0 (file_start_cluster f)) ->
  exists f',
    current_cluster f' = chain (j0 - 1)%nat (file_start_cluster f) /\
    file_size f' = file_size f /\
    if chain j0 (file_start_cluster f) >=? FAT32_END_OF_CHAIN then
      fat32_fseek fat32_initialized fat32_parameters sd_read_block f pos
      = (NO_ERROR, f') /\
      is_end_of_chain f' = 1 /\
      current_base_lba f' = 0 /\ current_lba_index f' = 0 /\
      current_byte_index f' = pos mod 512 /\
      current_position f' = pos /\
      eof_flag f' = (if pos =? file_size f then 1 else 0)
    else
      fat32_fseek fat32_initialized fat32_parameters sd_read_block f pos
      = (FAT_FILE_SEEK_ERR, f') /\
      is_end_of_chain f' = 0 /\
      current_position f' = current_position f /\
      current_base_lba f' = current_base_lba f /\
      current_lba_index f' = current_lba_index f /\
      current_byte_index f' = current_byte_index f /\
      eof_flag f' = eof_flag f.
Proof.
  intros Hopen Hpos Hspc Hj Hv Hbad.
  destruct (seek_walk_stops (Z.to_nat (pos / (spc * 512)))
              (file_start_cluster f)
              (set_is_end_of_chain 0
                 (set_current_cluster (file_start_cluster f) f)) j0)
    as (f1 & C & Sm & R); [reflexivity|exact Hj|exact Hv|exact Hbad|].
  destruct Sm as (S1 & S2 & S3 & S4 & S5 & S6 & S7 & S8 & S9 & S10 & S11).
  cbn [set_is_end_of_chain set_current_cluster file_is_open file_start_cluster
       file_size current_position current_cluster is_end_of_chain
       current_base_lba current_lba_index current_byte_index eof_flag
       sector_cached dir_record_index dir_record_lba]
    in S1, S2, S3, S4, S5, S6, S7, S8, R.
  assert (Hu16 : u16 (pos mod 512) = pos mod 512).
  { unfold u16. apply Z.mod_small.
    pose proof (Z.mod_pos_bound pos 512 ltac:(lia)). lia. }
  unfold fat32_fseek. fold spc. unfold FAT32_SEC_SIZE. cbv zeta.
  destruct (Z.eqb_spec (file_is_open f) 0) as [|_]; [contradiction|].
  destruct (Z.gtb_spec pos (file_size f)); [lia|].
  unfold walk in R.
  destruct (chain j0 (file_start_cluster f) >=? FAT32_END_OF_CHAIN).
  - destruct R as [E X]. rewrite E, X. change (negb (1 =? 0)) with true.
    cbv iota. rewrite Hu16.
    destruct f1 as [a1 a2 a3 a4 a5 a6 a7 a8 a9 a10 a11 a12 a13].
    cbn [file_size current_cluster] in S3, C.
    cbn [set_current_lba_index set_current_base_lba set_current_byte_index
         set_sector_cached set_current_position set_eof_flag
         file_is_open file_start_cluster
         file_size current_position current_cluster is_end_of_chain
         current_base_lba current_lba_index current_byte_index eof_flag
         sector_cached dir_record_index dir_record_lba].
    cbn [is_end_of_chain] in X. subst a3 a5 a6.
    destruct (pos =? file_size f); eexists;
      (split; [|split; [|split; [reflexivity|]]]);
      cbn [set_current_lba_index set_current_base_lba set_current_byte_index
         set_sector_cached set_current_position set_eof_flag file_is_open file_start_cluster
         file_size current_position current_cluster is_end_of_chain
         current_base_lba current_lba_index current_byte_index eof_flag
         sector_cached dir_record_index dir_record_lba];
      repeat split; reflexivity.
  - destruct R as [E X]. rewrite E. exists f1.
    repeat split; assumption.
Qed.

End FatSeek.

(** * The checksums of the SD card driver *)

Section SdChecksums.
Import Sd.

(** A test that holds of each of the first [n] numbers holds of any of
    them. *)
Lemma range_forallb (P : Z -> bool) (n : nat) :
  forallb P (map Z.of_nat (seq 0 n)) = true ->
  forall x, 0 <= x < Z.of_nat n -> P x = true.
Proof.
  intros H x Hx. rewrite forallb_forall in H. apply H.
  apply in_map_iff. exists (Z.to_nat x). split; [lia|].
  apply in_seq. lia.
Qed.

Lemma lxor_bound a b n :
  0 <= a < 2 ^ n -> 0 <= b < 2 ^ n -> 0 <= Z.lxor a b < 2 ^ n.
Proof.
  intros Ha Hb.
  assert (H0 : 0 <= Z.lxor a b) by (apply Z.lxor_nonneg; lia).
  split; [exact H0|].
  destruct (Z.eq_dec (Z.lxor a b) 0) as [->|Hne]; [lia|].
  assert (Hn : 0 < n).
  { destruct (Z_lt_le_dec 0 n) as [|Hn]; [assumption|exfalso].
    destruct (Z.eq_dec n 0) as [->|].
    - change (2 ^ 0) with 1 in *. assert (a = 0) by lia.
      assert (b = 0) by lia. subst. apply Hne. reflexivity.
    - rewrite Z.pow_neg_r in Ha by lia. lia. }
  apply Z.log2_lt_pow2; [lia|].
  eapply Z.le_lt_trans; [apply Z.log2_lxor; lia|].
  apply Z.max_lub_lt.
  - destruct (Z.eq_dec a 0) as [->|]; [exact Hn|apply Z.log2_lt_pow2; lia].
  - destruct (Z.eq_dec b 0) as [->|]; [exact Hn|apply Z.log2_lt_pow2; lia].
Qed.

Lemma crc_lookup_table_entry i :
  0 <= i < 256 ->
  exists crc, crc_lookup_table !! Z.to_nat i = Some crc /\ 0 <= crc < 128.
Proof.
  intros Hi.
  pose (P := fun i => match crc_lookup_table !! Z.to_nat i with
                      | Some crc => (0 <=? crc) && (crc <? 128)
                      | None => false
                      end).
  assert (H : P i = true).
  { apply (range_forallb P 256); [vm_compute; reflexivity|lia]. }
  unfold P in H. destruct (crc_lookup_table !! Z.to_nat i) as [crc|];
    [|discriminate].
  exists crc. split; [reflexivity|]. apply andb_prop in H. lia.
Qed.

Lemma crc7_step_in_table crc m :
  0 <= crc < 128 -> 0 <= m < 256 ->
  exists crc', crc7_step (Some crc) m = Some crc' /\ 0 <= crc' < 128.
Proof.
  intros Hc Hm. unfold crc7_step. cbn [mbind option_bind].
  assert (Hi : 0 <= Z.lxor (Z.shiftl crc 1) m < 2 ^ 8).
  { apply lxor_bound; [|change (2 ^ 8) with 256; lia].
    rewrite Z.shiftl_mul_pow2 by lia. change (2 ^ 1) with 2.
    change (2 ^ 8) with 256. lia. }
  change (2 ^ 8) with 256 in Hi.
  destruct (Z.ltb_spec (Z.lxor (Z.shiftl crc 1) m) 0); [lia|].
  apply crc_lookup_table_entry. exact Hi.
Qed.

Lemma sd_get_crc7_in_table message : forall crc,
  0 <= crc < 128 -> Forall (fun m => 0 <= m < 256) message ->
  exists crc', fold_left crc7_step message (Some crc) = Some crc' /\
               0 <= crc' < 128.
Proof.
  induction message as [|m message IH]; intros crc Hc Hm.
  - exists crc. split; [reflexivity|exact Hc].
  - apply Forall_cons in Hm. destruct Hm as [Hm Hms].
    destruct (crc7_step_in_table crc m Hc Hm) as (c1 & E & H1).
    cbn [fold_left]. rewrite E. apply IH; assumption.
Qed.

Lemma u8_range x : 0 <= u8 x < 256.
Proof. unfold u8. apply Z.mod_pos_bound. lia. Qed.

(** The command packet of [sd_send_cmd()]. For a command below 64 and
    a 32-bit argument the packet is built without a read outside the
    checksum table; it is the six bytes: start pattern 01 and the
    command, the argument with its high byte first, and the seven
    bits of the checksum of these five bytes followed by the end bit
    1. *)
Theorem sd_command_packet_well_formed (cmd arg : Z) :
  0 <= cmd < 64 -> 0 <= arg < 4294967296 ->
  exists a3 a2 a1 a0 crc,
    mosi_buffer cmd arg = Some [64 + cmd; a3; a2; a1; a0; 2 * crc + 1] /\
    arg = a3 * 16777216 + a2 * 65536 + a1 * 256 + a0 /\
    0 <= a3 < 256 /\ 0 <= a2 < 256 /\ 0 <= a1 < 256 /\ 0 <= a0 < 256 /\
    sd_get_crc7 [64 + cmd; a3; a2; a1; a0] = Some crc /\
    0 <= crc < 128.
Proof.
  intros Hcmd Harg.
  assert (H0 : u8 (Z.lor 64 cmd) = 64 + cmd).
  { apply Z.eqb_eq.
    apply (range_forallb (fun c => u8 (Z.lor 64 c) =? 64 + c) 64);
      [vm_compute; reflexivity|lia]. }
  exists (u8 (Z.shiftr arg 24)), (u8 (Z.shiftr arg 16)),
    (u8 (Z.shiftr arg 8)), (u8 (Z.shiftr arg 0)).
  destruct (sd_get_crc7_in_table
              [64 + cmd; u8 (Z.shiftr arg 24); u8 (Z.shiftr arg 16);
               u8 (Z.shiftr arg 8); u8 (Z.shiftr arg 0)] 0)
    as (crc & E & Hcrc); [lia| |].
  { repeat (apply Forall_cons; split); try apply u8_range; [lia|].
    apply Forall_nil. exact I. }
  exists crc.
  assert (H5 : u8 (Z.lor (Z.shiftl crc 1) 1) = 2 * crc + 1).
  { apply Z.eqb_eq.
    apply (range_forallb
             (fun c => u8 (Z.lor (Z.shiftl c 1) 1) =? 2 * c + 1) 128);
      [vm_compute; reflexivity|lia]. }
  split.
  { unfold mosi_buffer. cbv zeta. rewrite H0. unfold sd_get_crc7.
    rewrite E. cbn [mbind option_bind]. rewrite H5. reflexivity. }
  split.
  { unfold u8. rewrite !Z.shiftr_div_pow2 by lia.
    change (2 ^ 24) with 16777216. change (2 ^ 16) with 65536.
    change (2 ^ 8) with 256. change (2 ^ 0) with 1. rewrite Z.div_1_r.
    assert (E2 : arg / 65536 = arg / 256 / 256)
      by (rewrite Z.div_div by lia; reflexivity).
    assert (E3 : arg / 16777216 = arg / 256 / 256 / 256)
      by (rewrite !Z.div_div by lia; reflexivity).
    rewrite E2, E3.
    pose proof (Z.div_mod arg 256 ltac:(lia)).
    pose proof (Z.div_mod (arg / 256) 256 ltac:(lia)).
    pose proof (Z.div_mod (arg / 256 / 256) 256 ltac:(lia)).
    assert (0 <= arg / 256 / 256 / 256 < 256).
    { rewrite <- E3. split; [apply Z.div_pos; lia|].
      apply Z.div_lt_upper_bound; lia. }
    rewrite (Z.mod_small (arg / 256 / 256 / 256) 256) by lia. lia. }
  repeat (split; [apply u8_range|]).
  split; [exact E|exact Hcrc].
Qed.

(** *** CRC16 *)

Lemma crc16_bit_range crc : 0 <= crc16_bit crc < 65536.
Proof.
  unfold crc16_bit, u16. destruct (bits_set crc 32768);
    apply Z.mod_pos_bound; lia.
Qed.

Lemma crc16_byte_range crc b : 0 <= crc16_byte crc b < 65536.
Proof. unfold crc16_byte. cbn [Nat.iter]. apply crc16_bit_range. Qed.

Lemma crc16_fold_range buf : forall crc,
  0 <= crc < 65536 -> 0 <= fold_left crc16_byte buf crc < 65536.
Proof.
  induction buf as [|b buf IH]; intros crc Hc; [exact Hc|].
  cbn [fold_left]. apply IH. apply crc16_byte_range.
Qed.

Lemma sd_get_crc16_range buf : 0 <= sd_get_crc16 buf < 65536.
Proof. apply crc16_fold_range. lia. Qed.

Lemma crc16_high_byte crc :
  0 <= crc < 65536 -> Z.land (Z.shiftr crc 8) 255 = Z.shiftr crc 8.
Proof.
  intros Hc. change 255 with (Z.ones 8). rewrite Z.land_ones by lia.
  apply Z.mod_small. rewrite Z.shiftr_div_pow2 by lia.
  change (2 ^ 8) with 256. split; [apply Z.div_pos; lia|].
  apply Z.div_lt_upper_bound; lia.
Qed.

(** The first statement of the outer loop with the high byte of the
    checksum itself leaves the low byte. *)
Lemma crc16_xor_high_byte crc :
  0 <= crc < 65536 ->
  u16 (Z.lxor crc (Z.shiftl (Z.land (Z.shiftr crc 8) 255) 8))
  = Z.land crc 255.
Proof.
  intros Hc. rewrite crc16_high_byte by exact Hc.
  rewrite <- Z.ldiff_ones_r by lia.
  assert (E : Z.lxor crc (Z.ldiff crc (Z.ones 8)) = Z.land crc (Z.ones 8)).
  { apply Z.bits_inj'. intros n Hn.
    rewrite Z.lxor_spec, Z.ldiff_spec, Z.land_spec.
    destruct (Z.testbit crc n), (Z.testbit (Z.ones 8) n); reflexivity. }
  rewrite E. change (Z.ones 8) with 255. unfold u16. apply Z.mod_small.
  change 255 with (Z.ones 8). rewrite Z.land_ones by lia.
  pose proof (Z.mod_pos_bound crc (2 ^ 8) ltac:(lia)).
  change (2 ^ 8) with 256 in *. lia.
Qed.

(** The eight shifts on a byte, and the byte step on the result, by
    running them on the 256 bytes. *)
Lemma crc16_of_low_byte l :
  0 <= l < 256 ->
  Nat.iter 8 crc16_bit l = 256 * l /\ crc16_byte (256 * l) l = 0.
Proof.
  intros Hl.
  pose (P := fun l => (Nat.iter 8 crc16_bit l =? 256 * l)
                      && (crc16_byte (256 * l) l =? 0)).
  assert (H : P l = true).
  { apply (range_forallb P 256); [vm_compute; reflexivity|lia]. }
  unfold P in H. apply andb_prop in H. lia.
Qed.

Lemma crc16_of_own_bytes crc :
  0 <= crc < 65536 ->
  crc16_byte (crc16_byte crc (Z.land (Z.shiftr crc 8) 255)) (Z.land crc 255)
  = 0 /\
  Z.shiftl (Z.land (Z.shiftr crc 8) 255) 8 + Z.land crc 255 = crc.
Proof.
  intros Hc. split.
  - assert (Hl : 0 <= Z.land crc 255 < 256).
    { change 255 with (Z.ones 8). rewrite Z.land_ones by lia.
      apply Z.mod_pos_bound. lia. }
    destruct (crc16_of_low_byte _ Hl) as [E1 E2].
    unfold crc16_byte at 2. rewrite crc16_xor_high_byte by exact Hc.
    rewrite E1. exact E2.
  - rewrite crc16_high_byte by exact Hc.
    rewrite Z.shiftl_mul_pow2, Z.shiftr_div_pow2 by lia.
    change 255 with (Z.ones 8). rewrite Z.land_ones by lia.
    change (2 ^ 8) with 256. pose proof (Z.div_mod crc 256 ltac:(lia)). lia.
Qed.

Lemma land_255_range x : 0 <= Z.land x 255 < 256.
Proof.
  change 255 with (Z.ones 8). rewrite Z.land_ones by lia.
  apply Z.mod_pos_bound. lia.
Qed.

(** The checksum of a block on its way to the card and back. The two
    bytes [sd_write_block()] sends after a block are the pair
    [sd_read_block()] accepts for the same block, and the only pair of
    bytes it accepts; and the checksum of the block followed by these
    two bytes is 0. *)
Theorem sd_crc16_bytes_round_trip (buffer : list Z) (crc_high crc_low : Z) :
  0 <= crc_high < 256 -> 0 <= crc_low < 256 ->
  crc_accepted buffer (fst (crc_bytes buffer)) (snd (crc_bytes buffer)) = true
  /\ (crc_accepted buffer crc_high crc_low = true
      <-> (crc_high, crc_low) = crc_bytes buffer)
  /\ sd_get_crc16
       (buffer ++ [fst (crc_bytes buffer); snd (crc_bytes buffer)]) = 0.
Proof.
  intros Hh Hl.
  pose proof (sd_get_crc16_range buffer) as Hc.
  destruct (crc16_of_own_bytes _ Hc) as [Hz Hr].
  unfold crc_accepted, crc_bytes. cbv zeta. cbn [fst snd].
  split; [apply Z.eqb_eq; symmetry; exact Hr|]. split.
  - pose proof (land_255_range (Z.shiftr (sd_get_crc16 buffer) 8)) as B1.
    pose proof (land_255_range (sd_get_crc16 buffer)) as B2.
    rewrite Z.shiftl_mul_pow2 in Hr by lia. change (2 ^ 8) with 256 in Hr.
    rewrite Z.eqb_eq. rewrite Z.shiftl_mul_pow2 by lia.
    change (2 ^ 8) with 256. split.
    + intros E. f_equal; lia.
    + intros E. injection E as -> ->. lia.
  - unfold sd_get_crc16 in *. rewrite fold_left_app. cbn [fold_left].
    exact Hz.
Qed.

End SdChecksums.

Section FatFixtures.
Import Fat32.

(** Byte 2500 of the file lies in its third cluster, 7, in the first
    sector of it, at byte 452. *)
Lemma fseek_lands_on_cluster_of_position_witness :
  exists f',
    fat32_fseek true small_volume small_card short_file 2500 = (NO_ERROR, f') /\
    current_cluster f' = 7 /\ current_base_lba f' = 1010 /\
    current_lba_index f' = 0 /\ current_byte_index f' = 452.
Proof.
  destruct (fseek_lands_on_cluster_of_position true small_volume small_card
              short_file 2500)
    as (f' & E & C & _ & B & _ & _ & _ & _); [| | | |].
  - vm_compute. discriminate.
  - vm_compute. split; discriminate.
  - vm_compute. split; discriminate.
  - intros j Hj. vm_compute in Hj.
    destruct j as [|[|[|j]]]; [lia| | |lia];
      vm_compute; split; discriminate.
  - exists f'. split; [exact E|]. split; [rewrite C; reflexivity|].
    split; [rewrite B, C; reflexivity|].
    vm_compute in E. injection E as <-. split; reflexivity.
Defined.

(** Byte 3300 lies in a fourth cluster, which the chain does not
    have. *)
Lemma fseek_stops_where_chain_ends_witness :
  exists f',
    fat32_fseek true small_volume small_card short_file 3300 = (NO_ERROR, f') /\
    current_cluster f' = 7 /\ is_end_of_chain f' = 1 /\
    current_base_lba f' = 0 /\ current_position f' = 3300.
Proof.
  destruct (fseek_stops_where_chain_ends true small_volume small_card
              short_file 3300 3)
    as (f' & C & _ & R); [| | | | | |].
  - vm_compute. discriminate.
  - vm_compute. split; discriminate.
  - vm_compute. split; discriminate.
  - vm_compute. split; apply Nat.leb_le; reflexivity.
  - intros j Hj. destruct j as [|[|[|j]]]; [lia| | |lia];
      vm_compute; split; discriminate.
  - vm_compute. intros [_ H]. apply H. reflexivity.
  - change (cluster_chain true small_volume small_card 3 (file_start_cluster short_file)
            >=? FAT32_END_OF_CHAIN) with true in R. cbv iota in R.
    destruct R as (E & X & B & _ & _ & P & _).
    exists f'. repeat split; assumption.
Defined.

End FatFixtures.

Section SdFixtures.
Import Sd.

(** The command that reads sector 145. *)
Lemma sd_command_packet_well_formed_witness :
  exists a3 a2 a1 a0 crc,
    mosi_buffer SD_READ_SINGLE_BLOCK (block_address 145)
    = Some [64 + 17; a3; a2; a1; a0; 2 * crc + 1] /\
    block_address 145 = a3 * 16777216 + a2 * 65536 + a1 * 256 + a0.
Proof.
  destruct (sd_command_packet_well_formed SD_READ_SINGLE_BLOCK
              (block_address 145))
    as (a3 & a2 & a1 & a0 & crc & E & A & _); [| |].
  - unfold SD_READ_SINGLE_BLOCK. lia.
  - vm_compute. split; [discriminate|reflexivity].
  - exists a3, a2, a1, a0, crc. split; assumption.
Defined.

(** A block of three bytes, and a pair of bytes that is not its
    checksum. *)
Lemma sd_crc16_bytes_round_trip_witness :
  crc_accepted [0x31; 0x32; 0x33] 0x12 0x34 = false /\
  sd_get_crc16 ([0x31; 0x32; 0x33]
                ++ [fst (crc_bytes [0x31; 0x32; 0x33]);
                    snd (crc_bytes [0x31; 0x32; 0x33])]) = 0.
Proof.
  destruct (sd_crc16_bytes_round_trip [0x31; 0x32; 0x33] 0x12 0x34)
    as (_ & _ & Z0); [lia|lia|].
  split; [vm_compute; reflexivity|exact Z0].
Defined.

End SdFixtures.
